(** * cc-wrapped: merge engine, statistics calculator and local collector

    A shallow embedding of the TypeScript sources of cc-wrapped:

    - [Stats]          : src/unnamed/part_001 (stats.ts with remote merge):
                         [mergeData], [calculateStats], [calculateStreaks],
                         [findMostActiveDay], [buildWeekdayActivity];
    - [StatsLocal]     : src/unnamed/part_002 (stats.ts, local-only revision);
    - [Collector]      : src/unnamed/part_005 (collector.ts, one storage root);
    - [CollectorMulti] : the collector.ts that follows the image generator in
                         src/src/image/generator.tsx (two storage roots).

    Modelling conventions.

    - Message, session, prompt and token counts are JavaScript numbers holding
      integers; they are modelled as [Z].  [costUSD] is fractional and is kept
      as an IEEE-754 binary64 value ([PrimFloat.float]).
    - The percentages [Math.round((count / total) * 100)] are computed as
      the code computes them, in binary64 ([JS.percentage]): the two counts
      are converted ([JS.f64_of_Z]), divided, multiplied by 100 and
      rounded; the result is an integer, or [None] for NaN and the
      infinities.  (29 of 200 is 14, not 15: the product is just below
      14.5.)  [Math.round] of the day difference in [calculateStreaks] is
      evaluated on the exact quotient ([JS.Math_round_div]).
    - A [Map] and the own properties of an object ([Object.entries]) are
      association lists in insertion order ([JS.JsMap]); [set] on a present key
      keeps its position, as in JavaScript.  (An object lists integer-like
      keys first; model identifiers and dates are not integer-like.)
    - A [Set] of strings is a duplicate-free list in insertion order.
    - Strings are sequences of bytes; [<] on strings is the lexicographic
      order on code units, which agrees with it on ASCII data such as dates.
    - The [Date] built-in, the wall clock and the imported
      [getModelDisplayName] are fields of a [Runtime] record; [utcRuntime] is
      an executable instance for date-only ISO strings in the UTC zone.
    - The file system is a record of partial functions; a call that throws is
      [None].
    - [WrappedStats.t] holds the fields of the summary that do not read
      the clock; [Summary.t] adds [firstSessionDate],
      [daysSinceFirstSession] and [currentStreak].  The display string of
      the most active day is not modelled. *)

From Stdlib Require Import ZArith List String Ascii Bool Lia.
From Stdlib Require Import Permutation Sorted.
From Stdlib Require Import DecimalString.
From Stdlib Require Import PrimFloat Uint63 FloatOps SpecFloat FloatAxioms.
Import ListNotations.

Local Open Scope Z_scope.

(* ================================================================== *)
(** * JavaScript built-ins used by the sources                         *)
(* ================================================================== *)

Module JS.

(** ** Strings *)

(** [s.startsWith(p)] *)
Definition startsWith (s p : string) : bool := String.prefix p s.

(** [s.endsWith(p)] *)
Definition endsWith (s p : string) : bool :=
  let n := String.length s in
  let m := String.length p in
  if (n <? m)%nat then false
  else String.eqb (String.substring (n - m) m s) p.

(** [String(n)] for an integer [n] *)
Definition String_of_Z (n : Z) : string :=
  NilZero.string_of_int (Z.to_int n).

(** [s.split(sep)] for a one-character separator; never empty. *)
Fixpoint split (sep : ascii) (s : string) : list string :=
  match s with
  | EmptyString => [EmptyString]
  | String c r =>
      if Ascii.eqb c sep then EmptyString :: split sep r
      else match split sep r with
           | [] => [String c EmptyString]
           | h :: t => String c h :: t
           end
  end.

(** [arr.pop()] read as a value: the last element. *)
Definition pop (l : list string) : string := last l EmptyString.

(** [s || d] on strings: the empty string is falsy. *)
Definition str_or (s d : string) : string :=
  if String.eqb s EmptyString then d else s.

(** Truthiness of a [string | null]. *)
Definition truthy (o : option string) : bool :=
  match o with
  | Some s => negb (String.eqb s EmptyString)
  | None => false
  end.

(** [s.padStart(2, "0")] *)
Definition padStart2 (s : string) : string :=
  match String.length s with
  | O => String "0" (String "0" EmptyString)
  | S O => String "0" s
  | _ => s
  end.

(** ** Numbers *)

(** [n || 0] on an integer-valued number. *)
Definition num_or0 (n : Z) : Z := if n =? 0 then 0 else n.

(** [Math.round(p / q)] for [q > 0], on the exact quotient: the nearest
    integer, a tie going up. *)
Definition Math_round_div (p q : Z) : Z := (2 * p + q) / (2 * q).

(** [x || 0] on a binary64 value: zero and NaN are falsy. *)
Definition f64_or0 (x : float) : float :=
  if (PrimFloat.eqb x PrimFloat.zero || PrimFloat.is_nan x)%bool
  then PrimFloat.zero else x.

(** [Math.round] of a binary64 value, as an integer: the floor of the
    value plus one half; [None] for NaN and the infinities. *)
Definition Math_round_f64 (x : float) : option Z :=
  match Prim2SF x with
  | S754_zero _ => Some 0
  | S754_finite s m e =>
      let n := if s then Z.neg m else Z.pos m in
      (* value n * 2^e; floor (value + 1/2) *)
      if 0 <=? e then Some (n * 2 ^ e)
      else Some ((2 * n + 2 ^ (- e)) / (2 * 2 ^ (- e)))
  | _ => None
  end.

(** The JavaScript number that holds the integer [n]: the nearest binary64
    value, a tie going to the even mantissa.  It is [n] itself when
    [|n| < 2^53], and an infinity from about 1.8e308 on. *)
Definition f64_of_Z (n : Z) : float :=
  SF2Prim (binary_normalize prec emax n 0 false).

(** [Math.round((count / total) * 100)], in binary64. *)
Definition percentage (count total : Z) : option Z :=
  Math_round_f64
    (PrimFloat.mul (PrimFloat.div (f64_of_Z count) (f64_of_Z total))
                   (f64_of_Z 100)).

(** ** Map<string, V> and plain objects, in insertion order *)

Definition JsMap (V : Type) : Type := list (string * V).

Section Maps.
Context {V : Type}.

Fixpoint map_get (m : JsMap V) (k : string) : option V :=
  match m with
  | [] => None
  | (k', v) :: m' => if String.eqb k' k then Some v else map_get m' k
  end.

Definition map_has (m : JsMap V) (k : string) : bool :=
  match map_get m k with Some _ => true | None => false end.

(** [m.set(k, v)]: overwrite in place, or append a new key. *)
Fixpoint map_set (m : JsMap V) (k : string) (v : V) : JsMap V :=
  match m with
  | [] => [(k, v)]
  | (k', v') :: m' =>
      if String.eqb k' k then (k', v) :: m'
      else (k', v') :: map_set m' k v
  end.

Definition map_keys (m : JsMap V) : list string := List.map fst m.
Definition map_values (m : JsMap V) : list V := List.map snd m.
Definition map_size (m : JsMap V) : nat := List.length m.
End Maps.

(** ** Set<string> *)

Definition JsSet : Type := list string.

Definition set_has (s : JsSet) (x : string) : bool :=
  existsb (String.eqb x) s.

Definition set_add (s : JsSet) (x : string) : JsSet :=
  if set_has s x then s else s ++ [x].

(** [new Set(xs)] *)
Definition Set_of (xs : list string) : JsSet := fold_left set_add xs [].

(** ** Arrays *)

(** [arr.slice(0, n)] *)
Definition slice0 {A : Type} (n : nat) (l : list A) : list A := firstn n l.

(** [arr.sort(cmp)] is stable; [before a b] says that [cmp(a, b) <= 0]. *)
Fixpoint insert_sorted {A : Type} (before : A -> A -> bool) (x : A)
    (l : list A) : list A :=
  match l with
  | [] => [x]
  | y :: t =>
      if before x y then x :: y :: t else y :: insert_sorted before x t
  end.

Definition sort_by {A : Type} (before : A -> A -> bool) (l : list A)
    : list A :=
  fold_right (insert_sorted before) [] l.

(** [.sort((a, b) => b[1] - a[1])]: by count, descending. *)
Definition sort_desc_by_count (l : list (string * Z)) : list (string * Z) :=
  sort_by (fun a b => snd b <=? snd a) l.

(** [.sort()] on strings: ascending code-unit order. *)
Definition sort_strings (l : list string) : list string :=
  sort_by String.leb l.

(** [values.reduce((a, b) => a + b, 0)] *)
Definition sum (l : list Z) : Z := fold_left Z.add l 0.

End JS.

(* ================================================================== *)
(** * Data model (types.ts, remote-collector.ts)                       *)
(* ================================================================== *)

Record DailyActivity : Type := mkDailyActivity {
  date : string;
  messageCount : Z;
  sessionCount : Z;
  toolCallCount : Z
}.

Module DailyModelTokens.
Record t : Type := mk {
  date : string;
  tokensByModel : JS.JsMap Z
}.
End DailyModelTokens.

Record ModelUsage : Type := mkModelUsage {
  inputTokens : Z;
  outputTokens : Z;
  cacheReadInputTokens : Z;
  cacheCreationInputTokens : Z;
  webSearchRequests : Z;
  costUSD : float;
  contextWindow : Z
}.

Module LongestSession.
Record t : Type := mk {
  sessionId : string;
  duration : Z;
  messageCount : Z;
  timestamp : string
}.
End LongestSession.

Record ClaudeCodeStats : Type := mkClaudeCodeStats {
  version : Z;
  lastComputedDate : string;
  dailyActivity : list DailyActivity;
  dailyModelTokens : list DailyModelTokens.t;
  modelUsage : JS.JsMap ModelUsage;
  totalSessions : Z;
  totalMessages : Z;
  longestSession : LongestSession.t;
  firstSessionDate : string;
  hourCounts : JS.JsMap Z
}.

(** [pastedContents] is an opaque JSON object that no function reads. *)
Record HistoryEntry : Type := mkHistoryEntry {
  display : string;
  timestamp : Z;
  project : string;
  sessionId : string
}.

(** [usage] is kept as the fact that the transcript line has one. *)
Module SessionMessage.
Record t : Type := mk {
  type : string;
  sessionId : string;
  timestamp : option string;
  model : option string;
  usage : bool
}.
End SessionMessage.

Module RemoteData.
Record t : Type := mk {
  host : string;
  statsCache : option ClaudeCodeStats;
  history : list HistoryEntry;
  projects : list string;
  oldestSessionTimestamp : option string
}.
End RemoteData.

(** [percentage] is [None] when the code computes NaN or an infinity. *)
Module ModelStats.
Record t : Type := mk {
  id : string;
  name : string;
  providerId : string;
  count : Z;
  percentage : option Z
}.
End ModelStats.

Module ProviderStats.
Record t : Type := mk {
  id : string;
  name : string;
  count : Z;
  percentage : Z
}.
End ProviderStats.

Module ProjectStats.
Record t : Type := mk {
  name : string;
  promptCount : Z;
  percentage : option Z
}.
End ProjectStats.

Module WeekdayActivity.
Record t : Type := mk {
  counts : list Z;
  mostActiveDay : Z;
  mostActiveDayName : string;
  maxCount : Z
}.
End WeekdayActivity.

(** The type of [WrappedStats.mostActiveDay], without its display string
    [formattedDate]. *)
Module MostActiveDay.
Record t : Type := mk {
  date : string;
  count : Z
}.
End MostActiveDay.

(** The fields of the summary that do not read the clock; [Summary.t]
    holds these and [firstSessionDate], [daysSinceFirstSession] and
    [currentStreak]. *)
Module WrappedStats.
Record t : Type := mk {
  year : Z;
  totalSessions : Z;
  totalMessages : Z;
  totalProjects : Z;
  totalPrompts : Z;
  totalInputTokens : Z;
  totalOutputTokens : Z;
  totalTokens : Z;
  totalCacheReadTokens : Z;
  totalCacheWriteTokens : Z;
  totalCost : float;
  hasCostData : bool;
  topModels : list ModelStats.t;
  topProviders : list ProviderStats.t;
  maxStreak : Z;
  maxStreakDays : JS.JsSet;
  dailyActivity : JS.JsMap Z;
  mostActiveDay : option MostActiveDay.t;
  weekdayActivity : WeekdayActivity.t;
  topProjects : list ProjectStats.t;
  longestSession : option (Z * Z)
}.
End WrappedStats.

(** ** The [Date] built-in and the other imports *)

(** A valid [Date] object, read through its getters (local time zone). *)
Record JSDate : Type := mkJSDate {
  getTime : Z;
  getFullYear : Z;
  getMonth : Z;
  getDate : Z;
  getDay : Z
}.

Record Runtime : Type := mkRuntime {
  (** [new Date(s)]; [None] is an Invalid Date, whose getters are NaN *)
  Date_of_string : string -> option JSDate;
  (** [new Date(ms)] *)
  Date_of_ms : Z -> JSDate;
  (** [new Date().toISOString()] *)
  now_ISO : string;
  (** [getModelDisplayName] of ./models *)
  getModelDisplayName : string -> string
}.

(** ** An executable runtime: ISO dates in the UTC zone

    [parse_iso] reads the date-only form YYYY-MM-DD, which JavaScript takes
    as midnight UTC, and the form YYYY-MM-DDTHH:MM:SS[.sss]Z of
    [toISOString]; every other string is an Invalid Date in this
    instance. *)

Module Calendar.

(** Days since 1970-01-01 of a proleptic Gregorian date ([m] in 1..12). *)
Definition days_from_civil (y m d : Z) : Z :=
  let y' := if m <=? 2 then y - 1 else y in
  let era := y' / 400 in
  let yoe := y' - era * 400 in
  let mp := (m + 9) mod 12 in
  let doy := (153 * mp + 2) / 5 + d - 1 in
  let doe := yoe * 365 + yoe / 4 - yoe / 100 + doy in
  era * 146097 + doe - 719468.

(** The inverse: year, month (1..12), day of a day number. *)
Definition civil_from_days (z : Z) : Z * Z * Z :=
  let z' := z + 719468 in
  let era := z' / 146097 in
  let doe := z' - era * 146097 in
  let yoe := (doe - doe / 1460 + doe / 36524 - doe / 146096) / 365 in
  let y := yoe + era * 400 in
  let doy := doe - (365 * yoe + yoe / 4 - yoe / 100) in
  let mp := (5 * doy + 2) / 153 in
  let d := doy - (153 * mp + 2) / 5 + 1 in
  let m := if mp <? 10 then mp + 3 else mp - 9 in
  (if m <=? 2 then y + 1 else y, m, d).

(** [civil_from_days] inverts [days_from_civil] on the listed days. *)
Definition roundtrip_on (days : list Z) : bool :=
  forallb (fun n => let '(y, m, d) := civil_from_days n in
                    days_from_civil y m d =? n)
          days.

Definition is_leap (y : Z) : bool :=
  ((y mod 4 =? 0) && negb (y mod 100 =? 0) || (y mod 400 =? 0))%bool.

Definition days_in_month (y m : Z) : Z :=
  if m =? 2 then (if is_leap y then 29 else 28)
  else if ((m =? 4) || (m =? 6) || (m =? 9) || (m =? 11))%bool then 30
  else 31.

Definition digit (c : ascii) : option Z :=
  let n := Z.of_nat (nat_of_ascii c) in
  if ((48 <=? n) && (n <=? 57))%bool then Some (n - 48) else None.

Fixpoint digits (s : string) (acc : Z) : option Z :=
  match s with
  | EmptyString => Some acc
  | String c r =>
      match digit c with
      | Some d => digits r (10 * acc + d)
      | None => None
      end
  end.

Definition number (len : nat) (s : string) : option Z :=
  if Nat.eqb (String.length s) len then digits s 0 else None.

Definition ms_per_day : Z := 1000 * 60 * 60 * 24.

Definition date_of_day (n : Z) (ms : Z) : JSDate :=
  let '(y, m, d) := civil_from_days n in
  mkJSDate ms y (m - 1) d ((n + 4) mod 7).

(** [new Date("YYYY-MM-DD")]: midnight UTC of that day. *)
Definition parse_iso_date (s : string) : option JSDate :=
  match JS.split "-"%char s with
  | [ys; ms; ds] =>
      match number 4 ys, number 2 ms, number 2 ds with
      | Some y, Some m, Some d =>
          if ((1 <=? m) && (m <=? 12) && (1 <=? d)
              && (d <=? days_in_month y m))%bool
          then let n := days_from_civil y m d in
               Some (date_of_day n (n * ms_per_day))
          else None
      | _, _, _ => None
      end
  | _ => None
  end.

Definition of_ms (ms : Z) : JSDate := date_of_day (ms / ms_per_day) ms.

(** Milliseconds since midnight of HH:MM:SS[.sss]Z. *)
Definition parse_time (t : string) : option Z :=
  match JS.split ":"%char t with
  | [hs; ms; rest] =>
      match JS.split "Z"%char rest with
      | [body; EmptyString] =>
          let '(ss, fs) :=
            match JS.split "."%char body with
            | [ss; fs] => (ss, number 3 fs)
            | [ss] => (ss, Some 0)
            | _ => (body, None)
            end in
          match number 2 hs, number 2 ms, number 2 ss, fs with
          | Some h, Some m, Some sec, Some f =>
              if ((h <? 24) && (m <? 60) && (sec <? 60))%bool
              then Some (((h * 60 + m) * 60 + sec) * 1000 + f)
              else None
          | _, _, _, _ => None
          end
      | _ => None
      end
  | _ => None
  end.

(** [new Date(s)] for the two ISO forms. *)
Definition parse_iso (s : string) : option JSDate :=
  match parse_iso_date s with
  | Some d => Some d
  | None =>
      match JS.split "T"%char s with
      | [ds; ts] =>
          match parse_iso_date ds, parse_time ts with
          | Some d, Some t => Some (of_ms (getTime d + t))
          | _, _ => None
          end
      | _ => None
      end
  end.

End Calendar.

Definition utcRuntime : Runtime :=
  mkRuntime Calendar.parse_iso Calendar.of_ms
            "2025-12-31T12:00:00.000Z"%string (fun id => id).

(* ================================================================== *)
(** * stats.ts with remote merge (src/unnamed/part_001)                *)
(* ================================================================== *)

Module Stats.

Record CollectedData : Type := mkCollectedData {
  statsCache : option ClaudeCodeStats;
  history : list HistoryEntry;
  projects : list string
}.

(** The value type of [mergedDailyActivity]. *)
Module DayCounts.
Record t : Type := mk {
  messageCount : Z;
  sessionCount : Z;
  toolCallCount : Z
}.
End DayCounts.

Definition counts_of (day : DailyActivity) : DayCounts.t :=
  DayCounts.mk (messageCount day) (sessionCount day) (toolCallCount day).

(** [existing.x += day.x] for the three counters. *)
Definition add_counts (existing : DayCounts.t) (day : DailyActivity)
    : DayCounts.t :=
  DayCounts.mk (DayCounts.messageCount existing + messageCount day)
              (DayCounts.sessionCount existing + sessionCount day)
              (DayCounts.toolCallCount existing + toolCallCount day).

(** The loop over [local.statsCache.dailyActivity]: plain [set]. *)
Definition setLocalDays (days : list DailyActivity)
    (m : JS.JsMap DayCounts.t) : JS.JsMap DayCounts.t :=
  fold_left (fun m day => JS.map_set m (date day) (counts_of day)) days m.

(** The loop over one [remote.statsCache.dailyActivity]. *)
Definition addRemoteDays (days : list DailyActivity)
    (m : JS.JsMap DayCounts.t) : JS.JsMap DayCounts.t :=
  fold_left
    (fun m day =>
       match JS.map_get m (date day) with
       | Some existing => JS.map_set m (date day) (add_counts existing day)
       | None => JS.map_set m (date day) (counts_of day)
       end)
    days m.

(** The loop over [Object.entries(local.statsCache.modelUsage)]. *)
Definition setLocalUsage (entries : JS.JsMap ModelUsage)
    (m : JS.JsMap ModelUsage) : JS.JsMap ModelUsage :=
  fold_left (fun m '(modelId, usage) => JS.map_set m modelId usage) entries m.

Definition add_usage (existing usage : ModelUsage) : ModelUsage :=
  mkModelUsage
    (inputTokens existing + JS.num_or0 (inputTokens usage))
    (outputTokens existing + JS.num_or0 (outputTokens usage))
    (cacheReadInputTokens existing + JS.num_or0 (cacheReadInputTokens usage))
    (cacheCreationInputTokens existing
       + JS.num_or0 (cacheCreationInputTokens usage))
    (webSearchRequests existing)
    (PrimFloat.add (costUSD existing) (JS.f64_or0 (costUSD usage)))
    (contextWindow existing).

(** A new entry holds the five summed fields only; the two others are
    written when the merged cache is built. *)
Definition fresh_usage (usage : ModelUsage) : ModelUsage :=
  mkModelUsage
    (JS.num_or0 (inputTokens usage))
    (JS.num_or0 (outputTokens usage))
    (JS.num_or0 (cacheReadInputTokens usage))
    (JS.num_or0 (cacheCreationInputTokens usage))
    0
    (JS.f64_or0 (costUSD usage))
    0.

(** The loop over [Object.entries(remote.statsCache.modelUsage)]. *)
Definition addRemoteUsage (entries : JS.JsMap ModelUsage)
    (m : JS.JsMap ModelUsage) : JS.JsMap ModelUsage :=
  fold_left
    (fun m '(modelId, usage) =>
       match JS.map_get m modelId with
       | Some existing => JS.map_set m modelId (add_usage existing usage)
       | None => JS.map_set m modelId (fresh_usage usage)
       end)
    entries m.

(** The variables of the [remotes.length > 0] branch. *)
Record MergeState : Type := mkMergeState {
  mergedDailyActivity : JS.JsMap DayCounts.t;
  mergedModelUsage : JS.JsMap ModelUsage;
  mergedTotalSessions : Z;
  mergedTotalMessages : Z;
  earliestDate : option string
}.

Definition emptyMerge : MergeState := mkMergeState [] [] 0 0 None.

(** [if (local.statsCache) { ... }] *)
Definition processLocal (local : CollectedData) (st : MergeState)
    : MergeState :=
  match statsCache local with
  | Some c =>
      mkMergeState
        (setLocalDays (dailyActivity c) (mergedDailyActivity st))
        (setLocalUsage (modelUsage c) (mergedModelUsage st))
        (mergedTotalSessions st + totalSessions c)
        (mergedTotalMessages st + totalMessages c)
        (Some (firstSessionDate c))
  | None => st
  end.

(** [if (cand) { if (!earliestDate || cand < earliestDate)
      earliestDate = cand }] *)
Definition earlier (cand : option string) (earliest : option string)
    : option string :=
  match cand with
  | Some c =>
      if JS.truthy cand then
        match earliest with
        | Some e =>
            if (negb (JS.truthy earliest) || String.ltb c e)%bool
            then Some c else earliest
        | None => Some c
        end
      else earliest
  | None => earliest
  end.

(** One iteration of [for (const remote of remotes)]; a remote without a
    cache is skipped by [continue], its [oldestSessionTimestamp] too. *)
Definition processRemote (st : MergeState) (remote : RemoteData.t)
    : MergeState :=
  match RemoteData.statsCache remote with
  | None => st
  | Some c =>
      mkMergeState
        (addRemoteDays (dailyActivity c) (mergedDailyActivity st))
        (addRemoteUsage (modelUsage c) (mergedModelUsage st))
        (mergedTotalSessions st + totalSessions c)
        (mergedTotalMessages st + totalMessages c)
        (earlier (RemoteData.oldestSessionTimestamp remote)
           (earlier (Some (firstSessionDate c)) (earliestDate st)))
  end.

Definition emptyLongestSession : LongestSession.t :=
  LongestSession.mk EmptyString 0 0 EmptyString.

(** [mergedStatsCache = { version: 1, ... }] *)
Definition buildMergedCache (rt : Runtime) (local : CollectedData)
    (st : MergeState) : ClaudeCodeStats :=
  mkClaudeCodeStats
    1
    (hd EmptyString (JS.split "T"%char (now_ISO rt)))
    (List.map
       (fun '(d, data) =>
          mkDailyActivity d (DayCounts.messageCount data)
                          (DayCounts.sessionCount data)
                          (DayCounts.toolCallCount data))
       (mergedDailyActivity st))
    []
    (List.map
       (fun '(id, usage) =>
          (id, mkModelUsage (inputTokens usage) (outputTokens usage)
                            (cacheReadInputTokens usage)
                            (cacheCreationInputTokens usage)
                            0 (costUSD usage) 0))
       (mergedModelUsage st))
    (mergedTotalSessions st)
    (mergedTotalMessages st)
    (match statsCache local with
     | Some c => longestSession c
     | None => emptyLongestSession
     end)
    (match earliestDate st with
     | Some e => JS.str_or e (now_ISO rt)
     | None => now_ISO rt
     end)
    [].

Definition mergeData (rt : Runtime) (local : CollectedData)
    (remotes : list RemoteData.t) : CollectedData :=
  let allHistory :=
    fold_left (fun acc remote => acc ++ RemoteData.history remote) remotes
              (history local) in
  let allProjects :=
    fold_left
      (fun s remote => fold_left JS.set_add (RemoteData.projects remote) s)
      remotes (JS.Set_of (projects local)) in
  let mergedStatsCache :=
    match remotes with
    | [] => statsCache local
    | _ :: _ =>
        Some (buildMergedCache rt local
                (fold_left processRemote remotes
                           (processLocal local emptyMerge)))
    end in
  mkCollectedData mergedStatsCache allHistory allProjects.

(** ** calculateStats: the daily activity map and the weekday counters *)

Definition formatDateKey (d : JSDate) : string :=
  (JS.String_of_Z (getFullYear d) ++ "-"
   ++ JS.padStart2 (JS.String_of_Z (getMonth d + 1)) ++ "-"
   ++ JS.padStart2 (JS.String_of_Z (getDate d)))%string.

(** [weekdayCounts[i] += n]; an index outside 0..6 (NaN) touches no
    bucket. *)
Fixpoint bump (w : list Z) (i : Z) (n : Z) : list Z :=
  match w with
  | [] => []
  | x :: t => if i =? 0 then (x + n) :: t else x :: bump t (i - 1) n
  end.

Definition cacheDay (rt : Runtime) (yr : Z)
    (acc : JS.JsMap Z * list Z) (day : DailyActivity)
    : JS.JsMap Z * list Z :=
  let '(m, w) := acc in
  if JS.startsWith (date day) (JS.String_of_Z yr) then
    (JS.map_set m (date day) (messageCount day),
     match Date_of_string rt (date day) with
     | Some d => bump w (getDay d) (messageCount day)
     | None => w
     end)
  else (m, w).

Definition historyDay (rt : Runtime)
    (acc : JS.JsMap Z * list Z) (entry : HistoryEntry)
    : JS.JsMap Z * list Z :=
  let '(m, w) := acc in
  let d := Date_of_ms rt (timestamp entry) in
  let dateKey := formatDateKey d in
  (JS.map_set m dateKey
     (match JS.map_get m dateKey with
      | Some n => JS.num_or0 n
      | None => 0
      end + 1),
   bump w (getDay d) 1).

Definition buildDailyActivity (rt : Runtime) (yr : Z)
    (mergedStats : option ClaudeCodeStats) (mergedHistory : list HistoryEntry)
    : JS.JsMap Z * list Z :=
  let start : JS.JsMap Z * list Z := ([], [0; 0; 0; 0; 0; 0; 0]) in
  let fromCache :=
    match mergedStats with
    | Some c => fold_left (cacheDay rt yr) (dailyActivity c) start
    | None => start
    end in
  if (Nat.eqb (JS.map_size (fst fromCache)) 0
      && (0 <? List.length mergedHistory)%nat)%bool
  then fold_left (historyDay rt) mergedHistory fromCache
  else fromCache.

(** ** calculateStats: totals *)

Record Totals : Type := mkTotals {
  t_sessions : Z;
  t_messages : Z;
  t_input : Z;
  t_output : Z;
  t_cacheRead : Z;
  t_cacheWrite : Z;
  t_cost : float
}.

Definition sumYearDay (yr : Z) (t : Totals) (day : DailyActivity) : Totals :=
  if JS.startsWith (date day) (JS.String_of_Z yr) then
    mkTotals (t_sessions t + sessionCount day)
             (t_messages t + messageCount day)
             (t_input t) (t_output t) (t_cacheRead t) (t_cacheWrite t)
             (t_cost t)
  else t.

Definition sumUsage (t : Totals) (e : string * ModelUsage) : Totals :=
  let usage := snd e in
  mkTotals (t_sessions t) (t_messages t)
           (t_input t + JS.num_or0 (inputTokens usage))
           (t_output t + JS.num_or0 (outputTokens usage))
           (t_cacheRead t + JS.num_or0 (cacheReadInputTokens usage))
           (t_cacheWrite t + JS.num_or0 (cacheCreationInputTokens usage))
           (PrimFloat.add (t_cost t) (JS.f64_or0 (costUSD usage))).

Definition cacheTotals (yr : Z) (mergedStats : option ClaudeCodeStats)
    : Totals :=
  let zero := mkTotals 0 0 0 0 0 0 PrimFloat.zero in
  match mergedStats with
  | Some c =>
      fold_left sumUsage (modelUsage c)
                (fold_left (sumYearDay yr) (dailyActivity c) zero)
  | None => zero
  end.

(** [if (totalMessages === 0 && mergedHistory.length > 0) { ... }] *)
Definition historyFallback (t : Totals) (mergedHistory : list HistoryEntry)
    : Totals :=
  if ((t_messages t =? 0) && (0 <? List.length mergedHistory)%nat)%bool then
    mkTotals
      (Z.of_nat (List.length (JS.Set_of (List.map sessionId mergedHistory))))
      (Z.of_nat (List.length mergedHistory) * 20)
      (t_input t) (t_output t) (t_cacheRead t) (t_cacheWrite t) (t_cost t)
  else t.

(** ** calculateStats: top models and top projects *)

(** The body of the loop over [Object.entries(mergedStats.modelUsage)]. *)
Definition modelCountStep (m : JS.JsMap Z) (e : string * ModelUsage)
    : JS.JsMap Z :=
  let '(modelId, usage) := e in
  JS.map_set m modelId (JS.num_or0 (outputTokens usage)).

Definition modelCountsOf (mergedStats : option ClaudeCodeStats)
    : JS.JsMap Z :=
  match mergedStats with
  | Some c => fold_left modelCountStep (modelUsage c) []
  | None => []
  end.

Definition topModelsOf (rt : Runtime) (modelCounts : JS.JsMap Z)
    : list ModelStats.t :=
  let totalModelCount := JS.sum (JS.map_values modelCounts) in
  List.map
    (fun '(id, count) =>
       ModelStats.mk id (getModelDisplayName rt id) "anthropic" count
         (if totalModelCount >? 0 then JS.percentage count totalModelCount
          else Some 0))
    (JS.slice0 3 (JS.sort_desc_by_count modelCounts)).

(** [entry.project.split("/").pop() || entry.project] *)
Definition projectNameOf (entry : HistoryEntry) : string :=
  JS.str_or (JS.pop (JS.split "/"%char (project entry))) (project entry).

(** The body of [for (const entry of mergedHistory)]. *)
Definition projectStep (m : JS.JsMap Z) (entry : HistoryEntry) : JS.JsMap Z :=
  let projectName := projectNameOf entry in
  JS.map_set m projectName
    (match JS.map_get m projectName with
     | Some n => JS.num_or0 n
     | None => 0
     end + 1).

Definition projectCountsOf (mergedHistory : list HistoryEntry)
    : JS.JsMap Z :=
  fold_left projectStep mergedHistory [].

Definition topProjectsOf (projectCounts : JS.JsMap Z) (totalPrompts : Z)
    : list ProjectStats.t :=
  List.map
    (fun '(name, promptCount) =>
       ProjectStats.mk name promptCount
         (if totalPrompts >? 0 then JS.percentage promptCount totalPrompts
          else Some 0))
    (JS.slice0 4 (JS.sort_desc_by_count projectCounts)).

(** ** calculateStreaks (maximum streak) *)

Definition activeDatesOf (dailyActivity : JS.JsMap Z) (yr : Z)
    : list string :=
  JS.sort_strings
    (filter (fun d => JS.startsWith d (JS.String_of_Z yr))
            (JS.map_keys dailyActivity)).

(** [Math.round((curr.getTime() - prev.getTime()) / (1000*60*60*24))];
    [None] is NaN, when one of the dates is invalid. *)
Definition diffDays (rt : Runtime) (prev curr : string) : option Z :=
  match Date_of_string rt prev, Date_of_string rt curr with
  | Some p, Some c =>
      Some (JS.Math_round_div (getTime c - getTime p) (1000 * 60 * 60 * 24))
  | _, _ => None
  end.

(** [diffDays === 1] *)
Definition consecutive (rt : Runtime) (prev curr : string) : bool :=
  match diffDays rt prev curr with
  | Some n => n =? 1
  | None => false
  end.

Record StreakVars : Type := mkStreakVars {
  v_maxStreak : Z;
  v_tempStreak : Z;
  v_tempStreakStart : nat;
  v_maxStreakStart : nat;
  v_maxStreakEnd : nat
}.

(** The body of [for (let i = 1; i < activeDates.length; i++)], with
    [prev = activeDates[i - 1]] and [curr = activeDates[i]]. *)
Definition streakStep (rt : Runtime) (prev curr : string) (i : nat)
    (v : StreakVars) : StreakVars :=
  if consecutive rt prev curr then
    let t := v_tempStreak v + 1 in
    if t >? v_maxStreak v then
      mkStreakVars t t (v_tempStreakStart v) (v_tempStreakStart v) i
    else
      mkStreakVars (v_maxStreak v) t (v_tempStreakStart v)
                   (v_maxStreakStart v) (v_maxStreakEnd v)
  else
    mkStreakVars (v_maxStreak v) 1 i (v_maxStreakStart v) (v_maxStreakEnd v).

Fixpoint streakLoop (rt : Runtime) (prev : string) (rest : list string)
    (i : nat) (v : StreakVars) : StreakVars :=
  match rest with
  | [] => v
  | curr :: rest' =>
      streakLoop rt curr rest' (S i) (streakStep rt prev curr i v)
  end.

(** [activeDates[i]] for [i] from [a] to [b] inclusive. *)
Definition slice_incl {A : Type} (a b : nat) (l : list A) : list A :=
  skipn a (firstn (S b) l).

Record Streaks : Type := mkStreaks {
  s_maxStreak : Z;
  s_maxStreakDays : JS.JsSet
}.

Definition calculateStreaks (rt : Runtime) (dailyActivity : JS.JsMap Z)
    (yr : Z) : Streaks :=
  match activeDatesOf dailyActivity yr with
  | [] => mkStreaks 0 []
  | first :: rest =>
      let v := streakLoop rt first rest 1 (mkStreakVars 1 1 0 0 0) in
      mkStreaks
        (v_maxStreak v)
        (fold_left JS.set_add
           (slice_incl (v_maxStreakStart v) (v_maxStreakEnd v)
                       (first :: rest))
           [])
  end.

(** ** findMostActiveDay *)

(** The body of [for (const [date, count] of dailyActivity.entries())]. *)
Definition mostActiveStep (acc : string * Z) (e : string * Z) : string * Z :=
  let '(maxDate, maxCount) := acc in
  let '(d, count) := e in
  if count >? maxCount then (d, count) else (maxDate, maxCount).

Definition mostActiveLoop (dailyActivity : JS.JsMap Z) : string * Z :=
  fold_left mostActiveStep dailyActivity (EmptyString, 0).

Definition findMostActiveDay (dailyActivity : JS.JsMap Z)
    : option MostActiveDay.t :=
  if Nat.eqb (JS.map_size dailyActivity) 0 then None
  else
    let '(maxDate, maxCount) := mostActiveLoop dailyActivity in
    if String.eqb maxDate EmptyString then None
    else Some (MostActiveDay.mk maxDate maxCount).

(** ** buildWeekdayActivity *)

Definition WEEKDAY_NAMES_FULL : list string :=
  ["Sunday"; "Monday"; "Tuesday"; "Wednesday"; "Thursday"; "Friday";
   "Saturday"]%string.

Fixpoint weekdayLoop (cs : list Z) (i : Z) (best : Z * Z) : Z * Z :=
  match cs with
  | [] => best
  | c :: t => weekdayLoop t (i + 1) (if c >? snd best then (i, c) else best)
  end.

Definition buildWeekdayActivity (cs : list Z) : WeekdayActivity.t :=
  let '(mostActive, maxC) := weekdayLoop cs 0 (0, 0) in
  WeekdayActivity.mk cs mostActive
    (nth (Z.to_nat mostActive) WEEKDAY_NAMES_FULL EmptyString) maxC.

(** ** calculateStats

    [statsOf] is the body of [calculateStats] from the merged data on,
    without the three fields that read the clock (see [Summary]).  The two
    revisions of stats.ts have the same body except for the line that
    computes [totalTokens], which is the parameter [totalTokensOf], and for
    the choice of [firstSessionDate]. *)

Definition statsOf (rt : Runtime) (yr : Z) (merged : CollectedData)
    (totalTokensOf : Totals -> Z) : WrappedStats.t :=
  let mergedStats := statsCache merged in
  let mergedHistory := history merged in
  let '(dailyActivityMap, weekdayCounts) :=
    buildDailyActivity rt yr mergedStats mergedHistory in
  let t := historyFallback (cacheTotals yr mergedStats) mergedHistory in
  let totalPromptsV := Z.of_nat (List.length mergedHistory) in
  let streaks := calculateStreaks rt dailyActivityMap yr in
  WrappedStats.mk
    yr
    (t_sessions t)
    (t_messages t)
    (Z.of_nat (List.length (projects merged)))
    totalPromptsV
    (t_input t)
    (t_output t)
    (totalTokensOf t)
    (t_cacheRead t)
    (t_cacheWrite t)
    (t_cost t)
    (PrimFloat.ltb PrimFloat.zero (t_cost t))
    (topModelsOf rt (modelCountsOf mergedStats))
    [ProviderStats.mk "anthropic" "Anthropic" (t_messages t) 100]
    (s_maxStreak streaks)
    (s_maxStreakDays streaks)
    dailyActivityMap
    (findMostActiveDay dailyActivityMap)
    (buildWeekdayActivity weekdayCounts)
    (topProjectsOf (projectCountsOf mergedHistory) totalPromptsV)
    (match mergedStats with
     | Some c =>
         Some (LongestSession.duration (longestSession c),
               LongestSession.messageCount (longestSession c))
     | None => None
     end).

(** [const totalTokens = totalInputTokens + totalOutputTokens
      + totalCacheReadTokens + totalCacheWriteTokens;] *)
Definition totalTokensOf (t : Totals) : Z :=
  t_input t + t_output t + t_cacheRead t + t_cacheWrite t.

(** [local] holds what [collectStatsCache], [collectHistory(year)] and
    [collectProjects(year)] returned. *)
Definition calculateStats (rt : Runtime) (yr : Z) (local : CollectedData)
    (remoteData : list RemoteData.t) : WrappedStats.t :=
  statsOf rt yr (mergeData rt local remoteData) totalTokensOf.

End Stats.

(* ================================================================== *)
(** * stats.ts, local-only revision (src/unnamed/part_002)             *)
(* ================================================================== *)

(** This revision has no merge step; apart from [totalTokens] and from
    the first session (see [FirstSession.firstSessionLocal]) its body is,
    line for line, the body of [Stats.calculateStats] on the local data. *)

Module StatsLocal.

(** [const totalTokens = totalInputTokens + totalOutputTokens;] *)
Definition totalTokensOf (t : Stats.Totals) : Z :=
  Stats.t_input t + Stats.t_output t.

Definition calculateStats (rt : Runtime) (yr : Z)
    (local : Stats.CollectedData) : WrappedStats.t :=
  Stats.statsOf rt yr local totalTokensOf.

End StatsLocal.

(* ================================================================== *)
(** * The file system seen by the collectors                           *)
(* ================================================================== *)

(** The fields of a parsed transcript line that the collectors read.  In
    the transcript format [timestamp] is an ISO string. *)
Record TranscriptJson : Type := mkTranscriptJson {
  j_type : option string;
  j_sessionId : string;
  (** [None] when the line has no [timestamp] *)
  j_timestamp : option string;
  j_model : option string;
  (** [message?.usage] is truthy *)
  j_usage : bool
}.

(** One element of [content.split("\n")], by what the loop body makes of
    it: blank after [trim], rejected by [JSON.parse], or parsed.
    ([collectSessionMessages] trims the content before it splits it, which
    removes blank lines at both ends only.) *)
Inductive Line : Type :=
| Blank
| Malformed
| Json (j : TranscriptJson).

Record FileSystem : Type := mkFileSystem {
  homedir : string;
  (** [readdir(path)]; [None] when it throws *)
  readdir : string -> option (list string);
  (** [readFile(path, "utf-8")], split at newlines *)
  readLines : string -> option (list Line);
  (** [Bun.file(path).json()] read as a stats cache *)
  readStatsJson : string -> option ClaudeCodeStats
}.

(** [join(a, b)] of node:path on plain segments. *)
Definition join (a b : string) : string := (a ++ "/" ++ b)%string.

(** [if (!oldest || ts < oldest) oldest = ts], under
    [ts && typeof ts === "string"]. *)
Definition older (oldest : option string) (ts : option string)
    : option string :=
  match ts with
  | Some t =>
      if String.eqb t EmptyString then oldest
      else match oldest with
           | Some o =>
               if (String.eqb o EmptyString || String.ltb t o)%bool
               then Some t else oldest
           | None => Some t
           end
  | None => oldest
  end.

(** The transcript loops, for a given data directory; both collectors
    run the same loop bodies. *)
Module Transcripts.

(** [files.filter((f) => f.endsWith(".jsonl") && !f.startsWith("agent-"))] *)
Definition isSessionFile (f : string) : bool :=
  (JS.endsWith f ".jsonl" && negb (JS.startsWith f "agent-"))%bool.

(** [files.filter((f) => f.endsWith(".jsonl"))] *)
Definition isJsonlFile (f : string) : bool := JS.endsWith f ".jsonl".

(** [year && timestamp.getFullYear() !== year] *)
Definition otherYear (rt : Runtime) (yr : option Z) (ts : option string)
    : bool :=
  match yr with
  | None => false
  | Some y =>
      if y =? 0 then false
      else match ts with
           | Some s =>
               match Date_of_string rt s with
               | Some d => negb (getFullYear d =? y)
               | None => true
               end
           | None => true
           end
  end.

Definition messageOfLine (rt : Runtime) (yr : option Z) (l : Line)
    : list SessionMessage.t :=
  match l with
  | Json j =>
      match j_type j with
      | Some ty =>
          if (String.eqb ty "assistant" && j_usage j)%bool then
            if otherYear rt yr (j_timestamp j) then []
            else [SessionMessage.mk ty (j_sessionId j) (j_timestamp j)
                                   (j_model j) (j_usage j)]
          else []
      | None => []
      end
  | _ => []
  end.

(** The body of [try { readdir(projectsPath) ... }] of
    [collectSessionMessages]. *)
Definition sessionMessagesIn (rt : Runtime) (fs : FileSystem)
    (yr : option Z) (base : string) : list SessionMessage.t :=
  let projectsPath := join base "projects" in
  match readdir fs projectsPath with
  | None => []
  | Some projectDirs =>
      flat_map
        (fun projectDir =>
           let projectPath := join projectsPath projectDir in
           match readdir fs projectPath with
           | None => []
           | Some files =>
               flat_map
                 (fun jsonlFile =>
                    match readLines fs (join projectPath jsonlFile) with
                    | None => []
                    | Some lines => flat_map (messageOfLine rt yr) lines
                    end)
                 (filter isSessionFile files)
           end)
        projectDirs
  end.

Definition oldestOfLine (oldest : option string) (l : Line)
    : option string :=
  match l with
  | Json j => older oldest (j_timestamp j)
  | _ => oldest
  end.

(** [content.split("\n").slice(0, 10)] and the loop over it. *)
Definition oldestOfFile (fs : FileSystem) (projectPath : string)
    (oldest : option string) (jsonlFile : string) : option string :=
  match readLines fs (join projectPath jsonlFile) with
  | None => oldest
  | Some lines => fold_left oldestOfLine (JS.slice0 10 lines) oldest
  end.

Definition oldestOfProject (fs : FileSystem) (projectsPath : string)
    (oldest : option string) (projectDir : string) : option string :=
  let projectPath := join projectsPath projectDir in
  match readdir fs projectPath with
  | None => oldest
  | Some files =>
      fold_left (oldestOfFile fs projectPath) (filter isJsonlFile files)
                oldest
  end.

(** The body of [try { readdir(projectsPath) ... }] of
    [findOldestLocalSessionTimestamp]. *)
Definition oldestIn (fs : FileSystem) (oldest : option string)
    (base : string) : option string :=
  let projectsPath := join base "projects" in
  match readdir fs projectsPath with
  | None => oldest
  | Some projectDirs =>
      fold_left (oldestOfProject fs projectsPath) projectDirs oldest
  end.

End Transcripts.

(* ================================================================== *)
(** * collector.ts, one storage root (src/unnamed/part_005)            *)
(* ================================================================== *)

Module Collector.

Definition CLAUDE_DATA_PATH (fs : FileSystem) : string :=
  join (homedir fs) ".claude".

Definition checkClaudeCodeDataExists (fs : FileSystem) : bool :=
  match readdir fs (CLAUDE_DATA_PATH fs) with
  | Some _ => true
  | None => false
  end.

Definition collectStatsCache (fs : FileSystem) : option ClaudeCodeStats :=
  readStatsJson fs (join (CLAUDE_DATA_PATH fs) "stats-cache.json").

Definition collectSessionMessages (rt : Runtime) (fs : FileSystem)
    (yr : option Z) : list SessionMessage.t :=
  Transcripts.sessionMessagesIn rt fs yr (CLAUDE_DATA_PATH fs).

Definition findOldestLocalSessionTimestamp (fs : FileSystem)
    : option string :=
  Transcripts.oldestIn fs None (CLAUDE_DATA_PATH fs).

End Collector.

(* ================================================================== *)
(** * collector.ts, two storage roots (in src/src/image/generator.tsx) *)
(* ================================================================== *)

Module CollectorMulti.

Definition CLAUDE_DATA_PATHS (fs : FileSystem) : list string :=
  [join (homedir fs) ".claude"; join (join (homedir fs) ".config") "claude"].

Definition getValidClaudePaths (fs : FileSystem) : list string :=
  filter (fun path => match readdir fs path with
                      | Some _ => true
                      | None => false
                      end)
         (CLAUDE_DATA_PATHS fs).

Definition checkClaudeCodeDataExists (fs : FileSystem) : bool :=
  (0 <? List.length (getValidClaudePaths fs))%nat.

(** The loop over [Object.entries(content.modelUsage)]: a present model is
    summed, a new one is copied whole. *)
Definition mergeUsage (entries : JS.JsMap ModelUsage)
    (m : JS.JsMap ModelUsage) : JS.JsMap ModelUsage :=
  fold_left
    (fun m '(modelId, usage) =>
       match JS.map_get m modelId with
       | Some existing =>
           JS.map_set m modelId (Stats.add_usage existing usage)
       | None => JS.map_set m modelId usage
       end)
    entries m.

(** The [else] branch of [if (!mergedStats)]; the two daily-activity loops
    are those of [Stats.mergeData]. *)
Definition mergeInto (mergedStats content : ClaudeCodeStats)
    : ClaudeCodeStats :=
  let activityMap :=
    Stats.addRemoteDays (dailyActivity content)
      (Stats.setLocalDays (dailyActivity mergedStats) []) in
  mkClaudeCodeStats
    (version mergedStats)
    (lastComputedDate mergedStats)
    (List.map
       (fun '(d, data) =>
          mkDailyActivity d (Stats.DayCounts.messageCount data)
                          (Stats.DayCounts.sessionCount data)
                          (Stats.DayCounts.toolCallCount data))
       activityMap)
    (dailyModelTokens mergedStats)
    (mergeUsage (modelUsage content) (modelUsage mergedStats))
    (totalSessions mergedStats + totalSessions content)
    (totalMessages mergedStats + totalMessages content)
    (longestSession mergedStats)
    (if String.ltb (firstSessionDate content) (firstSessionDate mergedStats)
     then firstSessionDate content else firstSessionDate mergedStats)
    (hourCounts mergedStats).

Definition collectStatsCache (fs : FileSystem) : option ClaudeCodeStats :=
  fold_left
    (fun mergedStats basePath =>
       match readStatsJson fs (join basePath "stats-cache.json") with
       | Some content =>
           match mergedStats with
           | None => Some content
           | Some ms => Some (mergeInto ms content)
           end
       | None => mergedStats
       end)
    (getValidClaudePaths fs) None.

Definition collectSessionMessages (rt : Runtime) (fs : FileSystem)
    (yr : option Z) : list SessionMessage.t :=
  flat_map (Transcripts.sessionMessagesIn rt fs yr) (getValidClaudePaths fs).

Definition findOldestLocalSessionTimestamp (fs : FileSystem)
    : option string :=
  fold_left (Transcripts.oldestIn fs) (getValidClaudePaths fs) None.

End CollectorMulti.

(* ================================================================== *)
(** * Concrete inputs                                                  *)
(* ================================================================== *)

Module Examples.

Definition usage (out : Z) : ModelUsage :=
  mkModelUsage 0 out 0 0 0 PrimFloat.zero 0.

Definition cacheOf (days : list DailyActivity)
    (models : JS.JsMap ModelUsage) (sessions messages : Z)
    (first : string) : ClaudeCodeStats :=
  mkClaudeCodeStats 1 "2025-12-31" days [] models sessions messages
    Stats.emptyLongestSession first [].

(** Model usage {A: 50 output tokens, B: 30, C: 20}. *)
Definition threeModels : Stats.CollectedData :=
  Stats.mkCollectedData
    (Some (cacheOf [] [("A", usage 50); ("B", usage 30); ("C", usage 20)]%string
                   0 0 "2025-01-01T00:00:00.000Z"))
    [] [].

(** One model with 1000 output tokens and one with a single token. *)
Definition lopsidedModels : Stats.CollectedData :=
  Stats.mkCollectedData
    (Some (cacheOf [] [("A", usage 1000); ("B", usage 1)]%string
                   0 0 "2025-01-01T00:00:00.000Z"))
    [] [].

(** A cache with a negative output-token count. *)
Definition negativeModels : Stats.CollectedData :=
  Stats.mkCollectedData
    (Some (cacheOf [] [("A", usage 300); ("B", usage (-200))]%string
                   0 0 "2025-01-01T00:00:00.000Z"))
    [] [].

(** A cache whose output-token count is beyond the binary64 range (the
    JSON number 1e400 is read as Infinity). *)
Definition hugeModel : Stats.CollectedData :=
  Stats.mkCollectedData
    (Some (cacheOf [] [("A", usage (10 ^ 400))]%string
                   0 0 "2025-01-01T00:00:00.000Z"))
    [] [].

(** A cache whose only model has cache-read and cache-write tokens. *)
Definition cachedTokens : Stats.CollectedData :=
  Stats.mkCollectedData
    (Some (cacheOf []
             [("claude-sonnet-4-20250514"%string,
               mkModelUsage 100 50 900 100 0 PrimFloat.zero 0)]
             0 0 "2025-01-01T00:00:00.000Z"))
    [] [].

Definition entry (ts : Z) (proj sid : string) : HistoryEntry :=
  mkHistoryEntry "prompt" ts proj sid.

(** Five prompts of 2025-03-01 (UTC) across three sessions, no cache. *)
Definition fivePrompts : Stats.CollectedData :=
  Stats.mkCollectedData None
    [entry 1740787200000 "/home/u/app" "s1";
     entry 1740787260000 "/home/u/app" "s2";
     entry 1740787320000 "/home/u/lib" "s1";
     entry 1740787380000 "/home/u/app" "s3";
     entry 1740787440000 "/home/u/lib" "s2"]%string
    ["app"; "lib"]%string.

(** 201 prompts: 198 in one project and one in each of three others. *)
Definition manyPrompts : Stats.CollectedData :=
  Stats.mkCollectedData None
    (repeat (entry 1740787200000 "/home/u/main" "s1") 198
     ++ [entry 1740787200000 "/home/u/a" "s1";
         entry 1740787200000 "/home/u/b" "s1";
         entry 1740787200000 "/home/u/c" "s1"])%list
    ["main"; "a"; "b"; "c"]%string.

Definition day (d : string) (m s t : Z) : DailyActivity :=
  mkDailyActivity d m s t.

(** A local cache and two remote hosts; 2025-03-01 is in all three caches,
    2025-03-02 in two, the other dates in one. *)
Definition localDays : Stats.CollectedData :=
  Stats.mkCollectedData
    (Some (cacheOf [day "2025-03-01" 10 2 5; day "2025-03-02" 4 1 0;
                    day "2025-03-03" 6 1 2]%string
                   [] 4 20 "2025-03-01T08:00:00.000Z"))
    [] [].

Definition remoteDays : list RemoteData.t :=
  [RemoteData.mk "alice@build"
     (Some (cacheOf [day "2025-03-01" 7 1 3; day "2025-03-04" 9 2 1]%string
                    [] 3 16 "2025-02-27T08:00:00.000Z"))
     [] [] None;
   RemoteData.mk "alice@laptop" None [] [] None;
   RemoteData.mk "alice@ci"
     (Some (cacheOf [day "2025-03-02" 1 1 1; day "2025-03-01" 100 10 40]%string
                    [] 11 101 "2025-03-01T09:00:00.000Z"))
     [] [] None]%string.

(** Activity on 2025-02-27, 02-28, 03-01, 03-04 and 03-05, inserted out of
    order, and on one day of 2024. *)
Definition fiveDays : JS.JsMap Z :=
  [("2025-03-05", 3); ("2025-02-27", 1); ("2024-12-31", 9);
   ("2025-03-01", 2); ("2025-02-28", 5); ("2025-03-04", 1)]%string.

(** A transcript line of an assistant turn with usage data. *)
Definition stamp (ts : string) : Line :=
  Json (mkTranscriptJson (Some "assistant") "c0ffee" (Some ts)
                         (Some "claude-sonnet-4-20250514") true)%string.

(** One project directory with a sub-agent transcript, a session transcript
    and a text file. *)
Definition transcriptFS (agentLines sessionLines : list Line) : FileSystem :=
  mkFileSystem "/home/u"
    (JS.map_get
       [("/home/u/.claude", ["projects"; "history.jsonl"]);
        ("/home/u/.claude/projects", ["-home-u-app"]);
        ("/home/u/.claude/projects/-home-u-app",
         ["agent-7f3a.jsonl"; "c0ffee.jsonl"; "notes.txt"])]%string)
    (JS.map_get
       [("/home/u/.claude/projects/-home-u-app/agent-7f3a.jsonl",
         agentLines);
        ("/home/u/.claude/projects/-home-u-app/c0ffee.jsonl",
         sessionLines);
        ("/home/u/.claude/projects/-home-u-app/notes.txt", [Malformed])]%string)
    (fun _ => None).

(** Ten lines of a session of March 2025. *)
Definition tenLines : list Line :=
  [stamp "2025-03-01T10:00:00.000Z"; Blank; Malformed;
   stamp "2025-03-01T10:01:00.000Z"; stamp "2025-03-01T10:02:00.000Z";
   stamp "2025-03-01T10:03:00.000Z"; stamp "2025-03-01T10:04:00.000Z";
   stamp "2025-03-01T10:05:00.000Z"; stamp "2025-03-01T10:06:00.000Z";
   stamp "2025-03-01T10:07:00.000Z"]%string.

(** The storage of a user who has both layouts: the old root holds a cache
    of 20 messages, the new root one of 16. *)
Definition oldRootCache : ClaudeCodeStats :=
  cacheOf [day "2025-03-01" 10 2 5; day "2025-03-02" 10 2 0]%string
          [("claude-sonnet-4-20250514", usage 700)]%string
          4 20 "2025-03-01T08:00:00.000Z".

Definition newRootCache : ClaudeCodeStats :=
  cacheOf [day "2025-03-02" 7 1 3; day "2025-11-20" 9 2 1]%string
          [("claude-sonnet-4-20250514", usage 300)]%string
          3 16 "2025-03-02T08:00:00.000Z".

Definition twoRootsFS : FileSystem :=
  mkFileSystem "/home/u"
    (JS.map_get
       [("/home/u/.claude", ["stats-cache.json"]);
        ("/home/u/.config/claude", ["stats-cache.json"])]%string)
    (fun _ => None)
    (JS.map_get
       [("/home/u/.claude/stats-cache.json", oldRootCache);
        ("/home/u/.config/claude/stats-cache.json", newRootCache)]%string).

(** An activity map in which two days tie for the maximum. *)
Definition tiedDays : JS.JsMap Z :=
  [("2025-03-02", 4); ("2025-03-09", 7); ("2025-03-01", 7);
   ("2025-03-04", 0)]%string.

End Examples.


(* ================================================================== *)
(** * Quantities the statements are phrased with                       *)
(* ================================================================== *)

Module Spec.

(** The sum of a list of counts. *)
Definition total (l : list Z) : Z := fold_right Z.add 0 l.

(** A daily record belongs to the requested year. *)
Definition inYear (yr : Z) (day : DailyActivity) : bool :=
  JS.startsWith (date day) (JS.String_of_Z yr).

(** The message count a cache contributes to the requested year. *)
Definition yearMessages (yr : Z) (c : ClaudeCodeStats) : Z :=
  total (List.map messageCount (filter (inYear yr) (dailyActivity c))).

(** The number of distinct strings of a list. *)
Definition distinct (l : list string) : nat :=
  List.length (nodup string_dec l).

(** The sum of all model counts, the denominator of the model shares. *)
Definition modelTotal (mergedStats : option ClaudeCodeStats) : Z :=
  JS.sum (JS.map_values (Stats.modelCountsOf mergedStats)).








(** The streak computation as it is described: walk the sorted dates,
    extend the running streak when the next date is one day after the
    previous one, restart it with that date otherwise, and keep the first
    longest running streak seen. *)
Fixpoint longestRunFrom (rt : Runtime) (prev : string) (rest : list string)
    (run best : list string) : list string :=
  match rest with
  | [] => best
  | curr :: rest' =>
      let run' :=
        if Stats.consecutive rt prev curr then run ++ [curr] else [curr] in
      let best' :=
        if (List.length best <? List.length run')%nat then run' else best in
      longestRunFrom rt curr rest' run' best'
  end.

(** Every date of the list is one day after the date before it. *)
Fixpoint isRun (rt : Runtime) (l : list string) : Prop :=
  match l with
  | [] => True
  | x :: l' =>
      match l' with
      | [] => True
      | y :: _ => Stats.consecutive rt x y = true /\ isRun rt l'
      end
  end.

Definition longestRun (rt : Runtime) (dates : list string) : list string :=
  match dates with
  | [] => []
  | first :: rest => longestRunFrom rt first rest [first] [first]
  end.

(** [r] is the first entry of [m], in insertion order, that reaches the
    maximum count. *)
Definition firstMaximum (m : JS.JsMap Z) (r : MostActiveDay.t) : Prop :=
  exists before after,
    m = before ++ (MostActiveDay.date r, MostActiveDay.count r) :: after
    /\ (forall d c, In (d, c) before -> c < MostActiveDay.count r)
    /\ (forall d c, In (d, c) after -> c <= MostActiveDay.count r).

(** Some date of [m] has a strictly positive count. *)
Definition somePositive (m : JS.JsMap Z) : Prop :=
  exists d c, In (d, c) m /\ 0 < c.

(** The timestamps that the oldest-timestamp scan looks at: the non-empty
    [timestamp] strings among the first 10 lines of every .jsonl file of
    every project directory of a data directory. *)
Definition stampOfLine (l : Line) : list string :=
  match l with
  | Json j =>
      match j_timestamp j with
      | Some t => if String.eqb t EmptyString then [] else [t]
      | None => []
      end
  | _ => []
  end.

Definition stampsOfFile (fs : FileSystem) (projectPath f : string)
    : list string :=
  match readLines fs (join projectPath f) with
  | Some lines => flat_map stampOfLine (firstn 10 lines)
  | None => []
  end.

Definition stampsOfProject (fs : FileSystem) (projectsPath dir : string)
    : list string :=
  match readdir fs (join projectsPath dir) with
  | Some files =>
      flat_map (stampsOfFile fs (join projectsPath dir))
               (filter (fun f => JS.endsWith f ".jsonl") files)
  | None => []
  end.

Definition scannedStamps (fs : FileSystem) (base : string) : list string :=
  match readdir fs (join base "projects") with
  | Some dirs => flat_map (stampsOfProject fs (join base "projects")) dirs
  | None => []
  end.

(** [if (!oldest || t < oldest) oldest = t] on one scanned timestamp. *)
Definition takeStamp (oldest : option string) (t : string) : option string :=
  older oldest (Some t).

(** [r] is the smallest string of [l], or null when [l] is empty. *)
Definition isOldest (l : list string) (r : option string) : Prop :=
  match r with
  | Some o => In o l /\ forall t, In t l -> String.ltb t o = false
  | None => l = []
  end.

(** A message comes from a line of a session transcript: a .jsonl file,
    not prefixed "agent-", of a project directory. *)
Definition fromSessionFile (rt : Runtime) (fs : FileSystem) (yr : option Z)
    (base : string) (m : SessionMessage.t) : Prop :=
  exists dirs dir files f lines l,
    readdir fs (join base "projects") = Some dirs /\ In dir dirs
    /\ readdir fs (join (join base "projects") dir) = Some files
    /\ In f files
    /\ JS.endsWith f ".jsonl" = true /\ JS.startsWith f "agent-" = false
    /\ readLines fs (join (join (join base "projects") dir) f) = Some lines
    /\ In l lines
    /\ In m (Transcripts.messageOfLine rt yr l).

End Spec.

(* ================================================================== *)
(** * Binary64 rounding, for the statements on the percentages         *)
(* ================================================================== *)

Module F64.

(** Where the quotient [N / D] lies between its integer part and the next
    integer: on it, below, at or above the middle. *)
Definition loc (N D : Z) : location :=
  if N mod D =? 0 then loc_Exact else loc_Inexact (2 * (N mod D) ?= D).

(** The shift record [mrs] holds the integer part and the location of
    [N / D]. *)
Definition located (N D : Z) (mrs : shr_record) : Prop :=
  shr_m mrs = N / D /\ loc_of_shr_record mrs = loc N D.

(** A 53-bit mantissa. *)
Definition normal (m : positive) : Prop := 2 ^ 52 <= Z.pos m < 2 ^ 53.

(** A 53-bit mantissa [mr] at the exponent [e], brought back to 53 bits
    when rounding carried it to [2^53]. *)
Definition renorm (mr e : Z) : spec_float :=
  if mr =? 2 ^ 53 then S754_finite false (Z.to_pos (2 ^ 52)) (e + 1)
  else S754_finite false (Z.to_pos mr) e.

(** The mantissa of the binary64 value nearest to 1/200, at the exponent
    -60. *)
Definition m200 : Z := 5764607523034235.

(** The positive number [mq * 2 ^ eq], of mantissa [mq] of 53 bits, is
    below the binary64 value of 1/200, respectively at least that value. *)
Definition below_half (mq eq : Z) : Prop :=
  eq <= -61 \/ (eq = -60 /\ mq <= m200 - 1).

Definition above_half (mq eq : Z) : Prop :=
  -59 <= eq \/ (eq = -60 /\ m200 <= mq).

End F64.
(* ================================================================== *)
(** * The rest of the collectors, of stats.ts and of the callers

    - [History], [CollectorRest]   : src/unnamed/part_005, [collectHistory],
                                     [collectProjects], [getClaudeDataPath];
    - [CollectorMultiRest]         : the two-root collector.ts in
                                     src/src/image/generator.tsx, the same
                                     functions and
                                     [collectDailyActivityFromSessions];
    - [Remote]                     : src/src/remote-collector.ts;
    - [FirstSession]               : src/unnamed/part_001, the choice of
                                     [firstSessionDate] in [calculateStats];
    - [CurrentStreak]              : src/unnamed/part_001,
                                     [countStreakBackwards] and the
                                     [currentStreak] of [calculateStreaks];
    - [Summary]                    : src/unnamed/part_001, the complete
                                     return value of [calculateStats];
    - [Cli]                        : src/src/index.ts, the tests of [main]
                                     on the collected data.

    A line of history.jsonl that [JSON.parse] accepts is taken to be a
    well-typed [HistoryEntry]; a cache printed by a remote host is taken to
    be a well-typed [ClaudeCodeStats], an object without [version] being
    read with [version] 0 (which is falsy, as [undefined] is). *)
(* ================================================================== *)

Module JSString.

(** The ASCII white space that [trim] removes. *)
Definition isSpace (c : ascii) : bool :=
  let n := nat_of_ascii c in
  ((9 <=? n) && (n <=? 13) || (n =? 32))%nat%bool.

Fixpoint trimStart (s : string) : string :=
  match s with
  | EmptyString => EmptyString
  | String c r => if isSpace c then trimStart r else s
  end.

Fixpoint trimEnd (s : string) : string :=
  match s with
  | EmptyString => EmptyString
  | String c r =>
      match trimEnd r with
      | EmptyString => if isSpace c then EmptyString else String c EmptyString
      | r' => String c r'
      end
  end.

(** [s.trim()] *)
Definition trim (s : string) : string := trimEnd (trimStart s).

Fixpoint drop (n : nat) (s : string) : string :=
  match n, s with
  | O, _ => s
  | S n', String _ r => drop n' r
  | S _, EmptyString => EmptyString
  end.

(** [s.replace(pat, rep)] for a string pattern: the first occurrence. *)
Fixpoint replace (pat rep s : string) : string :=
  if String.prefix pat s then (rep ++ drop (String.length pat) s)%string
  else match s with
       | EmptyString => EmptyString
       | String c r => String c (replace pat rep r)
       end.

(** [\d] *)
Definition isDigit (c : ascii) : bool :=
  let n := nat_of_ascii c in ((48 <=? n) && (n <=? 57))%nat%bool.

(** [s.match(/^\d{4}-\d{2}-\d{2}/)] is not null. *)
Definition matchesDatePrefix (s : string) : bool :=
  match s with
  | String y1 (String y2 (String y3 (String y4 (String h1
      (String m1 (String m2 (String h2 (String d1 (String d2 _))))))))) =>
      (isDigit y1 && isDigit y2 && isDigit y3 && isDigit y4
       && Ascii.eqb h1 "-" && isDigit m1 && isDigit m2
       && Ascii.eqb h2 "-" && isDigit d1 && isDigit d2)%bool
  | _ => false
  end.

End JSString.

(* ================================================================== *)
(** * history.jsonl                                                    *)
(* ================================================================== *)

(** One element of [content.trim().split("\n")] of a history file, by what
    the loop body makes of it: blank after [trim], rejected by
    [JSON.parse], or parsed. *)
Inductive HistoryLine : Type :=
| HBlank
| HMalformed
| HEntry (entry : HistoryEntry).

(** [readFile(path, "utf-8")] of a history file, split at newlines; [None]
    when it throws. *)
Record HistoryStore : Type := mkHistoryStore {
  readHistory : string -> option (list HistoryLine)
}.

Module History.

(** [if (year) { if (new Date(entry.timestamp).getFullYear() !== year)
      continue; }] *)
Definition otherYear (rt : Runtime) (yr : option Z) (entry : HistoryEntry)
    : bool :=
  match yr with
  | None => false
  | Some y =>
      if y =? 0 then false
      else negb (getFullYear (Date_of_ms rt (timestamp entry)) =? y)
  end.

(** The body of [for (const line of lines)]. *)
Definition entryOfLine (rt : Runtime) (yr : option Z) (l : HistoryLine)
    : list HistoryEntry :=
  match l with
  | HEntry entry => if otherYear rt yr entry then [] else [entry]
  | _ => []
  end.

(** The [try] block around the read of one history file. *)
Definition entriesOf (rt : Runtime) (yr : option Z)
    (content : option (list HistoryLine)) : list HistoryEntry :=
  match content with
  | Some lines => flat_map (entryOfLine rt yr) lines
  | None => []
  end.

(** The loop of [collectProjects] and of [extractProjects]:
    [if (entry.project) projects.add(entry.project.split("/").pop()
                                     || entry.project)]. *)
Definition projectsOf (history : list HistoryEntry) : list string :=
  fold_left
    (fun projects entry =>
       if JS.truthy (Some (project entry))
       then JS.set_add projects (Stats.projectNameOf entry)
       else projects)
    history [].

End History.

(* ================================================================== *)
(** * collector.ts, one storage root: the other functions              *)
(* ================================================================== *)

Module CollectorRest.

Definition getClaudeDataPath (fs : FileSystem) : string :=
  Collector.CLAUDE_DATA_PATH fs.

Definition collectHistory (rt : Runtime) (fs : FileSystem)
    (hs : HistoryStore) (yr : option Z) : list HistoryEntry :=
  History.entriesOf rt yr
    (readHistory hs (join (Collector.CLAUDE_DATA_PATH fs) "history.jsonl")).

Definition collectProjects (rt : Runtime) (fs : FileSystem)
    (hs : HistoryStore) (yr : option Z) : list string :=
  History.projectsOf (collectHistory rt fs hs yr).

End CollectorRest.

(* ================================================================== *)
(** * collector.ts, two storage roots: the other functions             *)
(* ================================================================== *)

(** The value type of the map of [collectDailyActivityFromSessions]. *)
Module SessionActivity.
Record t : Type := mk {
  messageCount : Z;
  sessionCount : Z
}.
End SessionActivity.

Module CollectorMultiRest.

(** [paths[0] || CLAUDE_DATA_PATHS[0]] *)
Definition getClaudeDataPath (fs : FileSystem) : string :=
  let fallback := hd EmptyString (CollectorMulti.CLAUDE_DATA_PATHS fs) in
  match CollectorMulti.getValidClaudePaths fs with
  | p :: _ => JS.str_or p fallback
  | [] => fallback
  end.

Definition getAllClaudeDataPaths (fs : FileSystem) : list string :=
  CollectorMulti.getValidClaudePaths fs.

Definition collectHistory (rt : Runtime) (fs : FileSystem)
    (hs : HistoryStore) (yr : option Z) : list HistoryEntry :=
  flat_map
    (fun basePath =>
       History.entriesOf rt yr
         (readHistory hs (join basePath "history.jsonl")))
    (CollectorMulti.getValidClaudePaths fs).

Definition collectProjects (rt : Runtime) (fs : FileSystem)
    (hs : HistoryStore) (yr : option Z) : list string :=
  History.projectsOf (collectHistory rt fs hs yr).

(** [dailyActivity] and [sessionsPerDay]. *)
Definition ActivityMaps : Type :=
  (JS.JsMap SessionActivity.t * JS.JsMap JS.JsSet)%type.

(** The template string of [dateKey]; the getters of an Invalid Date are
    NaN. *)
Definition dateKeyOf (rt : Runtime) (ts : string) : string :=
  match Date_of_string rt ts with
  | Some d => Stats.formatDateKey d
  | None => "NaN-NaN-NaN"
  end.

(** [data.type === "user" || data.type === "assistant"] *)
Definition isMessage (ty : option string) : bool :=
  match ty with
  | Some t => (String.eqb t "user" || String.eqb t "assistant")%bool
  | None => false
  end.

(** The body of [for (const line of lines)] in
    [collectDailyActivityFromSessions]. *)
Definition activityOfLine (rt : Runtime) (yr : option Z) (sessionId : string)
    (st : ActivityMaps) (l : Line) : ActivityMaps :=
  match l with
  | Json j =>
      match j_timestamp j with
      | Some ts =>
          if String.eqb ts EmptyString then st
          else if Transcripts.otherYear rt yr (Some ts) then st
          else if isMessage (j_type j) then
            let '(dailyActivity, sessionsPerDay) := st in
            let dateKey := dateKeyOf rt ts in
            let existing :=
              match JS.map_get dailyActivity dateKey with
              | Some e => e
              | None => SessionActivity.mk 0 0
              end in
            (JS.map_set dailyActivity dateKey
               (SessionActivity.mk (SessionActivity.messageCount existing + 1)
                                   (SessionActivity.sessionCount existing)),
             JS.map_set sessionsPerDay dateKey
               (JS.set_add
                  (match JS.map_get sessionsPerDay dateKey with
                   | Some s => s
                   | None => []
                   end)
                  sessionId))
          else st
      | None => st
      end
  | _ => st
  end.

Definition activityOfFile (rt : Runtime) (fs : FileSystem) (yr : option Z)
    (projectPath : string) (st : ActivityMaps) (jsonlFile : string)
    : ActivityMaps :=
  let sessionId := JSString.replace ".jsonl" EmptyString jsonlFile in
  match readLines fs (join projectPath jsonlFile) with
  | Some lines => fold_left (activityOfLine rt yr sessionId) lines st
  | None => st
  end.

Definition activityOfProject (rt : Runtime) (fs : FileSystem)
    (yr : option Z) (projectsPath : string) (st : ActivityMaps)
    (projectDir : string) : ActivityMaps :=
  let projectPath := join projectsPath projectDir in
  match readdir fs projectPath with
  | Some files =>
      fold_left (activityOfFile rt fs yr projectPath)
                (filter Transcripts.isSessionFile files) st
  | None => st
  end.

Definition activityIn (rt : Runtime) (fs : FileSystem) (yr : option Z)
    (st : ActivityMaps) (basePath : string) : ActivityMaps :=
  let projectsPath := join basePath "projects" in
  match readdir fs projectsPath with
  | Some projectDirs =>
      fold_left (activityOfProject rt fs yr projectsPath) projectDirs st
  | None => st
  end.

(** [for (const [dateKey, sessions] of sessionsPerDay.entries())
      { existing.sessionCount = sessions.size }] *)
Definition updateSessionCounts (dailyActivity : JS.JsMap SessionActivity.t)
    (sessionsPerDay : JS.JsMap JS.JsSet) : JS.JsMap SessionActivity.t :=
  fold_left
    (fun daily '(dateKey, sessions) =>
       match JS.map_get daily dateKey with
       | Some existing =>
           JS.map_set daily dateKey
             (SessionActivity.mk (SessionActivity.messageCount existing)
                                 (Z.of_nat (List.length sessions)))
       | None => daily
       end)
    sessionsPerDay dailyActivity.

Definition collectDailyActivityFromSessions (rt : Runtime)
    (fs : FileSystem) (yr : option Z) : JS.JsMap SessionActivity.t :=
  let '(dailyActivity, sessionsPerDay) :=
    fold_left (activityIn rt fs yr) (CollectorMulti.getValidClaudePaths fs)
              ([], []) in
  updateSessionCounts dailyActivity sessionsPerDay.

End CollectorMultiRest.

(* ================================================================== *)
(** * remote-collector.ts (src/src/remote-collector.ts)                *)
(* ================================================================== *)

Module Remote.

(** What [execSSH] returns for the three commands that the collector
    sends to a host; [None] when [ssh] exits with a non-zero code, which
    makes [execSSH] throw. *)
Record Shell : Type := mkShell {
  (** [JSON.parse] of the output of the [cat] of stats-cache.json (or of
      ["{}"] when the file is missing); [None] also when it throws *)
  statsOutput : string -> option ClaudeCodeStats;
  (** the output of the [cat] of history.jsonl, split at newlines *)
  historyOutput : string -> option (list HistoryLine);
  (** the output of the [grep | sed | sort | head -1] pipeline *)
  oldestOutput : string -> option string
}.

(** [if (!parsed.version) return null] *)
Definition collectRemoteStatsCache (sh : Shell) (host : string)
    : option ClaudeCodeStats :=
  match statsOutput sh host with
  | Some parsed => if version parsed =? 0 then None else Some parsed
  | None => None
  end.

Definition collectRemoteHistory (rt : Runtime) (sh : Shell) (host : string)
    (yr : option Z) : list HistoryEntry :=
  History.entriesOf rt yr (historyOutput sh host).

Definition findOldestSessionTimestamp (sh : Shell) (host : string)
    : option string :=
  match oldestOutput sh host with
  | Some output =>
      let timestamp := JSString.trim output in
      if (JS.truthy (Some timestamp)
          && JSString.matchesDatePrefix timestamp)%bool
      then Some timestamp else None
  | None => None
  end.

Definition extractProjects (history : list HistoryEntry) : list string :=
  History.projectsOf history.

Definition collectFromRemoteHost (rt : Runtime) (sh : Shell) (host : string)
    (yr : option Z) : RemoteData.t :=
  let statsCache := collectRemoteStatsCache sh host in
  let history := collectRemoteHistory rt sh host yr in
  let projects := extractProjects history in
  let oldestSessionTimestamp := findOldestSessionTimestamp sh host in
  RemoteData.mk host statsCache history projects oldestSessionTimestamp.

(** The second argument of [onProgress]. *)
Inductive Status : Type := Start | Done | Error.

(** The results and the calls of [onProgress], in order.  Every [await]
    of [collectFromRemoteHost] sits in a [try] of its own, so that the
    [catch] of this loop has nothing to catch. *)
Definition collectFromAllRemoteHosts (rt : Runtime) (sh : Shell)
    (hosts : list string) (yr : option Z)
    : list RemoteData.t * list (string * Status) :=
  fold_left
    (fun '(results, progress) host =>
       let data := collectFromRemoteHost rt sh host yr in
       (results ++ [data], progress ++ [(host, Start); (host, Done)]))
    hosts ([], []).

End Remote.

(* ================================================================== *)
(** * calculateStats: the first session (src/unnamed/part_001)         *)
(* ================================================================== *)

Module FirstSession.

(** Where [firstSessionDate] comes from: [new Date(earliestTimestamp)],
    [new Date(Math.min(...timestamps))] or [new Date()]. *)
Inductive t : Type :=
| OfTimestamp (earliestTimestamp : string)
| OfHistory (firstTimestamp : Z)
| Now.

(** The three checks: the merged cache, the local session files, the
    session files of every remote. *)
Definition earliestTimestamp (mergedStats : option ClaudeCodeStats)
    (oldestLocalTimestamp : option string) (remoteData : list RemoteData.t)
    : option string :=
  let fromCache :=
    match mergedStats with
    | Some c =>
        if JS.truthy (Some (firstSessionDate c))
        then Some (firstSessionDate c) else None
    | None => None
    end in
  fold_left
    (fun earliest remote =>
       older earliest (RemoteData.oldestSessionTimestamp remote))
    remoteData (older fromCache oldestLocalTimestamp).

(** [Math.min(...mergedHistory.map((h) => h.timestamp))] on a non-empty
    history. *)
Definition minTimestamp (first : HistoryEntry) (rest : list HistoryEntry)
    : Z :=
  fold_left Z.min (List.map timestamp rest) (timestamp first).

(** [if (earliestTimestamp) ... else if (mergedHistory.length > 0) ...
    else ...] *)
Definition firstSession (mergedStats : option ClaudeCodeStats)
    (oldestLocalTimestamp : option string) (remoteData : list RemoteData.t)
    (mergedHistory : list HistoryEntry) : t :=
  let earliest :=
    earliestTimestamp mergedStats oldestLocalTimestamp remoteData in
  match earliest, mergedHistory with
  | Some ts, first :: rest =>
      if JS.truthy earliest then OfTimestamp ts
      else OfHistory (minTimestamp first rest)
  | Some ts, [] => if JS.truthy earliest then OfTimestamp ts else Now
  | None, first :: rest => OfHistory (minTimestamp first rest)
  | None, [] => Now
  end.

(** [Math.floor((Date.now() - t) / (1000 * 60 * 60 * 24))], on the exact
    quotient; [None] is NaN, for an Invalid Date. *)
Definition daysSinceFirstSession (rt : Runtime) (now : Z) (f : t)
    : option Z :=
  match f with
  | OfTimestamp ts =>
      match Date_of_string rt ts with
      | Some d => Some ((now - getTime d) / (1000 * 60 * 60 * 24))
      | None => None
      end
  | OfHistory firstTimestamp =>
      Some ((now - firstTimestamp) / (1000 * 60 * 60 * 24))
  | Now => Some 0
  end.

(** The local-only revision (src/unnamed/part_002), which looks at the
    cache and at the history only:
    [if (statsCache?.firstSessionDate) ... else if (history.length > 0)
     ... else ...]. *)
Definition firstSessionLocal (statsCache : option ClaudeCodeStats)
    (history : list HistoryEntry) : t :=
  let fromCache :=
    match statsCache with
    | Some c =>
        if JS.truthy (Some (firstSessionDate c))
        then Some (firstSessionDate c) else None
    | None => None
    end in
  match fromCache, history with
  | Some ts, _ => OfTimestamp ts
  | None, first :: rest => OfHistory (minTimestamp first rest)
  | None, [] => Now
  end.

(** [firstSessionDate]: [new Date(earliestTimestamp)],
    [new Date(firstTimestamp)] or [new Date()]; [None] is an Invalid
    Date. *)
Definition dateOf (rt : Runtime) (now : Z) (f : t) : option JSDate :=
  match f with
  | OfTimestamp ts => Date_of_string rt ts
  | OfHistory firstTimestamp => Some (Date_of_ms rt firstTimestamp)
  | Now => Some (Date_of_ms rt now)
  end.

End FirstSession.

(* ================================================================== *)
(** * calculateStreaks: the current streak (src/unnamed/part_001)      *)
(* ================================================================== *)

Module CurrentStreak.

Definition day_ms : Z := 24 * 60 * 60 * 1000.

(** The [while (true)] loop of [countStreakBackwards], with the time of
    [checkDate] and the value of [streak] on entry; [None] when [fuel]
    iterations did not reach the [break]. *)
Fixpoint countLoop (fuel : nat) (rt : Runtime) (dailyActivity : JS.JsMap Z)
    (checkTime : Z) (streak : Z) : option Z :=
  match fuel with
  | O => None
  | S fuel' =>
      let checkTime' := checkTime - day_ms in
      if JS.map_has dailyActivity
                    (Stats.formatDateKey (Date_of_ms rt checkTime'))
      then countLoop fuel' rt dailyActivity checkTime' (streak + 1)
      else Some streak
  end.

Definition countStreakBackwards (fuel : nat) (rt : Runtime)
    (dailyActivity : JS.JsMap Z) (startTime : Z) : option Z :=
  countLoop fuel rt dailyActivity startTime 1.

(** [currentStreak] of [calculateStreaks]; [now] is the time of
    [new Date()] and [Date.now()]. *)
Definition currentStreak (fuel : nat) (rt : Runtime) (now : Z)
    (dailyActivity : JS.JsMap Z) : option Z :=
  let today := Stats.formatDateKey (Date_of_ms rt now) in
  let yesterday := Stats.formatDateKey (Date_of_ms rt (now - day_ms)) in
  if JS.map_has dailyActivity today
  then countStreakBackwards fuel rt dailyActivity now
  else if JS.map_has dailyActivity yesterday
       then countStreakBackwards fuel rt dailyActivity (now - day_ms)
       else Some 0.

(** [currentStreak] as [calculateStreaks] returns it: 0, by the early
    return, when the map has no date of the year. *)
Definition ofYear (fuel : nat) (rt : Runtime) (now : Z)
    (dailyActivity : JS.JsMap Z) (yr : Z) : option Z :=
  match Stats.activeDatesOf dailyActivity yr with
  | [] => Some 0
  | _ :: _ => currentStreak fuel rt now dailyActivity
  end.

End CurrentStreak.

(* ================================================================== *)
(** * calculateStats: the complete summary (src/unnamed/part_001)      *)
(* ================================================================== *)

Module Summary.

(** The return value of [calculateStats]: the fields of [WrappedStats.t]
    and the three fields that read the clock. *)
Record t : Type := mk {
  stats : WrappedStats.t;
  (** [None] is an Invalid Date *)
  firstSessionDate : option JSDate;
  (** [None] is NaN *)
  daysSinceFirstSession : option Z;
  (** [None]: the loop of [countStreakBackwards] is still running after
      [fuel] iterations *)
  currentStreak : option Z
}.

(** [calculateStats] from the results of the four collector calls on;
    [now] is the time that [new Date()] and [Date.now()] read. *)
Definition calculateStats (fuel : nat) (rt : Runtime) (now : Z) (yr : Z)
    (local : Stats.CollectedData) (oldestLocalTimestamp : option string)
    (remoteData : list RemoteData.t) : t :=
  let merged := Stats.mergeData rt local remoteData in
  let s := Stats.calculateStats rt yr local remoteData in
  let first :=
    FirstSession.firstSession (Stats.statsCache merged) oldestLocalTimestamp
                              remoteData (Stats.history merged) in
  mk s
     (FirstSession.dateOf rt now first)
     (FirstSession.daysSinceFirstSession rt now first)
     (CurrentStreak.ofYear fuel rt now (WrappedStats.dailyActivity s) yr).

(** [calculateStats] of the local-only revision (src/unnamed/part_002)
    from the results of its three collector calls on. *)
Definition calculateStatsLocal (fuel : nat) (rt : Runtime) (now : Z) (yr : Z)
    (local : Stats.CollectedData) : t :=
  let s := StatsLocal.calculateStats rt yr local in
  let first :=
    FirstSession.firstSessionLocal (Stats.statsCache local)
                                   (Stats.history local) in
  mk s
     (FirstSession.dateOf rt now first)
     (FirstSession.daysSinceFirstSession rt now first)
     (CurrentStreak.ofYear fuel rt now (WrappedStats.dailyActivity s) yr).

End Summary.

(* ================================================================== *)
(** * The callers: calculateStats on collected data, and main          *)
(* ================================================================== *)

Module App.

(** [Promise.all([collectStatsCache(), collectHistory(year),
      collectProjects(year), ...])] with the one-root collector. *)
Definition collectLocal (rt : Runtime) (fs : FileSystem) (hs : HistoryStore)
    (yr : Z) : Stats.CollectedData :=
  Stats.mkCollectedData
    (Collector.collectStatsCache fs)
    (CollectorRest.collectHistory rt fs hs (Some yr))
    (CollectorRest.collectProjects rt fs hs (Some yr)).

(** The same with the two-root collector. *)
Definition collectLocalMulti (rt : Runtime) (fs : FileSystem)
    (hs : HistoryStore) (yr : Z) : Stats.CollectedData :=
  Stats.mkCollectedData
    (CollectorMulti.collectStatsCache fs)
    (CollectorMultiRest.collectHistory rt fs hs (Some yr))
    (CollectorMultiRest.collectProjects rt fs hs (Some yr)).

(** [calculateStats(year, remoteData)] of src/unnamed/part_001. *)
Definition calculateStats (rt : Runtime) (fs : FileSystem)
    (hs : HistoryStore) (yr : Z) (remoteData : list RemoteData.t)
    : WrappedStats.t :=
  Stats.calculateStats rt yr (collectLocal rt fs hs yr) remoteData.

(** The first session of that call. *)
Definition firstSession (rt : Runtime) (fs : FileSystem) (hs : HistoryStore)
    (yr : Z) (remoteData : list RemoteData.t) : FirstSession.t :=
  let merged := Stats.mergeData rt (collectLocal rt fs hs yr) remoteData in
  FirstSession.firstSession
    (Stats.statsCache merged)
    (Collector.findOldestLocalSessionTimestamp fs)
    remoteData
    (Stats.history merged).

(** The complete summary of that call, and of the call with the
    two-root collector. *)
Definition summary (fuel : nat) (rt : Runtime) (now : Z) (fs : FileSystem)
    (hs : HistoryStore) (yr : Z) (remoteData : list RemoteData.t)
    : Summary.t :=
  Summary.calculateStats fuel rt now yr (collectLocal rt fs hs yr)
    (Collector.findOldestLocalSessionTimestamp fs) remoteData.

Definition summaryMulti (fuel : nat) (rt : Runtime) (now : Z)
    (fs : FileSystem) (hs : HistoryStore) (yr : Z)
    (remoteData : list RemoteData.t) : Summary.t :=
  Summary.calculateStats fuel rt now yr (collectLocalMulti rt fs hs yr)
    (CollectorMulti.findOldestLocalSessionTimestamp fs) remoteData.

End App.

Module Cli.

(** [if (stats.totalSessions === 0 && stats.totalPrompts === 0)]: main
    reports that no activity was found and exits. *)
Definition noActivity (stats : WrappedStats.t) : bool :=
  ((WrappedStats.totalSessions stats =? 0)
   && (WrappedStats.totalPrompts stats =? 0))%bool.

End Cli.
(* ================================================================== *)
(** * Quantities for the statements on the rest of the code            *)
(* ================================================================== *)

Module Props.

(** The element of a [T | null], as a list. *)
Definition optlist {A : Type} (o : option A) : list A :=
  match o with
  | Some a => [a]
  | None => []
  end.

(** The caches that the merge reads: the local one, then the cache of
    every remote that has one, in the order of the remotes. *)
Definition sourceCaches (local : Stats.CollectedData)
    (remotes : list RemoteData.t) : list ClaudeCodeStats :=
  optlist (Stats.statsCache local)
  ++ flat_map (fun remote => optlist (RemoteData.statsCache remote)) remotes.

(** The usage records of a model in a list of [modelUsage] entries. *)
Definition usageRecords (id : string) (entries : JS.JsMap ModelUsage)
    : list ModelUsage :=
  List.map snd (filter (fun e => String.eqb (fst e) id) entries).

(** All the [modelUsage] entries of the contributing sources. *)
Definition sourceUsage (local : Stats.CollectedData)
    (remotes : list RemoteData.t) : JS.JsMap ModelUsage :=
  flat_map modelUsage (sourceCaches local remotes).

(** Adding usage records one after the other to what a model already
    holds, as one iteration of the remote loop does. *)
Definition addUsages (base : option ModelUsage) (us : list ModelUsage)
    : option ModelUsage :=
  fold_left
    (fun acc u =>
       Some (match acc with
             | Some existing => Stats.add_usage existing u
             | None => Stats.fresh_usage u
             end))
    us base.

(** A non-empty string, as a one-element list. *)
Definition stampOf (o : option string) : list string :=
  match o with
  | Some t => if String.eqb t EmptyString then [] else [t]
  | None => []
  end.

(** A [string | null] with the empty string read as null. *)
Definition nonEmpty (o : option string) : option string :=
  match o with
  | Some t => if String.eqb t EmptyString then None else o
  | None => None
  end.

(** The dates that [mergeData] compares for [firstSessionDate]: the local
    cache's, and for every remote that has a cache the cache's and the
    remote's oldest session timestamp; empty strings do not count. *)
Definition mergeDates (local : Stats.CollectedData)
    (remotes : list RemoteData.t) : list string :=
  match Stats.statsCache local with
  | Some c => stampOf (Some (firstSessionDate c))
  | None => []
  end
  ++ flat_map
       (fun remote =>
          match RemoteData.statsCache remote with
          | Some c =>
              stampOf (Some (firstSessionDate c))
              ++ stampOf (RemoteData.oldestSessionTimestamp remote)
          | None => []
          end)
       remotes.

(** A remote that contributes nothing: no cache, no history entry, no
    project (its oldest timestamp may be anything). *)
Definition silent (remote : RemoteData.t) : Prop :=
  RemoteData.statsCache remote = None
  /\ RemoteData.history remote = []
  /\ RemoteData.projects remote = [].

(** A remote that contributes nothing at all: it is silent and reports
    no session timestamp (null, or the empty string, which is falsy). *)
Definition quiet (remote : RemoteData.t) : Prop :=
  silent remote
  /\ nonEmpty (RemoteData.oldestSessionTimestamp remote) = None.

(** The number of history entries filed under a project name. *)
Definition promptsOf (name : string) (history : list HistoryEntry) : nat :=
  List.length
    (filter (fun e => String.eqb (Stats.projectNameOf e) name) history).

(** The number of history entries of a local calendar day. *)
Definition promptsOn (rt : Runtime) (key : string)
    (history : list HistoryEntry) : nat :=
  List.length
    (filter (fun e =>
               String.eqb (Stats.formatDateKey (Date_of_ms rt (timestamp e)))
                          key)
            history).

(** The in-year records of a cache, as entries of the activity map. *)
Definition yearEntries (yr : Z) (c : ClaudeCodeStats) : JS.JsMap Z :=
  List.map (fun day => (date day, messageCount day))
           (filter (Spec.inYear yr) (dailyActivity c)).

(** The session count a cache contributes to the requested year. *)
Definition yearSessions (yr : Z) (c : ClaudeCodeStats) : Z :=
  Spec.total
    (List.map sessionCount (filter (Spec.inYear yr) (dailyActivity c))).

(** The sum of a token field over the models of a cache; 0 without a
    cache. *)
Definition usageTotal (field : ModelUsage -> Z)
    (ms : option ClaudeCodeStats) : Z :=
  match ms with
  | Some c => Spec.total (List.map (fun e => field (snd e)) (modelUsage c))
  | None => 0
  end.

(** The entries of the lines of a history file that [JSON.parse]
    accepts. *)
Definition parsedEntries (lines : list HistoryLine) : list HistoryEntry :=
  flat_map (fun l => match l with
                     | HEntry entry => [entry]
                     | _ => []
                     end)
           lines.

(** A history entry is of the requested year: there is no year filter
    (no year, or the year 0, which is falsy), or the local year of its
    timestamp is the requested one. *)
Definition inYear (rt : Runtime) (yr : option Z) (entry : HistoryEntry)
    : bool :=
  match yr with
  | None => true
  | Some y =>
      ((y =? 0) || (getFullYear (Date_of_ms rt (timestamp entry)) =? y))%bool
  end.

(** A transcript timestamp is of the requested year: there is no year
    filter, or the timestamp is a valid date whose local year is the
    requested one. *)
Definition stampedIn (rt : Runtime) (yr : option Z) (ts : option string)
    : Prop :=
  match yr with
  | None => True
  | Some y =>
      y = 0
      \/ exists s d,
           ts = Some s /\ Date_of_string rt s = Some d /\ getFullYear d = y
  end.

(** [name] is an entry of the directory [dir]. *)
Definition listed (fs : FileSystem) (dir name : string) : Prop :=
  exists names, readdir fs dir = Some names /\ In name names.

(** A non-empty name. *)
Definition named (name : string) : bool :=
  negb (String.eqb name EmptyString).


(** The timestamps that [calculateStats] compares for the first session:
    the first session date of the merged cache, the oldest local session
    timestamp and the oldest session timestamp of every remote, with or
    without a cache; empty strings do not count. *)
Definition firstCandidates (mergedStats : option ClaudeCodeStats)
    (oldestLocalTimestamp : option string) (remoteData : list RemoteData.t)
    : list string :=
  stampOf (option_map firstSessionDate mergedStats)
  ++ stampOf oldestLocalTimestamp
  ++ flat_map (fun remote => stampOf (RemoteData.oldestSessionTimestamp remote))
              remoteData.

(** What the loops of [collectDailyActivityFromSessions] keep true of
    their two maps: a day is in both or in neither, and the sessions of a
    day are distinct, at least one, and at most as many as the messages of
    that day. *)
Definition activityInv (st : CollectorMultiRest.ActivityMaps) : Prop :=
  NoDup (JS.map_keys (fst st))
  /\ NoDup (JS.map_keys (snd st))
  /\ forall k,
       match JS.map_get (fst st) k, JS.map_get (snd st) k with
       | Some v, Some s =>
           NoDup s
           /\ (1 <= List.length s)%nat
           /\ Z.of_nat (List.length s) <= SessionActivity.messageCount v
           /\ SessionActivity.sessionCount v = 0
       | None, None => True
       | _, _ => False
       end.

(** The key of the day [i] days before [now]. *)
Definition walkKey (rt : Runtime) (now : Z) (i : nat) : string :=
  Stats.formatDateKey
    (Date_of_ms rt (now - Z.of_nat i * CurrentStreak.day_ms)).

(** The activity map has the day [i] days before [now]. *)
Definition present (rt : Runtime) (now : Z) (m : JS.JsMap Z) (i : nat)
    : bool :=
  JS.map_has m (walkKey rt now i).

(** A summary with another [totalTokens]. *)
Definition withTotalTokens (s : WrappedStats.t) (n : Z) : WrappedStats.t :=
  WrappedStats.mk
    (WrappedStats.year s) (WrappedStats.totalSessions s)
    (WrappedStats.totalMessages s) (WrappedStats.totalProjects s)
    (WrappedStats.totalPrompts s) (WrappedStats.totalInputTokens s)
    (WrappedStats.totalOutputTokens s) n
    (WrappedStats.totalCacheReadTokens s)
    (WrappedStats.totalCacheWriteTokens s) (WrappedStats.totalCost s)
    (WrappedStats.hasCostData s) (WrappedStats.topModels s)
    (WrappedStats.topProviders s) (WrappedStats.maxStreak s)
    (WrappedStats.maxStreakDays s) (WrappedStats.dailyActivity s)
    (WrappedStats.mostActiveDay s) (WrappedStats.weekdayActivity s)
    (WrappedStats.topProjects s) (WrappedStats.longestSession s).

(** A summary with another [longestSession]. *)
Definition withLongestSession (s : WrappedStats.t) (l : option (Z * Z))
    : WrappedStats.t :=
  WrappedStats.mk
    (WrappedStats.year s) (WrappedStats.totalSessions s)
    (WrappedStats.totalMessages s) (WrappedStats.totalProjects s)
    (WrappedStats.totalPrompts s) (WrappedStats.totalInputTokens s)
    (WrappedStats.totalOutputTokens s) (WrappedStats.totalTokens s)
    (WrappedStats.totalCacheReadTokens s)
    (WrappedStats.totalCacheWriteTokens s) (WrappedStats.totalCost s)
    (WrappedStats.hasCostData s) (WrappedStats.topModels s)
    (WrappedStats.topProviders s) (WrappedStats.maxStreak s)
    (WrappedStats.maxStreakDays s) (WrappedStats.dailyActivity s)
    (WrappedStats.mostActiveDay s) (WrappedStats.weekdayActivity s)
    (WrappedStats.topProjects s) l.

(** [counts[i]] for an integer index. *)
Definition at_index (cs : list Z) (i : Z) : Z := nth (Z.to_nat i) cs 0.

End Props.

(* ================================================================== *)
(** * More concrete inputs                                             *)
(* ================================================================== *)

Module MoreExamples.

Definition tokens (i o r w : Z) : ModelUsage :=
  mkModelUsage i o r w 7 PrimFloat.zero 200000.

(** A local cache with two models and two remote hosts; the first model is
    in all three caches, the third one only in a remote cache. *)
Definition localUsage : Stats.CollectedData :=
  Stats.mkCollectedData
    (Some (Examples.cacheOf []
             [("claude-sonnet-4-20250514", tokens 100 50 900 100);
              ("claude-opus-4-20250514", tokens 10 5 0 0)]%string
             4 20 "2025-03-01T08:00:00.000Z"))
    [Examples.entry 1740787200000 "/home/u/app" "s1"]%string
    ["app"; "app"; "lib"]%string.

Definition remoteUsage : list RemoteData.t :=
  [RemoteData.mk "alice@build"
     (Some (Examples.cacheOf []
              [("claude-sonnet-4-20250514", tokens 1 2 3 4);
               ("claude-3-5-haiku-20241022", tokens 8 8 8 8)]%string
              3 16 "2025-02-27T08:00:00.000Z"))
     [Examples.entry 1740787260000 "/srv/app" "r1";
      Examples.entry 1740787320000 "/srv/tools" "r1"]%string
     ["app"; "tools"]%string
     (Some "2025-01-15T10:00:00.000Z"%string);
   RemoteData.mk "alice@laptop" None
     [Examples.entry 1740787380000 "/Users/alice/lib" "l1"]%string
     ["lib"]%string
     (Some "2024-06-01T10:00:00.000Z"%string);
   RemoteData.mk "alice@ci"
     (Some (Examples.cacheOf []
              [("claude-sonnet-4-20250514", tokens 1000 2000 3000 4000)]%string
              11 101 "2025-03-01T09:00:00.000Z"))
     [] [] None]%string.

(** A history file of four entries, one of 2024, one without a project
    and one whose project path ends in a slash, with a blank and a
    malformed line. *)
Definition historyStore : HistoryStore :=
  mkHistoryStore
    (JS.map_get
       [("/home/u/.claude/history.jsonl"%string,
         [HEntry (Examples.entry 1740787200000 "/home/u/app" "s1");
          HBlank; HMalformed;
          HEntry (Examples.entry 1709251200000 "/home/u/old" "s0");
          HEntry (Examples.entry 1740873600000 "" "s1");
          HEntry (Examples.entry 1740960000000 "/home/u/lib/" "s2")]%string)]).

(** Two session transcripts of the same project, with messages on two
    days. *)
Definition activityFS : FileSystem :=
  mkFileSystem "/home/u"
    (JS.map_get
       [("/home/u/.claude", ["projects"]);
        ("/home/u/.claude/projects", ["-home-u-app"]);
        ("/home/u/.claude/projects/-home-u-app",
         ["agent-7f3a.jsonl"; "c0ffee.jsonl"; "decaf.jsonl"])]%string)
    (JS.map_get
       [("/home/u/.claude/projects/-home-u-app/agent-7f3a.jsonl",
         [Examples.stamp "2025-03-01T09:00:00.000Z"]);
        ("/home/u/.claude/projects/-home-u-app/c0ffee.jsonl",
         [Examples.stamp "2025-03-01T10:00:00.000Z"; Blank;
          Examples.stamp "2025-03-01T10:01:00.000Z";
          Examples.stamp "2025-03-02T10:00:00.000Z";
          Examples.stamp "2024-12-31T23:00:00.000Z"]);
        ("/home/u/.claude/projects/-home-u-app/decaf.jsonl",
         [Examples.stamp "2025-03-02T11:00:00.000Z"; Malformed;
          Examples.stamp "2025-03-02T11:05:00.000Z"])]%string)
    (fun _ => None).

(** Transcripts under both storage roots: two assistant turns with
    usage data of 2025, one of 2024, a user turn, an assistant turn
    without usage data, and a sub-agent transcript. *)
Definition twoRootsTranscripts : FileSystem :=
  mkFileSystem "/home/u"
    (JS.map_get
       [("/home/u/.claude", ["projects"]);
        ("/home/u/.config/claude", ["projects"]);
        ("/home/u/.claude/projects", ["-home-u-app"]);
        ("/home/u/.config/claude/projects", ["-home-u-lib"]);
        ("/home/u/.claude/projects/-home-u-app",
         ["agent-7f3a.jsonl"; "c0ffee.jsonl"]);
        ("/home/u/.config/claude/projects/-home-u-lib",
         ["decaf.jsonl"; "notes.txt"])]%string)
    (JS.map_get
       [("/home/u/.claude/projects/-home-u-app/agent-7f3a.jsonl",
         [Examples.stamp "2025-02-01T09:00:00.000Z"]);
        ("/home/u/.claude/projects/-home-u-app/c0ffee.jsonl",
         [Examples.stamp "2025-03-01T10:00:00.000Z"; Blank;
          Json (mkTranscriptJson (Some "user") "c0ffee"
                  (Some "2025-03-01T10:00:30.000Z") None false);
          Examples.stamp "2024-12-31T23:00:00.000Z"]);
        ("/home/u/.config/claude/projects/-home-u-lib/decaf.jsonl",
         [Json (mkTranscriptJson (Some "assistant") "decaf"
                  (Some "2025-11-20T08:00:00.000Z")
                  (Some "claude-opus-4-20250514") true);
          Malformed;
          Json (mkTranscriptJson (Some "assistant") "decaf"
                  (Some "2025-11-20T08:01:00.000Z")
                  (Some "claude-opus-4-20250514") false)]);
        ("/home/u/.config/claude/projects/-home-u-lib/notes.txt",
         [Examples.stamp "2025-01-01T00:00:00.000Z"])]%string)
    (fun _ => None).

(** A shell on which every command fails. *)
Definition deadShell : Remote.Shell :=
  Remote.mkShell (fun _ => None) (fun _ => None) (fun _ => None).

(** Activity on the last three days of 2025 and on 2025-12-27. *)
Definition lastDays : JS.JsMap Z :=
  [("2025-12-27", 4); ("2025-12-30", 3); ("2025-12-29", 1);
   ("2025-12-31", 2)]%string.

(** A host that could not be reached. *)
Definition unreachable (host : string) : RemoteData.t :=
  RemoteData.mk host None [] [] None.

(** Noon of 2025-12-31 (UTC), the time of [now_ISO utcRuntime], in
    milliseconds. *)
Definition noon : Z := 1767182400000.

End MoreExamples.
(* ================================================================== *)
(** * Facts about the built-ins                                        *)
(* ================================================================== *)

Section MapFacts.
Context {V : Type}.
Implicit Types (m : JS.JsMap V) (k : string) (v : V).

Lemma map_get_set_eq m k v : JS.map_get (JS.map_set m k v) k = Some v.
Proof.
  induction m as [|[k' v'] m IH]; simpl.
  - now rewrite String.eqb_refl.
  - destruct (String.eqb_spec k' k) as [->|Hne]; simpl.
    + now rewrite String.eqb_refl.
    + destruct (String.eqb_spec k' k); [contradiction|exact IH].
Qed.

Lemma map_get_set_neq m k k' v :
  k <> k' -> JS.map_get (JS.map_set m k v) k' = JS.map_get m k'.
Proof.
  intros Hne. induction m as [|[k0 v0] m IH]; simpl.
  - destruct (String.eqb_spec k k'); [contradiction|reflexivity].
  - destruct (String.eqb_spec k0 k) as [->|Hk]; simpl.
    + destruct (String.eqb_spec k k'); [contradiction|reflexivity].
    + now rewrite IH.
Qed.

Lemma map_get_In m k v : JS.map_get m k = Some v -> In (k, v) m.
Proof.
  induction m as [|[k' v'] m IH]; simpl; [discriminate|].
  destruct (String.eqb_spec k' k) as [->|Hne].
  - intros [= ->]. now left.
  - intros H. right. now apply IH.
Qed.

Lemma map_get_None m k :
  JS.map_get m k = None <-> ~ In k (JS.map_keys m).
Proof.
  induction m as [|[k' v'] m IH]; simpl.
  - tauto.
  - destruct (String.eqb_spec k' k) as [->|Hne].
    + split; [discriminate|intros H; exfalso; apply H; now left].
    + rewrite IH. split.
      * intros H [Hk|Hk]; [contradiction|now apply H].
      * intros H Hk. apply H. now right.
Qed.

Lemma map_keys_set m k v :
  JS.map_keys (JS.map_set m k v)
  = if JS.map_has m k then JS.map_keys m else JS.map_keys m ++ [k].
Proof.
  unfold JS.map_has.
  induction m as [|[k' v'] m IH]; simpl; [reflexivity|].
  destruct (String.eqb_spec k' k) as [->|Hne]; simpl; [reflexivity|].
  rewrite IH. now destruct (JS.map_get m k).
Qed.

Lemma map_set_In m k v x w :
  In (x, w) (JS.map_set m k v) -> In (x, w) m \/ (x = k /\ w = v).
Proof.
  induction m as [|[k' v'] m IH]; simpl.
  - intros [[= <- <-]|[]]. now right.
  - destruct (String.eqb_spec k' k) as [->|Hne]; simpl.
    + intros [[= <- <-]|H]; [now right|left; now right].
    + intros [H|H]; [left; now left|].
      destruct (IH H) as [H'|H']; [left; now right|now right].
Qed.

Lemma map_keys_NoDup_set m k v :
  NoDup (JS.map_keys m) -> NoDup (JS.map_keys (JS.map_set m k v)).
Proof.
  intros Hnd. rewrite map_keys_set. unfold JS.map_has.
  destruct (JS.map_get m k) eqn:Hg; [exact Hnd|].
  apply map_get_None in Hg.
  apply NoDup_app; [exact Hnd|repeat constructor; intros []|].
  intros x Hx [<- | []]. contradiction.
Qed.
End MapFacts.
(* ================================================================== *)
(** * Binary64 arithmetic on counts                                    *)
(* ================================================================== *)

(** The operations of [PrimFloat] are specified by [SpecFloat] through the
    library's axioms ([div_spec], [mul_spec], [Prim2SF_SF2Prim]).  The
    lemmas below follow a quotient of two integers through [SFdiv],
    [SFmul] and [Math.round]. *)

Lemma loc_of_record_of_loc m l :
  loc_of_shr_record (shr_record_of_loc m l) = l
  /\ shr_m (shr_record_of_loc m l) = m.
Proof. destruct l as [|[]]; split; reflexivity. Qed.

Lemma div2_parts (N D : Z) :
  0 <= N -> 0 < D ->
  N / (2 * D) = (N / D) / 2
  /\ N mod (2 * D) = D * ((N / D) mod 2) + N mod D.
Proof.
  intros HN HD.
  assert (H1 : N / (2 * D) = (N / D) / 2).
  { rewrite (Z.mul_comm 2 D). rewrite Z.div_div; lia. }
  split; [exact H1|].
  pose proof (Z.div_mod N (2 * D) ltac:(lia)) as E1.
  pose proof (Z.div_mod N D ltac:(lia)) as E2.
  pose proof (Z.div_mod (N / D) 2 ltac:(lia)) as E3.
  rewrite H1 in E1. nia.
Qed.

Lemma shr_1_located (N D : Z) (mrs : shr_record) :
  0 <= N -> 0 < D -> F64.located N D mrs -> F64.located N (2 * D) (shr_1 mrs).
Proof.
  intros HN HD [Hm Hl].
  destruct (div2_parts N D HN HD) as [Hq Hr].
  pose proof (Z.mod_pos_bound N D HD) as Hb.
  pose proof (Z.div_pos N D HN HD) as Hq0.
  unfold F64.located, F64.loc in *. rewrite Hq, Hr.
  destruct mrs as [m r s]. cbn [shr_m] in Hm. subst m.
  set (q := N / D) in *. set (rho := N mod D) in *.
  assert (Hloc : (r = false /\ s = false /\ rho = 0)
                 \/ (r = false /\ s = true /\ 0 < rho /\ 2 * rho < D)
                 \/ (r = true /\ s = false /\ 2 * rho = D)
                 \/ (r = true /\ s = true /\ 2 * rho > D)).
  { cbn [loc_of_shr_record] in Hl.
    destruct (Z.eqb_spec rho 0) as [E|E].
    - destruct r, s; try discriminate. left. auto.
    - destruct (Z.compare_spec (2 * rho) D) as [C|C|C];
        destruct r, s; try discriminate; intuition lia. }
  clear Hl.
  destruct q as [|p|p]; [| |lia].
  - (* q = 0 *)
    cbn [shr_1 shr_m loc_of_shr_record Z.div Z.modulo Z.div_eucl].
    change (0 / 2) with 0. change (0 mod 2) with 0.
    replace (D * 0 + rho) with rho by lia.
    destruct Hloc
      as [(-> & -> & E)|[(-> & -> & E)|[(-> & -> & E)|(-> & -> & E)]]];
      cbn [orb shr_m loc_of_shr_record]; split; try reflexivity.
    + rewrite E. reflexivity.
    + destruct (Z.eqb_spec rho 0); [lia|].
      destruct (Z.compare_spec (2 * rho) (2 * D)); try lia. reflexivity.
    + destruct (Z.eqb_spec rho 0); [lia|].
      destruct (Z.compare_spec (2 * rho) (2 * D)); try lia. reflexivity.
    + destruct (Z.eqb_spec rho 0); [lia|].
      destruct (Z.compare_spec (2 * rho) (2 * D)); try lia. reflexivity.
  - assert (Hp2 : Z.pos p / 2 = match p with
                                 | xH => 0
                                 | xO p' => Z.pos p' | xI p' => Z.pos p'
                                 end
                  /\ Z.pos p mod 2 = match p with
                                     | xO _ => 0 | _ => 1 end).
    { destruct p as [p'|p'|].
      - rewrite Pos2Z.inj_xI. split.
        + symmetry. apply (Z.div_unique _ 2 _ 1); lia.
        + symmetry. apply (Z.mod_unique _ 2 (Z.pos p') 1); lia.
      - rewrite Pos2Z.inj_xO. split.
        + symmetry. apply (Z.div_unique _ 2 _ 0); lia.
        + symmetry. apply (Z.mod_unique _ 2 (Z.pos p') 0); lia.
      - split; reflexivity. }
    destruct Hp2 as [Hd Hmod]. rewrite Hd, Hmod.
    destruct p as [p'|p'|]; cbn [shr_1 shr_m loc_of_shr_record];
      destruct Hloc
        as [(-> & -> & E)|[(-> & -> & E)|[(-> & -> & E)|(-> & -> & E)]]];
      cbn [orb shr_m loc_of_shr_record]; split; try reflexivity;
      destruct (Z.eqb_spec (D * 1 + rho) 0); try lia;
      destruct (Z.eqb_spec (D * 0 + rho) 0); try lia;
      try (destruct (Z.compare_spec (2 * (D * 1 + rho)) (2 * D)); try lia;
           reflexivity);
      try (destruct (Z.compare_spec (2 * (D * 0 + rho)) (2 * D)); try lia;
           reflexivity).
Qed.

Lemma pow_xO (p : positive) : 2 ^ Z.pos p~0 = 2 ^ Z.pos p * 2 ^ Z.pos p.
Proof.
  rewrite <- Z.pow_add_r by lia. f_equal. lia.
Qed.

Lemma pow_xI (p : positive) : 2 ^ Z.pos p~1 = 2 * (2 ^ Z.pos p * 2 ^ Z.pos p).
Proof.
  rewrite <- Z.pow_add_r by lia. rewrite <- Z.pow_succ_r by lia. f_equal. lia.
Qed.

Lemma iter_shr_located (p : positive) (N D : Z) (mrs : shr_record) :
  0 <= N -> 0 < D -> F64.located N D mrs ->
  F64.located N (D * 2 ^ Z.pos p) (iter_pos shr_1 p mrs).
Proof.
  intros HN. revert D mrs.
  induction p as [p IH|p IH|]; intros D mrs HD H; cbn [iter_pos].
  - replace (D * 2 ^ Z.pos p~1) with (((2 * D) * 2 ^ Z.pos p) * 2 ^ Z.pos p)
      by (rewrite pow_xI; ring).
    assert (0 < 2 ^ Z.pos p) by (apply Z.pow_pos_nonneg; lia).
    apply IH; [nia|]. apply IH; [lia|]. now apply shr_1_located.
  - replace (D * 2 ^ Z.pos p~0) with ((D * 2 ^ Z.pos p) * 2 ^ Z.pos p)
      by (rewrite pow_xO; ring).
    assert (0 < 2 ^ Z.pos p) by (apply Z.pow_pos_nonneg; lia).
    apply IH; [nia|]. now apply IH.
  - rewrite Z.pow_1_r, Z.mul_comm. now apply shr_1_located.
Qed.

(** [shr] by [n >= 0]. *)
Lemma shr_located (n e N D : Z) (mrs : shr_record) :
  0 <= N -> 0 < D -> 0 <= n -> F64.located N D mrs ->
  F64.located N (D * 2 ^ n) (fst (shr mrs e n)) /\ snd (shr mrs e n) = e + n.
Proof.
  intros HN HD Hn H. destruct n as [|p|p]; [| |lia]; cbn [shr fst snd].
  - rewrite Z.pow_0_r, Z.mul_1_r. split; [exact H|lia].
  - split; [now apply iter_shr_located|reflexivity].
Qed.

Lemma digits2_pos_bounds (p : positive) :
  2 ^ (Z.pos (digits2_pos p) - 1) <= Z.pos p < 2 ^ Z.pos (digits2_pos p).
Proof.
  induction p as [p IH|p IH|]; cbn [digits2_pos].
  - rewrite Pos2Z.inj_succ. change (Z.pos p~1) with (2 * Z.pos p + 1).
    replace (Z.succ (Z.pos (digits2_pos p)) - 1)
      with (Z.pos (digits2_pos p) - 1 + 1) by lia.
    unfold Z.succ. rewrite !Z.pow_add_r, Z.pow_1_r by lia. lia.
  - rewrite Pos2Z.inj_succ. change (Z.pos p~0) with (2 * Z.pos p).
    replace (Z.succ (Z.pos (digits2_pos p)) - 1)
      with (Z.pos (digits2_pos p) - 1 + 1) by lia.
    unfold Z.succ. rewrite !Z.pow_add_r, Z.pow_1_r by lia. lia.
  - cbn. lia.
Qed.

Lemma Zdigits2_bounds (m : Z) :
  0 < m -> 2 ^ (Zdigits2 m - 1) <= m < 2 ^ Zdigits2 m.
Proof.
  destruct m as [|p|p]; try lia. intros _. apply digits2_pos_bounds.
Qed.

Lemma Zdigits2_unique (m d : Z) :
  2 ^ (d - 1) <= m < 2 ^ d -> 0 < m -> Zdigits2 m = d.
Proof.
  intros [Hlo Hhi] Hm.
  destruct (Zdigits2_bounds m Hm) as [Hlo' Hhi'].
  assert (Hd : 0 < Zdigits2 m) by (destruct m; cbn; lia).
  assert (Hd' : 0 < d).
  { destruct (Z.ltb_spec 0 d); [assumption|].
    destruct (Z.eq_dec d 0) as [->|Hne]; [cbn in Hhi; lia|].
    rewrite Z.pow_neg_r in Hhi by lia. lia. }
  destruct (Z.lt_trichotomy (Zdigits2 m) d) as [C|[C|C]]; [|exact C|].
  - assert (2 ^ Zdigits2 m <= 2 ^ (d - 1)) by (apply Z.pow_le_mono_r; lia).
    lia.
  - assert (2 ^ d <= 2 ^ (Zdigits2 m - 1)) by (apply Z.pow_le_mono_r; lia).
    lia.
Qed.

(** Rounding to nearest, ties to even, against a bound. *)
Lemma RNE_cases (N D : Z) :
  0 <= N -> 0 < D ->
  let m := N / D in
  let r := round_nearest_even m (F64.loc N D) in
  (r = m /\ 2 * N <= (2 * m + 1) * D)
  \/ (r = m + 1 /\ (2 * m + 1) * D <= 2 * N).
Proof.
  intros HN HD m r. subst r. unfold F64.loc.
  pose proof (Z.div_mod N D ltac:(lia)) as E.
  pose proof (Z.mod_pos_bound N D HD) as Hb.
  fold m in E.
  destruct (Z.eqb_spec (N mod D) 0) as [Z0|NZ]; cbn [round_nearest_even].
  - left. split; [reflexivity|nia].
  - destruct (Z.compare_spec (2 * (N mod D)) D) as [C|C|C];
      cbn [round_nearest_even].
    + destruct (Z.even m); [left|right]; split; try reflexivity; nia.
    + left. split; [reflexivity|nia].
    + right. split; [reflexivity|nia].
Qed.

Lemma RNE_upper (N D b : Z) :
  0 <= N -> 0 < D -> 2 * N < (2 * b + 1) * D ->
  round_nearest_even (N / D) (F64.loc N D) <= b.
Proof.
  intros HN HD H.
  pose proof (Z.div_mod N D ltac:(lia)) as E.
  pose proof (Z.mod_pos_bound N D HD) as Hb.
  destruct (RNE_cases N D HN HD) as [[-> Hc]|[-> Hc]]; nia.
Qed.

Lemma RNE_lower (N D b : Z) :
  0 <= N -> 0 < D -> (2 * b - 1) * D < 2 * N ->
  b <= round_nearest_even (N / D) (F64.loc N D).
Proof.
  intros HN HD H.
  pose proof (Z.div_mod N D ltac:(lia)) as E.
  pose proof (Z.mod_pos_bound N D HD) as Hb.
  destruct (RNE_cases N D HN HD) as [[-> Hc]|[-> Hc]]; nia.
Qed.

Lemma fexp_normal (e : Z) : -1021 <= e -> fexp prec emax e = e - 53.
Proof. intros H. unfold fexp, SpecFloat.emin, prec, emax. lia. Qed.

Lemma div_pow2_bounds (mx d n : Z) :
  0 <= n -> 2 ^ (d - 1) <= mx < 2 ^ d -> d - n = 53 ->
  2 ^ 52 <= mx / 2 ^ n < 2 ^ 53.
Proof.
  intros Hn [Hlo Hhi] Hd.
  assert (Hp : 0 < 2 ^ n) by (apply Z.pow_pos_nonneg; lia).
  replace (d - 1) with (52 + n) in Hlo by lia.
  replace d with (53 + n) in Hhi by lia.
  rewrite Z.pow_add_r in Hlo, Hhi by lia.
  split.
  - apply Z.div_le_lower_bound; lia.
  - apply Z.div_lt_upper_bound; lia.
Qed.

(** [binary_round_aux] on a positive value [N / D * 2 ^ ex] whose integer
    part [mx] has at least 53 bits, away from the subnormal range and from
    overflow: the 53-bit mantissa is the value at the scale of the
    result, rounded to nearest, ties to even. *)
Lemma bra_normal (mx ex N D : Z) (lx : location) :
  0 <= N -> 0 < D -> mx = N / D -> lx = F64.loc N D -> 0 < mx ->
  53 <= Zdigits2 mx -> -1074 <= ex + Zdigits2 mx - 53 <= 970 ->
  let n := Zdigits2 mx - 53 in
  let mr := round_nearest_even (N / (D * 2 ^ n)) (F64.loc N (D * 2 ^ n)) in
  2 ^ 52 <= N / (D * 2 ^ n) < 2 ^ 53
  /\ binary_round_aux prec emax false mx ex lx
     = if mr =? 2 ^ 53
       then S754_finite false (Z.to_pos (2 ^ 52)) (ex + n + 1)
       else S754_finite false (Z.to_pos mr) (ex + n).
Proof.
  intros HN HD Hmx Hlx Hpos Hd Hex n mr.
  assert (Hn : 0 <= n) by (subst n; lia).
  assert (Hp : 0 < 2 ^ n) by (apply Z.pow_pos_nonneg; lia).
  assert (Hm1 : 2 ^ 52 <= N / (D * 2 ^ n) < 2 ^ 53).
  { rewrite <- Z.div_div by lia. rewrite <- Hmx.
    apply (div_pow2_bounds mx (Zdigits2 mx) n Hn); [|subst n; lia].
    now apply Zdigits2_bounds. }
  split; [exact Hm1|].
  unfold binary_round_aux, shr_fexp.
  rewrite fexp_normal by lia.
  replace (Zdigits2 mx + ex - 53 - ex) with n by (subst n; lia).
  assert (Hloc0 : F64.located N D (shr_record_of_loc mx lx)).
  { destruct (loc_of_record_of_loc mx lx) as [H1 H2].
    split; [now rewrite H2|now rewrite H1]. }
  destruct (shr_located n ex N D _ HN HD Hn Hloc0) as [[Hm Hl] He].
  destruct (shr (shr_record_of_loc mx lx) ex n) as [mrs' e'].
  cbn [fst snd] in Hm, Hl, He. subst e'. rewrite Hm, Hl. fold mr.
  assert (Hmr : 2 ^ 52 <= mr <= 2 ^ 53).
  { subst mr.
    assert (0 < D * 2 ^ n) by nia.
    destruct (RNE_cases N (D * 2 ^ n) HN H) as [[-> _]|[-> _]]; lia. }
  destruct (Z.eqb_spec mr (2 ^ 53)) as [E|NE].
  - rewrite E. change (Zdigits2 (2 ^ 53)) with 54.
    rewrite fexp_normal by lia.
    replace (54 + (ex + n) - 53 - (ex + n)) with 1 by lia.
    cbn [shr_record_of_loc shr iter_pos].
    cbn [Z.pow Z.pow_pos Pos.iter Z.mul Pos.mul shr_1 shr_m].
    replace (ex + n + 1 <=? emax - prec) with true
      by (symmetry; apply Z.leb_le; unfold emax, prec; lia).
    reflexivity.
  - assert (Hdig : Zdigits2 mr = 53).
    { apply Zdigits2_unique; [|lia]. change (53 - 1) with 52. lia. }
    rewrite Hdig. rewrite fexp_normal by lia.
    replace (53 + (ex + n) - 53 - (ex + n)) with 0 by lia.
    cbn [shr_record_of_loc shr shr_m].
    destruct mr as [|p|p];
      try (change (2 ^ 52) with 4503599627370496 in Hmr; lia).
    replace (ex + n <=? emax - prec) with true
      by (symmetry; apply Z.leb_le; unfold emax, prec; lia).
    reflexivity.
Qed.

Lemma new_location_loc (N D : Z) :
  0 <= N -> 0 < D -> new_location D (N mod D) = F64.loc N D.
Proof.
  intros HN HD. pose proof (Z.mod_pos_bound N D HD) as Hb.
  unfold new_location, new_location_even, new_location_odd, F64.loc.
  destruct (Z.even D) eqn:Ev; [reflexivity|].
  destruct (Z.eqb_spec (N mod D) 0) as [E|NE]; [reflexivity|].
  assert (Hodd : Z.odd D = true) by (rewrite <- Z.negb_even, Ev; reflexivity).
  apply Z.odd_spec in Hodd as [k Hk].
  f_equal.
  destruct (Z.compare_spec (2 * (N mod D) + 1) D);
    destruct (Z.compare_spec (2 * (N mod D)) D); try reflexivity; lia.
Qed.

Lemma normal_digits (m : positive) : F64.normal m -> Zdigits2 (Z.pos m) = 53.
Proof.
  intros H. apply Zdigits2_unique; [|lia]. change (53 - 1) with 52. exact H.
Qed.

(** The quotient of two positive numbers of 53-bit mantissas. *)
Lemma SFdiv_normal (m1 m2 : positive) (e1 e2 : Z) :
  F64.normal m1 -> F64.normal m2 -> -1000 <= e1 - e2 <= 1000 ->
  let N := Z.pos m1 * 2 ^ 53 in
  let n := if Z.pos m1 <? Z.pos m2 then 0 else 1 in
  let D := Z.pos m2 * 2 ^ n in
  let mr := round_nearest_even (N / D) (F64.loc N D) in
  2 ^ 52 <= N / D < 2 ^ 53
  /\ SFdiv prec emax (S754_finite false m1 e1) (S754_finite false m2 e2)
     = if mr =? 2 ^ 53
       then S754_finite false (Z.to_pos (2 ^ 52)) (e1 - e2 - 53 + n + 1)
       else S754_finite false (Z.to_pos mr) (e1 - e2 - 53 + n).
Proof.
  intros H1 H2 He N n D mr.
  unfold SFdiv, SFdiv_core_binary. cbn [xorb].
  rewrite (normal_digits m1 H1), (normal_digits m2 H2).
  replace (53 + e1 - (53 + e2)) with (e1 - e2) by lia.
  rewrite fexp_normal by lia.
  replace (Z.min (e1 - e2 - 53) (e1 - e2)) with (e1 - e2 - 53) by lia.
  replace (e1 - e2 - (e1 - e2 - 53)) with 53 by lia.
  cbv iota beta.
  rewrite Z.shiftl_mul_pow2 by lia. fold N.
  assert (HN : 0 <= N) by (subst N; lia).
  assert (Hqr : Z.div_eucl N (Z.pos m2) = (N / Z.pos m2, N mod Z.pos m2)).
  { unfold Z.div, Z.modulo. now destruct (Z.div_eucl N (Z.pos m2)). }
  rewrite Hqr. rewrite new_location_loc by lia.
  unfold F64.normal in H1, H2.
  change (2 ^ 52) with 4503599627370496 in *.
  change (2 ^ 53) with 9007199254740992 in *.
  assert (Hq : if Z.pos m1 <? Z.pos m2
               then 4503599627370496 <= N / Z.pos m2 < 9007199254740992
               else 9007199254740992 <= N / Z.pos m2 < 2 * 9007199254740992).
  { destruct (Z.ltb_spec (Z.pos m1) (Z.pos m2)); split;
      try (apply Z.div_le_lower_bound; subst N; lia);
      apply Z.div_lt_upper_bound; subst N; lia. }
  assert (Hdig : Zdigits2 (N / Z.pos m2) = 53 + n).
  { subst n. destruct (Z.pos m1 <? Z.pos m2).
    - apply Zdigits2_unique; [|lia].
      change (2 ^ (53 + 0 - 1)) with 4503599627370496.
      change (2 ^ (53 + 0)) with 9007199254740992. exact Hq.
    - apply Zdigits2_unique; [|lia].
      change (2 ^ (53 + 1 - 1)) with 9007199254740992.
      change (2 ^ (53 + 1)) with (2 * 9007199254740992). exact Hq. }
  assert (Hpos : 0 < N / Z.pos m2) by (destruct (Z.pos m1 <? Z.pos m2); lia).
  destruct (bra_normal (N / Z.pos m2) (e1 - e2 - 53) N (Z.pos m2)
              (F64.loc N (Z.pos m2)) HN ltac:(lia) eq_refl eq_refl Hpos)
    as [Hb Hr].
  - rewrite Hdig. subst n. destruct (Z.pos m1 <? Z.pos m2); lia.
  - rewrite Hdig. subst n. destruct (Z.pos m1 <? Z.pos m2); lia.
  - rewrite Hdig in Hb, Hr.
    replace (53 + n - 53) with n in Hb, Hr by lia.
    fold D in Hb, Hr. fold mr in Hr.
    change (2 ^ 52) with 4503599627370496 in *.
    change (2 ^ 53) with 9007199254740992 in *.
    split; [exact Hb|exact Hr].
Qed.

(** The product of two positive numbers of 53-bit mantissas. *)
Lemma SFmul_normal (m1 m2 : positive) (e1 e2 : Z) :
  F64.normal m1 -> F64.normal m2 -> -1000 <= e1 + e2 <= 800 ->
  let N := Z.pos m1 * Z.pos m2 in
  let n := if N <? 2 ^ 105 then 52 else 53 in
  let mr := round_nearest_even (N / 2 ^ n) (F64.loc N (2 ^ n)) in
  2 ^ 52 <= N / 2 ^ n < 2 ^ 53
  /\ SFmul prec emax (S754_finite false m1 e1) (S754_finite false m2 e2)
     = if mr =? 2 ^ 53
       then S754_finite false (Z.to_pos (2 ^ 52)) (e1 + e2 + n + 1)
       else S754_finite false (Z.to_pos mr) (e1 + e2 + n).
Proof.
  intros H1 H2 He N n mr.
  unfold SFmul. cbn [xorb]. rewrite Pos2Z.inj_mul. fold N.
  unfold F64.normal in H1, H2.
  change (2 ^ 52) with 4503599627370496 in *.
  change (2 ^ 53) with 9007199254740992 in *.
  assert (HN : 2 ^ 104 <= N < 2 ^ 106).
  { change (2 ^ 104) with (4503599627370496 * 4503599627370496).
    change (2 ^ 106) with (9007199254740992 * 9007199254740992).
    subst N. nia. }
  assert (Hdig : Zdigits2 N = 53 + n).
  { subst n. destruct (Z.ltb_spec N (2 ^ 105)).
    - apply Zdigits2_unique; [|lia]. change (53 + 52 - 1) with 104.
      change (53 + 52) with 105. lia.
    - apply Zdigits2_unique; [|lia]. change (53 + 53 - 1) with 105.
      change (53 + 53) with 106. lia. }
  assert (Hloc : F64.loc N 1 = loc_Exact).
  { unfold F64.loc. rewrite Z.mod_1_r. reflexivity. }
  destruct (bra_normal N (e1 + e2) N 1 loc_Exact ltac:(lia) ltac:(lia)
              ltac:(now rewrite Z.div_1_r) ltac:(now rewrite Hloc)
              ltac:(lia))
    as [Hb Hr].
  - rewrite Hdig. subst n. destruct (N <? 2 ^ 105); lia.
  - rewrite Hdig. subst n. destruct (N <? 2 ^ 105); lia.
  - rewrite Hdig in Hb, Hr.
    replace (53 + n - 53) with n in Hb, Hr by lia.
    rewrite Z.mul_1_l in Hb, Hr. fold mr in Hr.
    change (2 ^ 52) with 4503599627370496 in *.
    change (2 ^ 53) with 9007199254740992 in *.
    split; [exact Hb|exact Hr].
Qed.

Lemma pos_iter_xO (p d : positive) :
  Z.pos (Pos.iter xO p d) = Z.pos p * 2 ^ Z.pos d.
Proof.
  induction d as [|d IH] using Pos.peano_ind.
  - cbn [Pos.iter]. rewrite Z.pow_1_r. lia.
  - rewrite Pos.iter_succ. rewrite Pos2Z.inj_succ, Z.pow_succ_r by lia.
    change (Z.pos (Pos.iter xO p d)~0) with (2 * Z.pos (Pos.iter xO p d)).
    rewrite IH. ring.
Qed.

(** The binary64 value of a positive integer below 2^53 is the integer. *)
Lemma normalize_small (c : Z) :
  0 < c < 2 ^ 53 ->
  let m := c * 2 ^ (53 - Zdigits2 c) in
  2 ^ 52 <= m < 2 ^ 53
  /\ 1 <= Zdigits2 c <= 53
  /\ binary_normalize prec emax c 0 false
     = S754_finite false (Z.to_pos m) (Zdigits2 c - 53).
Proof.
  intros [Hc0 Hc1] m.
  destruct (Zdigits2_bounds c Hc0) as [Hlo Hhi].
  assert (Hd : 1 <= Zdigits2 c <= 53).
  { split; [destruct c; cbn; lia|].
    destruct (Z.leb_spec (Zdigits2 c) 53) as [|Hgt]; [assumption|].
    assert (2 ^ 53 <= 2 ^ (Zdigits2 c - 1)) by (apply Z.pow_le_mono_r; lia).
    lia. }
  assert (Hm : 2 ^ 52 <= m < 2 ^ 53).
  { subst m.
    assert (Hk : 0 < 2 ^ (53 - Zdigits2 c)) by (apply Z.pow_pos_nonneg; lia).
    assert (E52 : 2 ^ 52 = 2 ^ (Zdigits2 c - 1) * 2 ^ (53 - Zdigits2 c)).
    { rewrite <- Z.pow_add_r by lia. f_equal. lia. }
    assert (E53 : 2 ^ 53 = 2 ^ Zdigits2 c * 2 ^ (53 - Zdigits2 c)).
    { rewrite <- Z.pow_add_r by lia. f_equal. lia. }
    rewrite E52, E53. nia. }
  split; [exact Hm|]. split; [exact Hd|].
  destruct c as [|p|p]; try lia.
  cbn [binary_normalize]. unfold binary_round.
  rewrite Z.add_0_r. rewrite fexp_normal by (cbn [Zdigits2] in Hd; lia).
  cbn [Zdigits2] in *.
  assert (Hal : shl_align p 0 (Z.pos (digits2_pos p) - 53)
                = (Z.to_pos m, Z.pos (digits2_pos p) - 53)).
  { unfold shl_align. rewrite Z.sub_0_r.
    destruct (Z.pos (digits2_pos p) - 53) as [|q|q] eqn:E; try lia.
    - f_equal. subst m. replace (53 - Z.pos (digits2_pos p)) with 0 by lia.
      rewrite Z.pow_0_r, Z.mul_1_r. reflexivity.
    - f_equal. subst m.
      replace (53 - Z.pos (digits2_pos p)) with (Z.pos q) by lia.
      rewrite <- pos_iter_xO. reflexivity. }
  rewrite Hal.
  assert (Hmp : Z.pos (Z.to_pos m) = m) by (apply Z2Pos.id; lia).
  assert (Hdig : Zdigits2 (Z.pos (Z.to_pos m)) = 53).
  { rewrite Hmp. apply Zdigits2_unique; [|lia]. change (53 - 1) with 52.
    exact Hm. }
  assert (Hloc : F64.loc m 1 = loc_Exact).
  { unfold F64.loc. rewrite Z.mod_1_r. reflexivity. }
  destruct (bra_normal (Z.pos (Z.to_pos m)) (Z.pos (digits2_pos p) - 53) m 1
              loc_Exact ltac:(lia) ltac:(lia)
              ltac:(now rewrite Z.div_1_r) ltac:(now rewrite Hloc)
              ltac:(lia))
    as [_ Hr].
  - rewrite Hdig. lia.
  - rewrite Hdig. lia.
  - rewrite Hdig in Hr. change (53 - 53) with 0 in Hr.
    rewrite Z.pow_0_r, Z.mul_1_r, Z.div_1_r in Hr.
    change (1 * 1) with 1 in Hr. rewrite Hloc in Hr.
    cbn [round_nearest_even] in Hr.
    destruct (Z.eqb_spec m (2 ^ 53)) as [E|_]; [lia|].
    rewrite Hr. f_equal. lia.
Qed.

Lemma Prim2SF_f64_of_Z (c : Z) :
  0 < c < 2 ^ 53 ->
  Prim2SF (JS.f64_of_Z c)
  = S754_finite false (Z.to_pos (c * 2 ^ (53 - Zdigits2 c))) (Zdigits2 c - 53).
Proof.
  intros Hc. destruct (normalize_small c Hc) as (Hm & Hd & E).
  unfold JS.f64_of_Z. rewrite E. apply Prim2SF_SF2Prim.
  unfold valid_binary, bounded, canonical_mantissa.
  set (m := c * 2 ^ (53 - Zdigits2 c)) in *.
  assert (Hdig : Z.pos (digits2_pos (Z.to_pos m)) = 53).
  { change (Z.pos (digits2_pos (Z.to_pos m)))
      with (Zdigits2 (Z.pos (Z.to_pos m))).
    rewrite Z2Pos.id by lia. apply Zdigits2_unique; [|lia].
    change (53 - 1) with 52. exact Hm. }
  rewrite Hdig. rewrite fexp_normal by lia.
  apply andb_true_intro. split.
  - apply Z.eqb_eq. lia.
  - apply Z.leb_le. unfold emax, prec. lia.
Qed.

Lemma Prim2SF_100 :
  Prim2SF (JS.f64_of_Z 100) = S754_finite false 7036874417766400 (-46).
Proof. vm_compute. reflexivity. Qed.

Lemma Prim2SF_0 : Prim2SF (JS.f64_of_Z 0) = S754_zero false.
Proof. vm_compute. reflexivity. Qed.

Lemma Zdigits2_mono (c t : Z) : 0 < c <= t -> Zdigits2 c <= Zdigits2 t.
Proof.
  intros [Hc Hct].
  destruct (Zdigits2_bounds c Hc) as [Hlo _].
  destruct (Zdigits2_bounds t ltac:(lia)) as [_ Hhi].
  destruct (Z.leb_spec (Zdigits2 c) (Zdigits2 t)) as [|Hgt]; [assumption|].
  assert (2 ^ Zdigits2 t <= 2 ^ (Zdigits2 c - 1))
    by (apply Z.pow_le_mono_r; lia).
  lia.
Qed.

(** The quotient of two integers [0 < c <= t < 2^53] in binary64: with
    [c / t = N / D * 2 ^ e] and [N / D] between [2^52] and [2^53], it is
    [N / D] rounded to nearest even, at the exponent [e]. *)
Lemma div_int (c t : Z) :
  0 < c <= t -> t < 2 ^ 53 ->
  exists N D e : Z,
    0 <= N /\ 0 < D /\ 2 ^ 52 <= N / D < 2 ^ 53 /\ -105 <= e <= -52
    /\ c * D * 2 ^ (- e) = t * N
    /\ Prim2SF (JS.f64_of_Z c / JS.f64_of_Z t)
       = F64.renorm (round_nearest_even (N / D) (F64.loc N D)) e.
Proof.
  intros [Hc Hct] Ht.
  rewrite div_spec. unfold SF64div.
  rewrite !Prim2SF_f64_of_Z by lia.
  destruct (normalize_small c ltac:(lia)) as (Hmc & Hdc & _).
  destruct (normalize_small t ltac:(lia)) as (Hmt & Hdt & _).
  pose proof (Zdigits2_mono c t ltac:(lia)) as Hmono.
  set (dc := Zdigits2 c) in *. set (dt := Zdigits2 t) in *.
  assert (Hnc : F64.normal (Z.to_pos (c * 2 ^ (53 - dc))))
    by (unfold F64.normal; rewrite Z2Pos.id; lia).
  assert (Hnt : F64.normal (Z.to_pos (t * 2 ^ (53 - dt))))
    by (unfold F64.normal; rewrite Z2Pos.id; lia).
  destruct (SFdiv_normal _ _ (dc - 53) (dt - 53) Hnc Hnt ltac:(lia))
    as [Hb Hr].
  rewrite !Z2Pos.id in Hb, Hr by lia.
  rewrite Hr. clear Hr.
  set (mc := c * 2 ^ (53 - dc)) in *. set (mt := t * 2 ^ (53 - dt)) in *.
  set (n := if mc <? mt then 0 else 1) in *.
  assert (Hn : n = 0 \/ n = 1) by (subst n; destruct (mc <? mt); auto).
  exists (mc * 2 ^ 53), (mt * 2 ^ n), (dc - 53 - (dt - 53) - 53 + n).
  assert (Hpn : 0 < 2 ^ n) by (apply Z.pow_pos_nonneg; lia).
  split; [lia|]. split; [nia|]. split; [exact Hb|]. split; [lia|].
  split; [|reflexivity].
  subst mc mt.
  replace (- (dc - 53 - (dt - 53) - 53 + n)) with (dt - dc + (53 - n)) by lia.
  replace (53 - dc) with (53 - dt + (dt - dc)) by lia.
  rewrite !Z.pow_add_r by lia.
  assert (E : 2 ^ n * 2 ^ (53 - n) = 2 ^ 53).
  { rewrite <- Z.pow_add_r by lia. f_equal. lia. }
  set (A := 2 ^ (53 - dt)). set (B := 2 ^ (dt - dc)).
  transitivity (c * t * A * B * (2 ^ n * 2 ^ (53 - n))); [ring|].
  rewrite E. ring.
Qed.

(** Bounds on the rounded mantissa, read on [c] and [t], where
    [c / t = N / D * (1 / P)]. *)
Lemma scaled_upper (c t N D P b : Z) :
  0 < t -> 0 <= N -> 0 < D -> c * D * P = t * N ->
  2 * c * P < (2 * b + 1) * t ->
  round_nearest_even (N / D) (F64.loc N D) <= b.
Proof.
  intros Ht HN HD HCR H. apply RNE_upper; [exact HN|exact HD|].
  apply (Z.mul_lt_mono_pos_l t); [exact Ht|].
  replace (t * (2 * N)) with (D * (2 * c * P)) by nia.
  replace (t * ((2 * b + 1) * D)) with (D * ((2 * b + 1) * t)) by ring.
  apply Z.mul_lt_mono_pos_l; assumption.
Qed.

Lemma scaled_lower (c t N D P b : Z) :
  0 < t -> 0 <= N -> 0 < D -> c * D * P = t * N ->
  (2 * b - 1) * t < 2 * c * P ->
  b <= round_nearest_even (N / D) (F64.loc N D).
Proof.
  intros Ht HN HD HCR H. apply RNE_lower; [exact HN|exact HD|].
  apply (Z.mul_lt_mono_pos_l t); [exact Ht|].
  replace (t * (2 * N)) with (D * (2 * c * P)) by nia.
  replace (t * ((2 * b - 1) * D)) with (D * ((2 * b - 1) * t)) by ring.
  apply Z.mul_lt_mono_pos_l; assumption.
Qed.

Lemma scaled_floor (c t N D P lo hi : Z) :
  0 < t -> 0 < D -> c * D * P = t * N ->
  lo <= N / D < hi -> lo * t <= c * P /\ c * P < hi * t.
Proof.
  intros Ht HD HCR [Hlo Hhi].
  pose proof (Z.mul_div_le N D HD) as H1.
  pose proof (Z.mul_succ_div_gt N D HD) as H2.
  assert (Hl : lo * D <= N) by nia.
  assert (Hh : N < hi * D) by nia.
  split.
  - apply (Z.mul_le_mono_pos_l _ _ D); [exact HD|].
    replace (D * (c * P)) with (t * N) by (rewrite <- HCR; ring). nia.
  - apply (Z.mul_lt_mono_pos_l D); [exact HD|].
    replace (D * (c * P)) with (t * N) by (rewrite <- HCR; ring). nia.
Qed.

Lemma pow2_le_inv (k x : Z) : 0 <= k -> 2 ^ x < 2 ^ (k + 1) -> x <= k.
Proof.
  intros Hk H. destruct (Z.leb_spec x k) as [|Hgt]; [assumption|].
  assert (2 ^ (k + 1) <= 2 ^ x) by (apply Z.pow_le_mono_r; lia). lia.
Qed.

Lemma pow2_ge_inv (k x : Z) : 0 <= x -> 2 ^ (k - 1) < 2 ^ x -> k <= x.
Proof.
  intros Hx H. destruct (Z.leb_spec k x) as [|Hgt]; [assumption|].
  assert (2 ^ x <= 2 ^ (k - 1)) by (apply Z.pow_le_mono_r; lia). lia.
Qed.

Lemma div_facts (c t : Z) :
  0 < c <= t -> t < 2 ^ 53 ->
  exists (mq : positive) (eq : Z),
    Prim2SF (JS.f64_of_Z c / JS.f64_of_Z t) = S754_finite false mq eq
    /\ F64.normal mq /\ -106 <= eq <= -52 /\ Z.pos mq <= 2 ^ (- eq)
    /\ (200 * c < t -> F64.below_half (Z.pos mq) eq)
    /\ (t <= 200 * c -> F64.above_half (Z.pos mq) eq).
Proof.
  intros [Hc Hct] Ht.
  destruct (div_int c t ltac:(lia) Ht)
    as (N & D & e & HN & HD & Hfl & He & HCR & ->).
  set (mr := round_nearest_even (N / D) (F64.loc N D)).
  set (P := 2 ^ (- e)) in *.
  assert (HP : 0 < P) by (subst P; apply Z.pow_pos_nonneg; lia).
  assert (Ht0 : 0 < t) by lia.
  destruct (scaled_floor c t N D P _ _ Ht0 HD HCR Hfl) as [Fl Fh].
  change (2 ^ 52) with 4503599627370496 in *.
  change (2 ^ 53) with 9007199254740992 in *.
  assert (Hmr : 4503599627370496 <= mr <= 9007199254740992).
  { subst mr. destruct (RNE_cases N D HN HD) as [[-> _]|[-> _]]; lia. }
  assert (Hup : mr <= P).
  { subst mr. apply (scaled_upper c t N D P _ Ht0 HN HD HCR). nia. }
  (* the exponent under each hypothesis *)
  assert (HA : 200 * c < t ->
               e <= -61 \/ (e = -60 /\ mr <= F64.m200 - 1)).
  { intros H.
    assert (He60 : 60 <= - e).
    { apply pow2_ge_inv; [lia|]. fold P.
      change (2 ^ (60 - 1)) with 576460752303423488. nia. }
    destruct (Z.eq_dec e (-60)) as [E|NE]; [right|left; lia].
    split; [exact E|].
    subst mr. apply (scaled_upper c t N D P _ Ht0 HN HD HCR).
    subst P. rewrite E. change (2 ^ (- -60)) with 1152921504606846976.
    unfold F64.m200. lia. }
  assert (HB : t <= 200 * c ->
               -59 <= e \/ (e = -60 /\ F64.m200 <= mr)).
  { intros H.
    assert (He60 : - e <= 60).
    { apply pow2_le_inv; [lia|]. fold P.
      change (2 ^ (60 + 1)) with 2305843009213693952. nia. }
    destruct (Z.eq_dec e (-60)) as [E|NE]; [right|left; lia].
    split; [exact E|].
    subst mr. apply (scaled_lower c t N D P _ Ht0 HN HD HCR).
    subst P. rewrite E. change (2 ^ (- -60)) with 1152921504606846976.
    unfold F64.m200. lia. }
  unfold F64.renorm. change (2 ^ 53) with 9007199254740992.
  change (2 ^ 52) with 4503599627370496.
  destruct (Z.eqb_spec mr 9007199254740992) as [E|NE].
  - exists (Z.to_pos 4503599627370496), (e + 1).
    split; [reflexivity|]. split; [unfold F64.normal; cbn; lia|].
    assert (He53 : e <= -53).
    { assert (53 <= - e); [|lia]. apply pow2_ge_inv; [lia|]. fold P.
      change (2 ^ (53 - 1)) with 4503599627370496. lia. }
    split; [lia|].
    assert (EP : P = 2 * 2 ^ (- (e + 1))).
    { subst P. rewrite <- Z.pow_succ_r by lia. f_equal. lia. }
    split; [cbn [Z.to_pos]; lia|].
    cbn [Z.to_pos]. unfold F64.below_half, F64.above_half, F64.m200 in *. split.
    + intros H. destruct (HA H) as [H1|[H1 H2]]; lia.
    + intros H. destruct (HB H) as [H1|[H1 H2]]; lia.
  - exists (Z.to_pos mr), e.
    split; [reflexivity|].
    split; [unfold F64.normal; rewrite Z2Pos.id by lia;
            change (2 ^ 52) with 4503599627370496;
            change (2 ^ 53) with 9007199254740992; lia|].
    split; [lia|]. rewrite Z2Pos.id by lia.
    split; [exact Hup|]. unfold F64.below_half, F64.above_half.
    split; assumption.
Qed.

Lemma normal_100 : F64.normal 7036874417766400.
Proof. unfold F64.normal. cbn. lia. Qed.

Lemma mul_facts (mq : positive) (eq : Z) :
  F64.normal mq -> -106 <= eq <= -52 -> Z.pos mq <= 2 ^ (- eq) ->
  exists (mp : positive) (ep : Z),
    SFmul prec emax (S754_finite false mq eq)
                    (S754_finite false 7036874417766400 (-46))
    = S754_finite false mp ep
    /\ -100 <= ep <= -44 /\ Z.pos mp <= 100 * 2 ^ (- ep)
    /\ (F64.below_half (Z.pos mq) eq -> 2 * Z.pos mp < 2 ^ (- ep))
    /\ (F64.above_half (Z.pos mq) eq -> 2 ^ (- ep) <= 2 * Z.pos mp).
Proof.
  intros Hq He Hle.
  destruct (SFmul_normal mq 7036874417766400 eq (-46) Hq normal_100
              ltac:(lia)) as [Hb Hr].
  rewrite Hr. clear Hr.
  set (N := Z.pos mq * 7036874417766400) in *.
  assert (Hn : (N < 2 ^ 105 /\ (if N <? 2 ^ 105 then 52 else 53) = 52)
               \/ (2 ^ 105 <= N /\ (if N <? 2 ^ 105 then 52 else 53) = 53)).
  { destruct (Z.ltb_spec N (2 ^ 105)); [left|right]; auto. }
  set (n := if N <? 2 ^ 105 then 52 else 53) in *.
  set (mr := round_nearest_even (N / 2 ^ n) (F64.loc N (2 ^ n))) in *.
  set (e := eq + -46 + n).
  set (Q := 2 ^ (- eq - 7)).
  assert (HQ : 2 ^ (- eq) = 128 * Q).
  { subst Q. change 128 with (2 ^ 7). rewrite <- Z.pow_add_r by lia.
    f_equal. lia. }
  assert (HQ0 : 0 < Q) by (subst Q; apply Z.pow_pos_nonneg; lia).
  assert (Hn' : n = 52 \/ n = 53) by (destruct Hn as [[_ ->]|[_ ->]]; auto).
  assert (HP : 2 ^ (- e) = Q * 2 ^ (53 - n)).
  { subst e Q. rewrite <- Z.pow_add_r by lia. f_equal. lia. }
  assert (HN : 0 <= N) by (subst N; lia).
  assert (Hpn : 0 < 2 ^ n) by (apply Z.pow_pos_nonneg; lia).
  unfold F64.normal in Hq.
  change (2 ^ 52) with 4503599627370496 in *.
  change (2 ^ 53) with 9007199254740992 in *.
  change (2 ^ 105) with 40564819207303340847894502572032 in *.
  assert (Hup : mr <= 100 * 2 ^ (- e)).
  { subst mr. apply RNE_upper; [exact HN|exact Hpn|].
    rewrite HP. rewrite HQ in Hle. subst N.
    destruct Hn' as [-> | ->];
      [change (2 ^ (53 - 52)) with 2; change (2 ^ 52) with 4503599627370496
      |change (2 ^ (53 - 53)) with 1; change (2 ^ 53) with 9007199254740992];
      lia. }
  assert (Hlo : 4503599627370496 <= mr <= 9007199254740992).
  { subst mr. destruct (RNE_cases N (2 ^ n) HN Hpn) as [[-> _]|[-> _]]; lia. }
  (* below one half *)
  assert (HA : F64.below_half (Z.pos mq) eq ->
               (e <= -55 \/ (e <= -54 /\ mr <= 9007199254740991))).
  { unfold F64.below_half, F64.m200. intros [H|[H1 H2]].
    - destruct Hn as [[_ En]|[_ En]].
      + left. subst e. lia.
      + right. split; [subst e; lia|].
        subst mr. apply RNE_upper; [exact HN|exact Hpn|].
        rewrite En. change (2 ^ 53) with 9007199254740992. subst N. lia.
    - right. destruct Hn as [[_ En]|[Hge _]]; [|subst N; lia].
      split; [subst e; lia|].
      subst mr. apply RNE_upper; [exact HN|exact Hpn|].
      rewrite En. change (2 ^ 52) with 4503599627370496. subst N. lia. }
  (* at least one half *)
  assert (HB : F64.above_half (Z.pos mq) eq -> 2 ^ (- e) <= 2 * mr).
  { unfold F64.above_half, F64.m200. intros H.
    set (R := 2 ^ (- 1 - eq)).
    assert (HR : R <= 100 * Z.pos mq).
    { destruct H as [H|[H1 H2]].
      - assert (R <= 2 ^ 58) by (subst R; apply Z.pow_le_mono_r; lia).
        change (2 ^ 58) with 288230376151711744 in *. lia.
      - subst R. rewrite H1. change (2 ^ (-1 - -60)) with 576460752303423488.
        lia. }
    assert (HR0 : 0 < R) by (subst R; apply Z.pow_pos_nonneg; lia).
    set (b := 2 ^ (- 1 - e)).
    assert (Eb : 2 ^ (- e) = 2 * b).
    { subst b. rewrite <- Z.pow_succ_r by (subst e; lia). f_equal. lia. }
    assert (Ebn : b * 2 ^ n = 70368744177664 * R).
    { subst b R e. change 70368744177664 with (2 ^ 46).
      rewrite <- !Z.pow_add_r by lia. f_equal. lia. }
    rewrite Eb.
    assert (b <= mr); [|lia].
    subst mr. apply RNE_lower; [exact HN|exact Hpn|].
    subst N. nia. }
  destruct (Z.eqb_spec mr 9007199254740992) as [E|NE].
  - exists (Z.to_pos 4503599627370496), (e + 1).
    split; [reflexivity|]. split; [subst e; lia|].
    assert (EP : 2 ^ (- e) = 2 * 2 ^ (- (e + 1))).
    { rewrite <- Z.pow_succ_r by (subst e; lia). f_equal. lia. }
    cbn [Z.to_pos]. split; [lia|]. split.
    + intros H. destruct (HA H) as [H1|[H1 H2]]; [|lia].
      assert (2 ^ 54 <= 2 ^ (- (e + 1))) by (apply Z.pow_le_mono_r; lia).
      change (2 ^ 54) with 18014398509481984 in *. lia.
    + intros H. specialize (HB H). lia.
  - exists (Z.to_pos mr), e.
    split; [reflexivity|]. split; [subst e; lia|].
    rewrite Z2Pos.id by lia. split; [exact Hup|]. split.
    + intros H.
      assert (2 ^ 54 <= 2 ^ (- e)).
      { apply Z.pow_le_mono_r; [lia|]. destruct (HA H) as [H1|[H1 H2]]; lia. }
      change (2 ^ 54) with 18014398509481984 in *. lia.
    + exact HB.
Qed.

(** [Math.round((count / total) * 100)] for integers
    [0 <= count <= total] and [0 < total < 2^53]: an integer between 0
    and 100, which is 0 exactly when the count is below one half percent
    of the total. *)
Theorem percentage_spec (c t : Z) :
  0 <= c <= t -> 0 < t < 2 ^ 53 ->
  exists p, JS.percentage c t = Some p /\ 0 <= p <= 100
            /\ (p = 0 <-> 200 * c < t).
Proof.
  intros [Hc Hct] [Ht0 Ht].
  unfold JS.percentage, JS.Math_round_f64. rewrite mul_spec. unfold SF64mul.
  rewrite Prim2SF_100.
  destruct (Z.eq_dec c 0) as [->|Hne].
  - rewrite div_spec, Prim2SF_0. unfold SF64div.
    rewrite (Prim2SF_f64_of_Z t) by lia. cbn [SFdiv SFmul xorb].
    exists 0. split; [reflexivity|lia].
  - destruct (div_facts c t ltac:(lia) Ht)
      as (mq & eq & -> & Hq & He & Hle & HA & HB).
    destruct (mul_facts mq eq Hq He Hle)
      as (mp & ep & -> & Hep & Hlep & HA' & HB').
    destruct (Z.leb_spec 0 ep) as [|_]; [lia|].
    eexists. split; [reflexivity|].
    assert (HR : 0 < 2 ^ (- ep)) by (apply Z.pow_pos_nonneg; lia).
    split; [split|split].
    + apply Z.div_pos; lia.
    + assert ((2 * Z.pos mp + 2 ^ (- ep)) / (2 * 2 ^ (- ep)) < 101); [|lia].
      apply Z.div_lt_upper_bound; lia.
    + intros Hz. destruct (Z.ltb_spec (200 * c) t) as [|Hge]; [assumption|].
      specialize (HB' (HB Hge)).
      assert (1 <= (2 * Z.pos mp + 2 ^ (- ep)) / (2 * 2 ^ (- ep)));
        [|lia].
      apply Z.div_le_lower_bound; lia.
    + intros Hlt. specialize (HA' (HA Hlt)).
      apply Z.div_small. lia.
Qed.

(* ================================================================== *)
(** * The UTC calendar                                                 *)
(* ================================================================== *)

(** The two calendar conversions agree on the 1500 days from 2023-01-01. *)
Lemma calendar_roundtrip :
  Calendar.roundtrip_on
    (List.map (fun k => 19358 + Z.of_nat k) (seq 0 1500)) = true.
Proof. vm_compute. reflexivity. Qed.

(* ================================================================== *)
(** * Percentages on concrete counts                                   *)
(* ================================================================== *)

(** 29 of 200 is 14 percent: the binary64 product is just below 14.5,
    which the exact quotient would reach. *)
Lemma percentage_29_of_200 :
  JS.percentage 29 200 = Some 14 /\ JS.Math_round_div (100 * 29) 200 = 15.
Proof. split; vm_compute; reflexivity. Qed.

(** The shares of 50, 30 and 20 in 100; 45 is the share of 50 in 110. *)
Lemma percentages_of_100 :
  JS.percentage 50 100 = Some 50
  /\ JS.percentage 30 100 = Some 30
  /\ JS.percentage 20 100 = Some 20
  /\ JS.percentage 50 110 = Some 45.
Proof. repeat split; vm_compute; reflexivity. Qed.

(* ================================================================== *)
(** * Merge with no remote data                                        *)
(* ================================================================== *)

Lemma Set_of_acc_nodup (l acc : list string) :
  NoDup (acc ++ l) -> fold_left JS.set_add l acc = acc ++ l.
Proof.
  revert acc. induction l as [|x l IH]; intros acc Hnd; simpl.
  - now rewrite app_nil_r.
  - assert (Hx : JS.set_has acc x = false).
    { unfold JS.set_has. apply not_true_is_false. intros H.
      apply existsb_exists in H as [y [Hy Heq]].
      apply String.eqb_eq in Heq. subst y.
      apply NoDup_remove_2 in Hnd. apply Hnd.
      apply in_or_app. now left. }
    unfold JS.set_add at 2. rewrite Hx.
    rewrite IH; rewrite <- app_assoc; simpl; [reflexivity|exact Hnd].
Qed.

(** A project list without repetitions goes through [new Set] unchanged. *)
Lemma Set_of_nodup (l : list string) : NoDup l -> JS.Set_of l = l.
Proof. intros H. unfold JS.Set_of. now rewrite Set_of_acc_nodup. Qed.

(** C5. Merging a local dataset with an empty list of remote datasets
    returns the local stats cache itself (so every total of the cache:
    daily activity, model usage, totalSessions, totalMessages,
    firstSessionDate, is the local value), the local history unchanged and
    the local project names passed through a [Set]. *)
Theorem mergeData_no_remotes (rt : Runtime) (local : Stats.CollectedData) :
  Stats.statsCache (Stats.mergeData rt local []) = Stats.statsCache local
  /\ Stats.history (Stats.mergeData rt local []) = Stats.history local
  /\ Stats.projects (Stats.mergeData rt local [])
     = JS.Set_of (Stats.projects local).
Proof. repeat split. Qed.

(* ================================================================== *)
(** * Top models on {A: 50, B: 30, C: 20}                              *)
(* ================================================================== *)

Lemma statsOf_topModels rt yr merged tt :
  WrappedStats.topModels (Stats.statsOf rt yr merged tt)
  = Stats.topModelsOf rt (Stats.modelCountsOf (Stats.statsCache merged)).
Proof.
  unfold Stats.statsOf.
  now destruct (Stats.buildDailyActivity rt yr _ _).
Qed.

Lemma statsOf_topProjects rt yr merged tt :
  WrappedStats.topProjects (Stats.statsOf rt yr merged tt)
  = Stats.topProjectsOf (Stats.projectCountsOf (Stats.history merged))
      (Z.of_nat (List.length (Stats.history merged))).
Proof.
  unfold Stats.statsOf.
  now destruct (Stats.buildDailyActivity rt yr _ _).
Qed.

(** C1 (as amended). For a cache whose model usage is {A: 50 output
    tokens, B: 30, C: 20} and no remote data, [topModels] lists A, B, C in
    that order with counts 50, 30, 20 and percentages 50, 30, 20: each is
    the count divided by the sum of all counts (100), times 100, rounded. *)
Theorem topModels_50_30_20 (rt : Runtime) (yr : Z) (a b c : string)
    (ua ub uc : ModelUsage) (cache : ClaudeCodeStats)
    (hist : list HistoryEntry) (projs : list string) :
  a <> b -> a <> c -> b <> c ->
  outputTokens ua = 50 -> outputTokens ub = 30 -> outputTokens uc = 20 ->
  modelUsage cache = [(a, ua); (b, ub); (c, uc)] ->
  WrappedStats.topModels
    (Stats.calculateStats rt yr (Stats.mkCollectedData (Some cache) hist projs)
                          [])
  = [ModelStats.mk a (getModelDisplayName rt a) "anthropic" 50 (Some 50);
     ModelStats.mk b (getModelDisplayName rt b) "anthropic" 30 (Some 30);
     ModelStats.mk c (getModelDisplayName rt c) "anthropic" 20 (Some 20)].
Proof.
  intros Hab Hac Hbc Ha Hb Hc Hm.
  unfold Stats.calculateStats. rewrite statsOf_topModels.
  cbn [Stats.mergeData Stats.statsCache Stats.modelCountsOf]. rewrite Hm.
  cbn [fold_left Stats.modelCountStep]. rewrite Ha, Hb, Hc.
  change (JS.num_or0 50) with 50. change (JS.num_or0 30) with 30.
  change (JS.num_or0 20) with 20.
  apply String.eqb_neq in Hab, Hac, Hbc.
  cbn [JS.map_set]. rewrite Hab. cbn [JS.map_set]. rewrite Hac, Hbc.
  cbn [JS.map_set].
  destruct percentages_of_100 as (H50 & H30 & H20 & _).
  unfold Stats.topModelsOf.
  change (JS.sum (JS.map_values [(a, 50); (b, 30); (c, 20)])) with 100.
  change (JS.slice0 3 (JS.sort_desc_by_count [(a, 50); (b, 30); (c, 20)]))
    with [(a, 50); (b, 30); (c, 20)].
  cbn [List.map Z.gtb Z.compare Pos.compare Pos.compare_cont].
  now rewrite H50, H30, H20.
Qed.

Lemma topModels_50_30_20_witness :
  WrappedStats.topModels
    (Stats.calculateStats utcRuntime 2025 Examples.threeModels [])
  = [ModelStats.mk "A" "A" "anthropic" 50 (Some 50);
     ModelStats.mk "B" "B" "anthropic" 30 (Some 30);
     ModelStats.mk "C" "C" "anthropic" 20 (Some 20)].
Proof.
  apply (topModels_50_30_20 utcRuntime 2025 "A" "B" "C"
           (Examples.usage 50) (Examples.usage 30) (Examples.usage 20));
    try reflexivity; discriminate.
Defined.

(** C1 (as stated) fails: on {A: 50, B: 30, C: 20} the percentages are
    50, 30 and 20, not 45, 27 and 18. *)
Lemma topModels_not_45_27_18 :
  List.map ModelStats.percentage
    (WrappedStats.topModels
       (Stats.calculateStats utcRuntime 2025 Examples.threeModels []))
  = [Some 50; Some 30; Some 20]
  /\ List.map ModelStats.percentage
       (WrappedStats.topModels
          (Stats.calculateStats utcRuntime 2025 Examples.threeModels []))
     <> [Some 45; Some 27; Some 18].
Proof. split; [vm_compute; reflexivity|vm_compute; discriminate]. Qed.

(* ================================================================== *)
(** * Token totals                                                     *)
(* ================================================================== *)

(** C8. In every summary that [calculateStats] computes (stats.ts with
    the remote merge, src/unnamed/part_001), [totalTokens] is the sum of
    the four category counters of that summary, and it has no source of
    its own: two summaries with the same four counters have the same
    [totalTokens]. *)
Theorem totalTokens_sum_of_counters (rt : Runtime) (yr : Z)
    (local : Stats.CollectedData) (remotes : list RemoteData.t) :
  let s := Stats.calculateStats rt yr local remotes in
  WrappedStats.totalTokens s
  = WrappedStats.totalInputTokens s + WrappedStats.totalOutputTokens s
    + WrappedStats.totalCacheReadTokens s
    + WrappedStats.totalCacheWriteTokens s
  /\ forall rt' yr' local' remotes',
       let s' := Stats.calculateStats rt' yr' local' remotes' in
       WrappedStats.totalInputTokens s = WrappedStats.totalInputTokens s' ->
       WrappedStats.totalOutputTokens s = WrappedStats.totalOutputTokens s' ->
       WrappedStats.totalCacheReadTokens s
       = WrappedStats.totalCacheReadTokens s' ->
       WrappedStats.totalCacheWriteTokens s
       = WrappedStats.totalCacheWriteTokens s' ->
       WrappedStats.totalTokens s = WrappedStats.totalTokens s'.
Proof.
  assert (H : forall rt0 yr0 local0 remotes0,
             let s0 := Stats.calculateStats rt0 yr0 local0 remotes0 in
             WrappedStats.totalTokens s0
             = WrappedStats.totalInputTokens s0
               + WrappedStats.totalOutputTokens s0
               + WrappedStats.totalCacheReadTokens s0
               + WrappedStats.totalCacheWriteTokens s0).
  { intros rt0 yr0 local0 remotes0. cbv zeta.
    unfold Stats.calculateStats, Stats.statsOf.
    now destruct (Stats.buildDailyActivity rt0 yr0 _ _). }
  cbv zeta in *. split; [apply H|].
  intros rt' yr' local' remotes' Hi Ho Hr Hw.
  rewrite (H rt yr local remotes), (H rt' yr' local' remotes').
  now rewrite Hi, Ho, Hr, Hw.
Qed.

(** On a cache with 100 input, 50 output, 900 cache-read and 100
    cache-write tokens the summary reports 1150 tokens.  The earlier,
    local-only revision of stats.ts (src/unnamed/part_002) added the input
    and the output tokens only, and reported 150. *)
Lemma totalTokens_example :
  WrappedStats.totalTokens
    (Stats.calculateStats utcRuntime 2025 Examples.cachedTokens []) = 1150
  /\ (let s :=
        StatsLocal.calculateStats utcRuntime 2025 Examples.cachedTokens in
      WrappedStats.totalTokens s = 150
      /\ WrappedStats.totalInputTokens s + WrappedStats.totalOutputTokens s
         + WrappedStats.totalCacheReadTokens s
         + WrappedStats.totalCacheWriteTokens s = 1150).
Proof. repeat split. Qed.

(* ================================================================== *)
(** * The history fallback for the totals                              *)
(* ================================================================== *)

Lemma set_add_spec (s : JS.JsSet) (x y : string) :
  In y (JS.set_add s x) <-> In y s \/ y = x.
Proof.
  unfold JS.set_add, JS.set_has.
  destruct (existsb (String.eqb x) s) eqn:E.
  - apply existsb_exists in E as [z [Hz Heq]].
    apply String.eqb_eq in Heq. subst z.
    split; [now left|intros [H | ->]; assumption].
  - rewrite in_app_iff. simpl. intuition.
Qed.

Lemma set_add_NoDup (s : JS.JsSet) (x : string) :
  NoDup s -> NoDup (JS.set_add s x).
Proof.
  intros Hnd. unfold JS.set_add, JS.set_has.
  destruct (existsb (String.eqb x) s) eqn:E; [exact Hnd|].
  apply NoDup_app; [exact Hnd|repeat constructor; intros []|].
  intros y Hy [<- | []].
  assert (existsb (String.eqb x) s = true) as H; [|congruence].
  apply existsb_exists. exists x. split; [exact Hy|apply String.eqb_refl].
Qed.

Lemma fold_set_add_spec (l : list string) (acc : JS.JsSet) :
  NoDup acc ->
  NoDup (fold_left JS.set_add l acc)
  /\ forall y, In y (fold_left JS.set_add l acc) <-> In y acc \/ In y l.
Proof.
  revert acc. induction l as [|x l IH]; intros acc Hnd; simpl.
  - split; [exact Hnd|intuition].
  - destruct (IH (JS.set_add acc x) (set_add_NoDup acc x Hnd)) as [H1 H2].
    split; [exact H1|]. intros y. rewrite H2, set_add_spec. intuition.
Qed.

(** The size of [new Set(xs)] is the number of distinct elements. *)
Lemma Set_of_size (l : list string) :
  List.length (JS.Set_of l) = Spec.distinct l.
Proof.
  unfold Spec.distinct, JS.Set_of.
  destruct (fold_set_add_spec l [] (NoDup_nil _)) as [Hnd Hin].
  apply Permutation_length.
  apply NoDup_Permutation;
    [exact Hnd|apply NoDup_nodup|].
  intros y. rewrite Hin, nodup_In. simpl. intuition.
Qed.

Lemma sumYearDay_messages yr days t :
  Stats.t_messages (fold_left (Stats.sumYearDay yr) days t)
  = Stats.t_messages t
    + Spec.total (List.map messageCount (filter (Spec.inYear yr) days)).
Proof.
  revert t. induction days as [|d days IH]; intros t; simpl; [lia|].
  rewrite IH. unfold Stats.sumYearDay, Spec.inYear.
  destruct (JS.startsWith (date d) (JS.String_of_Z yr)); simpl; lia.
Qed.

Lemma sumUsage_messages entries t :
  Stats.t_messages (fold_left Stats.sumUsage entries t) = Stats.t_messages t.
Proof.
  revert t. induction entries as [|e entries IH]; intros t; simpl;
    [reflexivity|now rewrite IH].
Qed.

Lemma cacheTotals_messages yr ms :
  Stats.t_messages (Stats.cacheTotals yr ms)
  = match ms with
    | Some c => Spec.yearMessages yr c
    | None => 0
    end.
Proof.
  destruct ms as [c|]; simpl; [|reflexivity].
  now rewrite sumUsage_messages, sumYearDay_messages.
Qed.

Lemma statsOf_totals rt yr merged tt :
  let t := Stats.historyFallback
             (Stats.cacheTotals yr (Stats.statsCache merged))
             (Stats.history merged) in
  WrappedStats.totalMessages (Stats.statsOf rt yr merged tt)
  = Stats.t_messages t
  /\ WrappedStats.totalSessions (Stats.statsOf rt yr merged tt)
     = Stats.t_sessions t.
Proof.
  simpl. unfold Stats.statsOf.
  now destruct (Stats.buildDailyActivity rt yr _ _).
Qed.

(** C7. When the merged stats cache is absent, or its records of the
    requested year add up to zero messages, and the merged history is not
    empty, [totalMessages] is 20 times the number of history entries and
    [totalSessions] is the number of distinct session ids of the history. *)
Theorem totals_history_fallback (rt : Runtime) (yr : Z)
    (local : Stats.CollectedData) (remotes : list RemoteData.t) :
  let merged := Stats.mergeData rt local remotes in
  match Stats.statsCache merged with
  | Some c => Spec.yearMessages yr c = 0
  | None => True
  end ->
  Stats.history merged <> [] ->
  WrappedStats.totalMessages (Stats.calculateStats rt yr local remotes)
  = 20 * Z.of_nat (List.length (Stats.history merged))
  /\ WrappedStats.totalSessions (Stats.calculateStats rt yr local remotes)
     = Z.of_nat (Spec.distinct (List.map sessionId (Stats.history merged))).
Proof.
  intros merged. unfold Stats.calculateStats. fold merged. clearbody merged.
  intros Hcache Hhist.
  destruct (statsOf_totals rt yr merged Stats.totalTokensOf) as [-> ->].
  assert (Hzero : Stats.t_messages
                    (Stats.cacheTotals yr (Stats.statsCache merged)) = 0).
  { rewrite cacheTotals_messages.
    destruct (Stats.statsCache merged); [exact Hcache|reflexivity]. }
  unfold Stats.historyFallback. rewrite Hzero.
  destruct (Stats.history merged) as [|e h]; [contradiction|].
  change ((0 =? 0) && (0 <? List.length (e :: h))%nat)%bool with true.
  cbv iota. cbn [Stats.t_messages Stats.t_sessions].
  rewrite Set_of_size. split; [lia|reflexivity].
Qed.

(** Five history entries across three session ids and no cache give 100
    messages and 3 sessions. *)
Lemma totals_history_fallback_witness :
  WrappedStats.totalMessages
    (Stats.calculateStats utcRuntime 2025 Examples.fivePrompts []) = 100
  /\ WrappedStats.totalSessions
       (Stats.calculateStats utcRuntime 2025 Examples.fivePrompts []) = 3.
Proof.
  apply (totals_history_fallback utcRuntime 2025 Examples.fivePrompts []);
    [exact I|discriminate].
Defined.

(* ================================================================== *)
(** * The most active day                                              *)
(* ================================================================== *)

(** The scan keeps its starting pair when no count exceeds the starting
    maximum; otherwise it ends on the first entry that reaches the largest
    count. *)
Lemma mostActive_scan (l : list (string * Z)) (d0 : string) (c0 : Z) :
  let r := fold_left Stats.mostActiveStep l (d0, c0) in
  (r = (d0, c0) /\ forall d c, In (d, c) l -> c <= c0)
  \/ (exists before after,
        l = before ++ r :: after
        /\ c0 < snd r
        /\ (forall d c, In (d, c) before -> c < snd r)
        /\ (forall d c, In (d, c) after -> c <= snd r)).
Proof.
  revert d0 c0. induction l as [|[k n] l IH]; intros d0 c0; simpl.
  - left. split; [reflexivity|intros d c []].
  - destruct (Z.gtb_spec n c0) as [Hgt|Hle].
    + right. destruct (IH k n) as [[Hr Hall]|(b & a & Hl & Hlt & Hb & Ha)].
      * exists [], l. simpl in *. rewrite Hr. simpl.
        repeat split; [lia|intros d c []|exact Hall].
      * exists ((k, n) :: b), a. simpl in *. rewrite Hl at 1.
        repeat split; [lia| |exact Ha].
        intros d c [[= <- <-]|Hin]; [lia|now apply (Hb d)].
    + destruct (IH d0 c0) as [[Hr Hall]|(b & a & Hl & Hlt & Hb & Ha)].
      * left. split; [exact Hr|].
        intros d c [[= <- <-]|Hin]; [lia|now apply (Hall d)].
      * right. exists ((k, n) :: b), a. simpl in *. rewrite Hl at 1.
        repeat split; [lia| |exact Ha].
        intros d c [[= <- <-]|Hin]; [lia|now apply (Hb d)].
Qed.

Lemma findMostActiveDay_dates (m : JS.JsMap Z) :
  (forall k, In k (JS.map_keys m) -> k <> EmptyString) ->
  (Stats.findMostActiveDay m <> None <-> Spec.somePositive m)
  /\ (forall r, Stats.findMostActiveDay m = Some r -> Spec.firstMaximum m r).
Proof.
  intros Hkeys. unfold Stats.findMostActiveDay, Stats.mostActiveLoop.
  unfold Spec.somePositive, Spec.firstMaximum.
  pose proof (mostActive_scan m EmptyString 0) as Hscan. simpl in Hscan.
  destruct m as [|e m'].
  - simpl. split.
    + split; [congruence|intros (d & c & [] & _)].
    + discriminate.
  - set (m := e :: m') in *.
    change (Nat.eqb (JS.map_size m) 0) with false. cbv iota.
    destruct (fold_left Stats.mostActiveStep m (EmptyString, 0))
      as [maxDate maxCount].
    destruct Hscan as [[Hr Hall]|(b & a & Hl & Hlt & Hb & Ha)].
    + injection Hr as -> ->. simpl. split.
      * split; [congruence|].
        intros (d & c & Hin & Hpos). apply Hall in Hin. lia.
      * discriminate.
    + simpl in Hlt, Hb, Ha.
      assert (Hne : maxDate <> EmptyString).
      { apply Hkeys. unfold JS.map_keys. rewrite Hl, map_app. simpl.
        apply in_or_app. right. now left. }
      apply String.eqb_neq in Hne. rewrite Hne. split.
      * split; [|discriminate].
        intros _. exists maxDate, maxCount. split; [|exact Hlt].
        rewrite Hl. apply in_or_app. right. now left.
      * intros r [= <-]. simpl. exists b, a. auto.
Qed.

(** The keys of the activity map that [calculateStats] builds are never
    empty: they start with the year, or are formatted dates. *)
Lemma String_of_Z_nonempty (n : Z) : JS.String_of_Z n <> EmptyString.
Proof.
  unfold JS.String_of_Z.
  destruct (Z.to_int n) as [d|d]; simpl; [|discriminate].
  destruct d; discriminate.
Qed.

Lemma startsWith_nonempty (s p : string) :
  JS.startsWith s p = true -> p <> EmptyString -> s <> EmptyString.
Proof.
  unfold JS.startsWith. destruct s, p; simpl; congruence.
Qed.

Lemma formatDateKey_nonempty (d : JSDate) :
  Stats.formatDateKey d <> EmptyString.
Proof.
  unfold Stats.formatDateKey.
  destruct (JS.String_of_Z (getFullYear d)); discriminate.
Qed.

Lemma map_set_keys_nonempty {V : Type} (m : JS.JsMap V) (k : string)
    (v : V) :
  k <> EmptyString ->
  (forall x, In x (JS.map_keys m) -> x <> EmptyString) ->
  forall x, In x (JS.map_keys (JS.map_set m k v)) -> x <> EmptyString.
Proof.
  intros Hk Hm x. rewrite map_keys_set.
  destruct (JS.map_has m k); [apply Hm|].
  rewrite in_app_iff. intros [H|[<- | []]]; [now apply Hm|exact Hk].
Qed.

Lemma buildDailyActivity_keys rt yr ms hist :
  forall x,
    In x (JS.map_keys (fst (Stats.buildDailyActivity rt yr ms hist))) ->
    x <> EmptyString.
Proof.
  unfold Stats.buildDailyActivity.
  set (start := (([] : JS.JsMap Z), [0; 0; 0; 0; 0; 0; 0])).
  assert (Hcache :
    forall days acc,
      (forall x, In x (JS.map_keys (fst acc)) -> x <> EmptyString) ->
      forall x,
        In x (JS.map_keys (fst (fold_left (Stats.cacheDay rt yr) days acc)))
        -> x <> EmptyString).
  { induction days as [|d days IH]; intros acc Hacc; [exact Hacc|].
    cbn [fold_left]. apply IH. destruct acc as [m w].
    unfold Stats.cacheDay.
    destruct (JS.startsWith (date d) (JS.String_of_Z yr)) eqn:E;
      [|exact Hacc].
    cbn [fst]. apply map_set_keys_nonempty; [|exact Hacc].
    apply (startsWith_nonempty _ _ E), String_of_Z_nonempty. }
  assert (Hhist :
    forall entries acc,
      (forall x, In x (JS.map_keys (fst acc)) -> x <> EmptyString) ->
      forall x,
        In x (JS.map_keys (fst (fold_left (Stats.historyDay rt) entries acc)))
        -> x <> EmptyString).
  { induction entries as [|e entries IH]; intros acc Hacc; [exact Hacc|].
    cbn [fold_left]. apply IH. destruct acc as [m w].
    unfold Stats.historyDay. cbn [fst].
    apply map_set_keys_nonempty; [apply formatDateKey_nonempty|exact Hacc]. }
  assert (Hfrom :
    forall x,
      In x (JS.map_keys
              (fst match ms with
                   | Some c =>
                       fold_left (Stats.cacheDay rt yr) (dailyActivity c)
                                 start
                   | None => start
                   end)) -> x <> EmptyString).
  { destruct ms as [c|]; [apply Hcache|]; intros x []. }
  destruct (_ && _)%bool; [now apply Hhist|exact Hfrom].
Qed.

Lemma statsOf_mostActiveDay rt yr merged tt :
  let s := Stats.statsOf rt yr merged tt in
  WrappedStats.mostActiveDay s
  = Stats.findMostActiveDay (WrappedStats.dailyActivity s)
  /\ WrappedStats.dailyActivity s
     = fst (Stats.buildDailyActivity rt yr (Stats.statsCache merged)
                                     (Stats.history merged)).
Proof.
  simpl. unfold Stats.statsOf.
  now destruct (Stats.buildDailyActivity rt yr _ _).
Qed.

(** C10. On a map whose keys are dates (non-empty strings),
    [findMostActiveDay] returns a result exactly when some date has a
    strictly positive count: it returns null on the empty map and on a map
    whose counts are all zero or negative.  The result is the first entry,
    in insertion order, that reaches the maximum count: every earlier entry
    has a strictly smaller count and no later entry has a larger one.  The
    map that [calculateStats] passes always has such keys, so this holds of
    the [mostActiveDay] of every computed summary. *)
Theorem findMostActiveDay_spec :
  (forall m : JS.JsMap Z,
      (forall k, In k (JS.map_keys m) -> k <> EmptyString) ->
      (Stats.findMostActiveDay m <> None <-> Spec.somePositive m)
      /\ (forall r, Stats.findMostActiveDay m = Some r ->
                    Spec.firstMaximum m r))
  /\ (forall rt yr local remotes,
        let s := Stats.calculateStats rt yr local remotes in
        (WrappedStats.mostActiveDay s <> None
         <-> Spec.somePositive (WrappedStats.dailyActivity s))
        /\ (forall r, WrappedStats.mostActiveDay s = Some r ->
                      Spec.firstMaximum (WrappedStats.dailyActivity s) r)).
Proof.
  split; [exact findMostActiveDay_dates|].
  intros rt yr local remotes s. subst s. unfold Stats.calculateStats.
  destruct (statsOf_mostActiveDay rt yr (Stats.mergeData rt local remotes)
              Stats.totalTokensOf) as [-> Hmap].
  apply findMostActiveDay_dates. rewrite Hmap.
  apply buildDailyActivity_keys.
Qed.

Lemma findMostActiveDay_spec_witness :
  (Stats.findMostActiveDay Examples.tiedDays <> None
   <-> Spec.somePositive Examples.tiedDays)
  /\ (forall r, Stats.findMostActiveDay Examples.tiedDays = Some r ->
                Spec.firstMaximum Examples.tiedDays r).
Proof.
  apply (proj1 findMostActiveDay_spec Examples.tiedDays).
  intros k Hk. simpl in Hk.
  repeat (destruct Hk as [<- | Hk]; [discriminate|]). destruct Hk.
Defined.

(** The empty string is the loop's marker for "no maximum yet": a map whose
    maximum sits on an empty key, which no caller builds, gives null. *)
Lemma findMostActiveDay_empty_key :
  Stats.findMostActiveDay [(EmptyString, 5)] = None.
Proof. reflexivity. Qed.

(** On the tie above the result is the day inserted first, which is not the
    smallest date; a map that holds only zero counts gives null. *)
Lemma findMostActiveDay_examples :
  Stats.findMostActiveDay Examples.tiedDays
  = Some (MostActiveDay.mk "2025-03-09" 7)
  /\ Stats.findMostActiveDay
       [("2025-03-01"%string, 0); ("2025-03-02"%string, 0)]
     = None.
Proof. split; reflexivity. Qed.

(* ================================================================== *)
(** * Percentages                                                      *)
(* ================================================================== *)

Lemma fold_add_total (l : list Z) (a : Z) :
  fold_left Z.add l a = a + Spec.total l.
Proof.
  revert a. induction l as [|x l IH]; intros a; simpl; [lia|].
  rewrite IH. lia.
Qed.

Lemma sum_total (l : list Z) : JS.sum l = Spec.total l.
Proof. unfold JS.sum. now rewrite fold_add_total. Qed.

Lemma total_bound (l : list Z) (lo : Z) :
  0 <= lo -> (forall x, In x l -> lo <= x) ->
  0 <= Spec.total l /\ forall x, In x l -> x <= Spec.total l.
Proof.
  intros Hlo. induction l as [|y l IH]; intros Hall; simpl.
  - split; [lia|intros x []].
  - assert (Hy : lo <= y) by (apply Hall; now left).
    destruct IH as [H0 Hle]; [intros x Hx; apply Hall; now right|].
    split; [lia|]. intros x [<- | Hx]; [lia|]. specialize (Hle x Hx). lia.
Qed.

Lemma insert_sorted_In {A : Type} (before : A -> A -> bool) (x y : A)
    (l : list A) :
  In y (JS.insert_sorted before x l) <-> y = x \/ In y l.
Proof.
  induction l as [|z l IH]; simpl; [intuition|].
  destruct (before x z); simpl; [intuition|]. rewrite IH. intuition.
Qed.

Lemma sort_by_In {A : Type} (before : A -> A -> bool) (y : A) (l : list A) :
  In y (JS.sort_by before l) <-> In y l.
Proof.
  induction l as [|x l IH]; simpl; [tauto|].
  rewrite insert_sorted_In, IH. intuition.
Qed.

Lemma top_In {A : Type} (before : A -> A -> bool) (n : nat) (y : A)
    (l : list A) :
  In y (JS.slice0 n (JS.sort_by before l)) -> In y l.
Proof.
  intros H. apply (sort_by_In before). unfold JS.slice0 in H.
  rewrite <- (firstn_skipn n (JS.sort_by before l)).
  apply in_or_app. now left.
Qed.

Lemma modelCounts_values (entries : JS.JsMap ModelUsage) (m : JS.JsMap Z) :
  (forall id u, In (id, u) entries -> 0 <= outputTokens u) ->
  (forall id n, In (id, n) m -> 0 <= n) ->
  forall id n,
    In (id, n) (fold_left Stats.modelCountStep entries m) -> 0 <= n.
Proof.
  revert m. induction entries as [|[k u] entries IH]; intros m He Hm id n;
    simpl; [apply Hm|].
  apply IH.
  - intros id' u' H. apply (He id'). now right.
  - intros id' n' H. apply map_set_In in H as [H|[_ ->]]; [now apply (Hm id')|].
    unfold JS.num_or0. specialize (He k u (or_introl eq_refl)).
    destruct (outputTokens u =? 0); lia.
Qed.

Lemma In_map_values {V : Type} (m : JS.JsMap V) (k : string) (v : V) :
  In (k, v) m -> In v (JS.map_values m).
Proof. intros H. unfold JS.map_values. now apply (in_map snd) in H. Qed.

(** Replacing or adding a count changes the total by the difference. *)
Lemma total_map_set (m : JS.JsMap Z) (k : string) (v : Z) :
  Spec.total (JS.map_values (JS.map_set m k v))
  = Spec.total (JS.map_values m)
    - match JS.map_get m k with Some old => old | None => 0 end + v.
Proof.
  unfold JS.map_values.
  induction m as [|[k' v'] m IH]; simpl; [lia|].
  destruct (String.eqb_spec k' k) as [->|Hne]; simpl; [lia|].
  rewrite IH. lia.
Qed.


Lemma projectCounts_invariant (l : list HistoryEntry) (m : JS.JsMap Z) :
  (forall k n, In (k, n) m -> 1 <= n) ->
  (forall k n, In (k, n) (fold_left Stats.projectStep l m) -> 1 <= n)
  /\ Spec.total (JS.map_values (fold_left Stats.projectStep l m))
     = Spec.total (JS.map_values m) + Z.of_nat (List.length l).
Proof.
  revert m. induction l as [|e l IH]; intros m Hm; simpl List.length.
  - simpl. split; [exact Hm|lia].
  - cbn [fold_left].
    assert (Hstep : (forall k n, In (k, n) (Stats.projectStep m e) -> 1 <= n)
                    /\ Spec.total (JS.map_values (Stats.projectStep m e))
                       = Spec.total (JS.map_values m) + 1).
    { unfold Stats.projectStep. rewrite total_map_set.
      destruct (JS.map_get m (Stats.projectNameOf e)) as [old|] eqn:Hg.
      - apply map_get_In, Hm in Hg.
        assert (JS.num_or0 old = old) as ->.
        { unfold JS.num_or0. destruct (Z.eqb_spec old 0); lia. }
        split; [|lia].
        intros k n H. apply map_set_In in H as [H|[_ ->]];
          [now apply (Hm k)|lia].
      - split; [|lia].
        intros k n H. apply map_set_In in H as [H|[_ ->]];
          [now apply (Hm k)|lia]. }
    destruct Hstep as [H1 H2].
    destruct (IH _ H1) as [IH1 IH2]. split; [exact IH1|].
    rewrite IH2, H2. lia.
Qed.

Lemma statsOf_totalPrompts rt yr merged tt :
  WrappedStats.totalPrompts (Stats.statsOf rt yr merged tt)
  = Z.of_nat (List.length (Stats.history merged)).
Proof.
  unfold Stats.statsOf.
  now destruct (Stats.buildDailyActivity rt yr _ _).
Qed.

(** C3 (as amended). When the output-token counts of the merged cache
    are non-negative with a sum below 2^53, and the history has fewer than
    2^53 entries, every top-model and every top-project percentage is an
    integer between 0 and 100: no NaN is produced.  A top-model percentage
    is 0 when the sum of all model counts is 0, and otherwise it is 0
    exactly when the count is below one half percent of that sum.  A
    top-project percentage is computed against a positive number of
    history entries, and is 0 exactly when the project's prompt count is
    below one half percent of the entries.  The percentages are the
    binary64 values that [Math.round((count / total) * 100)] computes. *)
Theorem percentages_bounded (rt : Runtime) (yr : Z)
    (local : Stats.CollectedData) (remotes : list RemoteData.t) :
  let merged := Stats.mergeData rt local remotes in
  let s := Stats.calculateStats rt yr local remotes in
  let total := Spec.modelTotal (Stats.statsCache merged) in
  (forall c id u,
      Stats.statsCache merged = Some c -> In (id, u) (modelUsage c) ->
      0 <= outputTokens u) ->
  total < 2 ^ 53 ->
  WrappedStats.totalPrompts s < 2 ^ 53 ->
  (forall ms, In ms (WrappedStats.topModels s) ->
      exists p,
        ModelStats.percentage ms = Some p /\ 0 <= p <= 100
        /\ (total = 0 -> p = 0)
        /\ (p = 0 <-> total = 0 \/ 200 * ModelStats.count ms < total))
  /\ (forall pj, In pj (WrappedStats.topProjects s) ->
      0 < WrappedStats.totalPrompts s
      /\ exists p,
           ProjectStats.percentage pj = Some p /\ 0 <= p <= 100
           /\ (p = 0
               <-> 200 * ProjectStats.promptCount pj
                   < WrappedStats.totalPrompts s)).
Proof.
  intros merged s total. subst s total. unfold Stats.calculateStats.
  fold merged. clearbody merged. intros Hnonneg Hsmall Hshort. split.
  - intros ms. rewrite statsOf_topModels. unfold Stats.topModelsOf.
    unfold Spec.modelTotal in *.
    set (counts := Stats.modelCountsOf (Stats.statsCache merged)) in *.
    intros Hin. apply in_map_iff in Hin as [[id n] [<- Hin]].
    apply top_In in Hin. cbn [ModelStats.percentage ModelStats.count].
    assert (Hvals : forall k v, In (k, v) counts -> 0 <= v).
    { subst counts. unfold Stats.modelCountsOf.
      destruct (Stats.statsCache merged) as [c|]; [|intros k v []].
      apply modelCounts_values; [|intros k v []].
      intros k u Hu. now apply (Hnonneg c k u). }
    destruct (total_bound (JS.map_values counts) 0) as [Ht Hle]; [lia| |].
    { intros x Hx. unfold JS.map_values in Hx.
      apply in_map_iff in Hx as [[k v] [<- Hx]]. now apply (Hvals k). }
    rewrite sum_total in *.
    specialize (Hle n (In_map_values counts id n Hin)).
    specialize (Hvals id n Hin).
    destruct (Z.gtb_spec (Spec.total (JS.map_values counts)) 0) as [Hpos|Hz].
    + destruct (percentage_spec n (Spec.total (JS.map_values counts)))
        as (p & Hp & Hr & Hiff); [lia|lia|].
      exists p. split; [exact Hp|]. split; [exact Hr|]. split; [lia|].
      rewrite Hiff. lia.
    + exists 0. split; [reflexivity|]. split; [lia|]. split; [reflexivity|].
      split; [left; lia|reflexivity].
  - intros pj. rewrite statsOf_topProjects.
    rewrite statsOf_totalPrompts in *.
    unfold Stats.topProjectsOf, Stats.projectCountsOf.
    destruct (projectCounts_invariant (Stats.history merged) [])
      as [Hone Htot]; [intros k n []|].
    set (counts := fold_left Stats.projectStep (Stats.history merged) [])
      in *.
    simpl in Htot.
    intros Hin. apply in_map_iff in Hin as [[name n] [<- Hin]].
    apply top_In in Hin. cbn [ProjectStats.percentage ProjectStats.promptCount].
    destruct (total_bound (JS.map_values counts) 1) as [_ Hle]; [lia| |].
    { intros x Hx. unfold JS.map_values in Hx.
      apply in_map_iff in Hx as [[k v] [<- Hx]]. now apply (Hone k). }
    specialize (Hle n (In_map_values counts name n Hin)).
    specialize (Hone name n Hin).
    set (len := Z.of_nat (List.length (Stats.history merged))) in *.
    assert (Hpos : 0 < len) by lia.
    destruct (Z.gtb_spec len 0) as [_|Hz]; [|lia].
    destruct (percentage_spec n len) as (p & Hp & Hr & Hiff); [lia|lia|].
    split; [exact Hpos|]. exists p. split; [exact Hp|].
    split; [exact Hr|exact Hiff].
Qed.

Lemma percentages_bounded_witness :
  let merged :=
    Stats.mergeData utcRuntime Examples.lopsidedModels [] in
  let s := Stats.calculateStats utcRuntime 2025 Examples.lopsidedModels [] in
  let total := Spec.modelTotal (Stats.statsCache merged) in
  (forall ms, In ms (WrappedStats.topModels s) ->
      exists p,
        ModelStats.percentage ms = Some p /\ 0 <= p <= 100
        /\ (total = 0 -> p = 0)
        /\ (p = 0 <-> total = 0 \/ 200 * ModelStats.count ms < total))
  /\ (forall pj, In pj (WrappedStats.topProjects s) ->
      0 < WrappedStats.totalPrompts s
      /\ exists p,
           ProjectStats.percentage pj = Some p /\ 0 <= p <= 100
           /\ (p = 0
               <-> 200 * ProjectStats.promptCount pj
                   < WrappedStats.totalPrompts s)).
Proof.
  apply (percentages_bounded utcRuntime 2025 Examples.lopsidedModels []).
  - intros c id u [= <-] Hin. simpl in Hin.
    destruct Hin as [[= <- <-]|[[= <- <-]|[]]]; simpl; lia.
  - reflexivity.
  - reflexivity.
Defined.

(** C3 (as stated) fails in three ways.  A share below one half percent
    is 0 although the denominator is not: a model with 1 of 1001 output
    tokens, a project with 1 of 201 prompts.  With a negative count a
    percentage leaves [0,100]: for the counts 300 and -200 the sum is 100
    and the percentages are 300 and -200.  With a count beyond the
    binary64 range the quotient is Infinity / Infinity, and the percentage
    is NaN. *)
Lemma percentages_not_as_claimed :
  ((Spec.modelTotal
      (Stats.statsCache
         (Stats.mergeData utcRuntime Examples.lopsidedModels [])) = 1001
    /\ In (ModelStats.mk "B" "B" "anthropic" 1 (Some 0))
          (WrappedStats.topModels
             (Stats.calculateStats utcRuntime 2025 Examples.lopsidedModels
                [])))
   /\ (WrappedStats.totalPrompts
         (Stats.calculateStats utcRuntime 2025 Examples.manyPrompts []) = 201
       /\ In (ProjectStats.mk "a" 1 (Some 0))
             (WrappedStats.topProjects
                (Stats.calculateStats utcRuntime 2025 Examples.manyPrompts
                   []))))
  /\ (Spec.modelTotal
        (Stats.statsCache
           (Stats.mergeData utcRuntime Examples.negativeModels [])) = 100
      /\ List.map (fun ms => (ModelStats.count ms, ModelStats.percentage ms))
            (WrappedStats.topModels
               (Stats.calculateStats utcRuntime 2025 Examples.negativeModels
                  []))
         = [(300, Some 300); (-200, Some (-200))])
  /\ List.map ModelStats.percentage
       (WrappedStats.topModels
          (Stats.calculateStats utcRuntime 2025 Examples.hugeModel []))
     = [None].
Proof.
  split; [split; split|split; [split|]].
  - reflexivity.
  - assert (H : WrappedStats.topModels
             (Stats.calculateStats utcRuntime 2025 Examples.lopsidedModels [])
           = [ModelStats.mk "A" "A" "anthropic" 1000 (Some 100);
              ModelStats.mk "B" "B" "anthropic" 1 (Some 0)])
      by (vm_compute; reflexivity).
    rewrite H. right. left. reflexivity.
  - vm_compute. reflexivity.
  - assert (H : WrappedStats.topProjects
             (Stats.calculateStats utcRuntime 2025 Examples.manyPrompts [])
           = [ProjectStats.mk "main" 198 (Some 99);
              ProjectStats.mk "a" 1 (Some 0);
              ProjectStats.mk "b" 1 (Some 0);
              ProjectStats.mk "c" 1 (Some 0)])
      by (vm_compute; reflexivity).
    rewrite H. right. left. reflexivity.
  - reflexivity.
  - vm_compute. reflexivity.
  - vm_compute. reflexivity.
Qed.

(* ================================================================== *)
(** * Additive merge of the daily activity                             *)
(* ================================================================== *)




Lemma last_cons {A : Type} (a d : A) (l : list A) :
  last (a :: l) d = last l a.
Proof.
  revert a d. induction l as [|b l IH]; intros a d; [reflexivity|].
  change (last (a :: b :: l) d) with (last (b :: l) d).
  rewrite IH. symmetry. apply IH.
Qed.
















(** The merged daily activity of the example: 2025-03-01 is the sum of
    three sources, 2025-03-02 of two; the others are copied. *)
Lemma mergeData_daily_example :
  option_map dailyActivity
    (Stats.statsCache
       (Stats.mergeData utcRuntime Examples.localDays Examples.remoteDays))
  = Some [Examples.day "2025-03-01" 117 13 48;
          Examples.day "2025-03-02" 5 2 1;
          Examples.day "2025-03-03" 6 1 2;
          Examples.day "2025-03-04" 9 2 1].
Proof. reflexivity. Qed.


(* ================================================================== *)
(** * Streaks                                                          *)
(* ================================================================== *)

Section Sorting.
Context {A : Type} (before : A -> A -> bool).
Hypothesis before_total :
  forall x y, before x y = true \/ before y x = true.

Let R (x y : A) : Prop := before x y = true.

Lemma insert_sorted_perm (x : A) (l : list A) :
  Permutation (JS.insert_sorted before x l) (x :: l).
Proof.
  induction l as [|y l IH]; simpl; [reflexivity|].
  destruct (before x y); [reflexivity|].
  rewrite IH. apply perm_swap.
Qed.

Lemma sort_by_perm (l : list A) : Permutation (JS.sort_by before l) l.
Proof.
  induction l as [|x l IH]; simpl; [reflexivity|].
  rewrite insert_sorted_perm. now constructor.
Qed.

Lemma insert_sorted_HdRel (a x : A) (l : list A) :
  R a x -> HdRel R a l -> HdRel R a (JS.insert_sorted before x l).
Proof.
  intros Hax Hl. destruct l as [|y l]; simpl; [now constructor|].
  destruct (before x y); constructor; [exact Hax|].
  now inversion Hl.
Qed.

Lemma insert_sorted_Sorted (x : A) (l : list A) :
  Sorted R l -> Sorted R (JS.insert_sorted before x l).
Proof.
  induction l as [|y l IH]; intros Hs; simpl.
  - repeat constructor.
  - destruct (before x y) eqn:E.
    + constructor; [exact Hs|now constructor].
    + inversion Hs as [|? ? Hs' Hhd]; subst.
      constructor; [now apply IH|].
      apply insert_sorted_HdRel; [|exact Hhd].
      destruct (before_total x y) as [H|H]; [congruence|exact H].
Qed.

Lemma sort_by_Sorted (l : list A) : Sorted R (JS.sort_by before l).
Proof.
  induction l as [|x l IH]; simpl; [constructor|].
  now apply insert_sorted_Sorted.
Qed.
End Sorting.

Lemma slice_incl_all {A : Type} (s : nat) (pre : list A) (x : A) :
  Stats.slice_incl s (List.length pre) (pre ++ [x]) = skipn s (pre ++ [x]).
Proof.
  unfold Stats.slice_incl. f_equal. apply firstn_all2.
  rewrite length_app. simpl. lia.
Qed.

Lemma slice_incl_prefix {A : Type} (s e : nat) (pre post : list A) :
  (e < List.length pre)%nat ->
  Stats.slice_incl s e (pre ++ post) = Stats.slice_incl s e pre.
Proof.
  intros He. unfold Stats.slice_incl. f_equal. rewrite firstn_app.
  replace (S e - List.length pre)%nat with 0%nat by lia.
  simpl. apply app_nil_r.
Qed.

Lemma skipn_snoc {A : Type} (s : nat) (pre : list A) (x : A) :
  (s <= List.length pre)%nat -> skipn s (pre ++ [x]) = skipn s pre ++ [x].
Proof.
  intros Hs. rewrite skipn_app.
  replace (s - List.length pre)%nat with 0%nat by lia. reflexivity.
Qed.

(** The index loop computes the run kept by the description. *)
Lemma streakLoop_refines (rt : Runtime) (rest : list string) :
  forall (done : list string) (prev : string) (v : Stats.StreakVars),
    let pre := done ++ [prev] in
    let run := skipn (Stats.v_tempStreakStart v) pre in
    let best :=
      Stats.slice_incl (Stats.v_maxStreakStart v) (Stats.v_maxStreakEnd v)
                       pre in
    (Stats.v_tempStreakStart v < List.length pre)%nat ->
    Stats.v_tempStreak v = Z.of_nat (List.length run) ->
    (Stats.v_maxStreakEnd v < List.length pre)%nat ->
    Stats.v_maxStreak v = Z.of_nat (List.length best) ->
    1 <= Stats.v_maxStreak v ->
    let v' := Stats.streakLoop rt prev rest (List.length pre) v in
    Stats.slice_incl (Stats.v_maxStreakStart v') (Stats.v_maxStreakEnd v')
                     (pre ++ rest)
    = Spec.longestRunFrom rt prev rest run best
    /\ Stats.v_maxStreak v'
       = Z.of_nat (List.length (Spec.longestRunFrom rt prev rest run best)).
Proof.
  induction rest as [|curr rest IH];
    intros done prev v pre run best Hts Htemp Hme Hmax Hone.
  - simpl. rewrite app_nil_r. split; [reflexivity|exact Hmax].
  - cbn [Stats.streakLoop Spec.longestRunFrom].
    set (v1 := Stats.streakStep rt prev curr (List.length pre) v).
    set (run' := if Stats.consecutive rt prev curr
                 then run ++ [curr] else [curr]).
    set (best' := if (List.length best <? List.length run')%nat
                  then run' else best).
    assert (Hlen : List.length (pre ++ [curr]) = S (List.length pre))
      by (rewrite length_app; simpl; lia).
    assert (Hstep :
      (Stats.v_tempStreakStart v1 < List.length (pre ++ [curr]))%nat
      /\ skipn (Stats.v_tempStreakStart v1) (pre ++ [curr]) = run'
      /\ Stats.v_tempStreak v1 = Z.of_nat (List.length run')
      /\ (Stats.v_maxStreakEnd v1 < List.length (pre ++ [curr]))%nat
      /\ Stats.slice_incl (Stats.v_maxStreakStart v1)
           (Stats.v_maxStreakEnd v1) (pre ++ [curr]) = best'
      /\ Stats.v_maxStreak v1 = Z.of_nat (List.length best')
      /\ 1 <= Stats.v_maxStreak v1).
    { subst v1 run' best'. unfold Stats.streakStep.
      destruct (Stats.consecutive rt prev curr).
      - assert (Hrun : skipn (Stats.v_tempStreakStart v) (pre ++ [curr])
                       = run ++ [curr])
          by (apply skipn_snoc; lia).
        assert (Hrl : List.length (run ++ [curr]) = S (List.length run))
          by (rewrite length_app; simpl; lia).
        destruct (Z.gtb_spec (Stats.v_tempStreak v + 1) (Stats.v_maxStreak v))
          as [Hgt|Hle]; cbn [Stats.v_tempStreakStart Stats.v_tempStreak
                             Stats.v_maxStreakStart Stats.v_maxStreakEnd
                             Stats.v_maxStreak].
        + destruct (Nat.ltb_spec (List.length best)
                                 (List.length (run ++ [curr]))); [|lia].
          rewrite slice_incl_all, Hrun.
          repeat split; try lia.
        + destruct (Nat.ltb_spec (List.length best)
                                 (List.length (run ++ [curr]))); [lia|].
          rewrite slice_incl_prefix by lia. fold best.
          repeat split; try lia; try assumption.
      - cbn [Stats.v_tempStreakStart Stats.v_tempStreak
             Stats.v_maxStreakStart Stats.v_maxStreakEnd Stats.v_maxStreak].
        destruct (Nat.ltb_spec (List.length best) (List.length [curr]));
          [simpl in *; lia|].
        rewrite slice_incl_prefix by lia. fold best.
        assert (Hskip : skipn (List.length pre) (pre ++ [curr]) = [curr]).
        { rewrite skipn_app, skipn_all, Nat.sub_diag. reflexivity. }
        rewrite Hskip. simpl List.length.
        repeat split; try lia; try assumption. }
    destruct Hstep as (H1 & H2 & H3 & H4 & H5 & H6 & H7).
    specialize (IH pre curr v1). cbv zeta in IH.
    rewrite H2, H5, Hlen in IH.
    replace ((pre ++ [curr]) ++ rest) with (pre ++ curr :: rest) in IH
      by (rewrite <- app_assoc; reflexivity).
    apply IH; try assumption; lia.
Qed.

Lemma calculateStreaks_refines (rt : Runtime) (m : JS.JsMap Z) (yr : Z) :
  let run := Spec.longestRun rt (Stats.activeDatesOf m yr) in
  Stats.calculateStreaks rt m yr
  = Stats.mkStreaks (Z.of_nat (List.length run)) (JS.Set_of run).
Proof.
  unfold Stats.calculateStreaks.
  destruct (Stats.activeDatesOf m yr) as [|first rest]; [reflexivity|].
  destruct (streakLoop_refines rt rest [] first
              (Stats.mkStreakVars 1 1 0 0 0)) as [Hslice Hmax];
    try (simpl; lia); try reflexivity.
  simpl app in Hslice. simpl List.length in Hslice, Hmax.
  cbn [Spec.longestRun].
  change (Stats.slice_incl 0 0 [first]) with [first] in Hslice, Hmax.
  change (skipn 0 [first]) with [first] in Hslice, Hmax.
  cbv zeta. rewrite Hslice, Hmax. reflexivity.
Qed.

Lemma round_days (k : Z) :
  JS.Math_round_div (k * Calendar.ms_per_day) (1000 * 60 * 60 * 24) = k.
Proof.
  unfold JS.Math_round_div, Calendar.ms_per_day.
  replace (2 * (k * (1000 * 60 * 60 * 24)) + 1000 * 60 * 60 * 24)
    with (k * (2 * (1000 * 60 * 60 * 24)) + 1000 * 60 * 60 * 24) by lia.
  rewrite Z.div_add_l by lia. rewrite Z.div_small; lia.
Qed.

Lemma diffDays_offset (rt : Runtime) (a b : string) (ta tb : JSDate)
    (k : Z) :
  Date_of_string rt a = Some ta -> Date_of_string rt b = Some tb ->
  getTime tb - getTime ta = k * Calendar.ms_per_day ->
  Stats.diffDays rt a b = Some k.
Proof.
  intros Ha Hb Hk. unfold Stats.diffDays. rewrite Ha, Hb, Hk.
  now rewrite round_days.
Qed.


(** ** The run that the scan keeps is a longest run of consecutive days *)

Lemma isRun_cons (rt : Runtime) (x y : string) (l : list string) :
  Spec.isRun rt (x :: y :: l)
  <-> Stats.consecutive rt x y = true /\ Spec.isRun rt (y :: l).
Proof. reflexivity. Qed.

Lemma isRun_app_l (rt : Runtime) (l1 l2 : list string) :
  Spec.isRun rt (l1 ++ l2) -> Spec.isRun rt l1.
Proof.
  induction l1 as [|x l1 IH]; intros H; [exact I|].
  destruct l1 as [|y l1]; [exact I|].
  change ((x :: y :: l1) ++ l2) with (x :: y :: (l1 ++ l2)) in H.
  apply isRun_cons in H as [Hxy H]. apply isRun_cons.
  split; [exact Hxy|]. now apply IH.
Qed.

Lemma isRun_snoc (rt : Runtime) (l : list string) (p c : string) :
  Spec.isRun rt ((l ++ [p]) ++ [c])
  <-> Spec.isRun rt (l ++ [p]) /\ Stats.consecutive rt p c = true.
Proof.
  induction l as [|x l IH].
  - simpl. tauto.
  - destruct l as [|y l].
    + simpl. tauto.
    + change (((x :: y :: l) ++ [p]) ++ [c])
        with (x :: y :: ((l ++ [p]) ++ [c])).
      change ((x :: y :: l) ++ [p]) with (x :: y :: (l ++ [p])).
      rewrite !isRun_cons.
      change (y :: (l ++ [p]) ++ [c]) with (((y :: l) ++ [p]) ++ [c]).
      change (y :: l ++ [p]) with ((y :: l) ++ [p]).
      rewrite IH. tauto.
Qed.

(** A suffix of [pre ++ [c]] is empty or ends with [c]. *)
Lemma suffix_snoc {A : Type} (pre a s : list A) (c : A) :
  pre ++ [c] = a ++ s ->
  (s = [] /\ a = pre ++ [c])
  \/ exists s0, s = s0 ++ [c] /\ pre = a ++ s0.
Proof.
  intros H. induction s as [|z s0 _] using rev_ind.
  - left. split; [reflexivity|]. now rewrite app_nil_r in H.
  - right. exists s0. rewrite app_assoc in H.
    apply app_inj_tail in H as [-> ->]. split; reflexivity.
Qed.

Lemma longestRunFrom_longest (rt : Runtime) (rest : list string) :
  forall (done : list string) (prev : string) (x run0 best : list string),
    done ++ [prev] = x ++ (run0 ++ [prev]) ->
    Spec.isRun rt (run0 ++ [prev]) ->
    (forall x' s,
        done ++ [prev] = x' ++ s -> Spec.isRun rt s ->
        (List.length s <= List.length (run0 ++ [prev]))%nat) ->
    (exists a b, done ++ [prev] = a ++ best ++ b) ->
    Spec.isRun rt best ->
    (forall a' r' b',
        done ++ [prev] = a' ++ r' ++ b' -> Spec.isRun rt r' ->
        (List.length r' <= List.length best)%nat) ->
    let res := Spec.longestRunFrom rt prev rest (run0 ++ [prev]) best in
    (exists a b, (done ++ [prev]) ++ rest = a ++ res ++ b)
    /\ Spec.isRun rt res
    /\ (forall a' r' b',
           (done ++ [prev]) ++ rest = a' ++ r' ++ b' -> Spec.isRun rt r' ->
           (List.length r' <= List.length res)%nat).
Proof.
  induction rest as [|curr rest IH];
    intros done prev x run0 best Hpre Hrun Hsuf Hseg Hbest Hmax.
  - simpl. rewrite app_nil_r. auto.
  - cbn [Spec.longestRunFrom]. cbv zeta.
    set (pre := done ++ [prev]) in *.
    set (run := run0 ++ [prev]) in *.
    set (run' := if Stats.consecutive rt prev curr
                 then run ++ [curr] else [curr]).
    set (best' := if (List.length best <? List.length run')%nat
                  then run' else best).
    replace (pre ++ curr :: rest) with ((pre ++ [curr]) ++ rest)
      by (rewrite <- app_assoc; reflexivity).
    assert (Hshape : exists x' run0',
               run' = run0' ++ [curr] /\ pre ++ [curr] = x' ++ run').
    { subst run'. destruct (Stats.consecutive rt prev curr).
      - exists x, run. split; [reflexivity|].
        rewrite Hpre. now rewrite app_assoc.
      - exists pre, []. split; reflexivity. }
    assert (Hrun' : Spec.isRun rt run').
    { subst run'. destruct (Stats.consecutive rt prev curr) eqn:E;
        [|exact I].
      subst run. apply isRun_snoc. now split. }
    assert (Hsuf' : forall x' s,
               pre ++ [curr] = x' ++ s -> Spec.isRun rt s ->
               (List.length s <= List.length run')%nat).
    { intros x' s Hs Hr.
      assert (Hlen : (1 <= List.length run')%nat).
      { destruct Hshape as (? & r0 & -> & _). rewrite length_app.
        simpl. lia. }
      destruct (suffix_snoc pre x' s curr Hs) as [[-> _]|(s0 & -> & Hs0)];
        [simpl; lia|].
      subst run'. destruct (Stats.consecutive rt prev curr) eqn:E.
      - apply isRun_app_l in Hr. specialize (Hsuf x' s0 Hs0 Hr).
        rewrite !length_app. simpl. lia.
      - induction s0 as [|z s1 _] using rev_ind; [simpl; lia|].
        exfalso. subst pre. rewrite app_assoc in Hs0.
        apply app_inj_tail in Hs0 as [_ ->].
        apply isRun_snoc in Hr as [_ Hr]. congruence. }
    assert (Hle : (List.length run' <= List.length best')%nat
                  /\ (List.length best <= List.length best')%nat).
    { subst best'.
      destruct (Nat.ltb_spec (List.length best) (List.length run')); lia. }
    clearbody run'. destruct Hshape as (x' & run0' & -> & Hx').
    apply (IH pre curr x' run0' best'); try assumption.
    + subst best'.
      destruct (List.length best <? List.length (run0' ++ [curr]))%nat.
      * exists x', []. now rewrite app_nil_r.
      * destruct Hseg as (a & b & Hab). exists a, (b ++ [curr]).
        rewrite Hab. now rewrite <- !app_assoc.
    + subst best'.
      now destruct (List.length best <? List.length (run0' ++ [curr]))%nat.
    + intros a' r' b' Hs Hr. rewrite app_assoc in Hs.
      destruct (suffix_snoc pre (a' ++ r') b' curr Hs)
        as [[-> Heq]|(b0 & -> & Hb0)].
      * rewrite app_nil_r in Hs. specialize (Hsuf' a' r' Hs Hr). lia.
      * rewrite <- app_assoc in Hb0. specialize (Hmax a' r' b0 Hb0 Hr). lia.
Qed.

(** The run kept by the scan is a stretch of the sorted dates in which each
    date is one day after the previous one, and no such stretch is
    longer. *)
Lemma longestRun_longest (rt : Runtime) (dates : list string) :
  let run := Spec.longestRun rt dates in
  (exists a b, dates = a ++ run ++ b)
  /\ Spec.isRun rt run
  /\ (forall a' r' b',
         dates = a' ++ r' ++ b' -> Spec.isRun rt r' ->
         (List.length r' <= List.length run)%nat).
Proof.
  destruct dates as [|first rest]; simpl.
  - split; [now exists [], []|]. split; [exact I|].
    intros a' r' b' H _. symmetry in H.
    apply app_eq_nil in H as [_ H]. apply app_eq_nil in H as [-> _].
    reflexivity.
  - assert (Hsingle : forall a' r' b' : list string,
               [first] = a' ++ r' ++ b' ->
               (List.length r' <= 1)%nat).
    { intros a' r' b' H. apply (f_equal (@List.length string)) in H.
      rewrite !length_app in H. simpl in H. lia. }
    apply (longestRunFrom_longest rt rest [] first [] [] [first]);
      try reflexivity; try exact I.
    + intros x' s H _. apply (Hsingle x' s []). now rewrite app_nil_r.
    + now exists [], [].
    + intros a' r' b' H _. now apply (Hsingle a' r' b').
Qed.

(** C6. [calculateStreaks] works on the dates of the requested year in
    ascending order (a sorted rearrangement of the year-filtered keys,
    without repetition when the map has none); its index loop returns the
    length and the dates of the first longest run obtained by extending the
    running streak when the next date is one day after the previous one and
    restarting it otherwise; that run is a stretch of the sorted dates in
    which each date is one day after the previous one, and no such stretch
    is longer; and for active dates D, D+1, D+2, D+5, D+6 it returns
    maxStreak = 3 and the streak days {D, D+1, D+2}. *)
Theorem calculateStreaks_spec (rt : Runtime) (m : JS.JsMap Z) (yr : Z) :
  let dates := Stats.activeDatesOf m yr in
  let s := Stats.calculateStreaks rt m yr in
  (Permutation dates
     (filter (fun d => JS.startsWith d (JS.String_of_Z yr)) (JS.map_keys m))
   /\ Sorted (fun a b => String.leb a b = true) dates
   /\ (NoDup (JS.map_keys m) -> NoDup dates))
  /\ (Stats.s_maxStreak s
      = Z.of_nat (List.length (Spec.longestRun rt dates))
      /\ Stats.s_maxStreakDays s = JS.Set_of (Spec.longestRun rt dates))
  /\ ((exists a b, dates = a ++ Spec.longestRun rt dates ++ b)
      /\ Spec.isRun rt (Spec.longestRun rt dates)
      /\ (forall a' r' b',
             dates = a' ++ r' ++ b' -> Spec.isRun rt r' ->
             (List.length r' <= List.length (Spec.longestRun rt dates))%nat))
  /\ (forall d0 d1 d2 d5 d6 t0 t1 t2 t5 t6,
        dates = [d0; d1; d2; d5; d6] ->
        Date_of_string rt d0 = Some t0 ->
        Date_of_string rt d1 = Some t1 ->
        Date_of_string rt d2 = Some t2 ->
        Date_of_string rt d5 = Some t5 ->
        Date_of_string rt d6 = Some t6 ->
        getTime t1 = getTime t0 + 1 * Calendar.ms_per_day ->
        getTime t2 = getTime t0 + 2 * Calendar.ms_per_day ->
        getTime t5 = getTime t0 + 5 * Calendar.ms_per_day ->
        getTime t6 = getTime t0 + 6 * Calendar.ms_per_day ->
        Stats.s_maxStreak s = 3 /\ Stats.s_maxStreakDays s = [d0; d1; d2]).
Proof.
  intros dates s. split; [|split; [|split]].
  - subst dates. unfold Stats.activeDatesOf, JS.sort_strings.
    split; [apply sort_by_perm|]. split.
    + apply sort_by_Sorted. apply String.leb_total.
    + intros Hnd. eapply Permutation_NoDup.
      * symmetry. apply sort_by_perm.
      * now apply NoDup_filter.
  - subst s dates. rewrite calculateStreaks_refines. split; reflexivity.
  - apply longestRun_longest.
  - intros d0 d1 d2 d5 d6 t0 t1 t2 t5 t6 Hd H0 H1 H2 H5 H6 E1 E2 E5 E6.
    subst s. rewrite calculateStreaks_refines. fold dates. rewrite Hd.
    assert (C01 : Stats.consecutive rt d0 d1 = true).
    { unfold Stats.consecutive.
      rewrite (diffDays_offset rt d0 d1 t0 t1 1 H0 H1); [reflexivity|lia]. }
    assert (C12 : Stats.consecutive rt d1 d2 = true).
    { unfold Stats.consecutive.
      rewrite (diffDays_offset rt d1 d2 t1 t2 1 H1 H2); [reflexivity|lia]. }
    assert (C25 : Stats.consecutive rt d2 d5 = false).
    { unfold Stats.consecutive.
      rewrite (diffDays_offset rt d2 d5 t2 t5 3 H2 H5); [reflexivity|lia]. }
    assert (C56 : Stats.consecutive rt d5 d6 = true).
    { unfold Stats.consecutive.
      rewrite (diffDays_offset rt d5 d6 t5 t6 1 H5 H6); [reflexivity|lia]. }
    cbn [Spec.longestRun Spec.longestRunFrom].
    rewrite C01. cbn [app List.length Nat.ltb Nat.leb].
    rewrite C12. cbn [app List.length Nat.ltb Nat.leb].
    rewrite C25. cbn [app List.length Nat.ltb Nat.leb].
    rewrite C56. cbn [app List.length Nat.ltb Nat.leb].
    cbv zeta. split; [reflexivity|].
    apply Set_of_nodup.
    assert (Hms : Calendar.ms_per_day = 86400000) by reflexivity.
    assert (N01 : d0 <> d1) by (intros ->; rewrite H0 in H1;
                                injection H1 as ->; lia).
    assert (N02 : d0 <> d2) by (intros ->; rewrite H0 in H2;
                                injection H2 as ->; lia).
    assert (N12 : d1 <> d2) by (intros ->; rewrite H1 in H2;
                                injection H2 as ->; lia).
    repeat constructor; simpl; intuition congruence.
Qed.

Lemma calculateStreaks_spec_witness :
  Stats.s_maxStreak
    (Stats.calculateStreaks utcRuntime Examples.fiveDays 2025) = 3
  /\ Stats.s_maxStreakDays
       (Stats.calculateStreaks utcRuntime Examples.fiveDays 2025)
     = ["2025-02-27"; "2025-02-28"; "2025-03-01"]%string.
Proof.
  eapply (proj2 (proj2 (proj2
            (calculateStreaks_spec utcRuntime Examples.fiveDays 2025)))
            "2025-02-27" "2025-02-28" "2025-03-01" "2025-03-04"
            "2025-03-05")%string;
    reflexivity.
Defined.

(** In the UTC instance a parsed date is the midnight of a day number. *)
Lemma parse_iso_date_midnight (s : string) (d : JSDate) :
  Calendar.parse_iso_date s = Some d ->
  exists n, getTime d = n * Calendar.ms_per_day.
Proof.
  unfold Calendar.parse_iso_date.
  destruct (JS.split "-" s) as [|ys [|ms [|ds [|? ?]]]]; try discriminate.
  destruct (Calendar.number 4 ys) as [y|]; [|discriminate].
  destruct (Calendar.number 2 ms) as [mo|]; [|discriminate].
  destruct (Calendar.number 2 ds) as [da|]; [|discriminate].
  destruct (_ && _)%bool; [|discriminate].
  intros [= <-]. exists (Calendar.days_from_civil y mo da).
  unfold Calendar.date_of_day.
  now destruct (Calendar.civil_from_days _) as [[? ?] ?].
Qed.

(** For ISO dates in the UTC instance, the test [diffDays === 1] of the
    loop holds exactly when the second date is the day after the first. *)
Lemma utc_consecutive_next_day (a b : string) (ta tb : JSDate) :
  Calendar.parse_iso_date a = Some ta ->
  Calendar.parse_iso_date b = Some tb ->
  Stats.consecutive utcRuntime a b = true
  <-> getTime tb = getTime ta + Calendar.ms_per_day.
Proof.
  intros Ha Hb.
  destruct (parse_iso_date_midnight a ta Ha) as [na Hna].
  destruct (parse_iso_date_midnight b tb Hb) as [nb Hnb].
  unfold Stats.consecutive.
  assert (Ha' : Date_of_string utcRuntime a = Some ta)
    by (cbn [Date_of_string utcRuntime]; unfold Calendar.parse_iso;
        now rewrite Ha).
  assert (Hb' : Date_of_string utcRuntime b = Some tb)
    by (cbn [Date_of_string utcRuntime]; unfold Calendar.parse_iso;
        now rewrite Hb).
  rewrite (diffDays_offset utcRuntime a b ta tb (nb - na) Ha' Hb') by lia.
  rewrite Z.eqb_eq, Hna, Hnb. unfold Calendar.ms_per_day. lia.
Qed.

(* ================================================================== *)
(** * Transcript scanning                                              *)
(* ================================================================== *)

Lemma flat_map_ext_in {A B : Type} (f g : A -> list B) (l : list A) :
  (forall x, In x l -> f x = g x) -> flat_map f l = flat_map g l.
Proof.
  intros H. rewrite !flat_map_concat_map. f_equal.
  now apply map_ext_in.
Qed.

Lemma fold_left_ext_in {A B : Type} (f g : A -> B -> A) (l : list B)
    (a : A) :
  (forall acc x, In x l -> f acc x = g acc x) ->
  fold_left f l a = fold_left g l a.
Proof.
  revert a. induction l as [|x l IH]; intros a H; [reflexivity|].
  simpl. rewrite (H a x) by now left.
  apply IH. intros acc y Hy. apply H. now right.
Qed.

(** Session-message extraction depends on the session transcripts only:
    the .jsonl files of the project directories whose name does not start
    with "agent-". *)
Lemma sessions_ignore_other_files (rt : Runtime) (fs fs' : FileSystem)
    (yr : option Z) :
  homedir fs = homedir fs' ->
  (forall p, readdir fs p = readdir fs' p) ->
  (forall dir files f,
      readdir fs dir = Some files -> In f files ->
      JS.endsWith f ".jsonl" = true ->
      JS.startsWith f "agent-" = false ->
      readLines fs (join dir f) = readLines fs' (join dir f)) ->
  Collector.collectSessionMessages rt fs yr
  = Collector.collectSessionMessages rt fs' yr.
Proof.
  intros Hhome Hdir Hfiles.
  unfold Collector.collectSessionMessages, Collector.CLAUDE_DATA_PATH,
    Transcripts.sessionMessagesIn.
  rewrite <- Hhome, <- Hdir.
  destruct (readdir fs (join (join (homedir fs) ".claude") "projects"))
    as [projectDirs|]; [|reflexivity].
  apply flat_map_ext_in. intros projectDir _. rewrite <- Hdir.
  destruct (readdir fs _) as [files|] eqn:Hread; [|reflexivity].
  apply flat_map_ext_in. intros f Hf.
  apply filter_In in Hf as [Hin Hsel].
  unfold Transcripts.isSessionFile in Hsel.
  apply andb_true_iff in Hsel as [He Ha].
  apply negb_true_iff in Ha.
  now rewrite (Hfiles _ files f Hread Hin He Ha).
Qed.

(** The oldest-timestamp scan depends on the first 10 lines of the .jsonl
    files only. *)
Lemma oldest_reads_ten_lines (fs fs' : FileSystem) :
  homedir fs = homedir fs' ->
  (forall p, readdir fs p = readdir fs' p) ->
  (forall dir files f,
      readdir fs dir = Some files -> In f files ->
      JS.endsWith f ".jsonl" = true ->
      option_map (firstn 10) (readLines fs (join dir f))
      = option_map (firstn 10) (readLines fs' (join dir f))) ->
  Collector.findOldestLocalSessionTimestamp fs
  = Collector.findOldestLocalSessionTimestamp fs'.
Proof.
  intros Hhome Hdir Hfiles.
  unfold Collector.findOldestLocalSessionTimestamp,
    Collector.CLAUDE_DATA_PATH, Transcripts.oldestIn.
  rewrite <- Hhome, <- Hdir.
  destruct (readdir fs (join (join (homedir fs) ".claude") "projects"))
    as [projectDirs|]; [|reflexivity].
  apply fold_left_ext_in. intros acc projectDir _.
  unfold Transcripts.oldestOfProject. rewrite <- Hdir.
  destruct (readdir fs _) as [files|] eqn:Hread; [|reflexivity].
  apply fold_left_ext_in. intros acc' f Hf.
  apply filter_In in Hf as [Hin He].
  unfold Transcripts.isJsonlFile in He.
  specialize (Hfiles _ files f Hread Hin He).
  unfold Transcripts.oldestOfFile, JS.slice0.
  destruct (readLines fs _) as [lines|], (readLines fs' _) as [lines'|];
    cbn [option_map] in Hfiles; try discriminate; [|reflexivity].
  injection Hfiles as Hfiles.
  change (firstn 10 lines = firstn 10 lines') in Hfiles.
  now rewrite Hfiles.
Qed.

(** *** The order on strings *)

Lemma ascii_compare_lt_trans (a b c : ascii) :
  Ascii.compare a b = Lt -> Ascii.compare b c = Lt -> Ascii.compare a c = Lt.
Proof.
  unfold Ascii.compare. rewrite !N.compare_lt_iff. apply N.lt_trans.
Qed.

Lemma string_compare_lt_trans (s1 : string) :
  forall s2 s3,
    String.compare s1 s2 = Lt -> String.compare s2 s3 = Lt ->
    String.compare s1 s3 = Lt.
Proof.
  induction s1 as [|c1 s1 IH]; intros [|c2 s2] [|c3 s3]; simpl;
    try congruence.
  destruct (Ascii.compare c1 c2) eqn:E12; try discriminate;
    destruct (Ascii.compare c2 c3) eqn:E23; try discriminate; intros H1 H2.
  - apply Ascii.compare_eq_iff in E12, E23. subst.
    assert (Ascii.compare c3 c3 = Eq) as -> by apply N.compare_refl.
    now apply (IH s2).
  - apply Ascii.compare_eq_iff in E12. subst. now rewrite E23.
  - apply Ascii.compare_eq_iff in E23. subst. now rewrite E12.
  - now rewrite (ascii_compare_lt_trans c1 c2 c3).
Qed.

Lemma ltb_irrefl (s : string) : String.ltb s s = false.
Proof.
  unfold String.ltb.
  destruct (String.compare s s) eqn:E; try reflexivity.
  pose proof (String.compare_antisym s s) as H. rewrite E in H.
  discriminate.
Qed.

(** [t] is not below [o] and [o] is not below [r]: [t] is not below [r]. *)
Lemma not_ltb_trans (t o r : string) :
  String.ltb t o = false -> String.ltb o r = false -> String.ltb t r = false.
Proof.
  unfold String.ltb. intros Hto Hor.
  destruct (String.compare t r) eqn:Etr; try reflexivity. exfalso.
  destruct (String.compare t o) eqn:Eto; try discriminate.
  - apply String.compare_eq_iff in Eto. subst. now rewrite Etr in Hor.
  - destruct (String.compare o r) eqn:Eor; try discriminate.
    + apply String.compare_eq_iff in Eor. subst. congruence.
    + (* r < o < t and t < r *)
      assert (Hro : String.compare r o = Lt)
        by (rewrite String.compare_antisym, Eor; reflexivity).
      assert (Hot : String.compare o t = Lt)
        by (rewrite String.compare_antisym, Eto; reflexivity).
      pose proof (string_compare_lt_trans _ _ _ Etr Hro) as Hto'.
      pose proof (string_compare_lt_trans _ _ _ Hto' Hot) as Htt.
      pose proof (ltb_irrefl t) as Hirr. unfold String.ltb in Hirr.
      now rewrite Htt in Hirr.
Qed.

Lemma ltb_not_ltb_trans (t o r : string) :
  String.ltb t o = true -> String.ltb t r = false -> String.ltb o r = false.
Proof.
  unfold String.ltb. intros Hto Htr.
  destruct (String.compare o r) eqn:Eor; try reflexivity. exfalso.
  destruct (String.compare t o) eqn:Eto; try discriminate.
  now rewrite (string_compare_lt_trans _ _ _ Eto Eor) in Htr.
Qed.

(** *** The scans as folds over what they read *)

Lemma fold_left_flat_map {A B C : Type} (f : A -> B -> A) (g : C -> list B)
    (l : list C) (a : A) :
  fold_left f (flat_map g l) a
  = fold_left (fun acc x => fold_left f (g x) acc) l a.
Proof.
  revert a. induction l as [|x l IH]; intros a; [reflexivity|].
  simpl. now rewrite fold_left_app, IH.
Qed.

Lemma oldestOfLine_stamps (acc : option string) (l : Line) :
  Transcripts.oldestOfLine acc l
  = fold_left Spec.takeStamp (Spec.stampOfLine l) acc.
Proof.
  destruct l as [| |j]; try reflexivity.
  unfold Transcripts.oldestOfLine, Spec.stampOfLine, Spec.takeStamp.
  destruct (j_timestamp j) as [t|]; [|reflexivity].
  unfold older. destruct (String.eqb t EmptyString) eqn:E; [reflexivity|].
  simpl. now rewrite E.
Qed.

Lemma oldestIn_stamps (fs : FileSystem) (acc : option string)
    (base : string) :
  Transcripts.oldestIn fs acc base
  = fold_left Spec.takeStamp (Spec.scannedStamps fs base) acc.
Proof.
  unfold Transcripts.oldestIn, Spec.scannedStamps.
  destruct (readdir fs (join base "projects")) as [dirs|]; [|reflexivity].
  rewrite fold_left_flat_map. apply fold_left_ext_in. intros a dir _.
  unfold Transcripts.oldestOfProject, Spec.stampsOfProject.
  destruct (readdir fs _) as [files|]; [|reflexivity].
  rewrite fold_left_flat_map. apply fold_left_ext_in. intros a' f _.
  unfold Transcripts.oldestOfFile, Spec.stampsOfFile, JS.slice0.
  destruct (readLines fs _) as [lines|]; [|reflexivity].
  rewrite fold_left_flat_map. apply fold_left_ext_in. intros a'' l _.
  apply oldestOfLine_stamps.
Qed.

Lemma stampOfLine_nonempty (l : Line) (t : string) :
  In t (Spec.stampOfLine l) -> t <> EmptyString.
Proof.
  destruct l as [| |j]; simpl; try tauto.
  destruct (j_timestamp j) as [t'|]; simpl; [|tauto].
  destruct (String.eqb_spec t' EmptyString); simpl; [tauto|].
  intros [<- | []]. assumption.
Qed.

Lemma scannedStamps_nonempty (fs : FileSystem) (base t : string) :
  In t (Spec.scannedStamps fs base) -> t <> EmptyString.
Proof.
  unfold Spec.scannedStamps.
  destruct (readdir fs (join base "projects")) as [dirs|]; [|intros []].
  intros H. apply in_flat_map in H as (dir & _ & H).
  unfold Spec.stampsOfProject in H.
  destruct (readdir fs _) as [files|]; [|destruct H].
  apply in_flat_map in H as (f & _ & H).
  unfold Spec.stampsOfFile in H.
  destruct (readLines fs _) as [lines|]; [|destruct H].
  apply in_flat_map in H as (l & _ & H).
  now apply (stampOfLine_nonempty l).
Qed.

(** Folding [takeStamp] over non-empty strings keeps the smallest. *)
Lemma takeStamp_oldest (l : list string) :
  forall acc : option string,
    (forall t, In t l -> t <> EmptyString) ->
    (forall o, acc = Some o -> o <> EmptyString) ->
    Spec.isOldest
      (match acc with Some o => [o] | None => [] end ++ l)
      (fold_left Spec.takeStamp l acc).
Proof.
  induction l as [|t l IH]; intros acc Hl Hacc.
  - simpl. rewrite app_nil_r. destruct acc as [o|]; simpl; [|reflexivity].
    split; [now left|]. intros x [<- | []]. apply ltb_irrefl.
  - cbn [fold_left].
    assert (Ht : t <> EmptyString) by (apply Hl; now left).
    assert (Hl' : forall x, In x l -> x <> EmptyString)
      by (intros x Hx; apply Hl; now right).
    apply String.eqb_neq in Ht.
    destruct acc as [o|].
    + assert (Ho : o <> EmptyString) by now apply Hacc.
      apply String.eqb_neq in Ho.
      unfold Spec.takeStamp at 2. unfold older. rewrite Ht, Ho.
      cbn [orb]. destruct (String.ltb t o) eqn:Hlt.
      * specialize (IH (Some t) Hl').
        destruct (fold_left Spec.takeStamp l (Some t)) as [r|];
          cbn [Spec.isOldest app] in *.
        -- destruct IH as [Hin Hmin];
             [intros ? [= <-]; now apply String.eqb_neq|].
           split; [now right|].
           intros x [<- | Hx]; [|now apply Hmin].
           apply (ltb_not_ltb_trans t o r Hlt). apply Hmin. now left.
        -- discriminate IH. intros ? [= <-]. now apply String.eqb_neq.
      * specialize (IH (Some o) Hl').
        destruct (fold_left Spec.takeStamp l (Some o)) as [r|];
          cbn [Spec.isOldest app] in *.
        -- destruct IH as [Hin Hmin];
             [intros ? [= <-]; now apply String.eqb_neq|].
           split; [destruct Hin as [<- | Hin]; [now left|right; now right]|].
           intros x [<- | [<- | Hx]].
           ++ apply Hmin. now left.
           ++ apply (not_ltb_trans t o r Hlt). apply Hmin. now left.
           ++ apply Hmin. now right.
        -- discriminate IH. intros ? [= <-]. now apply String.eqb_neq.
    + unfold Spec.takeStamp at 2. unfold older. rewrite Ht.
      apply (IH (Some t) Hl'). intros ? [= <-]. now apply String.eqb_neq.
Qed.

(** The messages returned are exactly those of the session transcripts. *)
Lemma sessionMessagesIn_spec (rt : Runtime) (fs : FileSystem)
    (yr : option Z) (base : string) (m : SessionMessage.t) :
  In m (Transcripts.sessionMessagesIn rt fs yr base)
  <-> Spec.fromSessionFile rt fs yr base m.
Proof.
  unfold Transcripts.sessionMessagesIn, Spec.fromSessionFile. split.
  - destruct (readdir fs (join base "projects")) as [dirs|]; [|intros []].
    intros H. apply in_flat_map in H as (dir & Hdir & H).
    destruct (readdir fs (join (join base "projects") dir))
      as [files|] eqn:Hfiles; [|destruct H].
    apply in_flat_map in H as (f & Hf & H).
    apply filter_In in Hf as [Hf Hsel].
    unfold Transcripts.isSessionFile in Hsel.
    apply andb_true_iff in Hsel as [He Ha]. apply negb_true_iff in Ha.
    destruct (readLines fs _) as [lines|] eqn:Hlines; [|destruct H].
    apply in_flat_map in H as (l & Hl & H).
    exists dirs, dir, files, f, lines, l. repeat split; assumption.
  - intros (dirs & dir & files & f & lines & l
            & -> & Hdir & Hfiles & Hf & He & Ha & Hlines & Hl & Hm).
    apply in_flat_map. exists dir. split; [exact Hdir|].
    rewrite Hfiles. apply in_flat_map. exists f. split.
    + apply filter_In. split; [exact Hf|].
      unfold Transcripts.isSessionFile. now rewrite He, Ha.
    + rewrite Hlines. apply in_flat_map. now exists l.
Qed.

(** C9 (as amended). Session-message extraction walks the project
    directories and returns exactly the messages of their .jsonl files whose
    name does not start with "agent-"; changing any other file leaves its
    result unchanged.  The oldest-timestamp scan walks every .jsonl file of
    the project directories, sub-agent transcripts included, and returns the
    smallest timestamp found in the first 10 lines of these files; changing
    later lines leaves its result unchanged. *)
Theorem transcript_scans (rt : Runtime) (fs : FileSystem) (yr : option Z) :
  (forall m,
      In m (Collector.collectSessionMessages rt fs yr)
      <-> Spec.fromSessionFile rt fs yr (Collector.CLAUDE_DATA_PATH fs) m)
  /\ Spec.isOldest
       (Spec.scannedStamps fs (Collector.CLAUDE_DATA_PATH fs))
       (Collector.findOldestLocalSessionTimestamp fs)
  /\ (forall fs',
      homedir fs = homedir fs' ->
      (forall p, readdir fs p = readdir fs' p) ->
      (forall dir files f,
          readdir fs dir = Some files -> In f files ->
          JS.endsWith f ".jsonl" = true ->
          JS.startsWith f "agent-" = false ->
          readLines fs (join dir f) = readLines fs' (join dir f)) ->
      Collector.collectSessionMessages rt fs yr
      = Collector.collectSessionMessages rt fs' yr)
  /\ (forall fs',
      homedir fs = homedir fs' ->
      (forall p, readdir fs p = readdir fs' p) ->
      (forall dir files f,
          readdir fs dir = Some files -> In f files ->
          JS.endsWith f ".jsonl" = true ->
          option_map (firstn 10) (readLines fs (join dir f))
          = option_map (firstn 10) (readLines fs' (join dir f))) ->
      Collector.findOldestLocalSessionTimestamp fs
      = Collector.findOldestLocalSessionTimestamp fs').
Proof.
  split; [|split; [|split]].
  - intros m. apply sessionMessagesIn_spec.
  - unfold Collector.findOldestLocalSessionTimestamp.
    rewrite oldestIn_stamps.
    apply (takeStamp_oldest _ None); [|discriminate].
    intros t. apply scannedStamps_nonempty.
  - intros fs'. apply sessions_ignore_other_files.
  - intros fs'. apply oldest_reads_ten_lines.
Qed.

Ltac pick_dir Hread :=
  cbn [readdir Examples.transcriptFS JS.map_get] in Hread;
  repeat match type of Hread with
         | (if String.eqb ?a ?d then _ else _) = _ =>
             destruct (String.eqb_spec a d) as [<-|?];
             [injection Hread as <-|]
         | None = Some _ => discriminate Hread
         end.

Ltac pick_file Hin :=
  simpl in Hin;
  repeat (destruct Hin as [<- | Hin]; [|]); try contradiction.

Lemma transcript_scans_witness :
  Collector.collectSessionMessages utcRuntime
    (Examples.transcriptFS [Examples.stamp "2024-11-02T09:00:00.000Z"]
                           Examples.tenLines) None
  = Collector.collectSessionMessages utcRuntime
      (Examples.transcriptFS [] Examples.tenLines) None
  /\ Collector.findOldestLocalSessionTimestamp
       (Examples.transcriptFS [] Examples.tenLines)
     = Collector.findOldestLocalSessionTimestamp
         (Examples.transcriptFS []
            (Examples.tenLines
               ++ [Examples.stamp "2023-01-01T00:00:00.000Z"])).
Proof.
  split.
  - apply (proj1 (proj2 (proj2 (transcript_scans utcRuntime
                    (Examples.transcriptFS
                       [Examples.stamp "2024-11-02T09:00:00.000Z"]
                       Examples.tenLines) None))));
      [reflexivity|reflexivity|].
    intros dir files f Hread Hin He Ha.
    pick_dir Hread; pick_file Hin; try discriminate; reflexivity.
  - apply (proj2 (proj2 (proj2 (transcript_scans utcRuntime
                    (Examples.transcriptFS [] Examples.tenLines) None))));
      [reflexivity|reflexivity|].
    intros dir files f Hread Hin He.
    pick_dir Hread; pick_file Hin; try discriminate; reflexivity.
Defined.

(** C9 (as stated) fails for the oldest-timestamp scan: with a sub-agent
    transcript of 2024 next to a session transcript of 2025, the scan
    returns the timestamp of the sub-agent file; without that file it
    returns the one of the session file.  Session-message extraction does
    leave the sub-agent file out: it finds no message of 2024 and the eight
    messages of the session file. *)
Lemma oldest_scan_reads_agent_files :
  Collector.findOldestLocalSessionTimestamp
    (Examples.transcriptFS [Examples.stamp "2024-11-02T09:00:00.000Z"]
                           Examples.tenLines)
  = Some "2024-11-02T09:00:00.000Z"%string
  /\ Collector.findOldestLocalSessionTimestamp
       (Examples.transcriptFS [] Examples.tenLines)
     = Some "2025-03-01T10:00:00.000Z"%string
  /\ Collector.collectSessionMessages utcRuntime
       (Examples.transcriptFS [Examples.stamp "2024-11-02T09:00:00.000Z"]
                              Examples.tenLines) (Some 2024)
     = []
  /\ List.length
       (Collector.collectSessionMessages utcRuntime
          (Examples.transcriptFS [Examples.stamp "2024-11-02T09:00:00.000Z"]
                                 Examples.tenLines) (Some 2025))
     = 8%nat.
Proof. repeat split. Qed.
(* ================================================================== *)
(** * Storage roots                                                    *)
(* ================================================================== *)

(** The two-root collector keeps the listable roots, in the order of
    [CLAUDE_DATA_PATHS]. *)
Lemma getValidClaudePaths_spec (fs : FileSystem) (p : string) :
  In p (CollectorMulti.getValidClaudePaths fs)
  <-> In p (CollectorMulti.CLAUDE_DATA_PATHS fs) /\ readdir fs p <> None.
Proof.
  unfold CollectorMulti.getValidClaudePaths. rewrite filter_In.
  destruct (readdir fs p); intuition congruence.
Qed.








(** The merge of the two cache files of the example: the counts of
    2025-03-02, which both files have, are added.  The earlier one-root
    revision of collector.ts (src/unnamed/part_005) read ~/.claude only. *)
Lemma CollectorMulti_two_roots_example :
  CollectorMulti.getValidClaudePaths Examples.twoRootsFS
  = ["/home/u/.claude"; "/home/u/.config/claude"]%string
  /\ option_map dailyActivity
       (CollectorMulti.collectStatsCache Examples.twoRootsFS)
     = Some [Examples.day "2025-03-01" 10 2 5;
             Examples.day "2025-03-02" 17 3 3;
             Examples.day "2025-11-20" 9 2 1]
  /\ option_map totalMessages
       (Collector.collectStatsCache Examples.twoRootsFS) = Some 20.
Proof. repeat split. Qed.
(* ================================================================== *)
(** * mergeData: model usage, totals, history, projects, first date    *)
(* ================================================================== *)

Lemma num_or0_id (n : Z) : JS.num_or0 n = n.
Proof. unfold JS.num_or0. destruct (Z.eqb_spec n 0); congruence. Qed.

Lemma usageRecords_app id a b :
  Props.usageRecords id (a ++ b)
  = Props.usageRecords id a ++ Props.usageRecords id b.
Proof. unfold Props.usageRecords. now rewrite filter_app, map_app. Qed.

Lemma addUsages_app base a b :
  Props.addUsages base (a ++ b)
  = Props.addUsages (Props.addUsages base a) b.
Proof. unfold Props.addUsages. apply fold_left_app. Qed.

(** One remote cache adds its records of a model to what the map holds. *)
Lemma addRemoteUsage_get entries m id :
  JS.map_get (Stats.addRemoteUsage entries m) id
  = Props.addUsages (JS.map_get m id) (Props.usageRecords id entries).
Proof.
  revert m. induction entries as [|[k u] entries IH]; intros m; [reflexivity|].
  unfold Stats.addRemoteUsage in *. cbn [fold_left]. rewrite IH. clear IH.
  unfold Props.usageRecords. cbn [filter fst].
  destruct (String.eqb_spec k id) as [<-|Hne].
  - cbn [List.map snd Props.addUsages fold_left]. f_equal.
    destruct (JS.map_get m k); now rewrite map_get_set_eq.
  - f_equal. destruct (JS.map_get m k); now rewrite map_get_set_neq.
Qed.

(** The local loop uses [set]: the last record of a model is kept. *)
Lemma setLocalUsage_get entries m id :
  JS.map_get (Stats.setLocalUsage entries m) id
  = match Props.usageRecords id entries with
    | [] => JS.map_get m id
    | u :: us => Some (last us u)
    end.
Proof.
  revert m. induction entries as [|[k u] entries IH]; intros m; [reflexivity|].
  unfold Stats.setLocalUsage in *. cbn [fold_left]. rewrite IH. clear IH.
  unfold Props.usageRecords. cbn [filter fst].
  destruct (String.eqb_spec k id) as [<-|Hne].
  - cbn [List.map snd].
    destruct (List.map snd (filter (fun e => String.eqb (fst e) k) entries))
      as [|u' us].
    + now rewrite map_get_set_eq.
    + now rewrite last_cons.
  - destruct (List.map snd (filter (fun e => String.eqb (fst e) id) entries));
      [now rewrite map_get_set_neq|reflexivity].
Qed.

Lemma usageRecords_In id entries u :
  In u (Props.usageRecords id entries) -> In (id, u) entries.
Proof.
  unfold Props.usageRecords. intros H.
  apply in_map_iff in H as ([k u'] & Hu & Hin). cbn in Hu. subst u'.
  apply filter_In in Hin as [Hin Heq]. cbn in Heq.
  apply String.eqb_eq in Heq. now subst k.
Qed.

Lemma usageRecords_unique id (entries : JS.JsMap ModelUsage) :
  NoDup (JS.map_keys entries) ->
  Props.usageRecords id entries = []
  \/ exists u, Props.usageRecords id entries = [u].
Proof.
  induction entries as [|[k u] entries IH]; intros Hnd; [now left|].
  inversion Hnd as [|? ? Hnotin Hnd']; subst.
  unfold Props.usageRecords. cbn [filter fst].
  fold (Props.usageRecords id entries).
  destruct (String.eqb_spec k id) as [<-|Hne]; [|now apply IH].
  right. exists u. cbn [List.map snd]. f_equal.
  fold (Props.usageRecords k entries).
  destruct (Props.usageRecords k entries) as [|u' us] eqn:E; [reflexivity|].
  exfalso. apply Hnotin.
  assert (Hin : In u' (Props.usageRecords k entries)) by (rewrite E; now left).
  apply usageRecords_In in Hin.
  change k with (fst (k, u')). now apply in_map.
Qed.

Lemma processRemote_usage remotes st id :
  JS.map_get
    (Stats.mergedModelUsage (fold_left Stats.processRemote remotes st)) id
  = Props.addUsages
      (JS.map_get (Stats.mergedModelUsage st) id)
      (Props.usageRecords id
         (flat_map modelUsage
            (flat_map (fun remote =>
                         Props.optlist (RemoteData.statsCache remote))
                      remotes))).
Proof.
  revert st. induction remotes as [|r remotes IH]; intros st; [reflexivity|].
  cbn [fold_left flat_map]. rewrite IH. clear IH.
  unfold Stats.processRemote.
  destruct (RemoteData.statsCache r) as [c|]; [|reflexivity].
  cbn [Props.optlist Stats.mergedModelUsage app flat_map].
  rewrite usageRecords_app, addUsages_app.
  now rewrite addRemoteUsage_get.
Qed.

Lemma addRemoteUsage_NoDup entries m :
  NoDup (JS.map_keys m) ->
  NoDup (JS.map_keys (Stats.addRemoteUsage entries m)).
Proof.
  revert m. induction entries as [|[k u] entries IH]; intros m H; [exact H|].
  unfold Stats.addRemoteUsage in *. cbn [fold_left]. apply IH.
  destruct (JS.map_get m k); now apply map_keys_NoDup_set.
Qed.

Lemma setLocalUsage_NoDup entries m :
  NoDup (JS.map_keys m) ->
  NoDup (JS.map_keys (Stats.setLocalUsage entries m)).
Proof.
  revert m. induction entries as [|[k u] entries IH]; intros m H; [exact H|].
  unfold Stats.setLocalUsage in *. cbn [fold_left]. apply IH.
  now apply map_keys_NoDup_set.
Qed.

Lemma processRemote_usage_NoDup remotes st :
  NoDup (JS.map_keys (Stats.mergedModelUsage st)) ->
  NoDup (JS.map_keys
           (Stats.mergedModelUsage
              (fold_left Stats.processRemote remotes st))).
Proof.
  revert st. induction remotes as [|r remotes IH]; intros st H; [exact H|].
  cbn [fold_left]. apply IH. unfold Stats.processRemote.
  destruct (RemoteData.statsCache r); [|exact H].
  cbn [Stats.mergedModelUsage]. now apply addRemoteUsage_NoDup.
Qed.

Lemma processLocal_usage_NoDup local :
  NoDup (JS.map_keys
           (Stats.mergedModelUsage
              (Stats.processLocal local Stats.emptyMerge))).
Proof.
  unfold Stats.processLocal.
  destruct (Stats.statsCache local); cbn [Stats.mergedModelUsage].
  - apply setLocalUsage_NoDup. constructor.
  - constructor.
Qed.

(** What the merged cache holds for a model: the merged entry with
    [webSearchRequests] and [contextWindow] reset. *)
Lemma mergedUsage_get rt local st id :
  JS.map_get (modelUsage (Stats.buildMergedCache rt local st)) id
  = option_map
      (fun u =>
         mkModelUsage (inputTokens u) (outputTokens u)
                      (cacheReadInputTokens u) (cacheCreationInputTokens u)
                      0 (costUSD u) 0)
      (JS.map_get (Stats.mergedModelUsage st) id).
Proof.
  cbn [Stats.buildMergedCache modelUsage].
  induction (Stats.mergedModelUsage st) as [|[k u] m IH]; [reflexivity|].
  cbn [List.map JS.map_get].
  destruct (String.eqb k id); [reflexivity|exact IH].
Qed.

Lemma mergedUsage_keys rt local st :
  JS.map_keys (modelUsage (Stats.buildMergedCache rt local st))
  = JS.map_keys (Stats.mergedModelUsage st).
Proof.
  cbn [Stats.buildMergedCache modelUsage]. unfold JS.map_keys.
  rewrite map_map. apply map_ext. now intros [k u].
Qed.

Lemma addUsages_Some e rs :
  exists u,
    Props.addUsages (Some e) rs = Some u
    /\ inputTokens u = inputTokens e + Spec.total (List.map inputTokens rs)
    /\ outputTokens u = outputTokens e + Spec.total (List.map outputTokens rs)
    /\ cacheReadInputTokens u
       = cacheReadInputTokens e
         + Spec.total (List.map cacheReadInputTokens rs)
    /\ cacheCreationInputTokens u
       = cacheCreationInputTokens e
         + Spec.total (List.map cacheCreationInputTokens rs).
Proof.
  revert e. induction rs as [|r rs IH]; intros e.
  - exists e. cbn. repeat split; lia.
  - unfold Props.addUsages in *. cbn [fold_left].
    destruct (IH (Stats.add_usage e r)) as (u & -> & Hi & Ho & Hr & Hw).
    exists u. split; [reflexivity|].
    rewrite Hi, Ho, Hr, Hw. cbn [Stats.add_usage inputTokens outputTokens
      cacheReadInputTokens cacheCreationInputTokens List.map Spec.total
      fold_right].
    rewrite !num_or0_id. fold (Spec.total (List.map inputTokens rs)).
    fold (Spec.total (List.map outputTokens rs)).
    fold (Spec.total (List.map cacheReadInputTokens rs)).
    fold (Spec.total (List.map cacheCreationInputTokens rs)).
    repeat split; lia.
Qed.

Lemma addUsages_None r rs :
  exists u,
    Props.addUsages None (r :: rs) = Some u
    /\ inputTokens u = Spec.total (List.map inputTokens (r :: rs))
    /\ outputTokens u = Spec.total (List.map outputTokens (r :: rs))
    /\ cacheReadInputTokens u
       = Spec.total (List.map cacheReadInputTokens (r :: rs))
    /\ cacheCreationInputTokens u
       = Spec.total (List.map cacheCreationInputTokens (r :: rs)).
Proof.
  unfold Props.addUsages. cbn [fold_left].
  destruct (addUsages_Some (Stats.fresh_usage r) rs)
    as (u & Hu & Hi & Ho & Hr & Hw).
  exists u. split; [exact Hu|].
  rewrite Hi, Ho, Hr, Hw.
  cbn [Stats.fresh_usage inputTokens outputTokens cacheReadInputTokens
       cacheCreationInputTokens List.map Spec.total fold_right].
  now rewrite !num_or0_id.
Qed.

Lemma merged_usage_get local remotes id :
  (forall c, Stats.statsCache local = Some c ->
             NoDup (JS.map_keys (modelUsage c))) ->
  JS.map_get
    (Stats.mergedModelUsage
       (fold_left Stats.processRemote remotes
                  (Stats.processLocal local Stats.emptyMerge))) id
  = match Props.usageRecords id (Props.sourceUsage local remotes) with
    | [] => None
    | r :: rs =>
        match Stats.statsCache local with
        | Some c =>
            match Props.usageRecords id (modelUsage c) with
            | [] => Props.addUsages None (r :: rs)
            | _ :: _ => Props.addUsages (Some r) rs
            end
        | None => Props.addUsages None (r :: rs)
        end
    end.
Proof.
  intros Hnd. rewrite processRemote_usage.
  unfold Props.sourceUsage, Props.sourceCaches, Stats.processLocal.
  rewrite flat_map_app, usageRecords_app.
  set (R := Props.usageRecords id (flat_map modelUsage (flat_map _ remotes))).
  destruct (Stats.statsCache local) as [c|].
  - cbn [Props.optlist flat_map Stats.mergedModelUsage Stats.emptyMerge].
    rewrite app_nil_r, setLocalUsage_get.
    destruct (usageRecords_unique id (modelUsage c) (Hnd c eq_refl))
      as [E|[u E]]; rewrite E; cbn [app JS.map_get last].
    + destruct R; reflexivity.
    + reflexivity.
  - cbn [Props.optlist flat_map Stats.emptyMerge Stats.mergedModelUsage
         JS.map_get app Props.usageRecords filter List.map].
    destruct R; reflexivity.
Qed.

(** X1.  With at least one remote, and a local cache that lists every
    model once, the merged cache lists every model of a contributing
    source once, and its four token counts of a model are the sums over
    all the records of that model in the contributing caches; the merged
    entry never carries web-search requests or a context window. *)
Theorem mergeData_usage_additive (rt : Runtime)
    (local : Stats.CollectedData) (remotes : list RemoteData.t) :
  remotes <> [] ->
  (forall c, Stats.statsCache local = Some c ->
             NoDup (JS.map_keys (modelUsage c))) ->
  exists merged,
    Stats.statsCache (Stats.mergeData rt local remotes) = Some merged
    /\ NoDup (JS.map_keys (modelUsage merged))
    /\ forall id,
         let records :=
           Props.usageRecords id (Props.sourceUsage local remotes) in
         (records = [] -> JS.map_get (modelUsage merged) id = None)
         /\ (records <> [] ->
             exists u,
               JS.map_get (modelUsage merged) id = Some u
               /\ inputTokens u = Spec.total (List.map inputTokens records)
               /\ outputTokens u = Spec.total (List.map outputTokens records)
               /\ cacheReadInputTokens u
                  = Spec.total (List.map cacheReadInputTokens records)
               /\ cacheCreationInputTokens u
                  = Spec.total (List.map cacheCreationInputTokens records)
               /\ webSearchRequests u = 0
               /\ contextWindow u = 0).
Proof.
  intros Hne Hnd. destruct remotes as [|r0 remotes]; [congruence|].
  eexists. split; [reflexivity|]. split.
  - rewrite mergedUsage_keys. apply processRemote_usage_NoDup.
    apply processLocal_usage_NoDup.
  - intros id records. rewrite mergedUsage_get.
    rewrite (merged_usage_get local (r0 :: remotes) id Hnd).
    fold records. clearbody records. split.
    + now intros ->.
    + intros Hrec. destruct records as [|r rs]; [congruence|].
      assert (H : exists u,
                 match Stats.statsCache local with
                 | Some c =>
                     match Props.usageRecords id (modelUsage c) with
                     | [] => Props.addUsages None (r :: rs)
                     | _ :: _ => Props.addUsages (Some r) rs
                     end
                 | None => Props.addUsages None (r :: rs)
                 end = Some u
                 /\ inputTokens u = Spec.total (List.map inputTokens (r :: rs))
                 /\ outputTokens u
                    = Spec.total (List.map outputTokens (r :: rs))
                 /\ cacheReadInputTokens u
                    = Spec.total (List.map cacheReadInputTokens (r :: rs))
                 /\ cacheCreationInputTokens u
                    = Spec.total
                        (List.map cacheCreationInputTokens (r :: rs))).
      { destruct (Stats.statsCache local) as [c|];
          [destruct (Props.usageRecords id (modelUsage c))|];
          try apply addUsages_None.
        destruct (addUsages_Some r rs) as (u & Hu & Hi & Ho & Hr & Hw).
        exists u. split; [exact Hu|].
        cbn [List.map Spec.total fold_right].
        fold (Spec.total (List.map inputTokens rs)).
        fold (Spec.total (List.map outputTokens rs)).
        fold (Spec.total (List.map cacheReadInputTokens rs)).
        fold (Spec.total (List.map cacheCreationInputTokens rs)).
        now rewrite Hi, Ho, Hr, Hw. }
      destruct H as (u & -> & Hi & Ho & Hr & Hw).
      eexists. split; [reflexivity|].
      cbn [inputTokens outputTokens cacheReadInputTokens
           cacheCreationInputTokens webSearchRequests contextWindow].
      now rewrite Hi, Ho, Hr, Hw.
Qed.

Lemma mergeData_usage_additive_witness :
  exists merged,
    Stats.statsCache
      (Stats.mergeData utcRuntime MoreExamples.localUsage
                       MoreExamples.remoteUsage) = Some merged
    /\ NoDup (JS.map_keys (modelUsage merged))
    /\ forall id,
         let records :=
           Props.usageRecords id
             (Props.sourceUsage MoreExamples.localUsage
                                MoreExamples.remoteUsage) in
         (records = [] -> JS.map_get (modelUsage merged) id = None)
         /\ (records <> [] ->
             exists u,
               JS.map_get (modelUsage merged) id = Some u
               /\ inputTokens u = Spec.total (List.map inputTokens records)
               /\ outputTokens u = Spec.total (List.map outputTokens records)
               /\ cacheReadInputTokens u
                  = Spec.total (List.map cacheReadInputTokens records)
               /\ cacheCreationInputTokens u
                  = Spec.total (List.map cacheCreationInputTokens records)
               /\ webSearchRequests u = 0
               /\ contextWindow u = 0).
Proof.
  apply (mergeData_usage_additive utcRuntime MoreExamples.localUsage
                                  MoreExamples.remoteUsage).
  - discriminate.
  - intros c [= <-]. cbn.
    repeat constructor; cbn; intuition discriminate.
Defined.

Lemma mergeData_usage_example :
  option_map
    (fun c => List.map (fun e => (fst e, inputTokens (snd e),
                                  outputTokens (snd e),
                                  webSearchRequests (snd e)))
                       (modelUsage c))
    (Stats.statsCache
       (Stats.mergeData utcRuntime MoreExamples.localUsage
                        MoreExamples.remoteUsage))
  = Some [("claude-sonnet-4-20250514", 1101, 2052, 0);
          ("claude-opus-4-20250514", 10, 5, 0);
          ("claude-3-5-haiku-20241022", 8, 8, 0)]%string.
Proof. reflexivity. Qed.
(* ================================================================== *)
(** * mergeData: totals, history and projects                          *)
(* ================================================================== *)

Lemma total_app (a b : list Z) :
  Spec.total (a ++ b) = Spec.total a + Spec.total b.
Proof.
  unfold Spec.total. induction a as [|x a IH]; [reflexivity|].
  cbn [app fold_right]. rewrite IH. lia.
Qed.

Lemma processRemote_totals remotes st :
  let caches :=
    flat_map (fun remote => Props.optlist (RemoteData.statsCache remote))
             remotes in
  Stats.mergedTotalSessions (fold_left Stats.processRemote remotes st)
  = Stats.mergedTotalSessions st + Spec.total (List.map totalSessions caches)
  /\ Stats.mergedTotalMessages (fold_left Stats.processRemote remotes st)
     = Stats.mergedTotalMessages st
       + Spec.total (List.map totalMessages caches).
Proof.
  cbv zeta. unfold Spec.total.
  revert st. induction remotes as [|r remotes IH]; intros st.
  - cbn. split; lia.
  - cbn [fold_left flat_map]. destruct (IH (Stats.processRemote st r))
      as [Hs Hm].
    rewrite Hs, Hm. unfold Stats.processRemote.
    destruct (RemoteData.statsCache r) as [c|].
    + cbn [Props.optlist app List.map fold_right
           Stats.mergedTotalSessions Stats.mergedTotalMessages].
      split; lia.
    + cbn [Props.optlist app]. split; reflexivity.
Qed.

(** X2.  With at least one remote, the merged cache is rebuilt: its total
    session and message counts are the sums over the local cache and the
    cache of every remote that has one; its version is 1; the hour counts
    and the daily model tokens of every source are dropped; its longest
    session is the local cache's, whatever the remotes hold. *)
Theorem mergeData_cache_totals (rt : Runtime)
    (local : Stats.CollectedData) (remotes : list RemoteData.t) :
  remotes <> [] ->
  exists merged,
    Stats.statsCache (Stats.mergeData rt local remotes) = Some merged
    /\ totalSessions merged
       = Spec.total
           (List.map totalSessions (Props.sourceCaches local remotes))
    /\ totalMessages merged
       = Spec.total
           (List.map totalMessages (Props.sourceCaches local remotes))
    /\ version merged = 1
    /\ dailyModelTokens merged = []
    /\ hourCounts merged = []
    /\ longestSession merged
       = match Stats.statsCache local with
         | Some c => longestSession c
         | None => Stats.emptyLongestSession
         end.
Proof.
  intros Hne. destruct remotes as [|r0 remotes]; [congruence|].
  eexists. split; [reflexivity|].
  cbn [Stats.buildMergedCache totalSessions totalMessages version
       dailyModelTokens hourCounts longestSession].
  destruct (processRemote_totals (r0 :: remotes)
              (Stats.processLocal local Stats.emptyMerge)) as [Hs Hm].
  rewrite Hs, Hm. unfold Props.sourceCaches, Stats.processLocal.
  rewrite !map_app, !total_app. unfold Spec.total.
  destruct (Stats.statsCache local) as [c|];
    cbn [Props.optlist List.map fold_right
         Stats.mergedTotalSessions Stats.mergedTotalMessages
         Stats.emptyMerge];
    repeat split; try reflexivity; lia.
Qed.

Lemma mergeData_cache_totals_witness :
  exists merged,
    Stats.statsCache
      (Stats.mergeData utcRuntime MoreExamples.localUsage
                       MoreExamples.remoteUsage) = Some merged
    /\ totalSessions merged
       = Spec.total
           (List.map totalSessions
              (Props.sourceCaches MoreExamples.localUsage
                                  MoreExamples.remoteUsage))
    /\ totalMessages merged
       = Spec.total
           (List.map totalMessages
              (Props.sourceCaches MoreExamples.localUsage
                                  MoreExamples.remoteUsage))
    /\ version merged = 1
    /\ dailyModelTokens merged = []
    /\ hourCounts merged = []
    /\ longestSession merged
       = match Stats.statsCache MoreExamples.localUsage with
         | Some c => longestSession c
         | None => Stats.emptyLongestSession
         end.
Proof.
  apply (mergeData_cache_totals utcRuntime MoreExamples.localUsage
                                MoreExamples.remoteUsage).
  discriminate.
Defined.

Lemma fold_left_push {A B : Type} (f : B -> list A) (l : list B)
    (acc : list A) :
  fold_left (fun acc x => acc ++ f x) l acc = acc ++ flat_map f l.
Proof.
  revert acc. induction l as [|x l IH]; intros acc; cbn [fold_left flat_map].
  - now rewrite app_nil_r.
  - now rewrite IH, app_assoc.
Qed.

Lemma mergeData_history_app rt local remotes :
  Stats.history (Stats.mergeData rt local remotes)
  = Stats.history local ++ flat_map RemoteData.history remotes.
Proof. cbn [Stats.mergeData Stats.history]. apply fold_left_push. Qed.

Lemma length_flat_map_total {A B : Type} (f : A -> list B) (l : list A) :
  Z.of_nat (List.length (flat_map f l))
  = Spec.total (List.map (fun x => Z.of_nat (List.length (f x))) l).
Proof.
  induction l as [|x l IH]; [reflexivity|].
  cbn [flat_map List.map Spec.total fold_right].
  rewrite length_app, Nat2Z.inj_add, IH. reflexivity.
Qed.

(** X3.  The merged history is the local history followed by the history
    of every remote in the order of the remotes; no entry is dropped or
    de-duplicated, so the number of prompts of the summary is the sum of
    the lengths of all the histories. *)
Theorem mergeData_history_concat (rt : Runtime) (yr : Z)
    (local : Stats.CollectedData) (remotes : list RemoteData.t) :
  Stats.history (Stats.mergeData rt local remotes)
  = Stats.history local ++ flat_map RemoteData.history remotes
  /\ WrappedStats.totalPrompts (Stats.calculateStats rt yr local remotes)
     = Z.of_nat (List.length (Stats.history local))
       + Spec.total
           (List.map
              (fun remote => Z.of_nat (List.length (RemoteData.history remote)))
              remotes).
Proof.
  split; [apply mergeData_history_app|].
  unfold Stats.calculateStats. rewrite statsOf_totalPrompts.
  rewrite mergeData_history_app, length_app, Nat2Z.inj_add.
  now rewrite length_flat_map_total.
Qed.

Lemma mergeData_projects_set rt local remotes :
  Stats.projects (Stats.mergeData rt local remotes)
  = JS.Set_of (Stats.projects local ++ flat_map RemoteData.projects remotes).
Proof.
  cbn [Stats.mergeData Stats.projects]. unfold JS.Set_of.
  rewrite fold_left_app.
  now rewrite (fold_left_flat_map JS.set_add RemoteData.projects).
Qed.

Lemma Set_of_spec (l : list string) :
  NoDup (JS.Set_of l) /\ forall y, In y (JS.Set_of l) <-> In y l.
Proof.
  destruct (fold_set_add_spec l [] (NoDup_nil _)) as [Hnd Hin].
  split; [exact Hnd|]. intros y. unfold JS.Set_of. rewrite Hin.
  cbn. tauto.
Qed.

(** X4.  The merged project list has no duplicate and holds exactly the
    names listed by the local data or by some remote; the summary's project
    count is the number of distinct names among them. *)
Theorem mergeData_projects_union (rt : Runtime) (yr : Z)
    (local : Stats.CollectedData) (remotes : list RemoteData.t) :
  let ps := Stats.projects (Stats.mergeData rt local remotes) in
  NoDup ps
  /\ (forall p,
        In p ps
        <-> In p (Stats.projects local)
            \/ exists remote,
                 In remote remotes /\ In p (RemoteData.projects remote))
  /\ WrappedStats.totalProjects (Stats.calculateStats rt yr local remotes)
     = Z.of_nat
         (Spec.distinct
            (Stats.projects local ++ flat_map RemoteData.projects remotes)).
Proof.
  cbv zeta. rewrite mergeData_projects_set.
  destruct (Set_of_spec
              (Stats.projects local ++ flat_map RemoteData.projects remotes))
    as [Hnd Hin].
  split; [exact Hnd|]. split.
  - intros p. rewrite Hin, in_app_iff, in_flat_map. reflexivity.
  - unfold Stats.calculateStats, Stats.statsOf.
    destruct (Stats.buildDailyActivity _ _ _ _).
    cbn [WrappedStats.totalProjects].
    now rewrite mergeData_projects_set, Set_of_size.
Qed.
(* ================================================================== *)
(** * mergeData: the first session date                                *)
(* ================================================================== *)

(** The comparison of [mergeData] is the one of the transcript scan. *)
Lemma earlier_older (cand earliest : option string) :
  Stats.earlier cand earliest = older earliest cand.
Proof.
  destruct cand as [c|], earliest as [e|]; cbn; try reflexivity;
    destruct (String.eqb c EmptyString); cbn; try reflexivity.
  destruct (String.eqb e EmptyString); reflexivity.
Qed.

Lemma older_nonEmpty (o ts : option string) :
  Props.nonEmpty (older o ts) = older (Props.nonEmpty o) ts.
Proof.
  destruct ts as [t|]; [|reflexivity]. cbn [older].
  destruct (String.eqb t EmptyString) eqn:Et; [reflexivity|].
  destruct o as [e|]; cbn [Props.nonEmpty].
  - destruct (String.eqb e EmptyString) eqn:Ee; cbn [orb].
    + cbn [Props.nonEmpty]. now rewrite Et.
    + destruct (String.ltb t e); cbn [Props.nonEmpty]; now rewrite ?Et, ?Ee.
  - now rewrite Et.
Qed.

Lemma takeStamp_stampOf (acc o : option string) :
  fold_left Spec.takeStamp (Props.stampOf o) acc = older acc o.
Proof.
  destruct o as [t|]; [|reflexivity]. cbn [Props.stampOf].
  destruct (String.eqb t EmptyString) eqn:Et; cbn [fold_left].
  - cbn [older]. now rewrite Et.
  - reflexivity.
Qed.

Lemma stampOf_nonempty (o : option string) (t : string) :
  In t (Props.stampOf o) -> t <> EmptyString.
Proof.
  destruct o as [s|]; [|contradiction]. cbn [Props.stampOf].
  destruct (String.eqb_spec s EmptyString) as [|Hne]; [contradiction|].
  intros [<-|[]]. exact Hne.
Qed.

Lemma nonEmpty_stampOf (o : option string) :
  Props.optlist (Props.nonEmpty o) = Props.stampOf o.
Proof.
  destruct o as [s|]; [|reflexivity]. cbn.
  destruct (String.eqb s EmptyString); reflexivity.
Qed.

Lemma nonEmpty_Some (o : option string) (t : string) :
  Props.nonEmpty o = Some t -> t <> EmptyString.
Proof.
  destruct o as [s|]; [|discriminate]. cbn.
  destruct (String.eqb_spec s EmptyString) as [|Hne]; [discriminate|].
  now intros [= <-].
Qed.

Lemma processRemote_earliest remotes st :
  Props.nonEmpty
    (Stats.earliestDate (fold_left Stats.processRemote remotes st))
  = fold_left Spec.takeStamp
      (flat_map
         (fun remote =>
            match RemoteData.statsCache remote with
            | Some c =>
                Props.stampOf (Some (firstSessionDate c))
                ++ Props.stampOf (RemoteData.oldestSessionTimestamp remote)
            | None => []
            end)
         remotes)
      (Props.nonEmpty (Stats.earliestDate st)).
Proof.
  revert st. induction remotes as [|r remotes IH]; intros st; [reflexivity|].
  cbn [fold_left flat_map]. rewrite IH, fold_left_app. f_equal.
  unfold Stats.processRemote.
  destruct (RemoteData.statsCache r) as [c|]; [|reflexivity].
  cbn [Stats.earliestDate].
  rewrite fold_left_app, !takeStamp_stampOf, !earlier_older.
  now rewrite !older_nonEmpty.
Qed.

(** X5.  With at least one remote, the first session date of the merged
    cache is the smallest non-empty string among: the local cache's first
    session date and, for every remote that has a cache, that cache's first
    session date and the remote's oldest session timestamp.  The oldest
    session timestamp of a remote without a cache is not looked at.  When
    there is no such string, the date is the current time. *)
Theorem mergeData_firstSessionDate (rt : Runtime)
    (local : Stats.CollectedData) (remotes : list RemoteData.t) :
  remotes <> [] ->
  exists merged,
    Stats.statsCache (Stats.mergeData rt local remotes) = Some merged
    /\ let dates := Props.mergeDates local remotes in
       (dates = [] -> firstSessionDate merged = now_ISO rt)
       /\ (dates <> [] ->
           In (firstSessionDate merged) dates
           /\ forall t, In t dates ->
                        String.ltb t (firstSessionDate merged) = false).
Proof.
  intros Hne. destruct remotes as [|r0 remotes]; [congruence|].
  eexists. split; [reflexivity|]. cbv zeta.
  cbn [Stats.buildMergedCache firstSessionDate].
  set (st := fold_left Stats.processRemote (r0 :: remotes)
                       (Stats.processLocal local Stats.emptyMerge)).
  assert (Hfirst :
            match Stats.earliestDate st with
            | Some e => JS.str_or e (now_ISO rt)
            | None => now_ISO rt
            end
            = match Props.nonEmpty (Stats.earliestDate st) with
              | Some e => e
              | None => now_ISO rt
              end).
  { destruct (Stats.earliestDate st) as [e|]; [|reflexivity].
    unfold JS.str_or. cbn [Props.nonEmpty].
    destruct (String.eqb e EmptyString); reflexivity. }
  rewrite Hfirst. clear Hfirst. subst st. rewrite processRemote_earliest.
  set (l := flat_map _ (r0 :: remotes)).
  set (acc := Props.nonEmpty
                (Stats.earliestDate
                   (Stats.processLocal local Stats.emptyMerge))).
  assert (Hdates : Props.mergeDates local (r0 :: remotes)
                   = Props.optlist acc ++ l).
  { subst acc l. unfold Props.mergeDates, Stats.processLocal.
    destruct (Stats.statsCache local) as [c|];
      cbn [Stats.earliestDate Stats.emptyMerge];
      now rewrite nonEmpty_stampOf. }
  rewrite Hdates.
  assert (Hold : Spec.isOldest (Props.optlist acc ++ l)
                               (fold_left Spec.takeStamp l acc)).
  { assert (Hopt : Props.optlist acc
                   = match acc with Some o => [o] | None => [] end)
      by reflexivity.
    rewrite Hopt. apply takeStamp_oldest.
    - subst l. intros t Hin. apply in_flat_map in Hin as (r & _ & Hin).
      destruct (RemoteData.statsCache r); [|contradiction].
      apply in_app_or in Hin as [Hin|Hin];
        now apply stampOf_nonempty in Hin.
    - subst acc. intros o Ho. now apply nonEmpty_Some in Ho. }
  destruct (fold_left Spec.takeStamp l acc) as [o|];
    cbn [Spec.isOldest] in Hold.
  - split; [|intros _; exact Hold].
    intros E. rewrite E in Hold. now destruct Hold.
  - split; [reflexivity|]. intros Hn. contradiction.
Qed.

Lemma mergeData_firstSessionDate_witness :
  exists merged,
    Stats.statsCache
      (Stats.mergeData utcRuntime MoreExamples.localUsage
                       MoreExamples.remoteUsage) = Some merged
    /\ let dates :=
         Props.mergeDates MoreExamples.localUsage MoreExamples.remoteUsage in
       (dates = [] -> firstSessionDate merged = now_ISO utcRuntime)
       /\ (dates <> [] ->
           In (firstSessionDate merged) dates
           /\ forall t, In t dates ->
                        String.ltb t (firstSessionDate merged) = false).
Proof.
  apply (mergeData_firstSessionDate utcRuntime MoreExamples.localUsage
                                    MoreExamples.remoteUsage).
  discriminate.
Defined.

(** The second remote has no cache: its timestamp of 2024 is not used. *)
Lemma mergeData_firstSessionDate_example :
  option_map firstSessionDate
    (Stats.statsCache
       (Stats.mergeData utcRuntime MoreExamples.localUsage
                        MoreExamples.remoteUsage))
  = Some "2025-01-15T10:00:00.000Z"%string
  /\ option_map firstSessionDate
       (Stats.statsCache
          (Stats.mergeData utcRuntime
             (Stats.mkCollectedData None [] [])
             [MoreExamples.unreachable "alice@laptop"]))
     = Some (now_ISO utcRuntime).
Proof. split; reflexivity. Qed.
(* ================================================================== *)
(** * Remotes that contribute nothing                                  *)
(* ================================================================== *)

Lemma map_set_fresh {V : Type} (m : JS.JsMap V) (k : string) (v : V) :
  ~ In k (JS.map_keys m) -> JS.map_set m k v = m ++ [(k, v)].
Proof.
  induction m as [|[k' v'] m IH]; intros Hnot; [reflexivity|].
  cbn [JS.map_set app]. destruct (String.eqb_spec k' k) as [->|Hne].
  - exfalso. apply Hnot. now left.
  - rewrite IH; [reflexivity|]. intros Hin. apply Hnot. now right.
Qed.

Lemma NoDup_app_cons_notin {A : Type} (l1 l2 : list A) (x : A) :
  NoDup (l1 ++ x :: l2) -> ~ In x l1 /\ NoDup ((l1 ++ [x]) ++ l2).
Proof.
  intros H. split.
  - apply NoDup_remove_2 in H. intros Hin. apply H.
    apply in_or_app. now left.
  - now rewrite <- app_assoc.
Qed.

Lemma setLocalDays_fresh days m :
  NoDup (JS.map_keys m ++ List.map date days) ->
  Stats.setLocalDays days m
  = m ++ List.map (fun day => (date day, Stats.counts_of day)) days.
Proof.
  revert m. induction days as [|r days IH]; intros m Hnd.
  - cbn. now rewrite app_nil_r.
  - unfold Stats.setLocalDays in *. cbn [fold_left List.map] in *.
    apply NoDup_app_cons_notin in Hnd as [Hnot Hnd].
    rewrite map_set_fresh by exact Hnot.
    rewrite IH.
    + now rewrite <- app_assoc.
    + unfold JS.map_keys in *. now rewrite map_app.
Qed.

Lemma setLocalUsage_fresh (entries m : JS.JsMap ModelUsage) :
  NoDup (JS.map_keys m ++ JS.map_keys entries) ->
  Stats.setLocalUsage entries m = m ++ entries.
Proof.
  revert m. induction entries as [|[k u] entries IH]; intros m Hnd.
  - cbn. now rewrite app_nil_r.
  - unfold Stats.setLocalUsage in *. cbn [fold_left JS.map_keys List.map fst]
      in *.
    apply NoDup_app_cons_notin in Hnd as [Hnot Hnd].
    rewrite map_set_fresh by exact Hnot.
    rewrite IH.
    + now rewrite <- app_assoc.
    + unfold JS.map_keys in *. now rewrite map_app.
Qed.

Lemma processRemote_silent remotes st :
  Forall Props.silent remotes ->
  fold_left Stats.processRemote remotes st = st.
Proof.
  induction 1 as [|r remotes (Hc & _ & _) _ IH]; [reflexivity|].
  cbn [fold_left]. unfold Stats.processRemote at 2. now rewrite Hc.
Qed.

Lemma silent_history remotes :
  Forall Props.silent remotes ->
  flat_map RemoteData.history remotes = []
  /\ flat_map RemoteData.projects remotes = [].
Proof.
  induction 1 as [|r remotes (_ & Hh & Hp) _ [IHh IHp]]; [now split|].
  cbn [flat_map]. now rewrite Hh, Hp, IHh, IHp.
Qed.

(** The totals and the model counts do not read the two fields that the
    merged cache resets. *)
Lemma sumUsage_reset entries t :
  fold_left Stats.sumUsage
    (List.map
       (fun '(id, usage) =>
          (id, mkModelUsage (inputTokens usage) (outputTokens usage)
                            (cacheReadInputTokens usage)
                            (cacheCreationInputTokens usage)
                            0 (costUSD usage) 0))
       entries) t
  = fold_left Stats.sumUsage entries t.
Proof.
  revert t. induction entries as [|[k u] entries IH]; intros t; [reflexivity|].
  cbn [List.map fold_left]. now rewrite IH.
Qed.

Lemma modelCountStep_reset entries m :
  fold_left Stats.modelCountStep
    (List.map
       (fun '(id, usage) =>
          (id, mkModelUsage (inputTokens usage) (outputTokens usage)
                            (cacheReadInputTokens usage)
                            (cacheCreationInputTokens usage)
                            0 (costUSD usage) 0))
       entries) m
  = fold_left Stats.modelCountStep entries m.
Proof.
  revert m. induction entries as [|[k u] entries IH]; intros m; [reflexivity|].
  cbn [List.map fold_left]. now rewrite IH.
Qed.

Lemma statsOf_same_view rt yr (m m' : Stats.CollectedData) tt :
  Stats.history m = Stats.history m' ->
  Stats.projects m = Stats.projects m' ->
  Stats.buildDailyActivity rt yr (Stats.statsCache m) (Stats.history m)
  = Stats.buildDailyActivity rt yr (Stats.statsCache m') (Stats.history m') ->
  Stats.cacheTotals yr (Stats.statsCache m)
  = Stats.cacheTotals yr (Stats.statsCache m') ->
  Stats.modelCountsOf (Stats.statsCache m)
  = Stats.modelCountsOf (Stats.statsCache m') ->
  forall l,
    l = match Stats.statsCache m with
        | Some c =>
            Some (LongestSession.duration (longestSession c),
                  LongestSession.messageCount (longestSession c))
        | None => None
        end ->
    Stats.statsOf rt yr m tt
    = Props.withLongestSession (Stats.statsOf rt yr m' tt) l.
Proof.
  intros Hh Hp Hd Ht Hm l ->. unfold Stats.statsOf.
  rewrite Hd, Ht, Hm, Hh, Hp.
  destruct (Stats.buildDailyActivity rt yr (Stats.statsCache m')
                                     (Stats.history m')).
  reflexivity.
Qed.

Lemma withLongestSession_same rt yr m tt :
  Props.withLongestSession (Stats.statsOf rt yr m tt)
    (WrappedStats.longestSession (Stats.statsOf rt yr m tt))
  = Stats.statsOf rt yr m tt.
Proof.
  unfold Stats.statsOf.
  destruct (Stats.buildDailyActivity rt yr (Stats.statsCache m)
                                     (Stats.history m)).
  reflexivity.
Qed.

Lemma silent_remotes_summary (rt : Runtime) (yr : Z)
    (local : Stats.CollectedData) (remotes : list RemoteData.t) :
  remotes <> [] ->
  Forall Props.silent remotes ->
  (forall c, Stats.statsCache local = Some c ->
             NoDup (List.map date (dailyActivity c))
             /\ NoDup (JS.map_keys (modelUsage c))) ->
  Stats.calculateStats rt yr local remotes
  = match Stats.statsCache local with
    | Some _ => Stats.calculateStats rt yr local []
    | None =>
        Props.withLongestSession (Stats.calculateStats rt yr local [])
                                 (Some (0, 0))
    end.
Proof.
  intros Hne Hs Hnd. unfold Stats.calculateStats.
  assert (Hhist : Stats.history (Stats.mergeData rt local remotes)
                  = Stats.history (Stats.mergeData rt local [])).
  { rewrite !mergeData_history_app.
    destruct (silent_history remotes Hs) as [-> _]. reflexivity. }
  assert (Hproj : Stats.projects (Stats.mergeData rt local remotes)
                  = Stats.projects (Stats.mergeData rt local [])).
  { rewrite !mergeData_projects_set.
    destruct (silent_history remotes Hs) as [_ ->]. reflexivity. }
  assert (Hcache : Stats.statsCache (Stats.mergeData rt local remotes)
                   = Some (Stats.buildMergedCache rt local
                             (Stats.processLocal local Stats.emptyMerge))).
  { destruct remotes as [|r0 remotes]; [congruence|].
    cbn [Stats.mergeData Stats.statsCache].
    now rewrite (processRemote_silent (r0 :: remotes)). }
  destruct (Stats.statsCache local) as [c|] eqn:Ec.
  - destruct (Hnd c eq_refl) as [Hdates Hkeys].
    rewrite <- (withLongestSession_same rt yr (Stats.mergeData rt local [])).
    assert (Hdays :
              dailyActivity
                (Stats.buildMergedCache rt local
                   (Stats.processLocal local Stats.emptyMerge))
              = dailyActivity c).
    { unfold Stats.processLocal. rewrite Ec.
      cbn [Stats.buildMergedCache dailyActivity Stats.mergedDailyActivity
           Stats.emptyMerge].
      rewrite setLocalDays_fresh by exact Hdates.
      cbn [app]. rewrite map_map. rewrite <- (map_id (dailyActivity c)) at 2.
      apply map_ext. now intros []. }
    assert (Husage :
              modelUsage
                (Stats.buildMergedCache rt local
                   (Stats.processLocal local Stats.emptyMerge))
              = List.map
                  (fun '(id, usage) =>
                     (id, mkModelUsage (inputTokens usage)
                            (outputTokens usage)
                            (cacheReadInputTokens usage)
                            (cacheCreationInputTokens usage)
                            0 (costUSD usage) 0))
                  (modelUsage c)).
    { unfold Stats.processLocal. rewrite Ec.
      cbn [Stats.buildMergedCache modelUsage Stats.mergedModelUsage
           Stats.emptyMerge].
      now rewrite setLocalUsage_fresh by exact Hkeys. }
    apply statsOf_same_view; try assumption.
    + rewrite Hhist, Hcache.
      cbn [Stats.mergeData Stats.statsCache]. rewrite Ec.
      unfold Stats.buildDailyActivity. now rewrite Hdays.
    + rewrite Hcache. cbn [Stats.mergeData Stats.statsCache]. rewrite Ec.
      unfold Stats.cacheTotals. now rewrite Hdays, Husage, sumUsage_reset.
    + rewrite Hcache. cbn [Stats.mergeData Stats.statsCache]. rewrite Ec.
      unfold Stats.modelCountsOf. now rewrite Husage, modelCountStep_reset.
    + rewrite Hcache. unfold Stats.statsOf.
      cbn [Stats.mergeData Stats.statsCache]. rewrite Ec.
      destruct (Stats.buildDailyActivity _ _ _ _).
      cbn [WrappedStats.longestSession Stats.buildMergedCache longestSession].
      now rewrite Ec.
  - assert (Hempty :
              Stats.buildMergedCache rt local
                (Stats.processLocal local Stats.emptyMerge)
              = mkClaudeCodeStats 1
                  (hd EmptyString (JS.split "T"%char (now_ISO rt)))
                  [] [] [] 0 0 Stats.emptyLongestSession (now_ISO rt) []).
    { unfold Stats.processLocal, Stats.buildMergedCache. now rewrite Ec. }
    apply statsOf_same_view; try assumption.
    + rewrite Hhist, Hcache, Hempty.
      cbn [Stats.mergeData Stats.statsCache]. now rewrite Ec.
    + rewrite Hcache, Hempty. cbn [Stats.mergeData Stats.statsCache].
      now rewrite Ec.
    + rewrite Hcache, Hempty. cbn [Stats.mergeData Stats.statsCache].
      now rewrite Ec.
    + now rewrite Hcache, Hempty.
Qed.

Lemma older_quiet (earliest o : option string) :
  Props.nonEmpty o = None -> older earliest o = earliest.
Proof.
  destruct o as [t|]; [|reflexivity]. cbn.
  destruct (String.eqb t EmptyString); [reflexivity|discriminate].
Qed.

Lemma quiet_oldest remotes earliest :
  Forall Props.quiet remotes ->
  fold_left
    (fun e remote => older e (RemoteData.oldestSessionTimestamp remote))
    remotes earliest
  = earliest.
Proof.
  induction 1 as [|r remotes [_ Hq] _ IH]; [reflexivity|].
  cbn [fold_left]. now rewrite (older_quiet _ _ Hq).
Qed.

(** The summary without the clock, with remotes that contribute
    nothing. *)
Lemma quiet_remotes_stats (rt : Runtime) (yr : Z)
    (local : Stats.CollectedData) (remotes : list RemoteData.t)
    (c : ClaudeCodeStats) :
  remotes <> [] ->
  Forall Props.quiet remotes ->
  Stats.statsCache local = Some c ->
  NoDup (List.map date (dailyActivity c)) ->
  NoDup (JS.map_keys (modelUsage c)) ->
  Stats.calculateStats rt yr local remotes
  = Stats.calculateStats rt yr local [].
Proof.
  intros Hne Hq Hc Hd Hk.
  assert (Hs : Forall Props.silent remotes).
  { eapply Forall_impl; [|exact Hq]. now intros r [H _]. }
  rewrite (silent_remotes_summary rt yr local remotes Hne Hs).
  - now rewrite Hc.
  - intros c' Hc'. rewrite Hc in Hc'. injection Hc' as <-. now split.
Qed.

(** The first session with remotes that contribute nothing. *)
Lemma quiet_remotes_first (rt : Runtime) (local : Stats.CollectedData)
    (oldestLocalTimestamp : option string) (remotes : list RemoteData.t)
    (c : ClaudeCodeStats) :
  remotes <> [] ->
  Forall Props.quiet remotes ->
  Stats.statsCache local = Some c ->
  firstSessionDate c <> EmptyString ->
  FirstSession.firstSession
    (Stats.statsCache (Stats.mergeData rt local remotes))
    oldestLocalTimestamp remotes
    (Stats.history (Stats.mergeData rt local remotes))
  = FirstSession.firstSession
      (Stats.statsCache (Stats.mergeData rt local []))
      oldestLocalTimestamp []
      (Stats.history (Stats.mergeData rt local [])).
Proof.
  intros Hne Hq Hc Hf.
  assert (Hs : Forall Props.silent remotes).
  { eapply Forall_impl; [|exact Hq]. now intros r [H _]. }
  assert (Hcache : Stats.statsCache (Stats.mergeData rt local remotes)
                   = Some (Stats.buildMergedCache rt local
                             (Stats.processLocal local Stats.emptyMerge))).
  { destruct remotes as [|r0 remotes]; [congruence|].
    cbn [Stats.mergeData Stats.statsCache].
    now rewrite (processRemote_silent (r0 :: remotes)). }
  assert (Hdate : firstSessionDate
                    (Stats.buildMergedCache rt local
                       (Stats.processLocal local Stats.emptyMerge))
                  = firstSessionDate c).
  { unfold Stats.processLocal. rewrite Hc.
    cbn [Stats.buildMergedCache firstSessionDate Stats.earliestDate].
    unfold JS.str_or.
    destruct (String.eqb_spec (firstSessionDate c) EmptyString);
      [contradiction|reflexivity]. }
  rewrite !mergeData_history_app.
  destruct (silent_history remotes Hs) as [-> _]. cbn [flat_map].
  unfold FirstSession.firstSession, FirstSession.earliestTimestamp.
  rewrite (quiet_oldest remotes _ Hq). cbn [fold_left].
  rewrite Hcache. cbn [Stats.mergeData Stats.statsCache].
  now rewrite Hc, Hdate.
Qed.

(** X6.  Remotes that contribute nothing (no cache, no history entry, no
    project and no session timestamp: hosts that could not be reached)
    leave the complete summary, [firstSessionDate],
    [daysSinceFirstSession] and [currentStreak] included, as it is
    computed from the local data alone, when the local cache lists every
    date and every model once and has a first session date. *)
Theorem silent_remotes_keep_summary (fuel : nat) (rt : Runtime) (now yr : Z)
    (local : Stats.CollectedData) (oldestLocalTimestamp : option string)
    (remotes : list RemoteData.t) (c : ClaudeCodeStats) :
  remotes <> [] ->
  Forall Props.quiet remotes ->
  Stats.statsCache local = Some c ->
  NoDup (List.map date (dailyActivity c)) ->
  NoDup (JS.map_keys (modelUsage c)) ->
  firstSessionDate c <> EmptyString ->
  Summary.calculateStats fuel rt now yr local oldestLocalTimestamp remotes
  = Summary.calculateStats fuel rt now yr local oldestLocalTimestamp [].
Proof.
  intros Hne Hq Hc Hd Hk Hf.
  unfold Summary.calculateStats. cbv zeta.
  rewrite (quiet_remotes_stats rt yr local remotes c Hne Hq Hc Hd Hk).
  rewrite (quiet_remotes_first rt local oldestLocalTimestamp remotes c
             Hne Hq Hc Hf).
  reflexivity.
Qed.

Lemma silent_remotes_keep_summary_witness :
  Summary.calculateStats 10 utcRuntime MoreExamples.noon 2025
    MoreExamples.localUsage (Some "2025-02-01T09:00:00.000Z"%string)
    [MoreExamples.unreachable "alice@build";
     MoreExamples.unreachable "alice@ci"]
  = Summary.calculateStats 10 utcRuntime MoreExamples.noon 2025
      MoreExamples.localUsage (Some "2025-02-01T09:00:00.000Z"%string) [].
Proof.
  apply (silent_remotes_keep_summary 10 utcRuntime MoreExamples.noon 2025
           MoreExamples.localUsage (Some "2025-02-01T09:00:00.000Z"%string)
           [MoreExamples.unreachable "alice@build";
            MoreExamples.unreachable "alice@ci"]
           (Examples.cacheOf []
              [("claude-sonnet-4-20250514",
                MoreExamples.tokens 100 50 900 100);
               ("claude-opus-4-20250514", MoreExamples.tokens 10 5 0 0)]%string
              4 20 "2025-03-01T08:00:00.000Z")).
  - discriminate.
  - repeat constructor.
  - reflexivity.
  - constructor.
  - cbn. repeat constructor; cbn; intuition discriminate.
  - discriminate.
Defined.

(** Outside the hypotheses the summary does change.  A silent remote
    that reports a session timestamp moves the first session.  Without a
    local cache, the merged cache made for an unreachable host has the
    current time as its first session date and an empty longest session:
    the first session moves from the oldest prompt (305 days before) to
    the current time, and the longest session from null to (0, 0).  With
    a local cache that repeats a date, the repeated records are counted
    once after a merge and twice without. *)
Lemma silent_remotes_examples :
  (let s remotes :=
     Summary.calculateStats 10 utcRuntime MoreExamples.noon 2025
       MoreExamples.localUsage None remotes in
   Summary.daysSinceFirstSession (s []) = Some 305
   /\ Summary.daysSinceFirstSession
        (s [RemoteData.mk "alice@build" None [] []
              (Some "2024-06-01T10:00:00.000Z"%string)]) = Some 578)
  /\ (let s remotes :=
        Summary.calculateStats 10 utcRuntime MoreExamples.noon 2025
          Examples.fivePrompts None remotes in
      Summary.daysSinceFirstSession (s []) = Some 305
      /\ Summary.daysSinceFirstSession
           (s [MoreExamples.unreachable "alice@build"]) = Some 0
      /\ WrappedStats.longestSession (Summary.stats (s [])) = None
      /\ WrappedStats.longestSession
           (Summary.stats (s [MoreExamples.unreachable "alice@build"]))
         = Some (0, 0))
  /\ (let twice :=
        Stats.mkCollectedData
          (Some (Examples.cacheOf
                   [Examples.day "2025-03-01" 5 1 0;
                    Examples.day "2025-03-01" 7 1 0]
                   [] 2 12 "2025-03-01T08:00:00.000Z"))
          [] [] in
      WrappedStats.totalMessages
        (Stats.calculateStats utcRuntime 2025 twice []) = 12
      /\ WrappedStats.totalMessages
           (Stats.calculateStats utcRuntime 2025 twice
              [MoreExamples.unreachable "alice@build"]) = 7).
Proof. repeat split. Qed.
(* ================================================================== *)
(** * calculateStats: the ranked lists                                 *)
(* ================================================================== *)

Lemma desc_total (x y : string * Z) :
  (snd y <=? snd x) = true \/ (snd x <=? snd y) = true.
Proof.
  destruct (Z.leb_spec (snd y) (snd x)); [now left|right].
  apply Z.leb_le. lia.
Qed.

Lemma Sorted_weaken {A : Type} (R R' : A -> A -> Prop) (l : list A) :
  (forall x y, R x y -> R' x y) -> Sorted R l -> Sorted R' l.
Proof.
  intros Himp. induction 1 as [|a l Hs IH Hhd]; constructor; [exact IH|].
  destruct Hhd; constructor. now apply Himp.
Qed.

Lemma StronglySorted_app_cross {A : Type} (R : A -> A -> Prop)
    (l1 l2 : list A) :
  StronglySorted R (l1 ++ l2) ->
  forall x y, In x l1 -> In y l2 -> R x y.
Proof.
  induction l1 as [|a l1 IH]; cbn [app]; intros H x y Hx Hy; [destruct Hx|].
  inversion H as [|? ? Hs Hall]; subst.
  destruct Hx as [<-|Hx].
  - rewrite Forall_forall in Hall. apply Hall, in_or_app. now right.
  - now apply IH.
Qed.

Lemma StronglySorted_app_l {A : Type} (R : A -> A -> Prop)
    (l1 l2 : list A) :
  StronglySorted R (l1 ++ l2) -> StronglySorted R l1.
Proof.
  induction l1 as [|a l1 IH]; cbn [app]; intros H; [constructor|].
  inversion H as [|? ? Hs Hall]; subst. constructor; [now apply IH|].
  apply Forall_app in Hall. tauto.
Qed.

Lemma sort_desc_StronglySorted (m : JS.JsMap Z) :
  StronglySorted (fun a b : string * Z => snd b <= snd a)
                 (JS.sort_desc_by_count m).
Proof.
  apply Sorted_StronglySorted.
  - intros x y z Hxy Hyz. lia.
  - apply (Sorted_weaken (fun a b : string * Z => (snd b <=? snd a) = true)).
    + intros x y H. now apply Z.leb_le.
    + apply (sort_by_Sorted (fun a b : string * Z => snd b <=? snd a)).
      intros x y. apply desc_total.
Qed.

(** The first [n] entries of a map sorted by descending count. *)
Lemma top_ranked (n : nat) (m : JS.JsMap Z) :
  let top := JS.slice0 n (JS.sort_desc_by_count m) in
  List.length top = Nat.min n (List.length m)
  /\ StronglySorted (fun a b : string * Z => snd b <= snd a) top
  /\ (forall e, In e top -> In e m)
  /\ (forall e e', In e top -> In e' m -> ~ In e' top -> snd e' <= snd e)
  /\ (NoDup (JS.map_keys m) -> NoDup (JS.map_keys top)).
Proof.
  cbv zeta. unfold JS.slice0.
  set (sorted := JS.sort_desc_by_count m).
  assert (Hperm : Permutation sorted m).
  { apply (sort_by_perm (fun a b : string * Z => snd b <=? snd a)). }
  assert (Hss := sort_desc_StronglySorted m). fold sorted in Hss.
  rewrite <- (firstn_skipn n sorted) in Hss.
  split; [|split; [|split; [|split]]].
  - rewrite length_firstn. now rewrite (Permutation_length Hperm).
  - now apply StronglySorted_app_l in Hss.
  - intros e He. apply (Permutation_in _ Hperm).
    rewrite <- (firstn_skipn n sorted). apply in_or_app. now left.
  - intros e e' He He' Hnot.
    apply (Permutation_in _ (Permutation_sym Hperm)) in He'.
    rewrite <- (firstn_skipn n sorted) in He'.
    apply in_app_or in He' as [He'|He']; [contradiction|].
    exact (StronglySorted_app_cross _ _ _ Hss e e' He He').
  - intros Hnd. unfold JS.map_keys in *.
    assert (Hnd' : NoDup (List.map fst sorted)).
    { apply (Permutation_NoDup (l := List.map fst m)); [|exact Hnd].
      apply Permutation_map, Permutation_sym, Hperm. }
    rewrite <- (firstn_skipn n sorted), map_app in Hnd'.
    now apply NoDup_app_remove_r in Hnd'.
Qed.

Lemma modelCountsOf_NoDup ms : NoDup (JS.map_keys (Stats.modelCountsOf ms)).
Proof.
  unfold Stats.modelCountsOf. destruct ms as [c|]; [|constructor].
  assert (H : forall entries m,
             NoDup (JS.map_keys m) ->
             NoDup (JS.map_keys (fold_left Stats.modelCountStep entries m))).
  { induction entries as [|[k u] entries IH]; intros m Hm; [exact Hm|].
    cbn [fold_left]. apply IH. unfold Stats.modelCountStep.
    now apply map_keys_NoDup_set. }
  apply H. constructor.
Qed.

Lemma projectStep_NoDup entries m :
  NoDup (JS.map_keys m) ->
  NoDup (JS.map_keys (fold_left Stats.projectStep entries m)).
Proof.
  revert m. induction entries as [|e entries IH]; intros m Hm; [exact Hm|].
  cbn [fold_left]. apply IH. unfold Stats.projectStep.
  now apply map_keys_NoDup_set.
Qed.

Lemma topModelsOf_entries rt modelCounts :
  List.map (fun ms => (ModelStats.id ms, ModelStats.count ms))
           (Stats.topModelsOf rt modelCounts)
  = JS.slice0 3 (JS.sort_desc_by_count modelCounts).
Proof.
  unfold Stats.topModelsOf. rewrite map_map.
  rewrite <- (map_id (JS.slice0 3 _)) at 2. apply map_ext. now intros [].
Qed.

Lemma topProjectsOf_entries projectCounts totalPrompts :
  List.map (fun pj => (ProjectStats.name pj, ProjectStats.promptCount pj))
           (Stats.topProjectsOf projectCounts totalPrompts)
  = JS.slice0 4 (JS.sort_desc_by_count projectCounts).
Proof.
  unfold Stats.topProjectsOf. rewrite map_map.
  rewrite <- (map_id (JS.slice0 4 _)) at 2. apply map_ext. now intros [].
Qed.

(** X7.  The top models are the at most three entries of the model-count
    map with the largest counts, in non-increasing order of count and
    without a repeated model: every model that is left out has a count that
    is at most every listed count.  The same holds for the at most four top
    projects and the project-count map. *)
Theorem top_lists_ranked (rt : Runtime) (yr : Z)
    (local : Stats.CollectedData) (remotes : list RemoteData.t) :
  let merged := Stats.mergeData rt local remotes in
  let s := Stats.calculateStats rt yr local remotes in
  let modelCounts := Stats.modelCountsOf (Stats.statsCache merged) in
  let projectCounts := Stats.projectCountsOf (Stats.history merged) in
  let models :=
    List.map (fun ms => (ModelStats.id ms, ModelStats.count ms))
             (WrappedStats.topModels s) in
  let projs :=
    List.map (fun pj => (ProjectStats.name pj, ProjectStats.promptCount pj))
             (WrappedStats.topProjects s) in
  (List.length models = Nat.min 3 (List.length modelCounts)
   /\ StronglySorted (fun a b : string * Z => snd b <= snd a) models
   /\ (forall e, In e models -> In e modelCounts)
   /\ (forall e e',
         In e models -> In e' modelCounts -> ~ In e' models ->
         snd e' <= snd e)
   /\ NoDup (List.map fst models))
  /\ (List.length projs = Nat.min 4 (List.length projectCounts)
      /\ StronglySorted (fun a b : string * Z => snd b <= snd a) projs
      /\ (forall e, In e projs -> In e projectCounts)
      /\ (forall e e',
            In e projs -> In e' projectCounts -> ~ In e' projs ->
            snd e' <= snd e)
      /\ NoDup (List.map fst projs)).
Proof.
  cbv zeta. unfold Stats.calculateStats.
  rewrite statsOf_topModels, statsOf_topProjects.
  rewrite topModelsOf_entries, topProjectsOf_entries.
  split.
  - destruct (top_ranked 3
                (Stats.modelCountsOf
                   (Stats.statsCache (Stats.mergeData rt local remotes))))
      as (Hl & Hs & Hi & Hm & Hn).
    repeat split; try assumption. apply Hn, modelCountsOf_NoDup.
  - destruct (top_ranked 4
                (Stats.projectCountsOf
                   (Stats.history (Stats.mergeData rt local remotes))))
      as (Hl & Hs & Hi & Hm & Hn).
    repeat split; try assumption. apply Hn.
    apply projectStep_NoDup. constructor.
Qed.
(* ================================================================== *)
(** * calculateStats: counting maps                                    *)
(* ================================================================== *)

(** A loop [m.set(key, (m.get(key) || 0) + 1)] counts the elements of
    each key. *)
Lemma count_fold_get {A : Type} (key : A -> string) (l : list A)
    (m : JS.JsMap Z) (k : string) :
  JS.map_get
    (fold_left
       (fun m x =>
          JS.map_set m (key x)
            (match JS.map_get m (key x) with
             | Some n => JS.num_or0 n
             | None => 0
             end + 1))
       l m) k
  = match List.length (filter (fun x => String.eqb (key x) k) l) with
    | O => JS.map_get m k
    | S c =>
        Some (match JS.map_get m k with Some n => n | None => 0 end
              + Z.of_nat (S c))
    end.
Proof.
  revert m. induction l as [|x l IH]; intros m; [reflexivity|].
  cbn [fold_left filter]. rewrite IH. clear IH.
  destruct (String.eqb_spec (key x) k) as [<-|Hne].
  - rewrite map_get_set_eq. cbn [List.length].
    destruct (List.length (filter _ l));
      destruct (JS.map_get m (key x)); rewrite ?num_or0_id; f_equal; lia.
  - now rewrite map_get_set_neq.
Qed.

Lemma count_fold_total {A : Type} (key : A -> string) (l : list A)
    (m : JS.JsMap Z) :
  Spec.total
    (JS.map_values
       (fold_left
          (fun m x =>
             JS.map_set m (key x)
               (match JS.map_get m (key x) with
                | Some n => JS.num_or0 n
                | None => 0
                end + 1))
          l m))
  = Spec.total (JS.map_values m) + Z.of_nat (List.length l).
Proof.
  revert m. induction l as [|x l IH]; intros m.
  - cbn [fold_left List.length]. lia.
  - cbn [fold_left]. rewrite IH, total_map_set. cbn [List.length].
    destruct (JS.map_get m (key x)); rewrite ?num_or0_id; lia.
Qed.

Lemma count_fold_NoDup {A : Type} (key : A -> string) (l : list A)
    (m : JS.JsMap Z) :
  NoDup (JS.map_keys m) ->
  NoDup
    (JS.map_keys
       (fold_left
          (fun m x =>
             JS.map_set m (key x)
               (match JS.map_get m (key x) with
                | Some n => JS.num_or0 n
                | None => 0
                end + 1))
          l m)).
Proof.
  revert m. induction l as [|x l IH]; intros m Hm; [exact Hm|].
  cbn [fold_left]. apply IH. now apply map_keys_NoDup_set.
Qed.

Lemma projectCounts_get (history : list HistoryEntry) (name : string) :
  JS.map_get (Stats.projectCountsOf history) name
  = match Props.promptsOf name history with
    | O => None
    | S c => Some (Z.of_nat (S c))
    end.
Proof.
  unfold Stats.projectCountsOf, Props.promptsOf, Stats.projectStep.
  cbv zeta.
  rewrite (count_fold_get Stats.projectNameOf history [] name).
  cbn [JS.map_get]. now destruct (List.length _).
Qed.

Lemma NoDup_map_get {V : Type} (m : JS.JsMap V) (k : string) (v : V) :
  NoDup (JS.map_keys m) -> In (k, v) m -> JS.map_get m k = Some v.
Proof.
  induction m as [|[k' v'] m IH]; intros Hnd Hin; [destruct Hin|].
  inversion Hnd as [|? ? Hnot Hnd']; subst. cbn [JS.map_get].
  destruct Hin as [[= -> ->]|Hin].
  - now rewrite String.eqb_refl.
  - destruct (String.eqb_spec k' k) as [->|Hne]; [|now apply IH].
    exfalso. apply Hnot. change k with (fst (k, v)). now apply in_map.
Qed.

(** X8.  The prompt count of a listed project is the number of entries of
    the merged history whose project path gives that name (the part after
    the last slash, or the whole path when that part is empty); it is at
    least 1.  The counts of all the projects add up to the number of
    prompts. *)
Theorem topProjects_count_entries (rt : Runtime) (yr : Z)
    (local : Stats.CollectedData) (remotes : list RemoteData.t) :
  let merged := Stats.mergeData rt local remotes in
  let s := Stats.calculateStats rt yr local remotes in
  (forall pj, In pj (WrappedStats.topProjects s) ->
      ProjectStats.promptCount pj
      = Z.of_nat (Props.promptsOf (ProjectStats.name pj)
                                  (Stats.history merged))
      /\ 1 <= ProjectStats.promptCount pj)
  /\ (forall name,
        JS.map_get (Stats.projectCountsOf (Stats.history merged)) name
        = match Props.promptsOf name (Stats.history merged) with
          | O => None
          | S c => Some (Z.of_nat (S c))
          end)
  /\ Spec.total
       (JS.map_values (Stats.projectCountsOf (Stats.history merged)))
     = WrappedStats.totalPrompts s.
Proof.
  cbv zeta. unfold Stats.calculateStats.
  set (merged := Stats.mergeData rt local remotes).
  split; [|split].
  - intros pj Hin. rewrite statsOf_topProjects in Hin.
    assert (He : In (ProjectStats.name pj, ProjectStats.promptCount pj)
                    (Stats.projectCountsOf (Stats.history merged))).
    { apply (in_map (fun pj => (ProjectStats.name pj,
                                ProjectStats.promptCount pj))) in Hin.
      rewrite topProjectsOf_entries in Hin.
      now apply top_In in Hin. }
    apply NoDup_map_get in He;
      [|apply projectStep_NoDup; constructor].
    rewrite projectCounts_get in He.
    destruct (Props.promptsOf (ProjectStats.name pj) (Stats.history merged));
      [discriminate|].
    injection He as He. rewrite <- He. split; lia.
  - intros name. apply projectCounts_get.
  - rewrite statsOf_totalPrompts.
    unfold Stats.projectCountsOf, Stats.projectStep. cbv zeta.
    rewrite (count_fold_total Stats.projectNameOf).
    cbn [JS.map_values List.map Spec.total fold_right]. lia.
Qed.

(* ================================================================== *)
(** * calculateStats: the daily activity map                           *)
(* ================================================================== *)

Lemma cacheDay_filter rt yr days acc :
  fold_left (Stats.cacheDay rt yr) days acc
  = fold_left (Stats.cacheDay rt yr) (filter (Spec.inYear yr) days) acc.
Proof.
  revert acc. induction days as [|d days IH]; intros acc; [reflexivity|].
  cbn [fold_left filter]. unfold Spec.inYear at 1.
  destruct (JS.startsWith (date d) (JS.String_of_Z yr)) eqn:E.
  - cbn [fold_left]. apply IH.
  - rewrite <- IH. f_equal. destruct acc as [m w].
    unfold Stats.cacheDay. now rewrite E.
Qed.

Lemma historyDay_fst rt entries m w :
  fst (fold_left (Stats.historyDay rt) entries (m, w))
  = fold_left
      (fun m e =>
         JS.map_set m (Stats.formatDateKey (Date_of_ms rt (timestamp e)))
           (match JS.map_get m
                    (Stats.formatDateKey (Date_of_ms rt (timestamp e))) with
            | Some n => JS.num_or0 n
            | None => 0
            end + 1))
      entries m.
Proof.
  revert m w. induction entries as [|e entries IH]; intros m w; [reflexivity|].
  cbn [fold_left]. unfold Stats.historyDay at 2. now rewrite IH.
Qed.

Lemma historyDay_snd rt entries m w :
  snd (fold_left (Stats.historyDay rt) entries (m, w))
  = fold_left
      (fun w e => Stats.bump w (getDay (Date_of_ms rt (timestamp e))) 1)
      entries w.
Proof.
  revert m w. induction entries as [|e entries IH]; intros m w; [reflexivity|].
  cbn [fold_left]. unfold Stats.historyDay at 2. now rewrite IH.
Qed.

Lemma bump_length w i n : List.length (Stats.bump w i n) = List.length w.
Proof.
  revert i. induction w as [|x w IH]; intros i; [reflexivity|].
  cbn [Stats.bump]. destruct (i =? 0); cbn [List.length]; [reflexivity|].
  now rewrite IH.
Qed.

Lemma bump_total w i n :
  0 <= i < Z.of_nat (List.length w) ->
  Spec.total (Stats.bump w i n) = Spec.total w + n.
Proof.
  unfold Spec.total.
  revert i. induction w as [|x w IH]; intros i Hi; [cbn in Hi; lia|].
  cbn [Stats.bump]. destruct (Z.eqb_spec i 0) as [->|Hne].
  - cbn [fold_right]. lia.
  - cbn [fold_right]. rewrite IH; [lia|].
    cbn [List.length] in Hi. lia.
Qed.

Lemma bump_fold_total {A : Type} (day : A -> Z) (amount : A -> Z)
    (l : list A) (w : list Z) :
  (forall x, In x l -> 0 <= day x < Z.of_nat (List.length w)) ->
  Spec.total (fold_left (fun w x => Stats.bump w (day x) (amount x)) l w)
  = Spec.total w + Spec.total (List.map amount l)
  /\ List.length (fold_left (fun w x => Stats.bump w (day x) (amount x)) l w)
     = List.length w.
Proof.
  revert w. induction l as [|x l IH]; intros w Hday.
  - cbn [fold_left List.map]. unfold Spec.total at 3. cbn [fold_right].
    split; [lia|reflexivity].
  - cbn [fold_left List.map].
    destruct (IH (Stats.bump w (day x) (amount x))) as [Ht Hl].
    { intros y Hy. rewrite bump_length. apply Hday. now right. }
    rewrite Ht, Hl, bump_length, bump_total by (apply Hday; now left).
    change (Spec.total (amount x :: List.map amount l))
      with (amount x + Spec.total (List.map amount l)).
    split; [lia|reflexivity].
Qed.

Lemma total_ones {A : Type} (l : list A) :
  Spec.total (List.map (fun _ : A => 1) l) = Z.of_nat (List.length l).
Proof.
  unfold Spec.total. induction l as [|x l IH]; [reflexivity|].
  cbn [List.map fold_right List.length]. rewrite IH, Nat2Z.inj_succ. lia.
Qed.

Lemma bump_fold_length {A : Type} (day : A -> Z) (amount : A -> Z)
    (l : list A) (w : list Z) :
  List.length (fold_left (fun w x => Stats.bump w (day x) (amount x)) l w)
  = List.length w.
Proof.
  revert w. induction l as [|x l IH]; intros w; [reflexivity|].
  cbn [fold_left]. now rewrite IH, bump_length.
Qed.

Lemma statsOf_weekday rt yr merged tt :
  WrappedStats.weekdayActivity (Stats.statsOf rt yr merged tt)
  = Stats.buildWeekdayActivity
      (snd (Stats.buildDailyActivity rt yr (Stats.statsCache merged)
                                     (Stats.history merged))).
Proof.
  unfold Stats.statsOf.
  now destruct (Stats.buildDailyActivity _ _ _ _).
Qed.

Lemma buildWeekdayActivity_counts cs :
  WeekdayActivity.counts (Stats.buildWeekdayActivity cs) = cs.
Proof.
  unfold Stats.buildWeekdayActivity.
  now destruct (Stats.weekdayLoop cs 0 (0, 0)).
Qed.

Lemma buildDailyActivity_fallback rt yr ms hist :
  match ms with
  | Some c => filter (Spec.inYear yr) (dailyActivity c) = []
  | None => True
  end ->
  hist <> [] ->
  Stats.buildDailyActivity rt yr ms hist
  = fold_left (Stats.historyDay rt) hist ([], [0; 0; 0; 0; 0; 0; 0]).
Proof.
  intros Hc Hh. unfold Stats.buildDailyActivity.
  assert (Hfrom :
            match ms with
            | Some c =>
                fold_left (Stats.cacheDay rt yr) (dailyActivity c)
                          ([], [0; 0; 0; 0; 0; 0; 0])
            | None => ([], [0; 0; 0; 0; 0; 0; 0])
            end = (([] : JS.JsMap Z), [0; 0; 0; 0; 0; 0; 0])).
  { destruct ms as [c|]; [|reflexivity]. now rewrite cacheDay_filter, Hc. }
  rewrite Hfrom. cbn [fst JS.map_size List.length Nat.eqb andb].
  destruct hist; [congruence|reflexivity].
Qed.

(** X9.  When the merged cache has no record of the requested year (or
    there is no cache) and the merged history is not empty, the activity
    map is built from the history: the count of a day is the number of
    history entries whose timestamp falls on that local day, days without
    an entry are absent, the counts add up to the number of prompts, and a
    most active day is always reported.  The weekday counters add up to the
    number of prompts as well. *)
Theorem dailyActivity_from_history (rt : Runtime) (yr : Z)
    (local : Stats.CollectedData) (remotes : list RemoteData.t) :
  let merged := Stats.mergeData rt local remotes in
  let s := Stats.calculateStats rt yr local remotes in
  match Stats.statsCache merged with
  | Some c => filter (Spec.inYear yr) (dailyActivity c) = []
  | None => True
  end ->
  Stats.history merged <> [] ->
  (forall key,
      JS.map_get (WrappedStats.dailyActivity s) key
      = match Props.promptsOn rt key (Stats.history merged) with
        | O => None
        | S c => Some (Z.of_nat (S c))
        end)
  /\ NoDup (JS.map_keys (WrappedStats.dailyActivity s))
  /\ Spec.total (JS.map_values (WrappedStats.dailyActivity s))
     = WrappedStats.totalPrompts s
  /\ WrappedStats.mostActiveDay s <> None
  /\ ((forall e, In e (Stats.history merged) ->
                 0 <= getDay (Date_of_ms rt (timestamp e)) < 7) ->
      Spec.total (WeekdayActivity.counts (WrappedStats.weekdayActivity s))
      = WrappedStats.totalPrompts s).
Proof.
  cbv zeta. unfold Stats.calculateStats.
  set (merged := Stats.mergeData rt local remotes).
  intros Hc Hh.
  destruct (statsOf_mostActiveDay rt yr merged Stats.totalTokensOf)
    as [Hmost Hmap].
  cbv zeta in Hmost, Hmap. rewrite Hmost, Hmap.
  rewrite statsOf_weekday, statsOf_totalPrompts, buildWeekdayActivity_counts.
  assert (Hkeys := buildDailyActivity_keys rt yr (Stats.statsCache merged)
                     (Stats.history merged)).
  rewrite (buildDailyActivity_fallback rt yr _ _ Hc Hh) in Hkeys |- *.
  rewrite historyDay_fst in Hkeys. rewrite historyDay_fst, historyDay_snd.
  set (key := fun e => Stats.formatDateKey (Date_of_ms rt (timestamp e))).
  assert (Hget : forall k,
             JS.map_get
               (fold_left
                  (fun m e =>
                     JS.map_set m (key e)
                       (match JS.map_get m (key e) with
                        | Some n => JS.num_or0 n
                        | None => 0
                        end + 1))
                  (Stats.history merged) []) k
             = match Props.promptsOn rt k (Stats.history merged) with
               | O => None
               | S c => Some (Z.of_nat (S c))
               end).
  { intros k. rewrite (count_fold_get key). unfold Props.promptsOn.
    fold key. cbn [JS.map_get]. now destruct (List.length _). }
  split; [exact Hget|]. split; [|split; [|split]].
  - apply (count_fold_NoDup key). constructor.
  - rewrite (count_fold_total key).
    cbn [JS.map_values List.map Spec.total fold_right]. lia.
  - apply findMostActiveDay_dates.
    + exact Hkeys.
    + destruct (Stats.history merged) as [|e0 rest] eqn:E; [congruence|].
      exists (key e0).
      specialize (Hget (key e0)). unfold Props.promptsOn in Hget.
      fold key in Hget. cbn [filter] in Hget.
      rewrite String.eqb_refl in Hget. cbn [List.length] in Hget.
      eexists. split; [apply map_get_In; exact Hget|lia].
  - intros Hday.
    destruct (bump_fold_total
                (fun e => getDay (Date_of_ms rt (timestamp e)))
                (fun _ : HistoryEntry => 1)
                (Stats.history merged) [0; 0; 0; 0; 0; 0; 0]) as [Ht _].
    { intros e He. cbn [List.length]. specialize (Hday e He). lia. }
    rewrite Ht, total_ones. unfold Spec.total. cbn [fold_right]. lia.
Qed.

Lemma dailyActivity_from_history_witness :
  let merged := Stats.mergeData utcRuntime Examples.fivePrompts [] in
  let s := Stats.calculateStats utcRuntime 2025 Examples.fivePrompts [] in
  (forall key,
      JS.map_get (WrappedStats.dailyActivity s) key
      = match Props.promptsOn utcRuntime key (Stats.history merged) with
        | O => None
        | S c => Some (Z.of_nat (S c))
        end)
  /\ NoDup (JS.map_keys (WrappedStats.dailyActivity s))
  /\ Spec.total (JS.map_values (WrappedStats.dailyActivity s))
     = WrappedStats.totalPrompts s
  /\ WrappedStats.mostActiveDay s <> None
  /\ ((forall e, In e (Stats.history merged) ->
                 0 <= getDay (Date_of_ms utcRuntime (timestamp e)) < 7) ->
      Spec.total (WeekdayActivity.counts (WrappedStats.weekdayActivity s))
      = WrappedStats.totalPrompts s).
Proof.
  apply (dailyActivity_from_history utcRuntime 2025 Examples.fivePrompts []).
  - exact I.
  - discriminate.
Defined.

Lemma dailyActivity_from_history_example :
  let s := Stats.calculateStats utcRuntime 2025 Examples.fivePrompts [] in
  WrappedStats.dailyActivity s = [("2025-03-01"%string, 5)]
  /\ WeekdayActivity.counts (WrappedStats.weekdayActivity s)
     = [0; 0; 0; 0; 0; 0; 5]
  /\ WeekdayActivity.mostActiveDayName (WrappedStats.weekdayActivity s)
     = "Saturday"%string.
Proof. repeat split. Qed.
(* ================================================================== *)
(** * calculateStats: the activity map read from the cache             *)
(* ================================================================== *)

Lemma NoDup_map_filter {A B : Type} (f : A -> B) (p : A -> bool)
    (l : list A) :
  NoDup (List.map f l) -> NoDup (List.map f (filter p l)).
Proof.
  induction l as [|x l IH]; intros H; [constructor|].
  inversion H as [|? ? Hnot Hnd]; subst. cbn [filter].
  destruct (p x); [|now apply IH].
  cbn [List.map]. constructor; [|now apply IH].
  intros Hin. apply Hnot. apply in_map_iff in Hin as (y & Hy & Hin).
  apply filter_In in Hin as [Hin _]. rewrite <- Hy. now apply in_map.
Qed.

Lemma cacheDay_fresh rt yr days m w :
  (forall day, In day days -> Spec.inYear yr day = true) ->
  NoDup (JS.map_keys m ++ List.map date days) ->
  fold_left (Stats.cacheDay rt yr) days (m, w)
  = (m ++ List.map (fun day => (date day, messageCount day)) days,
     fold_left
       (fun w day =>
          match Date_of_string rt (date day) with
          | Some d => Stats.bump w (getDay d) (messageCount day)
          | None => w
          end)
       days w).
Proof.
  revert m w. induction days as [|d days IH]; intros m w Hin Hnd.
  - cbn. now rewrite app_nil_r.
  - cbn [fold_left List.map] in *.
    apply NoDup_app_cons_notin in Hnd as [Hnot Hnd].
    unfold Stats.cacheDay at 2.
    assert (Hy := Hin d (or_introl eq_refl)). unfold Spec.inYear in Hy.
    rewrite Hy, map_set_fresh by exact Hnot.
    rewrite IH.
    + now rewrite <- app_assoc.
    + intros day Hday. apply Hin. now right.
    + unfold JS.map_keys in *. now rewrite map_app.
Qed.

Lemma buildDailyActivity_cache rt yr c hist :
  NoDup (List.map date (dailyActivity c)) ->
  filter (Spec.inYear yr) (dailyActivity c) <> [] ->
  Stats.buildDailyActivity rt yr (Some c) hist
  = (Props.yearEntries yr c,
     fold_left
       (fun w day =>
          match Date_of_string rt (date day) with
          | Some d => Stats.bump w (getDay d) (messageCount day)
          | None => w
          end)
       (filter (Spec.inYear yr) (dailyActivity c)) [0; 0; 0; 0; 0; 0; 0]).
Proof.
  intros Hnd Hne. unfold Stats.buildDailyActivity.
  rewrite cacheDay_filter, cacheDay_fresh.
  - cbn [app fst]. unfold JS.map_size, Props.yearEntries.
    destruct (filter (Spec.inYear yr) (dailyActivity c)); [congruence|].
    reflexivity.
  - intros day Hin. now apply filter_In in Hin.
  - cbn [JS.map_keys List.map app]. now apply NoDup_map_filter.
Qed.

Lemma yearEntries_total yr c :
  Spec.total (JS.map_values (Props.yearEntries yr c)) = Spec.yearMessages yr c.
Proof.
  unfold Props.yearEntries, Spec.yearMessages, JS.map_values.
  now rewrite map_map.
Qed.

(** X10.  When the merged cache lists every date once and has a record of
    the requested year, the activity map is exactly the in-year records of
    the cache, in their order, with their message counts; the history is
    not consulted.  Its counts add up to the in-year message count, which
    is the reported message total unless that count is zero while there is
    a history; and the weekday counters add up to it too when every in-year
    date is a valid date. *)
Theorem dailyActivity_from_cache (rt : Runtime) (yr : Z)
    (local : Stats.CollectedData) (remotes : list RemoteData.t)
    (c : ClaudeCodeStats) :
  let merged := Stats.mergeData rt local remotes in
  let s := Stats.calculateStats rt yr local remotes in
  Stats.statsCache merged = Some c ->
  NoDup (List.map date (dailyActivity c)) ->
  filter (Spec.inYear yr) (dailyActivity c) <> [] ->
  WrappedStats.dailyActivity s = Props.yearEntries yr c
  /\ Spec.total (JS.map_values (WrappedStats.dailyActivity s))
     = Spec.yearMessages yr c
  /\ (Spec.yearMessages yr c <> 0 \/ Stats.history merged = [] ->
      WrappedStats.totalMessages s
      = Spec.total (JS.map_values (WrappedStats.dailyActivity s)))
  /\ ((forall day,
          In day (dailyActivity c) -> Spec.inYear yr day = true ->
          exists d,
            Date_of_string rt (date day) = Some d /\ 0 <= getDay d < 7) ->
      Spec.total (WeekdayActivity.counts (WrappedStats.weekdayActivity s))
      = Spec.yearMessages yr c).
Proof.
  cbv zeta. unfold Stats.calculateStats.
  set (merged := Stats.mergeData rt local remotes).
  intros Hc Hnd Hne.
  destruct (statsOf_mostActiveDay rt yr merged Stats.totalTokensOf)
    as [_ Hmap].
  cbv zeta in Hmap. rewrite Hmap, statsOf_weekday, buildWeekdayActivity_counts.
  rewrite Hc, (buildDailyActivity_cache rt yr c _ Hnd Hne).
  cbn [fst snd]. rewrite yearEntries_total.
  split; [reflexivity|]. split; [reflexivity|]. split.
  - intros Hm.
    destruct (statsOf_totals rt yr merged Stats.totalTokensOf) as [-> _].
    unfold Stats.historyFallback.
    rewrite cacheTotals_messages, Hc.
    destruct Hm as [Hm| ->].
    + apply Z.eqb_neq in Hm. rewrite Hm. cbn [andb].
      apply (cacheTotals_messages yr (Some c)).
    + cbn [List.length Nat.ltb Nat.leb]. rewrite andb_false_r.
      apply (cacheTotals_messages yr (Some c)).
  - intros Hvalid.
    set (days := filter (Spec.inYear yr) (dailyActivity c)).
    assert (Hdays : forall day, In day days ->
                      exists d, Date_of_string rt (date day) = Some d
                                /\ 0 <= getDay d < 7).
    { intros day Hin. apply filter_In in Hin as [Hin Hy]. now apply Hvalid. }
    rewrite (fold_left_ext_in
               _
               (fun w day =>
                  Stats.bump w
                    (match Date_of_string rt (date day) with
                     | Some d => getDay d
                     | None => 0
                     end)
                    (messageCount day))).
    + destruct (bump_fold_total
                  (fun day => match Date_of_string rt (date day) with
                              | Some d => getDay d
                              | None => 0
                              end)
                  messageCount days [0; 0; 0; 0; 0; 0; 0]) as [Ht _].
      * intros day Hin. destruct (Hdays day Hin) as (d & -> & Hd).
        cbn [List.length]. lia.
      * rewrite Ht. unfold Spec.yearMessages. fold days.
        unfold Spec.total at 1. cbn [fold_right]. lia.
    + intros w day Hin. now destruct (Hdays day Hin) as (d & -> & _).
Qed.

Lemma dailyActivity_from_cache_witness :
  let merged :=
    Stats.mergeData utcRuntime Examples.localDays Examples.remoteDays in
  let s :=
    Stats.calculateStats utcRuntime 2025 Examples.localDays
                         Examples.remoteDays in
  exists c,
    Stats.statsCache merged = Some c
    /\ WrappedStats.dailyActivity s = Props.yearEntries 2025 c
    /\ Spec.total (JS.map_values (WrappedStats.dailyActivity s))
       = Spec.yearMessages 2025 c
    /\ (Spec.yearMessages 2025 c <> 0 \/ Stats.history merged = [] ->
        WrappedStats.totalMessages s
        = Spec.total (JS.map_values (WrappedStats.dailyActivity s)))
    /\ ((forall day,
            In day (dailyActivity c) -> Spec.inYear 2025 day = true ->
            exists d,
              Date_of_string utcRuntime (date day) = Some d
              /\ 0 <= getDay d < 7) ->
        Spec.total (WeekdayActivity.counts (WrappedStats.weekdayActivity s))
        = Spec.yearMessages 2025 c).
Proof.
  eexists. split; [reflexivity|].
  apply (dailyActivity_from_cache utcRuntime 2025 Examples.localDays
                                  Examples.remoteDays).
  - reflexivity.
  - cbn. repeat constructor; cbn; intuition discriminate.
  - discriminate.
Defined.

Lemma dailyActivity_from_cache_example :
  let s :=
    Stats.calculateStats utcRuntime 2025 Examples.localDays
                         Examples.remoteDays in
  WrappedStats.dailyActivity s
  = [("2025-03-01", 117); ("2025-03-02", 5); ("2025-03-03", 6);
     ("2025-03-04", 9)]%string
  /\ WrappedStats.totalMessages s = 137
  /\ WeekdayActivity.counts (WrappedStats.weekdayActivity s)
     = [5; 6; 9; 0; 0; 0; 117].
Proof. repeat split. Qed.
(* ================================================================== *)
(** * buildWeekdayActivity                                             *)
(* ================================================================== *)

Lemma weekdayLoop_scan (cs : list Z) :
  forall (i bi bc : Z),
    let r := Stats.weekdayLoop cs i (bi, bc) in
    (r = (bi, bc) /\ forall c, In c cs -> c <= bc)
    \/ (exists pre post,
          cs = pre ++ snd r :: post
          /\ fst r = i + Z.of_nat (List.length pre)
          /\ bc < snd r
          /\ (forall c, In c pre -> c < snd r)
          /\ (forall c, In c post -> c <= snd r)).
Proof.
  induction cs as [|c t IH]; intros i bi bc; cbv zeta.
  - left. split; [reflexivity|]. intros c [].
  - cbn [Stats.weekdayLoop snd]. destruct (Z.gtb_spec c bc) as [Hgt|Hle].
    + specialize (IH (i + 1) i c). cbv zeta in IH.
      destruct (Stats.weekdayLoop t (i + 1) (i, c)) as [ri rc].
      cbn [fst snd] in *.
      destruct IH as [[[= -> ->] Hall]
                     |(pre & post & -> & -> & Hb & Hpre & Hpost)].
      * right. exists [], t. cbn [app List.length].
        repeat split; try lia; [intros ? []|exact Hall].
      * right. exists (c :: pre), post. cbn [app List.length].
        repeat split; try lia; [|exact Hpost].
        intros x [<-|Hx]; [lia|now apply Hpre].
    + specialize (IH (i + 1) bi bc). cbv zeta in IH.
      destruct (Stats.weekdayLoop t (i + 1) (bi, bc)) as [ri rc].
      cbn [fst snd] in *.
      destruct IH as [[[= -> ->] Hall]
                     |(pre & post & -> & -> & Hb & Hpre & Hpost)].
      * left. split; [reflexivity|].
        intros x [<-|Hx]; [lia|now apply Hall].
      * right. exists (c :: pre), post. cbn [app List.length].
        repeat split; try lia; [|exact Hpost].
        intros x [<-|Hx]; [lia|now apply Hpre].
Qed.

Lemma cacheDay_weekdays_length rt yr days acc :
  List.length (snd (fold_left (Stats.cacheDay rt yr) days acc))
  = List.length (snd acc).
Proof.
  revert acc. induction days as [|d days IH]; intros acc; [reflexivity|].
  cbn [fold_left]. rewrite IH. destruct acc as [m w].
  unfold Stats.cacheDay.
  destruct (JS.startsWith (date d) (JS.String_of_Z yr)); [|reflexivity].
  cbn [snd]. destruct (Date_of_string rt (date d)); [|reflexivity].
  apply bump_length.
Qed.

Lemma buildDailyActivity_weekdays_length rt yr ms hist :
  List.length (snd (Stats.buildDailyActivity rt yr ms hist)) = 7%nat.
Proof.
  unfold Stats.buildDailyActivity. cbv zeta.
  match goal with
  | |- context [fold_left (Stats.historyDay rt) hist ?fc] =>
      set (fromCache := fc)
  end.
  assert (Hfrom : List.length (snd fromCache) = 7%nat).
  { subst fromCache. destruct ms as [c|]; [|reflexivity].
    now rewrite cacheDay_weekdays_length. }
  clearbody fromCache. destruct fromCache as [m w]. cbn [fst snd] in *.
  destruct (_ && _)%bool; [|exact Hfrom].
  rewrite historyDay_snd.
  now rewrite (bump_fold_length
                 (fun e => getDay (Date_of_ms rt (timestamp e)))
                 (fun _ : HistoryEntry => 1)).
Qed.

(** X11.  The weekday activity of the summary has seven counters.  Its
    maximum is the largest counter, or 0 when no counter is positive, in
    which case the most active day is day 0 (Sunday).  Otherwise the most
    active day is the first weekday, from Sunday on, whose counter reaches
    the maximum.  The reported name is the name of that weekday. *)
Theorem weekdayActivity_first_maximum (rt : Runtime) (yr : Z)
    (local : Stats.CollectedData) (remotes : list RemoteData.t) :
  let w :=
    WrappedStats.weekdayActivity (Stats.calculateStats rt yr local remotes) in
  let cs := WeekdayActivity.counts w in
  let best := WeekdayActivity.mostActiveDay w in
  List.length cs = 7%nat
  /\ 0 <= best < 7
  /\ WeekdayActivity.mostActiveDayName w
     = nth (Z.to_nat best) Stats.WEEKDAY_NAMES_FULL EmptyString
  /\ 0 <= WeekdayActivity.maxCount w
  /\ (forall c, In c cs -> c <= WeekdayActivity.maxCount w)
  /\ (WeekdayActivity.maxCount w = 0 -> best = 0)
  /\ (0 < WeekdayActivity.maxCount w ->
      Props.at_index cs best = WeekdayActivity.maxCount w
      /\ forall j, 0 <= j < best ->
                   Props.at_index cs j < WeekdayActivity.maxCount w).
Proof.
  cbv zeta. unfold Stats.calculateStats. rewrite statsOf_weekday.
  set (cs := snd (Stats.buildDailyActivity rt yr _ _)).
  assert (Hlen : List.length cs = 7%nat)
    by apply buildDailyActivity_weekdays_length.
  unfold Stats.buildWeekdayActivity.
  destruct (weekdayLoop_scan cs 0 0 0) as [[Hr Hall]|(pre & post & Hcs & Hi
                                                     & Hb & Hpre & Hpost)];
    cbv zeta in *.
  - rewrite Hr.
    cbn [WeekdayActivity.counts WeekdayActivity.mostActiveDay
         WeekdayActivity.mostActiveDayName WeekdayActivity.maxCount].
    repeat split; try lia; try assumption.
  - destruct (Stats.weekdayLoop cs 0 (0, 0)) as [bi bc].
    cbn [fst snd] in *.
    cbn [WeekdayActivity.counts WeekdayActivity.mostActiveDay
         WeekdayActivity.mostActiveDayName WeekdayActivity.maxCount].
    assert (Hlen' : (List.length pre + S (List.length post) = 7)%nat).
    { rewrite Hcs, length_app in Hlen. exact Hlen. }
    repeat split; try lia.
    + intros c Hin. rewrite Hcs in Hin.
      apply in_app_or in Hin as [Hin|[<-|Hin]];
        [apply Hpre in Hin; lia|lia|now apply Hpost].
    + unfold Props.at_index. rewrite Hi, Hcs.
      replace (Z.to_nat (0 + Z.of_nat (List.length pre)))
        with (List.length pre) by lia.
      apply nth_middle.
    + intros j Hj. unfold Props.at_index. rewrite Hcs, app_nth1 by lia.
      apply Hpre, nth_In. lia.
Qed.

Lemma weekdayActivity_examples :
  Stats.buildWeekdayActivity [0; 4; 9; 2; 9; 0; 1]
  = WeekdayActivity.mk [0; 4; 9; 2; 9; 0; 1] 2 "Tuesday" 9
  /\ Stats.buildWeekdayActivity [0; 0; 0; 0; 0; 0; 0]
     = WeekdayActivity.mk [0; 0; 0; 0; 0; 0; 0] 0 "Sunday" 0.
Proof. split; reflexivity. Qed.

(* ================================================================== *)
(** * The longest streak of the summary                                *)
(* ================================================================== *)

Lemma cacheDay_NoDup rt yr days acc :
  NoDup (JS.map_keys (fst acc)) ->
  NoDup (JS.map_keys (fst (fold_left (Stats.cacheDay rt yr) days acc))).
Proof.
  revert acc. induction days as [|d days IH]; intros acc H; [exact H|].
  cbn [fold_left]. apply IH. destruct acc as [m w]. unfold Stats.cacheDay.
  destruct (JS.startsWith (date d) (JS.String_of_Z yr)); [|exact H].
  cbn [fst] in *. now apply map_keys_NoDup_set.
Qed.

Lemma buildDailyActivity_NoDup rt yr ms hist :
  NoDup (JS.map_keys (fst (Stats.buildDailyActivity rt yr ms hist))).
Proof.
  unfold Stats.buildDailyActivity. cbv zeta.
  match goal with
  | |- context [fold_left (Stats.historyDay rt) hist ?fc] =>
      set (fromCache := fc)
  end.
  assert (Hfrom : NoDup (JS.map_keys (fst fromCache))).
  { subst fromCache. destruct ms as [c|]; [|constructor].
    apply cacheDay_NoDup. constructor. }
  clearbody fromCache. destruct fromCache as [m w]. cbn [fst snd] in *.
  destruct (_ && _)%bool; [|exact Hfrom].
  rewrite historyDay_fst.
  now apply (count_fold_NoDup
               (fun e => Stats.formatDateKey (Date_of_ms rt (timestamp e)))).
Qed.

Lemma statsOf_streaks rt yr merged tt :
  let s := Stats.statsOf rt yr merged tt in
  WrappedStats.maxStreak s
  = Stats.s_maxStreak
      (Stats.calculateStreaks rt (WrappedStats.dailyActivity s) yr)
  /\ WrappedStats.maxStreakDays s
     = Stats.s_maxStreakDays
         (Stats.calculateStreaks rt (WrappedStats.dailyActivity s) yr).
Proof.
  cbv zeta. unfold Stats.statsOf.
  destruct (Stats.buildDailyActivity _ _ _ _). now split.
Qed.

Lemma activeDatesOf_spec (m : JS.JsMap Z) (yr : Z) :
  Permutation (Stats.activeDatesOf m yr)
    (filter (fun d => JS.startsWith d (JS.String_of_Z yr)) (JS.map_keys m)).
Proof.
  unfold Stats.activeDatesOf, JS.sort_strings. apply sort_by_perm.
Qed.

Lemma NoDup_app_middle {A : Type} (a r b : list A) :
  NoDup (a ++ r ++ b) -> NoDup r.
Proof.
  intros H. apply NoDup_app_remove_l in H. now apply NoDup_app_remove_r in H.
Qed.

(** X12.  The days of the longest streak of the summary are distinct days
    of the activity map that belong to the requested year, each one day
    after the one before; their number is the reported maximum streak,
    which is at most the size of the activity map and is 0 exactly when
    the map has no day of the requested year. *)
Theorem maxStreak_days (rt : Runtime) (yr : Z)
    (local : Stats.CollectedData) (remotes : list RemoteData.t) :
  let s := Stats.calculateStats rt yr local remotes in
  let days := WrappedStats.maxStreakDays s in
  WrappedStats.maxStreak s = Z.of_nat (List.length days)
  /\ NoDup days
  /\ Spec.isRun rt days
  /\ (forall d, In d days ->
        JS.map_has (WrappedStats.dailyActivity s) d = true
        /\ JS.startsWith d (JS.String_of_Z yr) = true)
  /\ WrappedStats.maxStreak s
     <= Z.of_nat (JS.map_size (WrappedStats.dailyActivity s))
  /\ (WrappedStats.maxStreak s = 0
      <-> forall d, In d (JS.map_keys (WrappedStats.dailyActivity s)) ->
                    JS.startsWith d (JS.String_of_Z yr) = false).
Proof.
  cbv zeta. unfold Stats.calculateStats.
  set (merged := Stats.mergeData rt local remotes).
  destruct (statsOf_streaks rt yr merged Stats.totalTokensOf) as [Hm Hd].
  cbv zeta in Hm, Hd. rewrite Hm, Hd. clear Hm Hd.
  destruct (statsOf_mostActiveDay rt yr merged Stats.totalTokensOf)
    as [_ Hmap].
  cbv zeta in Hmap. rewrite Hmap. clear Hmap.
  set (m := fst (Stats.buildDailyActivity rt yr _ _)).
  assert (Hnd : NoDup (JS.map_keys m)) by apply buildDailyActivity_NoDup.
  rewrite calculateStreaks_refines.
  cbn [Stats.s_maxStreak Stats.s_maxStreakDays].
  set (dates := Stats.activeDatesOf m yr).
  assert (Hperm := activeDatesOf_spec m yr). fold dates in Hperm.
  assert (Hdates : NoDup dates).
  { apply (Permutation_NoDup (Permutation_sym Hperm)).
    now apply NoDup_filter. }
  destruct (longestRun_longest rt dates) as ((a & b & Hsplit) & Hrun & Hmax).
  cbv zeta in *. set (run := Spec.longestRun rt dates) in *.
  assert (Hrnd : NoDup run).
  { rewrite Hsplit in Hdates. now apply NoDup_app_middle in Hdates. }
  rewrite (Set_of_nodup run Hrnd).
  assert (Hin : forall d, In d run -> In d dates).
  { intros d Hd. rewrite Hsplit. apply in_or_app. right.
    apply in_or_app. now left. }
  assert (Hkeys : forall d, In d dates <->
                    In d (JS.map_keys m)
                    /\ JS.startsWith d (JS.String_of_Z yr) = true).
  { intros d. split; intros H.
    - apply (Permutation_in _ Hperm) in H. now apply filter_In in H.
    - apply (Permutation_in _ (Permutation_sym Hperm)).
      now apply filter_In. }
  split; [reflexivity|]. split; [exact Hrnd|]. split; [exact Hrun|].
  split; [|split].
  - intros d Hd. apply Hin, Hkeys in Hd as [Hk Hy]. split; [|exact Hy].
    unfold JS.map_has. destruct (JS.map_get m d) eqn:E; [reflexivity|].
    apply map_get_None in E. contradiction.
  - apply inj_le. unfold JS.map_size.
    transitivity (List.length dates).
    + rewrite Hsplit, !length_app. lia.
    + rewrite (Permutation_length Hperm).
      unfold JS.map_keys.
      rewrite <- (length_map fst m). apply filter_length_le.
  - split.
    + intros H0 d Hd.
      destruct (JS.startsWith d (JS.String_of_Z yr)) eqn:E; [|reflexivity].
      assert (Hdd : In d dates) by (apply Hkeys; now split).
      apply in_split in Hdd as (l1 & l2 & Hl).
      assert (Hone := Hmax l1 [d] l2 Hl I). cbn [List.length] in Hone.
      lia.
    + intros Hnone.
      destruct dates as [|d0 rest] eqn:E.
      * subst run. reflexivity.
      * assert (Hd0 : In d0 (d0 :: rest)) by now left.
        apply Hkeys in Hd0 as [Hk Hy]. rewrite (Hnone d0 Hk) in Hy.
        discriminate.
Qed.
(* ================================================================== *)
(** * calculateStats: what does not depend on the year                 *)
(* ================================================================== *)

Lemma sumUsage_tokens entries t :
  let t' := fold_left Stats.sumUsage entries t in
  Stats.t_input t'
  = Stats.t_input t
    + Spec.total (List.map (fun e => inputTokens (snd e)) entries)
  /\ Stats.t_output t'
     = Stats.t_output t
       + Spec.total (List.map (fun e => outputTokens (snd e)) entries)
  /\ Stats.t_cacheRead t'
     = Stats.t_cacheRead t
       + Spec.total (List.map (fun e => cacheReadInputTokens (snd e)) entries)
  /\ Stats.t_cacheWrite t'
     = Stats.t_cacheWrite t
       + Spec.total
           (List.map (fun e => cacheCreationInputTokens (snd e)) entries)
  /\ Stats.t_cost t'
     = fold_left
         (fun acc e => PrimFloat.add acc (JS.f64_or0 (costUSD (snd e))))
         entries (Stats.t_cost t).
Proof.
  cbv zeta. unfold Spec.total.
  revert t. induction entries as [|e entries IH]; intros t.
  - cbn [fold_left List.map fold_right]. repeat split; lia.
  - cbn [fold_left List.map fold_right].
    destruct (IH (Stats.sumUsage t e)) as (Hi & Ho & Hr & Hw & Hc).
    rewrite Hi, Ho, Hr, Hw, Hc.
    cbn [Stats.sumUsage Stats.t_input Stats.t_output Stats.t_cacheRead
         Stats.t_cacheWrite Stats.t_cost].
    rewrite !num_or0_id. repeat split; lia.
Qed.

Lemma sumYearDay_tokens yr days t :
  let t' := fold_left (Stats.sumYearDay yr) days t in
  Stats.t_input t' = Stats.t_input t
  /\ Stats.t_output t' = Stats.t_output t
  /\ Stats.t_cacheRead t' = Stats.t_cacheRead t
  /\ Stats.t_cacheWrite t' = Stats.t_cacheWrite t
  /\ Stats.t_cost t' = Stats.t_cost t.
Proof.
  cbv zeta. revert t. induction days as [|d days IH]; intros t.
  - repeat split.
  - cbn [fold_left].
    destruct (IH (Stats.sumYearDay yr t d)) as (Hi & Ho & Hr & Hw & Hc).
    rewrite Hi, Ho, Hr, Hw, Hc. unfold Stats.sumYearDay.
    destruct (JS.startsWith (date d) (JS.String_of_Z yr)); repeat split.
Qed.

Lemma cacheTotals_tokens yr ms :
  let t := Stats.cacheTotals yr ms in
  Stats.t_input t = Props.usageTotal inputTokens ms
  /\ Stats.t_output t = Props.usageTotal outputTokens ms
  /\ Stats.t_cacheRead t = Props.usageTotal cacheReadInputTokens ms
  /\ Stats.t_cacheWrite t = Props.usageTotal cacheCreationInputTokens ms
  /\ Stats.t_cost t
     = match ms with
       | Some c =>
           fold_left
             (fun acc e => PrimFloat.add acc (JS.f64_or0 (costUSD (snd e))))
             (modelUsage c) PrimFloat.zero
       | None => PrimFloat.zero
       end.
Proof.
  cbv zeta. unfold Stats.cacheTotals, Props.usageTotal.
  destruct ms as [c|]; [|repeat split].
  destruct (sumUsage_tokens (modelUsage c)
              (fold_left (Stats.sumYearDay yr) (dailyActivity c)
                         (Stats.mkTotals 0 0 0 0 0 0 PrimFloat.zero)))
    as (Hi & Ho & Hr & Hw & Hc).
  cbv zeta in *. rewrite Hi, Ho, Hr, Hw, Hc.
  destruct (sumYearDay_tokens yr (dailyActivity c)
              (Stats.mkTotals 0 0 0 0 0 0 PrimFloat.zero))
    as (Hi' & Ho' & Hr' & Hw' & Hc').
  cbv zeta in *. rewrite Hi', Ho', Hr', Hw', Hc'.
  cbn [Stats.t_input Stats.t_output Stats.t_cacheRead Stats.t_cacheWrite
       Stats.t_cost].
  repeat split.
Qed.

Lemma historyFallback_tokens t hist :
  let t' := Stats.historyFallback t hist in
  Stats.t_input t' = Stats.t_input t
  /\ Stats.t_output t' = Stats.t_output t
  /\ Stats.t_cacheRead t' = Stats.t_cacheRead t
  /\ Stats.t_cacheWrite t' = Stats.t_cacheWrite t
  /\ Stats.t_cost t' = Stats.t_cost t.
Proof.
  cbv zeta. unfold Stats.historyFallback.
  destruct (_ && _)%bool; repeat split.
Qed.

Lemma statsOf_token_fields rt yr merged tt :
  let s := Stats.statsOf rt yr merged tt in
  let t := Stats.historyFallback
             (Stats.cacheTotals yr (Stats.statsCache merged))
             (Stats.history merged) in
  WrappedStats.totalInputTokens s = Stats.t_input t
  /\ WrappedStats.totalOutputTokens s = Stats.t_output t
  /\ WrappedStats.totalCacheReadTokens s = Stats.t_cacheRead t
  /\ WrappedStats.totalCacheWriteTokens s = Stats.t_cacheWrite t
  /\ WrappedStats.totalTokens s = tt t
  /\ WrappedStats.totalCost s = Stats.t_cost t
  /\ WrappedStats.hasCostData s = PrimFloat.ltb PrimFloat.zero (Stats.t_cost t)
  /\ WrappedStats.totalProjects s
     = Z.of_nat (List.length (Stats.projects merged))
  /\ WrappedStats.longestSession s
     = match Stats.statsCache merged with
       | Some c =>
           Some (LongestSession.duration (longestSession c),
                 LongestSession.messageCount (longestSession c))
       | None => None
       end.
Proof.
  cbv zeta. unfold Stats.statsOf.
  destruct (Stats.buildDailyActivity _ _ _ _). repeat split.
Qed.

Lemma collectFromAllRemoteHosts_map rt sh hosts yr :
  Remote.collectFromAllRemoteHosts rt sh hosts yr
  = (List.map (fun host => Remote.collectFromRemoteHost rt sh host yr) hosts,
     flat_map (fun host => [(host, Remote.Start); (host, Remote.Done)]) hosts).
Proof.
  unfold Remote.collectFromAllRemoteHosts.
  assert (H : forall results progress,
             fold_left
               (fun '(results, progress) host =>
                  let data := Remote.collectFromRemoteHost rt sh host yr in
                  (results ++ [data],
                   progress ++ [(host, Remote.Start); (host, Remote.Done)]))
               hosts (results, progress)
             = (results
                ++ List.map
                     (fun host => Remote.collectFromRemoteHost rt sh host yr)
                     hosts,
                progress
                ++ flat_map
                     (fun host => [(host, Remote.Start); (host, Remote.Done)])
                     hosts)).
  { induction hosts as [|h hosts IH]; intros results progress.
    - cbn. now rewrite !app_nil_r.
    - cbn [fold_left List.map flat_map]. rewrite IH.
      now rewrite <- !app_assoc. }
  apply (H [] []).
Qed.

Lemma processRemote_ext (remotes remotes' : list RemoteData.t)
    (st : Stats.MergeState) :
  List.map (fun r => (RemoteData.statsCache r,
                      RemoteData.oldestSessionTimestamp r)) remotes
  = List.map (fun r => (RemoteData.statsCache r,
                        RemoteData.oldestSessionTimestamp r)) remotes' ->
  fold_left Stats.processRemote remotes st
  = fold_left Stats.processRemote remotes' st.
Proof.
  revert remotes' st.
  induction remotes as [|r remotes IH]; intros [|r' remotes'] st H;
    try discriminate; [reflexivity|].
  cbn [List.map] in H. injection H as Hc Ho Hrest.
  cbn [fold_left].
  assert (Hstep : Stats.processRemote st r = Stats.processRemote st r').
  { unfold Stats.processRemote. now rewrite Hc, Ho. }
  rewrite Hstep. now apply IH.
Qed.

(** The merged cache depends on the local cache and, for each remote, on
    its cache and its oldest session timestamp only. *)
Lemma mergeData_cache_ext (rt : Runtime) (local local' : Stats.CollectedData)
    (remotes remotes' : list RemoteData.t) :
  Stats.statsCache local = Stats.statsCache local' ->
  List.map (fun r => (RemoteData.statsCache r,
                      RemoteData.oldestSessionTimestamp r)) remotes
  = List.map (fun r => (RemoteData.statsCache r,
                        RemoteData.oldestSessionTimestamp r)) remotes' ->
  Stats.statsCache (Stats.mergeData rt local remotes)
  = Stats.statsCache (Stats.mergeData rt local' remotes').
Proof.
  intros Hl Hr. unfold Stats.mergeData. cbn [Stats.statsCache].
  rewrite (processRemote_ext remotes remotes' _ Hr).
  destruct remotes as [|r remotes]; destruct remotes' as [|r' remotes'];
    try discriminate; [exact Hl|].
  unfold Stats.buildMergedCache, Stats.processLocal. now rewrite Hl.
Qed.

(** The fields of the summary that are read from the merged cache
    only. *)
Lemma cache_fields (rt : Runtime) (yr : Z) (merged : Stats.CollectedData) :
  let s := Stats.statsOf rt yr merged Stats.totalTokensOf in
  let c := Stats.statsCache merged in
  WrappedStats.totalInputTokens s = Props.usageTotal inputTokens c
  /\ WrappedStats.totalOutputTokens s = Props.usageTotal outputTokens c
  /\ WrappedStats.totalCacheReadTokens s
     = Props.usageTotal cacheReadInputTokens c
  /\ WrappedStats.totalCacheWriteTokens s
     = Props.usageTotal cacheCreationInputTokens c
  /\ WrappedStats.totalTokens s
     = Props.usageTotal inputTokens c + Props.usageTotal outputTokens c
       + Props.usageTotal cacheReadInputTokens c
       + Props.usageTotal cacheCreationInputTokens c
  /\ WrappedStats.totalCost s
     = match c with
       | Some c =>
           fold_left
             (fun acc e => PrimFloat.add acc (JS.f64_or0 (costUSD (snd e))))
             (modelUsage c) PrimFloat.zero
       | None => PrimFloat.zero
       end
  /\ WrappedStats.hasCostData s
     = PrimFloat.ltb PrimFloat.zero (WrappedStats.totalCost s)
  /\ WrappedStats.topModels s = Stats.topModelsOf rt (Stats.modelCountsOf c)
  /\ WrappedStats.longestSession s
     = match c with
       | Some c =>
           Some (LongestSession.duration (longestSession c),
                 LongestSession.messageCount (longestSession c))
       | None => None
       end.
Proof.
  cbv zeta.
  destruct (statsOf_token_fields rt yr merged Stats.totalTokensOf)
    as (Hi & Ho & Hr & Hw & Ht & Hc & Hh & _ & Hl).
  destruct (historyFallback_tokens
              (Stats.cacheTotals yr (Stats.statsCache merged))
              (Stats.history merged)) as (Hi' & Ho' & Hr' & Hw' & Hc').
  destruct (cacheTotals_tokens yr (Stats.statsCache merged))
    as (Hi2 & Ho2 & Hr2 & Hw2 & Hc2).
  cbv zeta in *.
  rewrite Hh, Ht, Hi, Ho, Hr, Hw, Hc, Hl, statsOf_topModels.
  unfold Stats.totalTokensOf.
  rewrite Hi', Ho', Hr', Hw', Hc', Hi2, Ho2, Hr2, Hw2, Hc2.
  repeat split.
Qed.

(** X13.  [calculateStats(year, remoteData)] collects the local history
    and projects of the requested year itself, and the remote collector
    filters each remote history by that year; the caches are read whole.
    So for the same files, hosts and shell, the summaries of two years
    are computed from the same merged cache, and they have the same
    token totals (sums over all the models of that cache), the same
    totalTokens, cost, top models and longest session.  The prompt and
    project counts and the top projects do depend on the year. *)
Theorem tokens_ignore_year (rt : Runtime) (fs : FileSystem)
    (hs : HistoryStore) (sh : Remote.Shell) (hosts : list string)
    (yr yr' : Z) :
  let remotes y :=
    fst (Remote.collectFromAllRemoteHosts rt sh hosts (Some y)) in
  let merged y :=
    Stats.mergeData rt (App.collectLocal rt fs hs y) (remotes y) in
  let s := App.calculateStats rt fs hs yr (remotes yr) in
  let s' := App.calculateStats rt fs hs yr' (remotes yr') in
  let c := Stats.statsCache (merged yr) in
  Stats.statsCache (merged yr') = c
  /\ (WrappedStats.totalInputTokens s = Props.usageTotal inputTokens c
      /\ WrappedStats.totalOutputTokens s = Props.usageTotal outputTokens c
      /\ WrappedStats.totalCacheReadTokens s
         = Props.usageTotal cacheReadInputTokens c
      /\ WrappedStats.totalCacheWriteTokens s
         = Props.usageTotal cacheCreationInputTokens c)
  /\ (WrappedStats.totalInputTokens s = WrappedStats.totalInputTokens s'
      /\ WrappedStats.totalOutputTokens s = WrappedStats.totalOutputTokens s'
      /\ WrappedStats.totalCacheReadTokens s
         = WrappedStats.totalCacheReadTokens s'
      /\ WrappedStats.totalCacheWriteTokens s
         = WrappedStats.totalCacheWriteTokens s'
      /\ WrappedStats.totalTokens s = WrappedStats.totalTokens s'
      /\ WrappedStats.totalCost s = WrappedStats.totalCost s'
      /\ WrappedStats.hasCostData s = WrappedStats.hasCostData s'
      /\ WrappedStats.topModels s = WrappedStats.topModels s'
      /\ WrappedStats.longestSession s = WrappedStats.longestSession s').
Proof.
  cbv zeta. unfold App.calculateStats, Stats.calculateStats.
  rewrite !collectFromAllRemoteHosts_map. cbn [fst].
  set (remotes := fun y =>
         List.map (fun host => Remote.collectFromRemoteHost rt sh host (Some y))
                  hosts).
  change (List.map
            (fun host => Remote.collectFromRemoteHost rt sh host (Some yr))
            hosts) with (remotes yr).
  change (List.map
            (fun host => Remote.collectFromRemoteHost rt sh host (Some yr'))
            hosts) with (remotes yr').
  assert (Hc : Stats.statsCache
                 (Stats.mergeData rt (App.collectLocal rt fs hs yr')
                                  (remotes yr'))
               = Stats.statsCache
                   (Stats.mergeData rt (App.collectLocal rt fs hs yr)
                                    (remotes yr))).
  { apply mergeData_cache_ext; [reflexivity|].
    unfold remotes. rewrite !map_map. reflexivity. }
  split; [exact Hc|].
  destruct (cache_fields rt yr
              (Stats.mergeData rt (App.collectLocal rt fs hs yr)
                               (remotes yr)))
    as (Ai & Ao & Ar & Aw & At & Ac & Ah & Am & Al).
  destruct (cache_fields rt yr'
              (Stats.mergeData rt (App.collectLocal rt fs hs yr')
                               (remotes yr')))
    as (Bi & Bo & Br & Bw & Bt & Bc & Bh & Bm & Bl).
  cbv zeta in *. rewrite Hc in Bi, Bo, Br, Bw, Bt, Bc, Bm, Bl.
  split; [now repeat split|].
  rewrite Ah, Bh, Ai, Ao, Ar, Aw, At, Ac, Am, Al, Bi, Bo, Br, Bw, Bt, Bc,
    Bm, Bl.
  repeat split.
Qed.

(** The same files summarised for 2025 and for 2024: three prompts and
    two projects, or one prompt and one project. *)
Lemma year_changes_prompts :
  let s y :=
    App.calculateStats utcRuntime (Examples.transcriptFS [] [])
      MoreExamples.historyStore y
      (fst (Remote.collectFromAllRemoteHosts utcRuntime
              MoreExamples.deadShell ["alice@build"]%string (Some y))) in
  WrappedStats.totalPrompts (s 2025) = 3
  /\ WrappedStats.totalPrompts (s 2024) = 1
  /\ WrappedStats.totalProjects (s 2025) = 2
  /\ WrappedStats.totalProjects (s 2024) = 1
  /\ List.map ProjectStats.name (WrappedStats.topProjects (s 2025))
     = ["app"; ""; "/home/u/lib/"]%string
  /\ List.map ProjectStats.name (WrappedStats.topProjects (s 2024))
     = ["old"]%string.
Proof. repeat split. Qed.
(* ================================================================== *)
(** * collectHistory, collectProjects                                  *)
(* ================================================================== *)

Lemma entriesOf_filter rt yr lines :
  History.entriesOf rt yr (Some lines)
  = filter (fun e => negb (History.otherYear rt yr e))
           (Props.parsedEntries lines).
Proof.
  cbn [History.entriesOf]. unfold Props.parsedEntries.
  induction lines as [|l lines IH]; [reflexivity|].
  cbn [flat_map]. rewrite filter_app, IH. f_equal.
  destruct l as [| |e]; try reflexivity.
  cbn [History.entryOfLine filter].
  now destruct (History.otherYear rt yr e).
Qed.

Lemma inYear_otherYear rt yr e :
  Props.inYear rt yr e = negb (History.otherYear rt yr e).
Proof.
  unfold Props.inYear, History.otherYear.
  destruct yr as [y|]; [|reflexivity].
  destruct (y =? 0); [reflexivity|]. cbn [orb]. now rewrite negb_involutive.
Qed.

Lemma In_parsedEntries lines e :
  In e (Props.parsedEntries lines) <-> In (HEntry e) lines.
Proof.
  unfold Props.parsedEntries. rewrite in_flat_map. split.
  - intros (l & Hin & He). destruct l as [| |e'];
      [destruct He|destruct He|].
    destruct He as [<-|[]]. exact Hin.
  - intros Hin. exists (HEntry e). split; [exact Hin|now left].
Qed.

(** X14.  [collectHistory] of an unreadable ~/.claude/history.jsonl is
    the empty list.  Of a readable one it is, in file order, the list of
    the entries of the lines that parse (blank and malformed lines are
    skipped) which are of the requested year: with a year other than 0,
    an entry is returned exactly when it is on a line of the file and the
    local year of its timestamp is that year; with no year, or with the
    year 0 (which is falsy), exactly when it is on a line of the file. *)
Theorem collectHistory_year (rt : Runtime) (fs : FileSystem)
    (hs : HistoryStore) (yr : option Z) :
  let path := join (join (homedir fs) ".claude") "history.jsonl" in
  let collected := CollectorRest.collectHistory rt fs hs yr in
  (readHistory hs path = None -> collected = [])
  /\ (forall lines,
        readHistory hs path = Some lines ->
        collected
        = filter (Props.inYear rt yr) (Props.parsedEntries lines)
        /\ (forall e,
              In e collected
              <-> In (HEntry e) lines
                  /\ match yr with
                     | Some y =>
                         y = 0
                         \/ getFullYear (Date_of_ms rt (timestamp e)) = y
                     | None => True
                     end)
        /\ ((yr = None \/ yr = Some 0) ->
            collected = Props.parsedEntries lines)).
Proof.
  cbv zeta. unfold CollectorRest.collectHistory, Collector.CLAUDE_DATA_PATH.
  set (path := join (join (homedir fs) ".claude") "history.jsonl").
  split; [now intros ->|].
  intros lines ->. rewrite entriesOf_filter.
  assert (Hf : filter (fun e => negb (History.otherYear rt yr e))
                      (Props.parsedEntries lines)
               = filter (Props.inYear rt yr) (Props.parsedEntries lines)).
  { apply filter_ext. intros e. now rewrite inYear_otherYear. }
  rewrite Hf. split; [reflexivity|]. split.
  - intros e. rewrite filter_In, In_parsedEntries.
    unfold Props.inYear. destruct yr as [y|]; [|tauto].
    rewrite orb_true_iff, !Z.eqb_eq. tauto.
  - intros Hyr.
    assert (Hall : forall e, Props.inYear rt yr e = true).
    { intros e. destruct Hyr as [->| ->]; reflexivity. }
    clear Hf.
    induction (Props.parsedEntries lines) as [|e l IH]; [reflexivity|].
    cbn [filter]. now rewrite Hall, IH.
Qed.

Lemma collectHistory_year_example :
  CollectorRest.collectHistory utcRuntime (Examples.transcriptFS [] [])
    MoreExamples.historyStore (Some 2025)
  = [Examples.entry 1740787200000 "/home/u/app" "s1";
     Examples.entry 1740873600000 "" "s1";
     Examples.entry 1740960000000 "/home/u/lib/" "s2"]%string
  /\ List.length
       (CollectorRest.collectHistory utcRuntime (Examples.transcriptFS [] [])
          MoreExamples.historyStore (Some 0)) = 4%nat
  /\ CollectorRest.collectProjects utcRuntime (Examples.transcriptFS [] [])
       MoreExamples.historyStore (Some 2025)
     = ["app"; "/home/u/lib/"]%string.
Proof. repeat split. Qed.

(** ** Project names *)

Lemma set_has_keys {V : Type} (m : JS.JsMap V) (k : string) :
  JS.set_has (JS.map_keys m) k = JS.map_has m k.
Proof.
  unfold JS.set_has, JS.map_has.
  induction m as [|[k' v] m IH]; [reflexivity|].
  cbn [JS.map_keys List.map existsb JS.map_get fst].
  rewrite String.eqb_sym. destruct (String.eqb k' k); [reflexivity|].
  exact IH.
Qed.

Lemma map_keys_set_add {V : Type} (m : JS.JsMap V) (k : string) (v : V) :
  JS.map_keys (JS.map_set m k v) = JS.set_add (JS.map_keys m) k.
Proof.
  rewrite map_keys_set. unfold JS.set_add. now rewrite set_has_keys.
Qed.

Lemma count_fold_keys {A : Type} (key : A -> string) (l : list A)
    (m : JS.JsMap Z) :
  JS.map_keys
    (fold_left
       (fun m x =>
          JS.map_set m (key x)
            (match JS.map_get m (key x) with
             | Some n => JS.num_or0 n
             | None => 0
             end + 1))
       l m)
  = fold_left JS.set_add (List.map key l) (JS.map_keys m).
Proof.
  revert m. induction l as [|x l IH]; intros m; [reflexivity|].
  cbn [fold_left List.map]. now rewrite IH, map_keys_set_add.
Qed.

Lemma projectCounts_keys (history : list HistoryEntry) :
  JS.map_keys (Stats.projectCountsOf history)
  = JS.Set_of (List.map Stats.projectNameOf history).
Proof.
  unfold Stats.projectCountsOf, Stats.projectStep. cbv zeta.
  apply (count_fold_keys Stats.projectNameOf).
Qed.

Lemma projectNameOf_named (e : HistoryEntry) :
  Props.named (Stats.projectNameOf e) = JS.truthy (Some (project e)).
Proof.
  unfold Props.named, Stats.projectNameOf, JS.str_or, JS.truthy.
  destruct (String.eqb_spec (project e) EmptyString) as [E|Hne].
  - rewrite E. reflexivity.
  - destruct (String.eqb_spec (JS.pop (JS.split "/" (project e)))
                              EmptyString) as [_|Hp].
    + destruct (String.eqb_spec (project e) EmptyString); congruence.
    + destruct (String.eqb_spec (JS.pop (JS.split "/" (project e)))
                                EmptyString); congruence.
Qed.

Lemma set_has_filter (p : string -> bool) (s : JS.JsSet) (x : string) :
  p x = true -> JS.set_has (filter p s) x = JS.set_has s x.
Proof.
  intros Hp. unfold JS.set_has.
  induction s as [|y s IH]; [reflexivity|].
  cbn [filter existsb]. destruct (String.eqb_spec x y) as [<-|Hne].
  - rewrite Hp. cbn [existsb]. now rewrite String.eqb_refl.
  - destruct (p y); cbn [existsb]; [|exact IH].
    destruct (String.eqb_spec x y); [congruence|exact IH].
Qed.

Lemma filter_set_add (p : string -> bool) (s : JS.JsSet) (x : string) :
  filter p (JS.set_add s x)
  = if p x then JS.set_add (filter p s) x else filter p s.
Proof.
  unfold JS.set_add. destruct (p x) eqn:Hp.
  - rewrite (set_has_filter p s x Hp).
    destruct (JS.set_has s x); [reflexivity|].
    rewrite filter_app. cbn [filter]. now rewrite Hp.
  - destruct (JS.set_has s x); [reflexivity|].
    rewrite filter_app. cbn [filter]. rewrite Hp. apply app_nil_r.
Qed.

Lemma filter_fold_set_add (p : string -> bool) (l : list string)
    (acc : JS.JsSet) :
  filter p (fold_left JS.set_add l acc)
  = fold_left JS.set_add (filter p l) (filter p acc).
Proof.
  revert acc. induction l as [|x l IH]; intros acc; [reflexivity|].
  cbn [fold_left filter]. rewrite IH, filter_set_add.
  now destruct (p x).
Qed.

Lemma projectsOf_names (history : list HistoryEntry) (acc : JS.JsSet) :
  fold_left
    (fun projects entry =>
       if JS.truthy (Some (project entry))
       then JS.set_add projects (Stats.projectNameOf entry)
       else projects)
    history acc
  = fold_left JS.set_add
      (filter Props.named (List.map Stats.projectNameOf history)) acc.
Proof.
  revert acc. induction history as [|e history IH]; intros acc; [reflexivity|].
  cbn [fold_left List.map filter]. rewrite IH, projectNameOf_named.
  now destruct (JS.truthy (Some (project e))).
Qed.

Lemma projectsOf_Set_of (history : list HistoryEntry) :
  History.projectsOf history
  = JS.Set_of (filter Props.named (List.map Stats.projectNameOf history)).
Proof. apply projectsOf_names. Qed.

Lemma projectsOf_keys (history : list HistoryEntry) :
  History.projectsOf history
  = filter Props.named (JS.map_keys (Stats.projectCountsOf history)).
Proof.
  rewrite projectsOf_Set_of, projectCounts_keys. unfold JS.Set_of.
  now rewrite filter_fold_set_add.
Qed.

Lemma fold_set_add_In (l : list string) (acc : JS.JsSet) (y : string) :
  In y (fold_left JS.set_add l acc) <-> In y acc \/ In y l.
Proof.
  revert acc. induction l as [|x l IH]; intros acc; cbn [fold_left In].
  - tauto.
  - rewrite IH, set_add_spec. intuition congruence.
Qed.

Lemma set_has_In (s : JS.JsSet) (x : string) :
  JS.set_has s x = true <-> In x s.
Proof.
  unfold JS.set_has. rewrite existsb_exists. split.
  - intros (y & Hin & Heq). apply String.eqb_eq in Heq. now subst.
  - intros Hin. exists x. split; [exact Hin|apply String.eqb_refl].
Qed.

Lemma set_add_present (s : JS.JsSet) (x : string) :
  In x s -> JS.set_add s x = s.
Proof.
  intros H. apply set_has_In in H. unfold JS.set_add. now rewrite H.
Qed.

Lemma set_add_absent (s : JS.JsSet) (x : string) :
  ~ In x s -> JS.set_add s x = s ++ [x].
Proof.
  intros H. unfold JS.set_add.
  destruct (JS.set_has s x) eqn:E; [|reflexivity].
  apply set_has_In in E. contradiction.
Qed.

Lemma fold_set_add_set_add (s acc : JS.JsSet) (x : string) :
  fold_left JS.set_add (JS.set_add s x) acc
  = JS.set_add (fold_left JS.set_add s acc) x.
Proof.
  destruct (in_dec string_dec x s) as [Hin|Hnot].
  - rewrite (set_add_present s x Hin). symmetry. apply set_add_present.
    apply fold_set_add_In. now right.
  - rewrite (set_add_absent s x Hnot), fold_left_app. reflexivity.
Qed.

Lemma fold_set_add_Set_of (l : list string) (acc : JS.JsSet) :
  fold_left JS.set_add (JS.Set_of l) acc = fold_left JS.set_add l acc.
Proof.
  induction l as [|x l IH] using rev_ind; [reflexivity|].
  unfold JS.Set_of in *. rewrite !fold_left_app. cbn [fold_left].
  now rewrite fold_set_add_set_add, IH.
Qed.

Lemma fold_set_add_flat_Set_of {A : Type} (f : A -> list string)
    (xs : list A) (acc : JS.JsSet) :
  fold_left JS.set_add (flat_map (fun x => JS.Set_of (f x)) xs) acc
  = fold_left JS.set_add (flat_map f xs) acc.
Proof.
  revert acc. induction xs as [|x xs IH]; intros acc; [reflexivity|].
  cbn [flat_map]. rewrite !fold_left_app, fold_set_add_Set_of. apply IH.
Qed.

Lemma Set_of_length_le (l : list string) :
  (List.length (JS.Set_of l) <= List.length l)%nat.
Proof.
  rewrite Set_of_size. unfold Spec.distinct.
  apply NoDup_incl_length; [apply NoDup_nodup|].
  intros x Hx. now apply nodup_In in Hx.
Qed.

Lemma merged_projects_from_history rt local remotes :
  Stats.projects local = History.projectsOf (Stats.history local) ->
  (forall remote, In remote remotes ->
      RemoteData.projects remote
      = History.projectsOf (RemoteData.history remote)) ->
  Stats.projects (Stats.mergeData rt local remotes)
  = History.projectsOf (Stats.history (Stats.mergeData rt local remotes)).
Proof.
  intros Hl Hr. rewrite mergeData_projects_set, mergeData_history_app.
  rewrite projectsOf_Set_of, Hl, projectsOf_Set_of.
  rewrite map_app, filter_app. unfold JS.Set_of at 1 3.
  rewrite !fold_left_app, fold_set_add_Set_of. unfold JS.Set_of.
  set (acc := fold_left JS.set_add _ []). clearbody acc.
  revert acc. induction remotes as [|r remotes IH]; intros acc; [reflexivity|].
  cbn [flat_map]. rewrite map_app, filter_app, !fold_left_app.
  rewrite (Hr r (or_introl eq_refl)), projectsOf_Set_of, fold_set_add_Set_of.
  apply IH. intros r' Hin. apply Hr. now right.
Qed.

(** X15.  On collected data (the local collector and any list of remote
    hosts) the merged project list is the list of the distinct non-empty
    project names of the merged history, in order of first occurrence:
    these are the keys of the project-count map except the empty name,
    under which the entries without a project are counted.  The number of
    projects of the summary is at most its number of prompts. *)
Theorem collected_projects_from_history (rt : Runtime) (fs : FileSystem)
    (hs : HistoryStore) (sh : Remote.Shell) (hosts : list string) (yr : Z) :
  let remotes :=
    fst (Remote.collectFromAllRemoteHosts rt sh hosts (Some yr)) in
  let merged := Stats.mergeData rt (App.collectLocal rt fs hs yr) remotes in
  let s := App.calculateStats rt fs hs yr remotes in
  Stats.projects merged = History.projectsOf (Stats.history merged)
  /\ Stats.projects merged
     = filter Props.named
         (JS.map_keys (Stats.projectCountsOf (Stats.history merged)))
  /\ (forall p, In p (Stats.projects merged) <->
        p <> EmptyString
        /\ exists e, In e (Stats.history merged)
                     /\ Stats.projectNameOf e = p)
  /\ WrappedStats.totalProjects s <= WrappedStats.totalPrompts s.
Proof.
  cbv zeta. rewrite collectFromAllRemoteHosts_map. cbn [fst].
  set (remotes := List.map _ hosts).
  set (local := App.collectLocal rt fs hs yr).
  assert (Hp : Stats.projects (Stats.mergeData rt local remotes)
               = History.projectsOf
                   (Stats.history (Stats.mergeData rt local remotes))).
  { apply merged_projects_from_history; [reflexivity|].
    intros r Hin. subst remotes.
    apply in_map_iff in Hin as (h & <- & _). reflexivity. }
  split; [exact Hp|]. split; [|split].
  - rewrite Hp. apply projectsOf_keys.
  - intros p. rewrite Hp, projectsOf_Set_of.
    destruct (Set_of_spec
                (filter Props.named
                   (List.map Stats.projectNameOf
                      (Stats.history (Stats.mergeData rt local remotes)))))
      as [_ Hin].
    rewrite Hin, filter_In, in_map_iff. unfold Props.named.
    rewrite negb_true_iff, String.eqb_neq.
    split.
    + intros [(e & He & Hin') Hne]. split; [exact Hne|]. now exists e.
    + intros [Hne (e & Hin' & He)]. split; [now exists e|exact Hne].
  - unfold App.calculateStats, Stats.calculateStats. fold local.
    destruct (statsOf_token_fields rt yr (Stats.mergeData rt local remotes)
                Stats.totalTokensOf) as (_ & _ & _ & _ & _ & _ & _ & Hn & _).
    cbv zeta in Hn. rewrite Hn, statsOf_totalPrompts, Hp, projectsOf_Set_of.
    apply inj_le.
    etransitivity; [apply Set_of_length_le|].
    etransitivity; [apply filter_length_le|]. now rewrite length_map.
Qed.

Lemma sumYearDay_sessions yr days t :
  Stats.t_sessions (fold_left (Stats.sumYearDay yr) days t)
  = Stats.t_sessions t
    + Spec.total (List.map sessionCount (filter (Spec.inYear yr) days)).
Proof.
  unfold Spec.total.
  revert t. induction days as [|d days IH]; intros t.
  - cbn [fold_left filter List.map fold_right]. lia.
  - cbn [fold_left filter]. rewrite IH. unfold Stats.sumYearDay, Spec.inYear.
    destruct (JS.startsWith (date d) (JS.String_of_Z yr));
      cbn [Stats.t_sessions List.map fold_right]; lia.
Qed.

Lemma sumUsage_sessions entries t :
  Stats.t_sessions (fold_left Stats.sumUsage entries t) = Stats.t_sessions t.
Proof.
  revert t. induction entries as [|e entries IH]; intros t; [reflexivity|].
  cbn [fold_left]. now rewrite IH.
Qed.

Lemma cacheTotals_sessions yr ms :
  Stats.t_sessions (Stats.cacheTotals yr ms)
  = match ms with
    | Some c => Props.yearSessions yr c
    | None => 0
    end.
Proof.
  unfold Stats.cacheTotals. destruct ms as [c|]; [|reflexivity].
  rewrite sumUsage_sessions, sumYearDay_sessions. reflexivity.
Qed.

(** X16.  The command-line tool reports that no activity was found, and
    stops before it renders anything, exactly when the merged history is
    empty and the merged cache (if any) has a session count of 0 for the
    requested year; message and token counts play no part. *)
Theorem noActivity_iff (rt : Runtime) (yr : Z)
    (local : Stats.CollectedData) (remotes : list RemoteData.t) :
  let merged := Stats.mergeData rt local remotes in
  Cli.noActivity (Stats.calculateStats rt yr local remotes) = true
  <-> Stats.history merged = []
      /\ match Stats.statsCache merged with
         | Some c => Props.yearSessions yr c = 0
         | None => True
         end.
Proof.
  cbv zeta. unfold Cli.noActivity, Stats.calculateStats.
  set (merged := Stats.mergeData rt local remotes).
  rewrite statsOf_totalPrompts.
  destruct (statsOf_totals rt yr merged Stats.totalTokensOf) as [_ ->].
  rewrite andb_true_iff, !Z.eqb_eq.
  unfold Stats.historyFallback.
  destruct (Stats.history merged) as [|e h].
  - cbn [List.length Nat.ltb Nat.leb]. rewrite andb_false_r.
    rewrite cacheTotals_sessions.
    destruct (Stats.statsCache merged); intuition.
  - cbn [List.length]. split; [|intros [[=] _]].
    intros [_ H]. lia.
Qed.

Lemma noActivity_examples :
  Cli.noActivity
    (Stats.calculateStats utcRuntime 2025
       (Stats.mkCollectedData None [] []) []) = true
  /\ Cli.noActivity
       (Stats.calculateStats utcRuntime 2024 Examples.localDays []) = true
  /\ Cli.noActivity
       (Stats.calculateStats utcRuntime 2025 Examples.localDays []) = false
  /\ Cli.noActivity
       (Stats.calculateStats utcRuntime 2025 Examples.cachedTokens []) = true.
Proof. repeat split. Qed.
(* ================================================================== *)
(** * The two-root collector                                           *)
(* ================================================================== *)

Lemma getValidClaudePaths_old_only (fs : FileSystem) :
  readdir fs (join (homedir fs) ".claude") <> None ->
  readdir fs (join (join (homedir fs) ".config") "claude") = None ->
  CollectorMulti.getValidClaudePaths fs = [join (homedir fs) ".claude"].
Proof.
  intros Hold Hnew.
  unfold CollectorMulti.getValidClaudePaths, CollectorMulti.CLAUDE_DATA_PATHS.
  cbn [filter]. rewrite Hnew.
  destruct (readdir fs (join (homedir fs) ".claude")); [reflexivity|].
  contradiction.
Qed.

Lemma str_or_same (s : string) : JS.str_or s s = s.
Proof. unfold JS.str_or. now destruct (String.eqb s EmptyString). Qed.

(** X17.  For a user whose data lives under ~/.claude only
    (~/.config/claude cannot be listed), the two-root collector returns
    exactly what the one-root collector returns: the same cache, history,
    projects, session messages, oldest session timestamp and data path. *)
Theorem CollectorMulti_agrees_on_old_layout (rt : Runtime) (fs : FileSystem)
    (hs : HistoryStore) (yr : option Z) :
  readdir fs (join (homedir fs) ".claude") <> None ->
  readdir fs (join (join (homedir fs) ".config") "claude") = None ->
  CollectorMulti.collectStatsCache fs = Collector.collectStatsCache fs
  /\ CollectorMultiRest.collectHistory rt fs hs yr
     = CollectorRest.collectHistory rt fs hs yr
  /\ CollectorMultiRest.collectProjects rt fs hs yr
     = CollectorRest.collectProjects rt fs hs yr
  /\ CollectorMulti.collectSessionMessages rt fs yr
     = Collector.collectSessionMessages rt fs yr
  /\ CollectorMulti.findOldestLocalSessionTimestamp fs
     = Collector.findOldestLocalSessionTimestamp fs
  /\ CollectorMulti.checkClaudeCodeDataExists fs
     = Collector.checkClaudeCodeDataExists fs
  /\ CollectorMultiRest.getClaudeDataPath fs
     = CollectorRest.getClaudeDataPath fs
  /\ (forall y, App.collectLocalMulti rt fs hs y = App.collectLocal rt fs hs y).
Proof.
  intros Hold Hnew.
  assert (Hp := getValidClaudePaths_old_only fs Hold Hnew).
  assert (Hh : forall yr',
             CollectorMultiRest.collectHistory rt fs hs yr'
             = CollectorRest.collectHistory rt fs hs yr').
  { intros yr'.
    unfold CollectorMultiRest.collectHistory, CollectorRest.collectHistory.
    rewrite Hp. cbn [flat_map]. apply app_nil_r. }
  assert (Hc : CollectorMulti.collectStatsCache fs
               = Collector.collectStatsCache fs).
  { unfold CollectorMulti.collectStatsCache, Collector.collectStatsCache.
    rewrite Hp. cbn [fold_left]. unfold Collector.CLAUDE_DATA_PATH.
    now destruct (readStatsJson fs _). }
  assert (Hpr : forall yr',
             CollectorMultiRest.collectProjects rt fs hs yr'
             = CollectorRest.collectProjects rt fs hs yr').
  { intros yr'.
    unfold CollectorMultiRest.collectProjects, CollectorRest.collectProjects.
    now rewrite Hh. }
  split; [exact Hc|]. split; [apply Hh|]. split; [apply Hpr|].
  split; [|split; [|split; [|split]]].
  - unfold CollectorMulti.collectSessionMessages,
      Collector.collectSessionMessages.
    rewrite Hp. cbn [flat_map]. apply app_nil_r.
  - unfold CollectorMulti.findOldestLocalSessionTimestamp,
      Collector.findOldestLocalSessionTimestamp.
    rewrite Hp. reflexivity.
  - unfold CollectorMulti.checkClaudeCodeDataExists,
      Collector.checkClaudeCodeDataExists, Collector.CLAUDE_DATA_PATH.
    rewrite Hp. cbn [List.length Nat.ltb Nat.leb].
    destruct (readdir fs (join (homedir fs) ".claude")); [reflexivity|].
    contradiction.
  - unfold CollectorMultiRest.getClaudeDataPath,
      CollectorRest.getClaudeDataPath.
    rewrite Hp. cbn [CollectorMulti.CLAUDE_DATA_PATHS hd].
    apply str_or_same.
  - intros y. unfold App.collectLocalMulti, App.collectLocal.
    now rewrite Hc, Hh, Hpr.
Qed.

Lemma CollectorMulti_agrees_on_old_layout_witness :
  let rt := utcRuntime in
  let fs := Examples.transcriptFS [] Examples.tenLines in
  let hs := MoreExamples.historyStore in
  let yr := Some 2025 in
  CollectorMulti.collectStatsCache fs = Collector.collectStatsCache fs
  /\ CollectorMultiRest.collectHistory rt fs hs yr
     = CollectorRest.collectHistory rt fs hs yr
  /\ CollectorMultiRest.collectProjects rt fs hs yr
     = CollectorRest.collectProjects rt fs hs yr
  /\ CollectorMulti.collectSessionMessages rt fs yr
     = Collector.collectSessionMessages rt fs yr
  /\ CollectorMulti.findOldestLocalSessionTimestamp fs
     = Collector.findOldestLocalSessionTimestamp fs
  /\ CollectorMulti.checkClaudeCodeDataExists fs
     = Collector.checkClaudeCodeDataExists fs
  /\ CollectorMultiRest.getClaudeDataPath fs
     = CollectorRest.getClaudeDataPath fs
  /\ (forall y, App.collectLocalMulti rt fs hs y = App.collectLocal rt fs hs y).
Proof.
  apply (CollectorMulti_agrees_on_old_layout utcRuntime
           (Examples.transcriptFS [] Examples.tenLines)
           MoreExamples.historyStore (Some 2025)).
  - discriminate.
  - reflexivity.
Defined.

Lemma otherYear_stampedIn rt yr ts :
  Transcripts.otherYear rt yr ts = false <-> Props.stampedIn rt yr ts.
Proof.
  unfold Transcripts.otherYear, Props.stampedIn.
  destruct yr as [y|]; [|tauto].
  destruct (Z.eqb_spec y 0) as [Hy|Hy]; [tauto|].
  destruct ts as [s|].
  - destruct (Date_of_string rt s) as [d|] eqn:Hd.
    + rewrite negb_false_iff, Z.eqb_eq. split.
      * intros H. right. now exists s, d.
      * intros [H|(s' & d' & [= <-] & Hd' & H)]; [contradiction|].
        rewrite Hd in Hd'. now injection Hd' as <-.
    + split; [discriminate|].
      intros [H|(s' & d' & [= <-] & Hd' & _)]; [contradiction|].
      rewrite Hd in Hd'. discriminate.
  - split; [discriminate|].
    intros [H|(s' & d' & Hs & _)]; [contradiction|discriminate].
Qed.

Lemma messageOfLine_spec rt yr l m :
  In m (Transcripts.messageOfLine rt yr l)
  <-> exists j,
        l = Json j
        /\ j_type j = Some "assistant"%string
        /\ j_usage j = true
        /\ Props.stampedIn rt yr (j_timestamp j)
        /\ m = SessionMessage.mk "assistant" (j_sessionId j) (j_timestamp j)
                                 (j_model j) true.
Proof.
  unfold Transcripts.messageOfLine. split.
  - destruct l as [| |j]; try (intros []).
    destruct (j_type j) as [ty|] eqn:Hty; [|intros []].
    destruct (String.eqb_spec ty "assistant") as [->|Hne]; [|intros []].
    destruct (j_usage j) eqn:Hu; [|intros []]. cbn [andb].
    destruct (Transcripts.otherYear rt yr (j_timestamp j)) eqn:Hy;
      [intros []|].
    intros [<-|[]]. exists j. repeat split; try assumption.
    now apply otherYear_stampedIn.
  - intros (j & -> & Hty & Hu & Hy & ->).
    apply otherYear_stampedIn in Hy. rewrite Hty, Hu, Hy. now left.
Qed.

(** X18.  The two-root collector scans every listable root.  A session
    message is returned exactly when, under ~/.claude or ~/.config/claude,
    whichever can be listed, some project directory has a transcript (a
    .jsonl file whose name does not start with "agent-") with a line that
    parses, is of type "assistant", has usage data and, when a year other
    than 0 is requested, a valid timestamp of that year; the message
    repeats the session id, timestamp and model of the line.  The oldest
    session timestamp is the smallest non-empty timestamp among the first
    ten lines of every .jsonl file (sub-agent transcripts included) of
    every project directory of every listable root; null when there is
    none. *)
Theorem CollectorMulti_scans_all_roots (rt : Runtime) (fs : FileSystem)
    (yr : option Z) :
  (forall m,
      In m (CollectorMulti.collectSessionMessages rt fs yr)
      <-> exists root dir f lines j,
            (root = join (homedir fs) ".claude"
             \/ root = join (join (homedir fs) ".config") "claude")
            /\ readdir fs root <> None
            /\ Props.listed fs (join root "projects") dir
            /\ Props.listed fs (join (join root "projects") dir) f
            /\ JS.endsWith f ".jsonl" = true
            /\ JS.startsWith f "agent-" = false
            /\ readLines fs (join (join (join root "projects") dir) f)
               = Some lines
            /\ In (Json j) lines
            /\ j_type j = Some "assistant"%string
            /\ j_usage j = true
            /\ Props.stampedIn rt yr (j_timestamp j)
            /\ m = SessionMessage.mk "assistant" (j_sessionId j)
                                     (j_timestamp j) (j_model j) true)
  /\ Spec.isOldest
       (flat_map (Spec.scannedStamps fs)
                 (CollectorMulti.getValidClaudePaths fs))
       (CollectorMulti.findOldestLocalSessionTimestamp fs).
Proof.
  split.
  - intros m. unfold CollectorMulti.collectSessionMessages.
    rewrite in_flat_map. split.
    + intros (root & Hroot & Hin).
      apply getValidClaudePaths_spec in Hroot as [Hp Hr].
      apply sessionMessagesIn_spec in Hin
        as (dirs & dir & files & f & lines & l & Hd & Hdir & Hf & Hfile
            & He & Ha & Hl & Hin & Hm).
      apply messageOfLine_spec in Hm as (j & -> & Hty & Hu & Hy & ->).
      exists root, dir, f, lines, j.
      split; [|split; [exact Hr|split; [now exists dirs|
        split; [now exists files|repeat split; assumption]]]].
      cbn [CollectorMulti.CLAUDE_DATA_PATHS In] in Hp.
      destruct Hp as [<-|[<-|[]]]; [now left|now right].
    + intros (root & dir & f & lines & j & Hp & Hr & (dirs & Hd & Hdir)
              & (files & Hf & Hfile) & He & Ha & Hl & Hin & Hty & Hu & Hy
              & ->).
      exists root. split.
      * apply getValidClaudePaths_spec. split; [|exact Hr].
        cbn [CollectorMulti.CLAUDE_DATA_PATHS In].
        destruct Hp as [->| ->]; [now left|right; now left].
      * apply sessionMessagesIn_spec.
        exists dirs, dir, files, f, lines, (Json j).
        repeat split; try assumption.
        apply messageOfLine_spec. exists j. now repeat split.
  - unfold CollectorMulti.findOldestLocalSessionTimestamp.
    rewrite (fold_left_ext_in
               (Transcripts.oldestIn fs)
               (fun acc base =>
                  fold_left Spec.takeStamp (Spec.scannedStamps fs base) acc)).
    + rewrite <- (fold_left_flat_map Spec.takeStamp (Spec.scannedStamps fs)).
      apply (takeStamp_oldest _ None).
      * intros t Hin. apply in_flat_map in Hin as (base & _ & Hin).
        now apply scannedStamps_nonempty in Hin.
      * discriminate.
    + intros acc base _. apply oldestIn_stamps.
Qed.

(** Two roots with transcripts: the messages of 2025 are the first turn
    of the session under ~/.claude and the first turn of the session
    under ~/.config/claude; the user turn, the turn without usage data,
    the turn of 2024, the sub-agent transcript and the text file give
    none; the one-root collector sees the first root only.  The oldest
    timestamp is the one of the turn of 2024. *)
Lemma CollectorMulti_transcripts_example :
  CollectorMulti.collectSessionMessages utcRuntime
    MoreExamples.twoRootsTranscripts (Some 2025)
  = [SessionMessage.mk "assistant" "c0ffee"
       (Some "2025-03-01T10:00:00.000Z")
       (Some "claude-sonnet-4-20250514") true;
     SessionMessage.mk "assistant" "decaf"
       (Some "2025-11-20T08:00:00.000Z")
       (Some "claude-opus-4-20250514") true]%string
  /\ List.length
       (CollectorMulti.collectSessionMessages utcRuntime
          MoreExamples.twoRootsTranscripts None) = 3%nat
  /\ Collector.collectSessionMessages utcRuntime
       MoreExamples.twoRootsTranscripts (Some 2025)
     = [SessionMessage.mk "assistant" "c0ffee"
          (Some "2025-03-01T10:00:00.000Z")
          (Some "claude-sonnet-4-20250514") true]%string
  /\ CollectorMulti.findOldestLocalSessionTimestamp
       MoreExamples.twoRootsTranscripts
     = Some "2024-12-31T23:00:00.000Z"%string.
Proof. repeat split. Qed.


Lemma CollectorMulti_cache_example :
  option_map
    (fun c => (totalMessages c, firstSessionDate c,
               List.map (fun e => (fst e, outputTokens (snd e)))
                        (modelUsage c)))
    (CollectorMulti.collectStatsCache Examples.twoRootsFS)
  = Some (36, "2025-03-01T08:00:00.000Z",
          [("claude-sonnet-4-20250514", 1000)])%string.
Proof. reflexivity. Qed.
(* ================================================================== *)
(** * calculateStats: the first session                                *)
(* ================================================================== *)

Lemma fold_min_spec (l : list Z) (a : Z) :
  let m := fold_left Z.min l a in
  In m (a :: l) /\ forall x, In x (a :: l) -> m <= x.
Proof.
  cbv zeta. revert a. induction l as [|y l IH]; intros a.
  - cbn. split; [now left|]. intros x [<-|[]]. lia.
  - cbn [fold_left]. destruct (IH (Z.min a y)) as [Hin Hle]. split.
    + destruct Hin as [Hm|Hin]; [|right; now right].
      rewrite <- Hm. destruct (Z.min_spec a y) as [[_ ->]|[_ ->]];
        [now left|right; now left].
    + intros x [<-|[<-|Hx]].
      * specialize (Hle (Z.min a y) (or_introl eq_refl)). lia.
      * specialize (Hle (Z.min a y) (or_introl eq_refl)). lia.
      * apply Hle. now right.
Qed.

Lemma earliestTimestamp_stamps ms ol rd :
  FirstSession.earliestTimestamp ms ol rd
  = fold_left Spec.takeStamp
      (Props.stampOf ol
       ++ flat_map
            (fun remote =>
               Props.stampOf (RemoteData.oldestSessionTimestamp remote))
            rd)
      (Props.nonEmpty (option_map firstSessionDate ms)).
Proof.
  unfold FirstSession.earliestTimestamp.
  assert (Hc : match ms with
               | Some c =>
                   if JS.truthy (Some (firstSessionDate c))
                   then Some (firstSessionDate c) else None
               | None => None
               end = Props.nonEmpty (option_map firstSessionDate ms)).
  { destruct ms as [c|]; [|reflexivity]. cbn.
    now destruct (String.eqb (firstSessionDate c) EmptyString). }
  rewrite Hc, fold_left_app, takeStamp_stampOf.
  generalize (older (Props.nonEmpty (option_map firstSessionDate ms)) ol).
  induction rd as [|r rd IH]; intros acc; [reflexivity|].
  cbn [fold_left flat_map]. now rewrite fold_left_app, takeStamp_stampOf, IH.
Qed.

(** X20.  The timestamp that [calculateStats] takes for the first session
    is the smallest non-empty string among the first session date of the
    merged cache, the oldest local session timestamp and the oldest session
    timestamp of every remote (here a remote without a cache counts too).
    Only when there is no such string is the smallest timestamp of the
    merged history used, and the current time only when the history is
    empty as well. *)
Theorem firstSession_earliest (mergedStats : option ClaudeCodeStats)
    (oldestLocalTimestamp : option string) (remoteData : list RemoteData.t)
    (mergedHistory : list HistoryEntry) :
  let cands :=
    Props.firstCandidates mergedStats oldestLocalTimestamp remoteData in
  Spec.isOldest cands
    (FirstSession.earliestTimestamp mergedStats oldestLocalTimestamp
                                    remoteData)
  /\ match FirstSession.firstSession mergedStats oldestLocalTimestamp
                                     remoteData mergedHistory with
     | FirstSession.OfTimestamp ts =>
         In ts cands /\ forall t, In t cands -> String.ltb t ts = false
     | FirstSession.OfHistory first =>
         cands = []
         /\ In first (List.map timestamp mergedHistory)
         /\ forall e, In e mergedHistory -> first <= timestamp e
     | FirstSession.Now => cands = [] /\ mergedHistory = []
     end.
Proof.
  cbv zeta.
  assert (Hold : Spec.isOldest
                   (Props.firstCandidates mergedStats oldestLocalTimestamp
                                          remoteData)
                   (FirstSession.earliestTimestamp mergedStats
                      oldestLocalTimestamp remoteData)).
  { rewrite earliestTimestamp_stamps. unfold Props.firstCandidates.
    rewrite <- nonEmpty_stampOf.
    set (acc := Props.nonEmpty (option_map firstSessionDate mergedStats)).
    assert (Hopt : Props.optlist acc
                   = match acc with Some o => [o] | None => [] end)
      by reflexivity.
    rewrite Hopt. apply takeStamp_oldest.
    - intros t Hin. apply in_app_or in Hin as [Hin|Hin].
      + now apply stampOf_nonempty in Hin.
      + apply in_flat_map in Hin as (r & _ & Hin).
        now apply stampOf_nonempty in Hin.
    - subst acc. intros o Ho. now apply nonEmpty_Some in Ho. }
  split; [exact Hold|].
  assert (Hne : forall t,
             In t (Props.firstCandidates mergedStats oldestLocalTimestamp
                                         remoteData) ->
             t <> EmptyString).
  { unfold Props.firstCandidates. intros t Hin.
    apply in_app_or in Hin as [Hin|Hin];
      [now apply stampOf_nonempty in Hin|].
    apply in_app_or in Hin as [Hin|Hin];
      [now apply stampOf_nonempty in Hin|].
    apply in_flat_map in Hin as (r & _ & Hin).
    now apply stampOf_nonempty in Hin. }
  unfold FirstSession.firstSession.
  destruct (FirstSession.earliestTimestamp mergedStats oldestLocalTimestamp
                                           remoteData) as [ts|];
    cbn [Spec.isOldest] in Hold.
  - destruct Hold as [Hin Hmin].
    assert (Ht : JS.truthy (Some ts) = true).
    { cbn. apply negb_true_iff, String.eqb_neq. now apply Hne. }
    rewrite Ht. destruct mergedHistory; now split.
  - destruct mergedHistory as [|e0 rest]; [now split|].
    split; [exact Hold|].
    destruct (fold_min_spec (List.map timestamp rest) (timestamp e0))
      as [Hin Hle].
    split; [exact Hin|].
    intros e He. apply Hle. change (In (timestamp e) (List.map timestamp
                                                        (e0 :: rest))).
    now apply in_map.
Qed.

(** The second remote has no cache: [mergeData] skips its timestamp of
    2024, the choice of the first session does not. *)
Lemma firstSession_example :
  let merged :=
    Stats.mergeData utcRuntime MoreExamples.localUsage
                    MoreExamples.remoteUsage in
  option_map firstSessionDate (Stats.statsCache merged)
  = Some "2025-01-15T10:00:00.000Z"%string
  /\ FirstSession.firstSession (Stats.statsCache merged) None
       MoreExamples.remoteUsage (Stats.history merged)
     = FirstSession.OfTimestamp "2024-06-01T10:00:00.000Z"
  /\ FirstSession.firstSession None None [] (Stats.history merged)
     = FirstSession.OfHistory 1740787200000
  /\ FirstSession.daysSinceFirstSession utcRuntime 1767182400000
       (FirstSession.OfTimestamp "2024-06-01T10:00:00.000Z")
     = Some 578.
Proof. repeat split. Qed.
(* ================================================================== *)
(** * collectDailyActivityFromSessions                                 *)
(* ================================================================== *)

Lemma fold_left_preserves {A B : Type} (P : A -> Prop) (f : A -> B -> A)
    (l : list B) (a : A) :
  (forall a x, P a -> P (f a x)) -> P a -> P (fold_left f l a).
Proof.
  intros Hf. revert a. induction l as [|x l IH]; intros a Ha; [exact Ha|].
  cbn [fold_left]. apply IH, Hf, Ha.
Qed.

Lemma set_add_length (s : JS.JsSet) (x : string) :
  List.length (JS.set_add s x)
  = if JS.set_has s x then List.length s else S (List.length s).
Proof.
  unfold JS.set_add. destruct (JS.set_has s x); [reflexivity|].
  rewrite length_app. cbn [List.length]. lia.
Qed.

Lemma activityOfLine_inv rt yr sessionId st l :
  Props.activityInv st ->
  Props.activityInv (CollectorMultiRest.activityOfLine rt yr sessionId st l).
Proof.
  intros Hinv. unfold CollectorMultiRest.activityOfLine.
  destruct l as [| |j]; try exact Hinv.
  destruct (j_timestamp j) as [ts|]; [|exact Hinv].
  destruct (String.eqb ts EmptyString); [exact Hinv|].
  destruct (Transcripts.otherYear rt yr (Some ts)); [exact Hinv|].
  destruct (CollectorMultiRest.isMessage (j_type j)); [|exact Hinv].
  destruct st as [daily sessions].
  destruct Hinv as (Hd & Hs & Hk). unfold Props.activityInv.
  cbv zeta. cbn [fst snd] in *.
  set (k0 := CollectorMultiRest.dateKeyOf rt ts).
  split; [now apply map_keys_NoDup_set|].
  split; [now apply map_keys_NoDup_set|].
  intros k. destruct (string_dec k0 k) as [<-|Hne].
  - rewrite !map_get_set_eq. specialize (Hk k0).
    destruct (JS.map_get daily k0) as [v|];
      destruct (JS.map_get sessions k0) as [s|]; try contradiction.
    + destruct Hk as (Hnd & Hlen & Hle & Hsc).
      cbn [SessionActivity.messageCount SessionActivity.sessionCount].
      rewrite set_add_length.
      split; [now apply set_add_NoDup|].
      destruct (JS.set_has s sessionId); repeat split; lia.
    + cbn [SessionActivity.messageCount SessionActivity.sessionCount].
      cbn. repeat split; try lia. repeat constructor. intros [].
  - rewrite !map_get_set_neq by exact Hne. apply Hk.
Qed.

Lemma activityIn_inv rt fs yr st basePath :
  Props.activityInv st ->
  Props.activityInv (CollectorMultiRest.activityIn rt fs yr st basePath).
Proof.
  intros Hinv. unfold CollectorMultiRest.activityIn.
  destruct (readdir fs (join basePath "projects")); [|exact Hinv].
  apply fold_left_preserves; [|exact Hinv]. clear.
  intros st dir Hinv. unfold CollectorMultiRest.activityOfProject.
  destruct (readdir fs _); [|exact Hinv].
  apply fold_left_preserves; [|exact Hinv]. clear.
  intros st f Hinv. unfold CollectorMultiRest.activityOfFile.
  destruct (readLines fs _); [|exact Hinv].
  apply fold_left_preserves; [|exact Hinv].
  intros st' line. apply activityOfLine_inv.
Qed.

Lemma map_set_present_keys {V : Type} (m : JS.JsMap V) (k : string)
    (v v' : V) :
  JS.map_get m k = Some v -> JS.map_keys (JS.map_set m k v') = JS.map_keys m.
Proof.
  intros H. rewrite map_keys_set. unfold JS.map_has. now rewrite H.
Qed.

Lemma updateSessionCounts_keys sessions daily :
  JS.map_keys (CollectorMultiRest.updateSessionCounts daily sessions)
  = JS.map_keys daily.
Proof.
  unfold CollectorMultiRest.updateSessionCounts.
  revert daily. induction sessions as [|[k s] sessions IH]; intros daily;
    [reflexivity|].
  cbn [fold_left]. rewrite IH.
  destruct (JS.map_get daily k) eqn:E; [|reflexivity].
  now apply (map_set_present_keys daily k t).
Qed.

Lemma updateSessionCounts_get sessions daily k :
  NoDup (JS.map_keys sessions) ->
  JS.map_get (CollectorMultiRest.updateSessionCounts daily sessions) k
  = match JS.map_get daily k with
    | Some v =>
        Some (SessionActivity.mk
                (SessionActivity.messageCount v)
                (match JS.map_get sessions k with
                 | Some s => Z.of_nat (List.length s)
                 | None => SessionActivity.sessionCount v
                 end))
    | None => None
    end.
Proof.
  unfold CollectorMultiRest.updateSessionCounts.
  revert daily. induction sessions as [|[k' s'] sessions IH];
    intros daily Hnd.
  - cbn [fold_left JS.map_get]. now destruct (JS.map_get daily k) as [[]|].
  - inversion Hnd as [|? ? Hnot Hnd']; subst.
    cbn [fold_left]. rewrite (IH _ Hnd'). clear IH. cbn [JS.map_get].
    destruct (String.eqb_spec k' k) as [->|Hne].
    + assert (Hrest : JS.map_get sessions k = None)
        by now apply map_get_None.
      rewrite Hrest.
      destruct (JS.map_get daily k) as [e|] eqn:E.
      * now rewrite map_get_set_eq.
      * now rewrite E.
    + destruct (JS.map_get daily k') as [e|] eqn:E; [|reflexivity].
      now rewrite map_get_set_neq.
Qed.

(** X21.  In the map built from the session transcripts every listed day
    is listed once, has at least one session, and has at most as many
    sessions as messages: the session count of a day is the number of
    distinct transcript names with a message on that day. *)
Theorem sessionActivity_counts (rt : Runtime) (fs : FileSystem)
    (yr : option Z) :
  let m := CollectorMultiRest.collectDailyActivityFromSessions rt fs yr in
  NoDup (JS.map_keys m)
  /\ forall k v,
       In (k, v) m ->
       1 <= SessionActivity.sessionCount v
       /\ SessionActivity.sessionCount v <= SessionActivity.messageCount v.
Proof.
  cbv zeta. unfold CollectorMultiRest.collectDailyActivityFromSessions.
  assert (Hinv : Props.activityInv
                   (fold_left (CollectorMultiRest.activityIn rt fs yr)
                              (CollectorMulti.getValidClaudePaths fs)
                              ([], []))).
  { apply fold_left_preserves.
    - intros st p. apply activityIn_inv.
    - repeat split; constructor. }
  destruct (fold_left _ _ _) as [daily sessions].
  destruct Hinv as (Hd & Hs & Hk). cbn [fst snd] in *.
  assert (Hkeys := updateSessionCounts_keys sessions daily).
  split; [now rewrite Hkeys|].
  intros k v Hin. apply NoDup_map_get in Hin; [|now rewrite Hkeys].
  rewrite (updateSessionCounts_get _ _ _ Hs) in Hin. specialize (Hk k).
  destruct (JS.map_get daily k) as [v0|]; [|discriminate].
  destruct (JS.map_get sessions k) as [s|]; [|contradiction].
  destruct Hk as (_ & Hlen & Hle & _). injection Hin as <-.
  cbn [SessionActivity.messageCount SessionActivity.sessionCount]. lia.
Qed.

(** Two transcripts: two messages of one session on the first day, three
    messages of two sessions on the second; the line of 2024 and the
    sub-agent transcript are left out. *)
Lemma sessionActivity_example :
  CollectorMultiRest.collectDailyActivityFromSessions utcRuntime
    MoreExamples.activityFS (Some 2025)
  = [("2025-03-01"%string, SessionActivity.mk 2 1);
     ("2025-03-02"%string, SessionActivity.mk 3 2)].
Proof. reflexivity. Qed.
(* ================================================================== *)
(** * Remote hosts                                                     *)
(* ================================================================== *)

(** X22.  When [ssh] fails for each of the three commands sent to every
    host (no cache, no history, no timestamp), [collectFromAllRemoteHosts]
    still returns one entry per host, in the order of the hosts, each
    with a null cache, no history entry, no project and a null timestamp,
    and the complete summary computed with these entries,
    [firstSessionDate], [daysSinceFirstSession] and [currentStreak]
    included, is the one computed from the local data alone, when the
    local cache lists every date and every model once and has a first
    session date. *)
Theorem unreachable_hosts_keep_summary (fuel : nat) (rt : Runtime)
    (sh : Remote.Shell) (hosts : list string) (now yr : Z)
    (local : Stats.CollectedData) (oldestLocalTimestamp : option string)
    (c : ClaudeCodeStats) :
  hosts <> [] ->
  (forall host, In host hosts ->
      Remote.statsOutput sh host = None
      /\ Remote.historyOutput sh host = None
      /\ Remote.oldestOutput sh host = None) ->
  Stats.statsCache local = Some c ->
  NoDup (List.map date (dailyActivity c)) ->
  NoDup (JS.map_keys (modelUsage c)) ->
  firstSessionDate c <> EmptyString ->
  let results := fst (Remote.collectFromAllRemoteHosts rt sh hosts (Some yr)) in
  results = List.map (fun host => RemoteData.mk host None [] [] None) hosts
  /\ Summary.calculateStats fuel rt now yr local oldestLocalTimestamp results
     = Summary.calculateStats fuel rt now yr local oldestLocalTimestamp [].
Proof.
  intros Hne Hdead Hc Hd Hk Hf. cbv zeta.
  rewrite collectFromAllRemoteHosts_map. cbn [fst].
  assert (Hres :
            List.map
              (fun host => Remote.collectFromRemoteHost rt sh host (Some yr))
              hosts
            = List.map (fun host => RemoteData.mk host None [] [] None)
                       hosts).
  { apply map_ext_in. intros host Hin.
    destruct (Hdead host Hin) as (Hs & Hh & Ho).
    unfold Remote.collectFromRemoteHost, Remote.collectRemoteStatsCache,
      Remote.collectRemoteHistory, Remote.findOldestSessionTimestamp.
    now rewrite Hs, Hh, Ho. }
  rewrite Hres. split; [reflexivity|].
  set (results := List.map _ hosts).
  assert (Hn : results <> []).
  { subst results. destruct hosts; [congruence|discriminate]. }
  assert (Hq : Forall Props.quiet results).
  { apply Forall_forall. intros r Hin.
    apply in_map_iff in Hin as (h & <- & _). repeat split. }
  unfold Summary.calculateStats. cbv zeta.
  rewrite (quiet_remotes_stats rt yr local results c Hn Hq Hc Hd Hk).
  rewrite (quiet_remotes_first rt local oldestLocalTimestamp results c
             Hn Hq Hc Hf).
  reflexivity.
Qed.

Lemma unreachable_hosts_keep_summary_witness :
  let hosts := ["alice@build"; "alice@ci"]%string in
  let results :=
    fst (Remote.collectFromAllRemoteHosts utcRuntime MoreExamples.deadShell
           hosts (Some 2025)) in
  results = List.map (fun host => RemoteData.mk host None [] [] None) hosts
  /\ Summary.calculateStats 10 utcRuntime MoreExamples.noon 2025
       MoreExamples.localUsage None results
     = Summary.calculateStats 10 utcRuntime MoreExamples.noon 2025
         MoreExamples.localUsage None [].
Proof.
  apply (unreachable_hosts_keep_summary 10 utcRuntime MoreExamples.deadShell
           ["alice@build"; "alice@ci"]%string MoreExamples.noon 2025
           MoreExamples.localUsage None
           (Examples.cacheOf []
              [("claude-sonnet-4-20250514",
                MoreExamples.tokens 100 50 900 100);
               ("claude-opus-4-20250514", MoreExamples.tokens 10 5 0 0)]%string
              4 20 "2025-03-01T08:00:00.000Z")).
  - discriminate.
  - intros host _. repeat split.
  - reflexivity.
  - constructor.
  - cbn. repeat constructor; cbn; intuition discriminate.
  - discriminate.
Defined.

(** Without a local cache the summary is not the local one: the merged
    cache made for the unreachable host dates the first session at the
    current time, where the local summary dates it at the oldest
    prompt. *)
Lemma unreachable_host_without_cache :
  let results :=
    fst (Remote.collectFromAllRemoteHosts utcRuntime MoreExamples.deadShell
           ["alice@build"]%string (Some 2025)) in
  let s remotes :=
    Summary.calculateStats 10 utcRuntime MoreExamples.noon 2025
      Examples.fivePrompts None remotes in
  Summary.firstSessionDate (s [])
  = Some (Date_of_ms utcRuntime 1740787200000)
  /\ Summary.firstSessionDate (s results)
     = Some (Date_of_ms utcRuntime MoreExamples.noon)
  /\ Summary.daysSinceFirstSession (s []) = Some 305
  /\ Summary.daysSinceFirstSession (s results) = Some 0.
Proof. repeat split. Qed.

(** A host that answers: an object without a version is no cache, and the
    output of the timestamp pipeline is kept only when, trimmed, it starts
    like a date. *)
Lemma remote_host_examples :
  let sh :=
    Remote.mkShell
      (fun host =>
         if String.eqb host "alice@build"
         then Some (Examples.cacheOf [] [] 3 16 "2025-02-27T08:00:00.000Z")
         else Some (mkClaudeCodeStats 0 "" [] [] [] 0 0
                      Stats.emptyLongestSession "" []))
      (fun _ =>
         Some [HEntry (Examples.entry 1740787200000 "/srv/app" "r1"); HBlank])
      (fun host =>
         if String.eqb host "alice@build"
         then Some "  2025-01-15T10:00:00.000Z
"%string
         else Some "grep: /home/alice/.claude/projects/: No such file"%string)
  in
  Remote.collectFromRemoteHost utcRuntime sh "alice@build" (Some 2025)
  = RemoteData.mk "alice@build"
      (Some (Examples.cacheOf [] [] 3 16 "2025-02-27T08:00:00.000Z"))
      [Examples.entry 1740787200000 "/srv/app" "r1"] ["app"]%string
      (Some "2025-01-15T10:00:00.000Z"%string)
  /\ Remote.collectFromRemoteHost utcRuntime sh "alice@ci" (Some 2025)
     = RemoteData.mk "alice@ci" None
         [Examples.entry 1740787200000 "/srv/app" "r1"] ["app"]%string None.
Proof. split; reflexivity. Qed.
(* ================================================================== *)
(** * The current streak                                               *)
(* ================================================================== *)

Lemma least_false (p : nat -> bool) (N : nat) :
  (forall i, (i < N)%nat -> p i = true)
  \/ (exists k, (k < N)%nat /\ p k = false
                /\ forall i, (i < k)%nat -> p i = true).
Proof.
  induction N as [|N [IH|(k & Hk & Hp & Hlt)]].
  - left. intros i Hi. lia.
  - destruct (p N) eqn:E.
    + left. intros i Hi.
      destruct (Nat.eq_dec i N) as [->|Hne]; [exact E|apply IH; lia].
    + right. exists N. repeat split; [lia|exact E|exact IH].
  - right. exists k. repeat split; [lia|exact Hp|exact Hlt].
Qed.

Lemma present_In rt now m i :
  Props.present rt now m i = true
  <-> In (Props.walkKey rt now i) (JS.map_keys m).
Proof.
  unfold Props.present. rewrite <- set_has_keys. apply set_has_In.
Qed.

(** Of [n + 1] days with distinct keys, a map of [n] entries misses one. *)
Lemma some_day_absent rt now (m : JS.JsMap Z) (a : nat) :
  NoDup (List.map (Props.walkKey rt now) (seq a (S (JS.map_size m)))) ->
  exists i, (i < S (JS.map_size m))%nat
            /\ Props.present rt now m (a + i) = false.
Proof.
  intros Hnd.
  destruct (least_false (fun i => Props.present rt now m (a + i))
                        (S (JS.map_size m)))
    as [Hall|(k & Hk & Hp & _)]; [|now exists k].
  exfalso.
  assert (Hincl : incl (List.map (Props.walkKey rt now)
                                 (seq a (S (JS.map_size m))))
                       (JS.map_keys m)).
  { intros key Hin. apply in_map_iff in Hin as (i & <- & Hi).
    apply in_seq in Hi. apply present_In.
    replace i with (a + (i - a))%nat by lia. apply Hall. lia. }
  apply (NoDup_incl_length Hnd) in Hincl.
  rewrite length_map, length_seq in Hincl.
  unfold JS.map_size, JS.map_keys in *. rewrite length_map in Hincl. lia.
Qed.

(** The loop counts the days present before it reaches an absent one. *)
Lemma countLoop_run rt now m (k : nat) :
  forall (fuel j : nat) (streak : Z),
    (k < fuel)%nat ->
    (forall i, (i < k)%nat -> Props.present rt now m (j + 1 + i) = true) ->
    Props.present rt now m (j + 1 + k) = false ->
    CurrentStreak.countLoop fuel rt m
      (now - Z.of_nat j * CurrentStreak.day_ms) streak
    = Some (streak + Z.of_nat k).
Proof.
  induction k as [|k IH]; intros fuel j streak Hfuel Hrun Hend;
    (destruct fuel as [|fuel]; [lia|]); cbn [CurrentStreak.countLoop];
    cbv zeta;
    replace (now - Z.of_nat j * CurrentStreak.day_ms - CurrentStreak.day_ms)
      with (now - Z.of_nat (S j) * CurrentStreak.day_ms)
      by (unfold CurrentStreak.day_ms; lia);
    change (JS.map_has m
              (Stats.formatDateKey
                 (Date_of_ms rt
                    (now - Z.of_nat (S j) * CurrentStreak.day_ms))))
      with (Props.present rt now m (S j)).
  - replace (j + 1 + 0)%nat with (S j) in Hend by lia.
    rewrite Hend. f_equal. lia.
  - assert (H1 := Hrun 0%nat ltac:(lia)).
    replace (j + 1 + 0)%nat with (S j) in H1 by lia.
    rewrite H1.
    rewrite (IH fuel (S j) (streak + 1)).
    + f_equal. lia.
    + lia.
    + intros i Hi. replace (S j + 1 + i)%nat with (j + 1 + S i)%nat by lia.
      apply Hrun. lia.
    + now replace (S j + 1 + k)%nat with (j + 1 + S k)%nat by lia.
Qed.

Lemma run_from_present rt now (m : JS.JsMap Z) (a : nat) :
  NoDup (List.map (Props.walkKey rt now) (seq a (S (JS.map_size m)))) ->
  Props.present rt now m a = true ->
  exists k,
    (S k <= JS.map_size m)%nat
    /\ (forall i, (i < k)%nat -> Props.present rt now m (a + 1 + i) = true)
    /\ Props.present rt now m (a + 1 + k) = false.
Proof.
  intros Hnd Ha.
  destruct (some_day_absent rt now m a Hnd) as (i & Hi & Hp).
  destruct i as [|i].
  { replace (a + 0)%nat with a in Hp by lia. congruence. }
  destruct (least_false (fun x => Props.present rt now m (a + 1 + x)) (S i))
    as [Hall|(k & Hk & Hpk & Hlt)].
  - specialize (Hall i ltac:(lia)). cbv beta in Hall.
    replace (a + 1 + i)%nat with (a + S i)%nat in Hall by lia. congruence.
  - exists k. repeat split; [lia|exact Hlt|exact Hpk].
Qed.

Lemma walk_zero rt now :
  Stats.formatDateKey (Date_of_ms rt now) = Props.walkKey rt now 0.
Proof.
  unfold Props.walkKey. do 2 f_equal. unfold CurrentStreak.day_ms. lia.
Qed.

Lemma walk_one rt now :
  Stats.formatDateKey (Date_of_ms rt (now - CurrentStreak.day_ms))
  = Props.walkKey rt now 1.
Proof. reflexivity. Qed.

(** X23.  Let the days reached from now in steps of 24 hours have distinct
    date keys, for one step more than the activity map has entries.  Then
    the loop of the current streak stops within as many iterations as the
    map has entries, and the current streak is the length of the run of
    consecutive days of the map that ends today or, when today is absent,
    yesterday; it is 0 when both are absent, and never exceeds the size of
    the map. *)
Theorem currentStreak_counts (rt : Runtime) (now : Z) (m : JS.JsMap Z) :
  let n := JS.map_size m in
  NoDup (List.map (Props.walkKey rt now) (seq 0 (n + 2))) ->
  exists s : nat,
    (forall fuel, (n < fuel)%nat ->
        CurrentStreak.currentStreak fuel rt now m = Some (Z.of_nat s))
    /\ (s <= n)%nat
    /\ let start := if Props.present rt now m 0 then 0%nat else 1%nat in
       (forall i, (start <= i < start + s)%nat ->
                  Props.present rt now m i = true)
       /\ (Props.present rt now m start = false -> s = 0%nat)
       /\ (Props.present rt now m start = true ->
           Props.present rt now m (start + s) = false).
Proof.
  cbv zeta. intros Hnd.
  assert (Hnd0 : NoDup (List.map (Props.walkKey rt now)
                                 (seq 0 (S (JS.map_size m))))).
  { replace (JS.map_size m + 2)%nat with (S (JS.map_size m) + 1)%nat in Hnd
      by lia.
    rewrite seq_app, map_app in Hnd. now apply NoDup_app_remove_r in Hnd. }
  assert (Hnd1 : NoDup (List.map (Props.walkKey rt now)
                                 (seq 1 (S (JS.map_size m))))).
  { replace (JS.map_size m + 2)%nat with (S (S (JS.map_size m))) in Hnd
      by lia.
    cbn [seq List.map] in Hnd. now inversion Hnd. }
  unfold CurrentStreak.currentStreak, CurrentStreak.countStreakBackwards.
  rewrite walk_zero, walk_one.
  fold (Props.present rt now m 0). fold (Props.present rt now m 1).
  destruct (Props.present rt now m 0) eqn:E0.
  - destruct (run_from_present rt now m 0 Hnd0 E0) as (k & Hk & Hrun & Hend).
    exists (S k). split; [|split; [lia|split; [|split]]].
    + intros fuel Hfuel.
      replace now with (now - Z.of_nat 0 * CurrentStreak.day_ms) at 1
        by (unfold CurrentStreak.day_ms; lia).
      rewrite (countLoop_run rt now m k fuel 0 1); [f_equal; lia|lia| |].
      * exact Hrun.
      * exact Hend.
    + intros i Hi. destruct i as [|i]; [exact E0|].
      replace (S i) with (0 + 1 + i)%nat by lia. apply Hrun. lia.
    + congruence.
    + intros _. now replace (0 + S k)%nat with (0 + 1 + k)%nat by lia.
  - destruct (Props.present rt now m 1) eqn:E1.
    + destruct (run_from_present rt now m 1 Hnd1 E1)
        as (k & Hk & Hrun & Hend).
      exists (S k). split; [|split; [lia|split; [|split]]].
      * intros fuel Hfuel.
        replace (now - CurrentStreak.day_ms)
          with (now - Z.of_nat 1 * CurrentStreak.day_ms)
          by (unfold CurrentStreak.day_ms; lia).
        rewrite (countLoop_run rt now m k fuel 1 1); [f_equal; lia|lia| |].
        -- exact Hrun.
        -- exact Hend.
      * intros i Hi. destruct (Nat.eq_dec i 1) as [->|Hne]; [exact E1|].
        replace i with (1 + 1 + (i - 2))%nat by lia. apply Hrun. lia.
      * congruence.
      * intros _. now replace (1 + S k)%nat with (1 + 1 + k)%nat by lia.
    + exists 0%nat. split; [reflexivity|]. split; [lia|].
      split; [intros i Hi; lia|]. split; [reflexivity|congruence].
Qed.

Lemma currentStreak_counts_witness :
  exists s : nat,
    (forall fuel, (JS.map_size MoreExamples.lastDays < fuel)%nat ->
        CurrentStreak.currentStreak fuel utcRuntime 1767182400000
                                    MoreExamples.lastDays
        = Some (Z.of_nat s))
    /\ (s <= JS.map_size MoreExamples.lastDays)%nat
    /\ let start :=
         if Props.present utcRuntime 1767182400000 MoreExamples.lastDays 0
         then 0%nat else 1%nat in
       (forall i, (start <= i < start + s)%nat ->
                  Props.present utcRuntime 1767182400000
                                MoreExamples.lastDays i = true)
       /\ (Props.present utcRuntime 1767182400000 MoreExamples.lastDays start
           = false -> s = 0%nat)
       /\ (Props.present utcRuntime 1767182400000 MoreExamples.lastDays start
           = true ->
           Props.present utcRuntime 1767182400000 MoreExamples.lastDays
                         (start + s) = false).
Proof.
  apply (currentStreak_counts utcRuntime 1767182400000 MoreExamples.lastDays).
  vm_compute. repeat constructor; cbn; intuition discriminate.
Defined.

(** At noon of 2025-12-31 the streak of the map above is 3 days; the
    loop needs its three iterations.  A day later it is still 3, counted
    from yesterday, and two days later it is 0. *)
Lemma currentStreak_examples :
  CurrentStreak.currentStreak 5 utcRuntime 1767182400000
                              MoreExamples.lastDays = Some 3
  /\ CurrentStreak.currentStreak 2 utcRuntime 1767182400000
                                 MoreExamples.lastDays = None
  /\ CurrentStreak.currentStreak 5 utcRuntime (1767182400000 + 86400000)
                                 MoreExamples.lastDays = Some 3
  /\ CurrentStreak.currentStreak 5 utcRuntime (1767182400000 + 2 * 86400000)
                                 MoreExamples.lastDays = Some 0.
Proof. repeat split. Qed.
(* ================================================================== *)
(** * The two revisions of stats.ts                                    *)
(* ================================================================== *)

Lemma projectsOf_NoDup (history : list HistoryEntry) :
  NoDup (History.projectsOf history).
Proof. rewrite projectsOf_Set_of. apply Set_of_spec. Qed.

(** X24.  Without remote data, and on a project list without duplicates
    (which is what [collectProjects] returns), the revision of stats.ts
    with the merge step and the local-only revision compute summaries
    that differ in two places.  [totalTokens]: the merge revision adds
    the cache-read and the cache-write tokens.  The first session: the
    merge revision also looks at the oldest timestamp of the local
    session files, and takes it when the cache has no first session date
    or a later one (in string order); [firstSessionDate] and
    [daysSinceFirstSession] follow.  Without such a timestamp the two
    first sessions are the same.  All the other fields, [currentStreak]
    included, are equal. *)
Theorem revisions_agree_without_remotes (fuel : nat) (rt : Runtime)
    (now yr : Z) (local : Stats.CollectedData)
    (oldestLocalTimestamp : option string) :
  NoDup (Stats.projects local) ->
  let old := Summary.calculateStatsLocal fuel rt now yr local in
  let new :=
    Summary.calculateStats fuel rt now yr local oldestLocalTimestamp [] in
  let first :=
    FirstSession.firstSessionLocal (Stats.statsCache local)
                                   (Stats.history local) in
  let first' :=
    match Props.nonEmpty oldestLocalTimestamp, first with
    | None, _ => first
    | Some ts, FirstSession.OfTimestamp d =>
        FirstSession.OfTimestamp (if String.ltb ts d then ts else d)
    | Some ts, _ => FirstSession.OfTimestamp ts
    end in
  Summary.stats new
  = Props.withTotalTokens (Summary.stats old)
      (WrappedStats.totalTokens (Summary.stats old)
       + WrappedStats.totalCacheReadTokens (Summary.stats old)
       + WrappedStats.totalCacheWriteTokens (Summary.stats old))
  /\ Summary.currentStreak new = Summary.currentStreak old
  /\ Summary.firstSessionDate old = FirstSession.dateOf rt now first
  /\ Summary.daysSinceFirstSession old
     = FirstSession.daysSinceFirstSession rt now first
  /\ Summary.firstSessionDate new = FirstSession.dateOf rt now first'
  /\ Summary.daysSinceFirstSession new
     = FirstSession.daysSinceFirstSession rt now first'
  /\ (Props.nonEmpty oldestLocalTimestamp = None ->
      Summary.firstSessionDate new = Summary.firstSessionDate old
      /\ Summary.daysSinceFirstSession new
         = Summary.daysSinceFirstSession old).
Proof.
  intros Hnd. cbv zeta.
  assert (Hm : Stats.mergeData rt local [] = local).
  { unfold Stats.mergeData. cbn [fold_left].
    rewrite (Set_of_nodup _ Hnd). now destruct local. }
  assert (Hs : Stats.calculateStats rt yr local []
               = Props.withTotalTokens
                   (StatsLocal.calculateStats rt yr local)
                   (WrappedStats.totalTokens
                      (StatsLocal.calculateStats rt yr local)
                    + WrappedStats.totalCacheReadTokens
                        (StatsLocal.calculateStats rt yr local)
                    + WrappedStats.totalCacheWriteTokens
                        (StatsLocal.calculateStats rt yr local))).
  { unfold Stats.calculateStats, StatsLocal.calculateStats.
    rewrite Hm. unfold Stats.statsOf.
    destruct (Stats.buildDailyActivity rt yr (Stats.statsCache local)
                                       (Stats.history local)).
    reflexivity. }
  assert (Hf : FirstSession.firstSession (Stats.statsCache local)
                 oldestLocalTimestamp [] (Stats.history local)
               = match Props.nonEmpty oldestLocalTimestamp,
                       FirstSession.firstSessionLocal
                         (Stats.statsCache local) (Stats.history local) with
                 | None, _ =>
                     FirstSession.firstSessionLocal
                       (Stats.statsCache local) (Stats.history local)
                 | Some ts, FirstSession.OfTimestamp d =>
                     FirstSession.OfTimestamp
                       (if String.ltb ts d then ts else d)
                 | Some ts, _ => FirstSession.OfTimestamp ts
                 end).
  { unfold FirstSession.firstSession, FirstSession.firstSessionLocal,
      FirstSession.earliestTimestamp, Props.nonEmpty, older.
    cbn [fold_left].
    destruct (Stats.statsCache local) as [c|];
      destruct oldestLocalTimestamp as [ts|]; cbn [JS.truthy];
      try destruct (String.eqb (firstSessionDate c) EmptyString) eqn:Ed;
      try destruct (String.eqb ts EmptyString) eqn:Et;
      try destruct (String.ltb ts (firstSessionDate c)) eqn:El;
      destruct (Stats.history local) as [|h hist];
      cbn [negb orb JS.truthy]; rewrite ?Ed, ?Et, ?El;
      cbn [negb orb JS.truthy]; rewrite ?Ed, ?Et, ?El;
      cbn [negb orb JS.truthy]; rewrite ?Ed, ?Et, ?El; reflexivity. }
  unfold Summary.calculateStats, Summary.calculateStatsLocal. cbv zeta.
  cbn [Summary.stats Summary.currentStreak Summary.firstSessionDate
       Summary.daysSinceFirstSession].
  rewrite Hm, Hf, Hs.
  split; [reflexivity|]. split; [reflexivity|].
  split; [reflexivity|]. split; [reflexivity|].
  split; [reflexivity|]. split; [reflexivity|].
  intros ->. split; reflexivity.
Qed.

Lemma revisions_agree_without_remotes_witness :
  let fuel := 10%nat in
  let now := MoreExamples.noon in
  let local := Examples.cachedTokens in
  let oldest := Some "2025-02-01T09:00:00.000Z"%string in
  let old := Summary.calculateStatsLocal fuel utcRuntime now 2025 local in
  let new := Summary.calculateStats fuel utcRuntime now 2025 local oldest [] in
  let first :=
    FirstSession.firstSessionLocal (Stats.statsCache local)
                                   (Stats.history local) in
  let first' :=
    match Props.nonEmpty oldest, first with
    | None, _ => first
    | Some ts, FirstSession.OfTimestamp d =>
        FirstSession.OfTimestamp (if String.ltb ts d then ts else d)
    | Some ts, _ => FirstSession.OfTimestamp ts
    end in
  Summary.stats new
  = Props.withTotalTokens (Summary.stats old)
      (WrappedStats.totalTokens (Summary.stats old)
       + WrappedStats.totalCacheReadTokens (Summary.stats old)
       + WrappedStats.totalCacheWriteTokens (Summary.stats old))
  /\ Summary.currentStreak new = Summary.currentStreak old
  /\ Summary.firstSessionDate old
     = FirstSession.dateOf utcRuntime now first
  /\ Summary.daysSinceFirstSession old
     = FirstSession.daysSinceFirstSession utcRuntime now first
  /\ Summary.firstSessionDate new
     = FirstSession.dateOf utcRuntime now first'
  /\ Summary.daysSinceFirstSession new
     = FirstSession.daysSinceFirstSession utcRuntime now first'
  /\ (Props.nonEmpty oldest = None ->
      Summary.firstSessionDate new = Summary.firstSessionDate old
      /\ Summary.daysSinceFirstSession new
         = Summary.daysSinceFirstSession old).
Proof.
  apply (revisions_agree_without_remotes 10 utcRuntime MoreExamples.noon
           2025 Examples.cachedTokens
           (Some "2025-02-01T09:00:00.000Z"%string)).
  constructor.
Defined.

(** A local cache dated 2025-03-01 and session files that go back to
    2025-02-01: the local-only revision counts 305 days since the first
    session, the merge revision 333; the token totals are 165 and
    1165. *)
Lemma revisions_differ_example :
  let old :=
    Summary.calculateStatsLocal 10 utcRuntime MoreExamples.noon 2025
      MoreExamples.localUsage in
  let new :=
    Summary.calculateStats 10 utcRuntime MoreExamples.noon 2025
      MoreExamples.localUsage (Some "2025-02-01T09:00:00.000Z"%string) [] in
  Summary.daysSinceFirstSession old = Some 305
  /\ Summary.daysSinceFirstSession new = Some 333
  /\ Summary.firstSessionDate old <> Summary.firstSessionDate new
  /\ WrappedStats.totalTokens (Summary.stats old) = 165
  /\ WrappedStats.totalTokens (Summary.stats new) = 1165.
Proof. repeat split. discriminate. Qed.

(** On a project list that repeats a name the merge revision counts the
    name once, the local-only revision twice. *)
Lemma revisions_differ_on_repeated_projects :
  WrappedStats.totalProjects
    (Stats.calculateStats utcRuntime 2025 MoreExamples.localUsage []) = 2
  /\ WrappedStats.totalProjects
       (StatsLocal.calculateStats utcRuntime 2025 MoreExamples.localUsage)
     = 3.
Proof. split; reflexivity. Qed.
(* ================================================================== *)
(** * The existence check and the data path                            *)
(* ================================================================== *)

Lemma join_nonempty (a b : string) : join a b <> EmptyString.
Proof.
  unfold join. destruct a as [|c a]; cbn; discriminate.
Qed.

(** X25.  The two-root collector finds data exactly when one of its two
    roots can be listed, so whenever the one-root collector finds data.
    The data path it reports is then the first listable root, ~/.claude
    before ~/.config/claude; when no root can be listed it is ~/.claude,
    the path of the one-root collector. *)
Theorem data_path_is_first_listable_root (fs : FileSystem) :
  let old := join (homedir fs) ".claude" in
  let new := join (join (homedir fs) ".config") "claude" in
  let path := CollectorMultiRest.getClaudeDataPath fs in
  (CollectorMulti.checkClaudeCodeDataExists fs = true
   <-> readdir fs old <> None \/ readdir fs new <> None)
  /\ (Collector.checkClaudeCodeDataExists fs = true ->
      CollectorMulti.checkClaudeCodeDataExists fs = true)
  /\ (readdir fs old <> None -> path = old)
  /\ (readdir fs old = None -> readdir fs new <> None -> path = new)
  /\ (readdir fs old = None -> readdir fs new = None ->
      path = CollectorRest.getClaudeDataPath fs)
  /\ CollectorMultiRest.getAllClaudeDataPaths fs
     = filter (fun root => match readdir fs root with
                           | Some _ => true
                           | None => false
                           end)
              [old; new].
Proof.
  cbv zeta.
  unfold CollectorMulti.checkClaudeCodeDataExists,
    Collector.checkClaudeCodeDataExists, CollectorMultiRest.getClaudeDataPath,
    CollectorRest.getClaudeDataPath, CollectorMultiRest.getAllClaudeDataPaths,
    CollectorMulti.getValidClaudePaths, CollectorMulti.CLAUDE_DATA_PATHS,
    Collector.CLAUDE_DATA_PATH.
  cbn [filter hd].
  assert (Hold : forall s, JS.str_or (join (homedir fs) ".claude") s
                           = join (homedir fs) ".claude").
  { intros s. unfold JS.str_or.
    destruct (String.eqb_spec (join (homedir fs) ".claude") EmptyString)
      as [E|_]; [|reflexivity].
    now apply join_nonempty in E. }
  assert (Hnew : forall s,
             JS.str_or (join (join (homedir fs) ".config") "claude") s
             = join (join (homedir fs) ".config") "claude").
  { intros s. unfold JS.str_or.
    destruct (String.eqb_spec
                (join (join (homedir fs) ".config") "claude") EmptyString)
      as [E|_]; [|reflexivity].
    now apply join_nonempty in E. }
  destruct (readdir fs (join (homedir fs) ".claude")) as [l1|];
    destruct (readdir fs (join (join (homedir fs) ".config") "claude"))
      as [l2|];
    cbn [List.length Nat.ltb Nat.leb]; rewrite ?Hold, ?Hnew;
    repeat split; try reflexivity; try congruence; try discriminate;
    try (intros _; left; discriminate);
    try (intros _; right; discriminate);
    intuition congruence.
Qed.
